(** * Instructor analytics: aggregation and classification

    A shallow embedding of the three analytics route handlers

    - [src/app/api/instructor/analytics/ai-insights-detailed/route.ts]
      (module [AiInsights]),
    - [src/app/api/instructor/analytics/study-techniques-detailed/route.ts]
      (module [StudyTechniques]),
    - [src/app/api/instructor/analytics/export-report/route.ts]
      (modules [ExportReport] and [ExportHandler]),

    and of the client functions of [src/lib/auth-utils.ts] (module
    [AuthUtils]), together with the small part of the JavaScript
    runtime they rely on (modules [Js], [JsObject] and [JsPrototype]:
    numbers, [Math.round], [Array.prototype.sort], [Set], objects used
    as insertion-ordered maps, and the members that every object
    inherits) and two calendars, one for a process in UTC (module
    [Utc]) and one for a process in America/New_York around the change
    of the clocks of March 2025 (module [NewYork]).  The program comes
    first, then the vocabulary of the statements and the data of the
    examples, then the facts: C1 on the performance alerts, C2 and C10
    on the student interventions, C3, C4 and C9 on the teaching
    recommendations, C5 on the empty result, C6 on the course report,
    C7 on the technique comparison and C8 on the time-based analysis,
    followed by the facts X1 to X27 on the handlers as a whole and on
    the remaining lists.

    Modelling conventions.

    - A JavaScript number is an IEEE-754 binary64 value ([Js.num]): a
      finite number is the rational it denotes, and every arithmetic
      operation rounds its exact result to the nearest binary64 value,
      ties to even, with overflow to an infinity.  The sign of zero is
      not represented; no operation of the handlers observes it.  A
      number read from the store is a rational; the statements hold
      for every rational, in particular for every double.  Counts are
      [nat], integers read from the store are [Z].
    - A field of a stored JSON object that the code compares or tests
      is [undefined], [null] or a value ([Js.field]).
    - Identifiers (user, module and course ids) are strings.  They are
      database identifiers; none of them is the name of a member of
      [Object.prototype].  Pattern types, feedback types and session
      types are free text: when one of them names such a member the
      handler throws, and the exception is answered with status 500.
    - The data store is a record of tables; a table is [None] when its
      query returns no data.  The filters written in the queries ([.in],
      [.eq]) are applied by the model. *)

From Stdlib Require Import List String Ascii Bool Arith ZArith NArith.
From Stdlib Require Import QArith Qround Qabs Qpower.
From Stdlib Require Import Lia Lqa Permutation Sorted DecimalString.
From Stdlib Require DecimalNat DecimalFacts.
Import ListNotations.

Set Implicit Arguments.

(* ================================================================== *)
(** * The JavaScript runtime fragment *)
(* ================================================================== *)

Module Js.

(** ** Numbers

    A number is an IEEE-754 binary64 value.  A finite one is the
    rational it denotes; zero has no sign.  Every arithmetic operation
    computes the exact result and rounds it to the nearest binary64
    value, a tie going to the value with an even significand, and to an
    infinity when the rounded magnitude reaches [2^1024]. *)

(** [Inf true] is [+Infinity], [Inf false] is [-Infinity]. *)
Inductive num : Type :=
| Fin (q : Q)
| Inf (positive : bool)
| NaN.

(** The value of [Math.round]: an integer, or a non-finite number handed
    through unchanged. *)
Inductive rounded : Type :=
| RInt (z : Z)
| RInf (positive : bool)
| RNaN.

Definition Qltb (x y : Q) : bool := negb (Qle_bool y x).

Definition of_nat (n : nat) : Q := inject_Z (Z.of_nat n).

Definition pow2 (k : Z) : Q := 2 ^ k.

(** [floor (log2 x)] for a positive [x]. *)
Definition ilog2 (x : Q) : Z :=
  let k := (Z.log2 (Qnum x) - Z.log2 (Zpos (Qden x)))%Z in
  if Qle_bool (pow2 k) x then k else (k - 1)%Z.

(** The nearest integer, a tie going to the even one. *)
Definition round_half_even (x : Q) : Z :=
  let f := Qfloor x in
  match Qcompare (x - inject_Z f) (1 # 2) with
  | Lt => f
  | Gt => (f + 1)%Z
  | Eq => if Z.even f then f else (f + 1)%Z
  end.

(** The exponent of the last place of the binary64 values around [x]:
    53 significant bits, and [-1074] in the subnormal range. *)
Definition exponent (x : Q) : Z := Z.max (ilog2 (Qabs x) - 52) (-1074).

(** The multiple of [2^exponent] nearest to [x], in lowest terms.  It
    is also the value that a decimal literal of the source, or a number
    of a JSON text, denotes. *)
Definition nearest (x : Q) : Q :=
  if Qeq_bool x 0 then 0
  else Qred (inject_Z (round_half_even (x / pow2 (exponent x)))
             * pow2 (exponent x)).

(** The result of an operation whose exact value is [x]. *)
Definition double (x : Q) : num :=
  let y := nearest x in
  if Qle_bool (pow2 1024) (Qabs y) then Inf (Qltb 0 y) else Fin y.

(** [a.length] and other counts, as numbers. *)
Definition count (n : nat) : num := Fin (of_nat n).

(** [-a] *)
Definition neg (a : num) : num :=
  match a with
  | Fin x => Fin (- x)
  | Inf s => Inf (negb s)
  | NaN => NaN
  end.

(** [a + b] *)
Definition add (a b : num) : num :=
  match a, b with
  | Fin x, Fin y => double (x + y)
  | Fin _, Inf s => Inf s
  | Inf s, Fin _ => Inf s
  | Inf s, Inf s' => if Bool.eqb s s' then Inf s else NaN
  | _, _ => NaN
  end.

(** [a - b] *)
Definition sub (a b : num) : num := add a (neg b).

(** [a * b] *)
Definition mul (a b : num) : num :=
  match a, b with
  | Fin x, Fin y => double (x * y)
  | Fin x, Inf s | Inf s, Fin x =>
      if Qeq_bool x 0 then NaN else Inf (Bool.eqb s (Qltb 0 x))
  | Inf s, Inf s' => Inf (Bool.eqb s s')
  | _, _ => NaN
  end.

(** [a / b]; a zero divisor is [+0]. *)
Definition div (a b : num) : num :=
  match a, b with
  | Fin x, Fin y =>
      if Qeq_bool y 0 then
        if Qeq_bool x 0 then NaN else Inf (Qltb 0 x)
      else double (x / y)
  | Fin _, Inf _ => Fin 0
  | Inf s, Fin y => if Qeq_bool y 0 then Inf s else Inf (Bool.eqb s (Qltb 0 y))
  | _, _ => NaN
  end.

(** [Math.round]: nearest integer, halves towards [+Infinity]. *)
Definition round_Q (x : Q) : Z := Qfloor (x + (1 # 2)).

Definition round (a : num) : rounded :=
  match a with
  | Fin x => RInt (round_Q x)
  | Inf s => RInf s
  | NaN => RNaN
  end.

(** A value of [Math.round] used as a number again. *)
Definition of_rounded (r : rounded) : num :=
  match r with
  | RInt z => Fin (inject_Z z)
  | RInf s => Inf s
  | RNaN => NaN
  end.

(** [a >= y], [a < y] and [a > y]; all are [false] on [NaN]. *)
Definition geb (a : num) (y : Q) : bool :=
  match a with
  | Fin x => Qle_bool y x
  | Inf s => s
  | NaN => false
  end.

Definition ltb (a : num) (y : Q) : bool :=
  match a with
  | Fin x => Qltb x y
  | Inf s => negb s
  | NaN => false
  end.

Definition gtb (a : num) (y : Q) : bool :=
  match a with
  | Fin x => Qltb y x
  | Inf s => s
  | NaN => false
  end.

(** [l.reduce((a, b) => a + b, 0)] *)
Definition sum (l : list Q) : num :=
  fold_left (fun a b => add a (Fin b)) l (Fin 0).

(** ** Printing of integers in template strings *)

Definition nat_to_string (n : nat) : string :=
  NilZero.string_of_uint (Nat.to_uint n).

Definition Z_to_string (z : Z) : string :=
  NilZero.string_of_int (Z.to_int z).

Definition rounded_to_string (r : rounded) : string :=
  match r with
  | RInt z => Z_to_string z
  | RInf true => "Infinity"
  | RInf false => "-Infinity"
  | RNaN => "NaN"
  end.

(** ** Truthiness of optional values, [a || b] *)

(** [s || d] on an optional string: [undefined], [null] and the empty
    string are falsy. *)
Definition truthy_string (s : option string) : option string :=
  match s with
  | Some EmptyString => None
  | other => other
  end.

Definition or_string (a b : option string) : option string :=
  match truthy_string a with
  | Some s => Some s
  | None => b
  end.

(** A field of an object produced upstream: missing ([undefined]),
    [null], or a value. *)
Inductive field (A : Type) : Type :=
| Undefined
| Null
| Value (a : A).

Arguments Undefined {A}.
Arguments Null {A}.
Arguments Value {A} a.

(** [z || d] on an integer field: [undefined], [null] and [0] are
    falsy. *)
Definition or_Z (a : field Z) (d : Z) : Z :=
  match a with
  | Value z => if Z.eqb z 0 then d else z
  | Undefined | Null => d
  end.

(** [q || d] on an optional number: [undefined] and [0] are falsy. *)
Definition or_Q (a : option Q) (d : Q) : Q :=
  match a with
  | Some q => if Qeq_bool q 0 then d else q
  | None => d
  end.

(** ** [Array.prototype.sort] *)

(** The sort is stable.  [cmp a b > 0] puts [b] before [a]; any other
    result (negative, zero, and [NaN], which the runtime reads as [+0])
    keeps the order of the two.  For a consistent comparator every stable
    sort returns the list computed here by insertion. *)
Fixpoint insert (A : Type) (cmp : A -> A -> Z) (x : A) (l : list A) : list A :=
  match l with
  | [] => [x]
  | y :: l' => if (0 <? cmp x y)%Z then y :: insert cmp x l' else x :: l
  end.

Definition sort (A : Type) (cmp : A -> A -> Z) (l : list A) : list A :=
  fold_right (insert cmp) [] l.

(** [l.slice(0, n)] *)
Definition slice0 (A : Type) (n : nat) (l : list A) : list A := firstn n l.

Arguments slice0 : simpl never.

(** ** [Set]: membership by value, iteration in insertion order *)

Fixpoint set_mem (x : string) (s : list string) : bool :=
  match s with
  | [] => false
  | y :: s' => String.eqb x y || set_mem x s'
  end.

Definition set_add (s : list string) (x : string) : list string :=
  if set_mem x s then s else s ++ [x].

(** [new Set(l)] *)
Definition set_of_list (l : list string) : list string :=
  fold_left set_add l [].

(** [s.size] *)
Definition size (s : list string) : nat := List.length s.

(** ** Dates

    An instant is its number of milliseconds since the epoch.  The
    calendar operations of [Date] depend on the time zone of the process
    and are taken from the runtime. *)
Record Calendar : Type := {
  (** [d.setDate(d.getDate() + n)] *)
  add_days : Z -> Z -> Z;
  (** [d.setMonth(d.getMonth() + n)] *)
  add_months : Z -> Z -> Z;
  (** [d.toISOString().split('T')[0]] *)
  iso_date : Z -> string;
  (** [new Date(s).getTime()], [None] for an invalid date ([NaN]) *)
  get_time : string -> option Z
}.

(** ** Values that are only passed on *)
#[local] Unset Elimination Schemes.
Inductive json : Type :=
| JNull
| JBool (b : bool)
| JNumber (n : rounded)
| JString (s : string)
| JArray (items : list json)
| JObject (properties : list (string * json)).
#[local] Set Elimination Schemes.

(** Truthiness, as tested by [c ? a : b]; [JNull] also stands for
    [undefined]. *)
Definition truthy (v : json) : bool :=
  match v with
  | JNull => false
  | JBool b => b
  | JNumber (RInt z) => negb (Z.eqb z 0)
  | JNumber (RInf _) => true
  | JNumber RNaN => false
  | JString s => negb (String.eqb s "")
  | JArray _ => true
  | JObject _ => true
  end.

End Js.

(** ** Objects used as maps *)

(** An object is the list of its own properties in creation order.
    Assigning to an existing key keeps the position of the property. *)
Module JsObject.

Definition t (A : Type) : Type := list (string * A).

Definition empty (A : Type) : t A := [].

Fixpoint get (A : Type) (o : t A) (k : string) : option A :=
  match o with
  | [] => None
  | (k', v) :: o' => if String.eqb k k' then Some v else get o' k
  end.

Fixpoint set (A : Type) (o : t A) (k : string) (v : A) : t A :=
  match o with
  | [] => [(k, v)]
  | (k', v') :: o' =>
      if String.eqb k k' then (k, v) :: o' else (k', v') :: set o' k v
  end.

(** *** Enumeration order of own keys

    [Object.keys], [Object.values] and [Object.entries] list the keys
    that are array indices first, in ascending numeric order, and then
    the remaining keys in creation order. *)

Definition is_digit (c : ascii) : bool :=
  (48 <=? nat_of_ascii c)%nat && (nat_of_ascii c <=? 57)%nat.

Fixpoint digits_value (s : string) (acc : N) : option N :=
  match s with
  | EmptyString => Some acc
  | String c s' =>
      if is_digit c
      then digits_value s' (acc * 10 + (N_of_ascii c - 48))%N
      else None
  end.

(** A canonical numeric string below [2^32 - 1]. *)
Definition array_index (k : string) : option N :=
  match k with
  | EmptyString => None
  | String c rest =>
      if Ascii.eqb c "0"
      then match rest with EmptyString => Some 0%N | _ => None end
      else match digits_value k 0 with
           | Some n => if (n <? 4294967295)%N then Some n else None
           | None => None
           end
  end.

Definition is_index (k : string) : bool :=
  match array_index k with Some _ => true | None => false end.

Definition index_of (k : string) : Z :=
  match array_index k with Some n => Z.of_N n | None => 0 end.

Definition entries (A : Type) (o : t A) : list (string * A) :=
  Js.sort (fun a b => (index_of (fst a) - index_of (fst b))%Z)
          (filter (fun e => is_index (fst e)) o)
  ++ filter (fun e => negb (is_index (fst e))) o.

Definition values (A : Type) (o : t A) : list A := map snd (entries o).

(** *** The accumulation idiom

    [if (!o[k]) o[k] = init; o[k] = upd(o[k])], run for every element of
    a list.  The initial value may depend on the element that creates
    the property. *)
Definition upsert (A B : Type) (key : A -> string) (init : A -> B)
           (upd : B -> A -> B) (o : t B) (a : A) : t B :=
  let current := match get o (key a) with
                 | Some b => b
                 | None => init a
                 end in
  set o (key a) (upd current a).

End JsObject.

(** ** Route responses *)

(** [NextResponse.json({ error }, { status })] and
    [NextResponse.json({ success: true, data })]. *)
Inductive Response (D : Type) : Type :=
| Failure (status : nat) (error : string)
| Success (data : D).

Arguments Failure {D} status error.
Arguments Success {D} data.

(** The request, as far as the handlers read it. *)
Record Request : Type := {
  (** header [X-User-ID] *)
  x_user_id : option string;
  (** query parameter [timeRange] *)
  timeRange_param : option string
}.

(** Row of [users]. *)
Record User : Type := {
  u_id : string;
  u_name : option string;
  u_email : string;
  u_role : string
}.

(** Row of [courses]. *)
Record Course : Type := {
  c_id : string;
  c_title : string;
  c_description : string;
  c_status : string;
  c_created_at : string;
  c_instructor_id : string
}.

(** Outcome of the remote procedure
    [get_instructor_enrolled_students]: the [student_id] column of the
    rows, and whether an error was reported. *)
Record RpcResult : Type := {
  rpc_data : option (list string);
  rpc_error : bool
}.

(** The part of the store read by the prelude of every handler: the
    tables [users] and [courses] ([None] when the query returns no
    data) and the remote procedure. *)
Record Accounts : Type := {
  users_table : option (list User);
  courses_table : option (list Course);
  get_instructor_enrolled_students : string -> RpcResult
}.

(** [.eq('id', userId).single()] on [users]: an error unless exactly one
    row matches. *)
Definition single_user (users : option (list User)) (userId : string)
  : option User :=
  match users with
  | Some rows =>
      match filter (fun u => String.eqb (u_id u) userId) rows with
      | [u] => Some u
      | _ => None
      end
  | None => None
  end.

(** [.in(column, ids)] *)
Definition in_ids (ids : list string) (x : string) : bool :=
  existsb (String.eqb x) ids.

(** [.gte('created_at', startDate.toISOString())] *)
Definition since (cal : Js.Calendar) (startDate : Z) (created_at : string) : bool :=
  match Js.get_time cal created_at with
  | Some t => (startDate <=? t)%Z
  | None => false
  end.

(** The date filter shared by the handlers (the [switch] on
    [timeRange]). *)
Definition startDate (cal : Js.Calendar) (now : Z) (timeRange : string) : Z :=
  if String.eqb timeRange "week" then Js.add_days cal now (-7)
  else if String.eqb timeRange "month" then Js.add_months cal now (-1)
  else if String.eqb timeRange "quarter" then Js.add_months cal now (-3)
  else Js.add_months cal now (-1).

(** [searchParams.get('timeRange') || 'month'] *)
Definition timeRange_of (req : Request) : string :=
  match Js.truthy_string (timeRange_param req) with
  | Some r => r
  | None => "month"
  end.

(* ================================================================== *)
(** * Keys inherited from [Object.prototype] *)
(* ================================================================== *)

(** An object literal answers [o[k]] with the inherited member when [k]
    names one; all of them are truthy.  The loops that test [!o[k]]
    before creating a property therefore skip the creation for such a
    key and fail on the next line with a [TypeError]. *)
Module JsPrototype.

Definition members : list string :=
  [ "constructor"; "__defineGetter__"; "__defineSetter__"; "hasOwnProperty";
    "__lookupGetter__"; "__lookupSetter__"; "isPrototypeOf";
    "propertyIsEnumerable"; "toString"; "valueOf"; "__proto__";
    "toLocaleString" ]%string.

Definition inherited (k : string) : bool := existsb (String.eqb k) members.

End JsPrototype.

(* ================================================================== *)
(** * [ai-insights-detailed/route.ts] *)
(* ================================================================== *)

Module AiInsights.

(** ** Inputs *)

(** An element of the [recommendations] column, produced upstream.
    [priority] tells a missing field from [null]; [confidence_score] is
    [None] when the field is missing or [null]. *)
Record Recommendation : Type := {
  rec_type : string;
  rec_title : string;
  rec_description : string;
  actionable_advice : option string;
  actionableAdvice : option string;
  priority : Js.field Z;
  confidence_score : option Q
}.

(** The column [learning_patterns]. *)
Record LearningPatterns : Type := {
  pattern_type : option string;
  learning_velocity : option Q
}.

(** Row of [study_session_analytics].  [improvement_percentage] is
    [performance_metrics?.improvement_percentage]; [recommendations]
    and [learning_patterns] are [None] when the column is null. *)
Record AnalyticsRow : Type := {
  user_id : string;
  created_at : string;
  analyzed_at : string;
  improvement_percentage : option Q;
  recommendations : option (list Recommendation);
  learning_patterns : option LearningPatterns
}.

(** Row of [user_module_progress] joined with its module.  [best_score]
    is the parsed numeric column, [None] when null. *)
Record ModuleProgress : Type := {
  mp_user_id : string;
  module_id : string;
  best_score : option Q;
  needs_remedial : bool;
  module_title : string;
  module_course_id : string
}.

(** Row of [feynman_feedback] joined with the [created_at] of its
    session; a field is [None] when the column is null. *)
Record Feedback : Type := {
  feedback_type : string;
  suggested_improvement : option string;
  severity : option string;
  fb_priority : option Z;
  feedback_session_created_at : string
}.

Record Store : Type := {
  accounts : Accounts;
  study_session_analytics : option (list AnalyticsRow);
  user_module_progress : option (list ModuleProgress);
  feynman_feedback : option (list Feedback)
}.

(** ** Teaching recommendations (lines 184-238) *)

(** An entry of [recommendationCounts]. *)
Record RecGroup : Type := {
  g_type : string;
  g_title : string;
  g_description : string;
  g_actionableAdvice : option string;
  g_priority : Z;
  affectedStudents : list string;
  frequency : nat;
  totalConfidence : Js.num
}.

(** An occurrence: a recommendation together with the [user_id] of the
    session that carries it. *)
Definition Occurrence : Type := (string * Recommendation)%type.

(** [`${rec.type}-${rec.title}`] *)
Definition rec_key (r : Recommendation) : string :=
  (rec_type r ++ "-" ++ rec_title r)%string.

Definition occ_key (o : Occurrence) : string := rec_key (snd o).

(** The entry created at the first occurrence of a key. *)
Definition new_group (o : Occurrence) : RecGroup :=
  let r := snd o in
  {| g_type := rec_type r;
     g_title := rec_title r;
     g_description := rec_description r;
     g_actionableAdvice := Js.or_string (actionable_advice r) (actionableAdvice r);
     g_priority := Js.or_Z (priority r) 1;
     affectedStudents := [];
     frequency := 0;
     totalConfidence := Js.Fin 0 |}.

(** The three updates made for every occurrence; the literal [0.7] is
    the double nearest to it. *)
Definition count_occurrence (g : RecGroup) (o : Occurrence) : RecGroup :=
  {| g_type := g_type g;
     g_title := g_title g;
     g_description := g_description g;
     g_actionableAdvice := g_actionableAdvice g;
     g_priority := g_priority g;
     affectedStudents := Js.set_add (affectedStudents g) (fst o);
     frequency := S (frequency g);
     totalConfidence :=
       Js.add (totalConfidence g)
              (Js.Fin (Js.or_Q (confidence_score (snd o))
                               (Js.nearest (7 # 10)))) |}.

Definition add_occurrence (counts : JsObject.t RecGroup) (o : Occurrence)
  : JsObject.t RecGroup :=
  JsObject.upsert occ_key new_group count_occurrence counts o.

(** The two nested [forEach] loops. *)
Definition recommendationCounts (analyticsData : list AnalyticsRow)
  : JsObject.t RecGroup :=
  fold_left
    (fun counts session =>
       match recommendations session with
       | Some recs =>
           fold_left (fun c rec => add_occurrence c (user_id session, rec))
                     recs counts
       | None => counts
       end)
    analyticsData (JsObject.empty RecGroup).

Inductive Impact : Type := ImpactHigh | ImpactMedium | ImpactLow.

Record TeachingRecommendation : Type := {
  tr_id : string;
  tr_type : string;
  tr_title : string;
  tr_description : string;
  tr_actionableAdvice : option string;
  tr_priority : Z;
  tr_frequency : nat;
  tr_affectedStudentsCount : nat;
  tr_affectedStudents : list string;
  tr_confidence : Js.rounded;
  tr_impact : Impact
}.

(** [rec.frequency > 0 ? rec.totalConfidence / rec.frequency : 0] *)
Definition avgConfidence (g : RecGroup) : Js.num :=
  if (0 <? frequency g)%nat
  then Js.div (totalConfidence g) (Js.count (frequency g))
  else Js.Fin 0.

(** [studentMap]: the [reduce] over [studentsInfo || []]. *)
Definition studentMap (studentsInfo : option (list User)) : JsObject.t User :=
  fold_left (fun acc student => JsObject.set acc (u_id student) student)
            (match studentsInfo with Some l => l | None => [] end)
            (JsObject.empty User).

(** [ids.map(id => studentMap[id]?.name).filter(Boolean)] *)
Definition student_names (students : JsObject.t User) (ids : list string)
  : list string :=
  flat_map
    (fun id =>
       match JsObject.get students id with
       | Some student =>
           match Js.truthy_string (u_name student) with
           | Some n => [n]
           | None => []
           end
       | None => []
       end)
    ids.

Definition impact_of (affectedStudentsCount : nat) : Impact :=
  if (3 <=? affectedStudentsCount)%nat then ImpactHigh
  else if (affectedStudentsCount =? 2)%nat then ImpactMedium
  else ImpactLow.

(** The object pushed for one group; [position] is
    [teachingRecommendations.length] at that moment. *)
Definition teachingRecommendation (students : JsObject.t User)
           (position : nat) (g : RecGroup) : TeachingRecommendation :=
  let affectedStudentsCount := Js.size (affectedStudents g) in
  {| tr_id := ("rec_" ++ Js.nat_to_string (position + 1))%string;
     tr_type := g_type g;
     tr_title := g_title g;
     tr_description := g_description g;
     tr_actionableAdvice := g_actionableAdvice g;
     tr_priority := g_priority g;
     tr_frequency := frequency g;
     tr_affectedStudentsCount := affectedStudentsCount;
     tr_affectedStudents :=
       Js.slice0 3 (student_names students (affectedStudents g));
     tr_confidence := Js.round (Js.mul (avgConfidence g) (Js.Fin 100));
     tr_impact := impact_of affectedStudentsCount |}.

(** [Object.values(recommendationCounts).forEach(rec => push ...)] *)
Fixpoint push_all (students : JsObject.t User) (position : nat)
         (groups : list RecGroup) : list TeachingRecommendation :=
  match groups with
  | [] => []
  | g :: rest =>
      teachingRecommendation students position g
      :: push_all students (S position) rest
  end.

(** The comparator of line 235. *)
Definition by_priority_then_frequency (a b : TeachingRecommendation) : Z :=
  if negb (tr_priority a =? tr_priority b)%Z
  then (tr_priority a - tr_priority b)%Z
  else (Z.of_nat (tr_frequency b) - Z.of_nat (tr_frequency a))%Z.

(** The list after the sort of line 235, before it is cut. *)
Definition teachingRecommendations (analyticsData : list AnalyticsRow)
           (students : JsObject.t User) : list TeachingRecommendation :=
  Js.sort by_priority_then_frequency
          (push_all students 0 (JsObject.values (recommendationCounts analyticsData))).

(** ** Student interventions (lines 240-317) *)

(** An entry of [studentAnalytics]. *)
Record StudentData : Type := {
  sessions : list AnalyticsRow;
  totalRecommendations : nat;
  highPriorityIssues : nat;
  criticalIssues : nat;
  improvementTrend : Js.num
}.

Definition new_student (_ : AnalyticsRow) : StudentData :=
  {| sessions := [];
     totalRecommendations := 0;
     highPriorityIssues := 0;
     criticalIssues := 0;
     improvementTrend := Js.Fin 0 |}.

(** [rec.priority <= 2]: [null] converts to [0], and the comparison
    with [undefined] is false. *)
Definition is_high_priority (r : Recommendation) : bool :=
  match priority r with
  | Js.Value p => (p <=? 2)%Z
  | Js.Null => true
  | Js.Undefined => false
  end.

(** [rec.priority === 1] *)
Definition is_critical (r : Recommendation) : bool :=
  match priority r with
  | Js.Value p => (p =? 1)%Z
  | Js.Null | Js.Undefined => false
  end.

(** The inner [forEach] of lines 258-261, on the two counters. *)
Definition count_issues (counters : nat * nat) (recs : list Recommendation)
  : nat * nat :=
  fold_left
    (fun c rec =>
       let high := if is_high_priority rec then S (fst c) else fst c in
       let critical := if is_critical rec then S (snd c) else snd c in
       (high, critical))
    recs counters.

Definition record_session (d : StudentData) (session : AnalyticsRow)
  : StudentData :=
  match recommendations session with
  | Some recs =>
      let c := count_issues (highPriorityIssues d, criticalIssues d) recs in
      {| sessions := sessions d ++ [session];
         totalRecommendations := totalRecommendations d + List.length recs;
         highPriorityIssues := fst c;
         criticalIssues := snd c;
         improvementTrend := improvementTrend d |}
  | None =>
      {| sessions := sessions d ++ [session];
         totalRecommendations := totalRecommendations d;
         highPriorityIssues := highPriorityIssues d;
         criticalIssues := criticalIssues d;
         improvementTrend := improvementTrend d |}
  end.

Definition studentAnalytics (analyticsData : list AnalyticsRow)
  : JsObject.t StudentData :=
  fold_left (JsObject.upsert user_id new_student record_session)
            analyticsData (JsObject.empty StudentData).

Inductive InterventionLevel : Type :=
| LevelNone
| LevelUrgent
| LevelHigh
| LevelMedium.

(** Lines 270-276: the trend written back into [data.improvementTrend]. *)
Definition trend_of (d : StudentData) : Js.num :=
  let performances :=
    filter (fun p => negb (Qeq_bool p 0))
           (map (fun s => Js.or_Q (improvement_percentage s) 0) (sessions d)) in
  if (2 <=? List.length performances)%nat
  then Js.sub (Js.Fin (last performances 0)) (Js.Fin (hd 0 performances))
  else improvementTrend d.

(** Lines 279-291: the level and the reason pushed with it. *)
Definition interventionLevel (criticalIssues highPriorityIssues : nat)
           (improvementTrend : Js.num) : InterventionLevel * list string :=
  if (0 <? criticalIssues)%nat then
    (LevelUrgent,
     [(Js.nat_to_string criticalIssues ++ " critical issues identified")%string])
  else if (3 <=? highPriorityIssues)%nat then
    (LevelHigh,
     [(Js.nat_to_string highPriorityIssues ++ " high priority issues")%string])
  else if Js.ltb improvementTrend (-20) then
    (LevelMedium, ["declining performance trend"%string])
  else (LevelNone, []).

Record StudentIntervention : Type := {
  si_studentId : string;
  si_studentName : option string;
  si_studentEmail : string;
  si_interventionLevel : InterventionLevel;
  si_reasons : list string;
  si_recommendedActions : list (option string);
  si_lastAnalyzed : string;
  si_sessionsAnalyzed : nat;
  si_improvementTrend : Js.rounded
}.

(** The comparator of line 296; [NaN] (an invalid date) counts as [0]. *)
Definition latest_first (cal : Js.Calendar) (a b : AnalyticsRow) : Z :=
  match Js.get_time cal (analyzed_at b), Js.get_time cal (analyzed_at a) with
  | Some tb, Some ta => (tb - ta)%Z
  | _, _ => 0%Z
  end.

(** The body of the [forEach] of lines 265-313 for one entry: the list
    of interventions it pushes, empty or a singleton.  [sessions] is
    never empty, the property being created together with its first
    session. *)
Definition intervention_for (cal : Js.Calendar) (students : JsObject.t User)
           (entry : string * StudentData) : list StudentIntervention :=
  let (userId, data) := entry in
  match JsObject.get students userId with
  | None => []
  | Some student =>
      let trend := trend_of data in
      let (level, reasons) :=
        interventionLevel (criticalIssues data) (highPriorityIssues data) trend in
      match level with
      | LevelNone => []
      | _ =>
          match Js.sort (latest_first cal) (sessions data) with
          | [] => []
          | latestSession :: _ =>
              [ {| si_studentId := userId;
                   si_studentName := u_name student;
                   si_studentEmail := u_email student;
                   si_interventionLevel := level;
                   si_reasons := reasons;
                   si_recommendedActions :=
                     map (fun r => Js.or_string (actionable_advice r)
                                                (actionableAdvice r))
                         (Js.slice0 3
                            (filter is_high_priority
                               (match recommendations latestSession with
                                | Some recs => recs
                                | None => []
                                end)));
                   si_lastAnalyzed := analyzed_at latestSession;
                   si_sessionsAnalyzed := List.length (sessions data);
                   si_improvementTrend := Js.round trend |} ]
          end
      end
  end.

(** [levelPriority]; there is no entry for ['none']. *)
Definition levelPriority (l : InterventionLevel) : option Z :=
  match l with
  | LevelUrgent => Some 0%Z
  | LevelHigh => Some 1%Z
  | LevelMedium => Some 2%Z
  | LevelNone => None
  end.

(** The comparator of line 317; a missing entry makes the difference
    [NaN], which sorts as [0]. *)
Definition by_level (a b : StudentIntervention) : Z :=
  match levelPriority (si_interventionLevel a),
        levelPriority (si_interventionLevel b) with
  | Some x, Some y => (x - y)%Z
  | _, _ => 0%Z
  end.

(** The list after the sort of line 317, before it is cut. *)
Definition studentInterventions (cal : Js.Calendar)
           (analyticsData : list AnalyticsRow) (students : JsObject.t User)
  : list StudentIntervention :=
  Js.sort by_level
          (flat_map (intervention_for cal students)
                    (JsObject.entries (studentAnalytics analyticsData))).

(** ** Performance alerts (lines 360-435) *)

(** An entry of [modulePerformanceMap]. *)
Record ModulePerformance : Type := {
  title : string;
  scores : list Q;
  needsRemedial : nat;
  failing : nat;
  totalStudents : nat
}.

Definition new_module (mp : ModuleProgress) : ModulePerformance :=
  {| title := module_title mp;
     scores := [];
     needsRemedial := 0;
     failing := 0;
     totalStudents := 0 |}.

(** [parseFloat(mp.best_score || '0')] *)
Definition score_of (mp : ModuleProgress) : Q :=
  match best_score mp with
  | Some q => q
  | None => 0
  end.

(** Lines 377-387. *)
Definition record_progress (d : ModulePerformance) (mp : ModuleProgress)
  : ModulePerformance :=
  let score := score_of mp in
  let positive := Js.Qltb 0 score in
  let failing' :=
    if positive && Js.Qltb score 60 then S (failing d) else failing d in
  let remedial' :=
    if positive && negb (Js.Qltb score 60) && Js.Qltb score 70
    then S (needsRemedial d) else needsRemedial d in
  {| title := title d;
     scores := if positive then scores d ++ [score] else scores d;
     needsRemedial := if needs_remedial mp then S remedial' else remedial';
     failing := failing';
     totalStudents := S (totalStudents d) |}.

(** [moduleProgressData?.forEach(...)] *)
Definition modulePerformanceMap (moduleProgressData : option (list ModuleProgress))
  : JsObject.t ModulePerformance :=
  match moduleProgressData with
  | Some rows =>
      fold_left (JsObject.upsert module_id new_module record_progress)
                rows (JsObject.empty ModulePerformance)
  | None => JsObject.empty ModulePerformance
  end.

Definition avgScore (d : ModulePerformance) : Js.num :=
  if (0 <? List.length (scores d))%nat
  then Js.div (Js.sum (scores d)) (Js.count (List.length (scores d)))
  else Js.Fin 0.

Definition failureRate (d : ModulePerformance) : Js.num :=
  Js.mul (Js.div (Js.count (failing d)) (Js.count (totalStudents d)))
         (Js.Fin 100).

Definition remedialRate (d : ModulePerformance) : Js.num :=
  Js.mul (Js.div (Js.count (needsRemedial d)) (Js.count (totalStudents d)))
         (Js.Fin 100).

Inductive AlertType : Type := Critical | Warning | Info.
Inductive Severity : Type := SeverityHigh | SeverityMedium | SeverityLow.

Record PerformanceAlert : Type := {
  pa_type : AlertType;
  pa_title : string;
  pa_description : string;
  pa_moduleId : string;
  pa_moduleTitle : string;
  pa_metric : string;
  pa_value : Js.rounded;
  pa_affectedStudents : nat;
  pa_totalStudents : nat;
  pa_severity : Severity
}.

(** The body of the [forEach] of lines 390-435 for one entry: the alert
    it pushes, if any. *)
Definition alert_for (entry : string * ModulePerformance)
  : option PerformanceAlert :=
  let (moduleId, data) := entry in
  if Js.geb (failureRate data) 30 then
    Some {| pa_type := Critical;
            pa_title := ("High Failure Rate in " ++ title data)%string;
            pa_description :=
              (Js.rounded_to_string (Js.round (failureRate data))
               ++ "% of students are failing this module")%string;
            pa_moduleId := moduleId;
            pa_moduleTitle := title data;
            pa_metric := "failure_rate";
            pa_value := Js.round (failureRate data);
            pa_affectedStudents := failing data;
            pa_totalStudents := totalStudents data;
            pa_severity := SeverityHigh |}
  else if Js.geb (remedialRate data) 40 then
    Some {| pa_type := Warning;
            pa_title :=
              ("Many Students Need Remedial Help in " ++ title data)%string;
            pa_description :=
              (Js.rounded_to_string (Js.round (remedialRate data))
               ++ "% of students need additional support")%string;
            pa_moduleId := moduleId;
            pa_moduleTitle := title data;
            pa_metric := "remedial_rate";
            pa_value := Js.round (remedialRate data);
            pa_affectedStudents := needsRemedial data;
            pa_totalStudents := totalStudents data;
            pa_severity := SeverityMedium |}
  else if Js.ltb (avgScore data) 70 then
    Some {| pa_type := Info;
            pa_title := ("Below Average Performance in " ++ title data)%string;
            pa_description :=
              ("Average score of "
               ++ Js.rounded_to_string (Js.round (avgScore data))
               ++ "% indicates room for improvement")%string;
            pa_moduleId := moduleId;
            pa_moduleTitle := title data;
            pa_metric := "average_score";
            pa_value := Js.round (avgScore data);
            pa_affectedStudents := totalStudents data;
            pa_totalStudents := totalStudents data;
            pa_severity := SeverityLow |}
  else None.

(** The list of alerts before it is cut. *)
Definition performanceAlerts (moduleProgressData : option (list ModuleProgress))
  : list PerformanceAlert :=
  flat_map (fun entry => match alert_for entry with
                         | Some a => [a]
                         | None => []
                         end)
           (JsObject.entries (modulePerformanceMap moduleProgressData)).

(** ** Learning pattern insights (lines 319-358) *)

(** [session.learning_patterns?.pattern_type], when truthy. *)
Definition pattern_of (s : AnalyticsRow) : option string :=
  match learning_patterns s with
  | Some lp => Js.truthy_string (pattern_type lp)
  | None => None
  end.

(** [session.learning_patterns.learning_velocity], when truthy. *)
Definition velocity_of (s : AnalyticsRow) : option Q :=
  match learning_patterns s with
  | Some lp =>
      match learning_velocity lp with
      | Some v => if Qeq_bool v 0 then None else Some v
      | None => None
      end
  | None => None
  end.

(** An entry of [patternCounts]. *)
Record PatternData : Type := {
  pc_count : nat;
  pc_students : list string;
  pc_totalVelocity : Js.num;
  pc_sessions : list AnalyticsRow
}.

Definition new_pattern (_ : AnalyticsRow) : PatternData :=
  {| pc_count := 0;
     pc_students := [];
     pc_totalVelocity := Js.Fin 0;
     pc_sessions := [] |}.

(** Lines 336-342. *)
Definition record_pattern (d : PatternData) (s : AnalyticsRow) : PatternData :=
  {| pc_count := S (pc_count d);
     pc_students := Js.set_add (pc_students d) (user_id s);
     pc_totalVelocity :=
       match velocity_of s with
       | Some v => Js.add (pc_totalVelocity d) (Js.Fin v)
       | None => pc_totalVelocity d
       end;
     pc_sessions := pc_sessions d ++ [s] |}.

(** The [forEach] of lines 323-344, for patterns that are not inherited
    keys. *)
Definition patternCounts (analyticsData : list AnalyticsRow)
  : JsObject.t PatternData :=
  fold_left
    (fun counts s =>
       match pattern_of s with
       | Some pattern =>
           JsObject.upsert (fun _ => pattern) new_pattern record_pattern counts s
       | None => counts
       end)
    analyticsData (JsObject.empty PatternData).

(** [descriptions[pattern] || '...'] (lines 528-536), for a pattern that
    is not an inherited key. *)
Definition getPatternDescription (pattern : string) : string :=
  if String.eqb pattern "strugglingConcepts" then
    "Students are having difficulty with specific concepts and may need additional support"
  else if String.eqb pattern "steadyProgression" then
    "Students are making consistent progress through the material"
  else if String.eqb pattern "rapidLearning" then
    "Students are learning quickly and may benefit from advanced content"
  else if String.eqb pattern "inconsistentPerformance" then
    "Student performance varies significantly between sessions"
  else "Specific learning pattern identified requiring attention".

(** Lines 538-546; [velocity] is not read. *)
Definition getTeachingSuggestionForPattern (pattern : string) (velocity : Js.num)
  : string :=
  if String.eqb pattern "strugglingConcepts" then
    "Consider providing additional scaffolding, breaking down complex concepts, or implementing peer tutoring"
  else if String.eqb pattern "steadyProgression" then
    "Continue current teaching methods while monitoring for any changes in pace"
  else if String.eqb pattern "rapidLearning" then
    "Provide enrichment activities or accelerated content to maintain engagement"
  else if String.eqb pattern "inconsistentPerformance" then
    "Investigate external factors and consider more frequent check-ins with affected students"
  else "Monitor closely and adjust teaching strategies as needed".

Record LearningPatternInsight : Type := {
  lp_pattern : string;
  lp_frequency : nat;
  lp_studentsAffected : nat;
  lp_averageVelocity : Js.num;
  lp_description : string;
  lp_teachingSuggestion : string;
  lp_impact : Impact
}.

(** [data.count > 0 ? data.totalVelocity / data.count : 0] *)
Definition avgVelocity (d : PatternData) : Js.num :=
  if (0 <? pc_count d)%nat
  then Js.div (pc_totalVelocity d) (Js.count (pc_count d))
  else Js.Fin 0.

(** [Math.round(v * 100) / 100] *)
Definition hundredths (v : Js.num) : Js.num :=
  Js.div (Js.of_rounded (Js.round (Js.mul v (Js.Fin 100)))) (Js.Fin 100).

(** The object pushed for one entry (lines 346-358). *)
Definition pattern_insight (entry : string * PatternData)
  : LearningPatternInsight :=
  let (pattern, data) := entry in
  {| lp_pattern := pattern;
     lp_frequency := pc_count data;
     lp_studentsAffected := Js.size (pc_students data);
     lp_averageVelocity := hundredths (avgVelocity data);
     lp_description := getPatternDescription pattern;
     lp_teachingSuggestion :=
       getTeachingSuggestionForPattern pattern (avgVelocity data);
     lp_impact := impact_of (Js.size (pc_students data)) |}.

(** The list before it is cut.  A pattern that is an inherited key is
    not created in [patternCounts]; [patternCounts[pattern].students]
    is then [undefined] and line 337 throws. *)
Definition learningPatternInsights (analyticsData : list AnalyticsRow)
  : option (list LearningPatternInsight) :=
  if existsb (fun s => match pattern_of s with
                       | Some pattern => JsPrototype.inherited pattern
                       | None => false
                       end)
             analyticsData
  then None
  else Some (map pattern_insight (JsObject.entries (patternCounts analyticsData))).

(** ** Content optimization suggestions (lines 437-472) *)

(** [feedback.priority <= 2]; [null] converts to [0]. *)
Definition feedback_is_high_priority (f : Feedback) : bool :=
  match fb_priority f with
  | Some p => (p <=? 2)%Z
  | None => true
  end.

(** A counter of [severityBreakdown]: a number, or [NaN] once a key
    that had no number was incremented. *)
Definition Counter : Type := option nat.

(** [{ low: 0, medium: 0, high: 0, critical: 0 }] *)
Definition new_breakdown : JsObject.t Counter :=
  [ ("low"%string, Some 0%nat); ("medium"%string, Some 0%nat);
    ("high"%string, Some 0%nat); ("critical"%string, Some 0%nat) ].

(** [breakdown[key]++].  A missing key and an inherited member convert
    to [NaN], which is stored under the key; the assignment to
    [__proto__] stores nothing. *)
Definition increment (breakdown : JsObject.t Counter) (key : string)
  : JsObject.t Counter :=
  if String.eqb key "__proto__" then breakdown
  else
    match JsObject.get breakdown key with
    | Some (Some n) => JsObject.set breakdown key (Some (S n))
    | Some None | None => JsObject.set breakdown key None
    end.

(** An entry of [feedbackAnalysis]. *)
Record FeedbackData : Type := {
  fd_count : nat;
  highPriority : nat;
  suggestions : list string;
  severityBreakdown : JsObject.t Counter
}.

Definition new_feedback (_ : Feedback) : FeedbackData :=
  {| fd_count := 0;
     highPriority := 0;
     suggestions := [];
     severityBreakdown := new_breakdown |}.

(** Lines 452-457. *)
Definition record_feedback (d : FeedbackData) (f : Feedback) : FeedbackData :=
  {| fd_count := S (fd_count d);
     highPriority := if feedback_is_high_priority f then S (highPriority d)
                     else highPriority d;
     suggestions :=
       match Js.truthy_string (suggested_improvement f) with
       | Some s => Js.set_add (suggestions d) s
       | None => suggestions d
       end;
     severityBreakdown :=
       increment (severityBreakdown d)
                 (match Js.truthy_string (severity f) with
                  | Some s => s
                  | None => "medium"%string
                  end) |}.

(** [feynmanFeedback?.forEach(...)], for types that are not inherited
    keys. *)
Definition feedbackAnalysis (feynmanFeedback : option (list Feedback))
  : JsObject.t FeedbackData :=
  match feynmanFeedback with
  | Some rows =>
      fold_left (JsObject.upsert feedback_type new_feedback record_feedback)
                rows (JsObject.empty FeedbackData)
  | None => JsObject.empty FeedbackData
  end.

(** Lines 548-557, for a type that is not an inherited key. *)
Definition getFeedbackDescription (type : string) : string :=
  if String.eqb type "clarity" then
    "Students need clearer explanations and simpler language in their learning materials"
  else if String.eqb type "completeness" then
    "Learning materials may need more comprehensive coverage of topics"
  else if String.eqb type "accuracy" then
    "Focus on fact-checking and ensuring accurate information in explanations"
  else if String.eqb type "simplification" then
    "Content should be presented in more digestible, simplified formats"
  else if String.eqb type "examples" then
    "More practical examples and real-world applications needed"
  else "Improvement needed in this area of content delivery".

Inductive SuggestionPriority : Type := PriorityHigh | PriorityMedium.

Record ContentSuggestion : Type := {
  cs_area : string;
  cs_frequency : nat;
  cs_priority : SuggestionPriority;
  cs_suggestions : list string;
  cs_description : string;
  cs_impact : Impact;
  cs_severityBreakdown : JsObject.t Counter
}.

(** The body of the [forEach] of lines 460-472: the suggestion pushed
    for one entry, if any.  [highPriority >= count * 0.5] is compared on
    the doubled numbers. *)
Definition suggestion_for (entry : string * FeedbackData)
  : option ContentSuggestion :=
  let (type, data) := entry in
  if (2 <=? fd_count data)%nat then
    Some {| cs_area := type;
            cs_frequency := fd_count data;
            cs_priority :=
              if (fd_count data <=? 2 * highPriority data)%nat
              then PriorityHigh else PriorityMedium;
            cs_suggestions := Js.slice0 3 (suggestions data);
            cs_description := getFeedbackDescription type;
            cs_impact :=
              if (5 <=? fd_count data)%nat then ImpactHigh
              else if (3 <=? fd_count data)%nat then ImpactMedium
              else ImpactLow;
            cs_severityBreakdown := severityBreakdown data |}
  else None.

(** The list before it is cut.  A feedback type that is an inherited key
    is not created in [feedbackAnalysis], and the loop body throws when
    it reads [suggestions] or [severityBreakdown] of the inherited
    member. *)
Definition contentOptimizationSuggestions (feynmanFeedback : option (list Feedback))
  : option (list ContentSuggestion) :=
  if existsb (fun f => JsPrototype.inherited (feedback_type f))
             (match feynmanFeedback with Some rows => rows | None => [] end)
  then None
  else Some (flat_map (fun entry => match suggestion_for entry with
                                    | Some s => [s]
                                    | None => []
                                    end)
                      (JsObject.entries (feedbackAnalysis feynmanFeedback))).

(** ** Class performance insights (lines 474-498) *)

(** [a.findIndex(p)], [None] for [-1]. *)
Fixpoint findIndex (A : Type) (p : A -> bool) (a : list A) : option nat :=
  match a with
  | [] => None
  | x :: rest =>
      if p x then Some 0%nat
      else match findIndex p rest with
           | Some i => Some (S i)
           | None => None
           end
  end.

(** [a.filter((v, i, a) => keep v i a)]; [i] is the index of [v]. *)
Fixpoint filter_from (A : Type) (keep : A -> nat -> bool) (i : nat) (l : list A)
  : list A :=
  match l with
  | [] => []
  | v :: rest =>
      if keep v i then v :: filter_from keep (S i) rest
      else filter_from keep (S i) rest
  end.

(** [analyticsData.filter((v, i, a) =>
       a.findIndex(t => t.user_id === v.user_id) === i).length] *)
Definition studentsAnalyzed (analyticsData : list AnalyticsRow) : nat :=
  List.length
    (filter_from
       (fun v i =>
          match findIndex (fun t => String.eqb (user_id t) (user_id v))
                          analyticsData with
          | Some j => (j =? i)%nat
          | None => false
          end)
       0 analyticsData).

(** Lines 478-480. *)
Definition overallPerformances (analyticsData : list AnalyticsRow)
  : list Q :=
  filter (fun p => negb (Qeq_bool p 0))
         (map (fun s => Js.or_Q (improvement_percentage s) 0) analyticsData).

Inductive Trend : Type := Positive | Concerning | Stable.

Record ClassMetrics : Type := {
  averageImprovement : Js.rounded;
  improvementRate : Js.rounded;
  cm_studentsAnalyzed : nat
}.

Record ClassInsight : Type := {
  ci_type : string;
  ci_title : string;
  ci_insight : string;
  ci_metrics : ClassMetrics;
  ci_trend : Trend
}.

Definition classPerformanceInsights (analyticsData : list AnalyticsRow)
  : list ClassInsight :=
  let performances := overallPerformances analyticsData in
  if (0 <? List.length performances)%nat then
    let avgImprovement :=
      Js.div (Js.sum performances) (Js.count (List.length performances)) in
    let positiveImprovements :=
      List.length (filter (fun p => Js.Qltb 0 p) performances) in
    let rate :=
      Js.mul (Js.div (Js.count positiveImprovements)
                     (Js.count (List.length performances)))
             (Js.Fin 100) in
    [ {| ci_type := "overall_performance";
         ci_title := "Class Learning Progress";
         ci_insight :=
           (Js.rounded_to_string (Js.round rate)
            ++ "% of students show positive learning improvements with an average improvement of "
            ++ Js.rounded_to_string (Js.round avgImprovement) ++ "%")%string;
         ci_metrics :=
           {| averageImprovement := Js.round avgImprovement;
              improvementRate := Js.round rate;
              cm_studentsAnalyzed := studentsAnalyzed analyticsData |};
         ci_trend :=
           if Js.gtb avgImprovement 10 then Positive
           else if Js.ltb avgImprovement (-10) then Concerning
           else Stable |} ]
  else [].

(** ** The handler *)

Record Data : Type := {
  data_teachingRecommendations : list TeachingRecommendation;
  data_studentInterventions : list StudentIntervention;
  data_learningPatternInsights : list LearningPatternInsight;
  data_performanceAlerts : list PerformanceAlert;
  data_contentOptimizationSuggestions : list ContentSuggestion;
  data_studyPlanRecommendations : list Js.json;
  data_classPerformanceInsights : list ClassInsight
}.

(** The literal returned at lines 56, 86 and 170. *)
Definition empty_data : Data :=
  {| data_teachingRecommendations := [];
     data_studentInterventions := [];
     data_learningPatternInsights := [];
     data_performanceAlerts := [];
     data_contentOptimizationSuggestions := [];
     data_studyPlanRecommendations := [];
     data_classPerformanceInsights := [] |}.

(** The query of lines 101-119. *)
Definition fetch_analytics (cal : Js.Calendar) (db : Store)
           (studentIds : list string) (start : Z) : option (list AnalyticsRow) :=
  match study_session_analytics db with
  | Some rows =>
      Some (Js.sort (latest_first cal)
              (filter (fun r => in_ids studentIds (user_id r)
                                && since cal start (created_at r))
                      rows))
  | None => None
  end.

(** The query of lines 122-125. *)
Definition fetch_students_info (db : Store) (studentIds : list string)
  : option (list User) :=
  match users_table (accounts db) with
  | Some rows => Some (filter (fun u => in_ids studentIds (u_id u)) rows)
  | None => None
  end.

(** The query of lines 128-142. *)
Definition fetch_module_progress (db : Store) (studentIds courseIds : list string)
  : option (list ModuleProgress) :=
  match user_module_progress db with
  | Some rows =>
      Some (filter (fun p => in_ids studentIds (mp_user_id p)
                             && in_ids courseIds (module_course_id p))
                   rows)
  | None => None
  end.

(** The query of lines 145-159: the only filter is the date of the
    session. *)
Definition fetch_feedback (cal : Js.Calendar) (db : Store) (start : Z)
  : option (list Feedback) :=
  match feynman_feedback db with
  | Some rows =>
      Some (filter (fun f => since cal start (feedback_session_created_at f))
                   rows)
  | None => None
  end.

(** The handler.  An exception thrown while the lists are built is
    caught at lines 515-523 and answered with status 500. *)
Definition GET (cal : Js.Calendar) (db : Store) (now : Z) (request : Request)
  : Response Data :=
  match Js.truthy_string (x_user_id request) with
  | None => Failure 401 "Authentication required"
  | Some userId =>
      match single_user (users_table (accounts db)) userId with
      | None => Failure 403 "Access denied. Instructor role required."
      | Some userProfile =>
          if negb (String.eqb (u_role userProfile) "instructor")
          then Failure 403 "Access denied. Instructor role required."
          else
            let start := startDate cal now (timeRange_of request) in
            let instructorCourses :=
              match courses_table (accounts db) with
              | Some rows =>
                  filter (fun c => String.eqb (c_instructor_id c) userId) rows
              | None => []
              end in
            match instructorCourses with
            | [] => Success empty_data
            | _ :: _ =>
                let courseIds := map c_id instructorCourses in
                let enrolled := get_instructor_enrolled_students (accounts db) userId in
                if rpc_error enrolled
                then Failure 500 "Failed to fetch students"
                else
                  let studentIds :=
                    match rpc_data enrolled with
                    | Some ids => ids
                    | None => []
                    end in
                  match studentIds with
                  | [] => Success empty_data
                  | _ :: _ =>
                      let students :=
                        studentMap (fetch_students_info db studentIds) in
                      match fetch_analytics cal db studentIds start with
                      | None | Some [] => Success empty_data
                      | Some analyticsData =>
                          match learningPatternInsights analyticsData,
                                contentOptimizationSuggestions
                                  (fetch_feedback cal db start) with
                          | Some patterns, Some suggestions =>
                              Success
                                {| data_teachingRecommendations :=
                                     Js.slice0 10
                                       (teachingRecommendations analyticsData
                                                                students);
                                   data_studentInterventions :=
                                     Js.slice0 15
                                       (studentInterventions cal analyticsData
                                                             students);
                                   data_learningPatternInsights :=
                                     Js.slice0 8 patterns;
                                   data_performanceAlerts :=
                                     Js.slice0 10
                                       (performanceAlerts
                                          (fetch_module_progress
                                             db studentIds courseIds));
                                   data_contentOptimizationSuggestions :=
                                     Js.slice0 8 suggestions;
                                   data_studyPlanRecommendations := [];
                                   data_classPerformanceInsights :=
                                     classPerformanceInsights analyticsData |}
                          | _, _ => Failure 500 "Internal server error"
                          end
                      end
                  end
            end
      end
  end.

End AiInsights.

(* ================================================================== *)
(** * [study-techniques-detailed/route.ts] *)
(* ================================================================== *)

Module StudyTechniques.

(** Row of one of the four session tables ([active_recall_sessions],
    [pomodoro_sessions], [feynman_sessions],
    [retrieval_practice_sessions]). *)
Record Session : Type := {
  session_id : string;
  user_id : string;
  module_id : string;
  created_at : string;
  status : string
}.

(** Row of [active_recall_attempts], joined with the [created_at] of its
    session. *)
Record Attempt : Type := {
  is_correct : bool;
  response_time_seconds : option Q;
  attempt_session_created_at : string
}.

(** Row of [pomodoro_cycles], joined with the [created_at] of its
    session.  [cycle_type] is the column [type]. *)
Record Cycle : Type := {
  cycle_type : string;
  completed_at : option string;
  focus_score : option Q;
  duration_minutes : option Q;
  cycle_session_created_at : string
}.

(** Row of [study_session_analytics] as the effectiveness metrics read
    it; the three numbers are fields of [performance_metrics]. *)
Record AnalyticsItem : Type := {
  item_user_id : string;
  item_created_at : string;
  session_type : string;
  improvement_percentage : option Q;
  post_study_accuracy : option Q;
  overall_accuracy : option Q
}.

Record Store : Type := {
  accounts : Accounts;
  active_recall_sessions : option (list Session);
  pomodoro_sessions : option (list Session);
  feynman_sessions : option (list Session);
  retrieval_practice_sessions : option (list Session);
  active_recall_attempts : option (list Attempt);
  pomodoro_cycles : option (list Cycle);
  study_session_analytics : option (list AnalyticsItem)
}.

(** [supabase.from(table).select('*').in('user_id', studentIds)
      .gte('created_at', startDate.toISOString())], followed by
    [.data || []]. *)
Definition fetch_sessions (cal : Js.Calendar) (table : option (list Session))
           (studentIds : list string) (start : Z) : list Session :=
  match table with
  | Some rows =>
      filter (fun s => in_ids studentIds (user_id s)
                       && since cal start (created_at s))
             rows
  | None => []
  end.

(** [new Set(sessions.map(s => s.user_id)).size] *)
Definition userEngagement (sessions : list Session) : nat :=
  Js.size (Js.set_of_list (map user_id sessions)).

(** The queries of lines 118-123 and 131-136: the only filter is
    [.gte('<sessions>.created_at', startDate.toISOString())]. *)
Definition fetch_attempts (cal : Js.Calendar) (db : Store) (start : Z)
  : option (list Attempt) :=
  match active_recall_attempts db with
  | Some rows =>
      Some (filter (fun a => since cal start (attempt_session_created_at a)) rows)
  | None => None
  end.

Definition fetch_cycles (cal : Js.Calendar) (db : Store) (start : Z)
  : option (list Cycle) :=
  match pomodoro_cycles db with
  | Some rows =>
      Some (filter (fun c => since cal start (cycle_session_created_at c)) rows)
  | None => None
  end.

(** The query of lines 165-168. *)
Definition fetch_analytics (cal : Js.Calendar) (db : Store)
           (studentIds : list string) (start : Z) : option (list AnalyticsItem) :=
  match study_session_analytics db with
  | Some rows =>
      Some (filter (fun r => in_ids studentIds (item_user_id r)
                             && since cal start (item_created_at r))
                   rows)
  | None => None
  end.

(** [sessions.filter(s => s.status === wanted).length] *)
Definition with_status (wanted : string) (sessions : list Session) : nat :=
  List.length (filter (fun s => String.eqb (status s) wanted) sessions).

(** ** Active Recall (lines 171-198) *)

Record RecallStatusBreakdown : Type := {
  rb_completed : nat;
  rb_preparing : nat;
  rb_studying : nat;
  rb_paused : nat
}.

Record ActiveRecallAnalytics : Type := {
  ar_totalSessions : nat;
  ar_completedSessions : nat;
  ar_averageSessionDuration : Js.rounded;
  ar_totalAttempts : nat;
  ar_averageAccuracy : Js.rounded;
  ar_flashcardsGenerated : nat;
  ar_improvementRate : nat;
  ar_userEngagement : nat;
  ar_sessionStatusBreakdown : RecallStatusBreakdown
}.

Definition activeRecallAnalytics
           (activeRecallSessions : list Session)
           (activeRecallAttempts : option (list Attempt))
  : ActiveRecallAnalytics :=
  let attempts :=
    match activeRecallAttempts with Some l => l | None => [] end in
  let measured := (0 <? List.length attempts)%nat in
  {| ar_totalSessions := List.length activeRecallSessions;
     ar_completedSessions := with_status "completed" activeRecallSessions;
     ar_averageSessionDuration :=
       if measured
       then Js.round
              (Js.div (fold_left
                         (fun sum a =>
                            Js.add sum
                                   (Js.Fin (Js.or_Q (response_time_seconds a) 0)))
                         attempts (Js.Fin 0))
                      (Js.count (List.length attempts)))
       else Js.RInt 0;
     ar_totalAttempts := List.length attempts;
     ar_averageAccuracy :=
       if measured
       then Js.round
              (Js.mul (Js.div (Js.count (List.length (filter is_correct attempts)))
                              (Js.count (List.length attempts)))
                      (Js.Fin 100))
       else Js.RInt 0;
     ar_flashcardsGenerated := 0;
     ar_improvementRate := 0;
     ar_userEngagement := userEngagement activeRecallSessions;
     ar_sessionStatusBreakdown :=
       {| rb_completed := with_status "completed" activeRecallSessions;
          rb_preparing := with_status "preparing" activeRecallSessions;
          rb_studying := with_status "studying" activeRecallSessions;
          rb_paused := with_status "paused" activeRecallSessions |} |}.

(** ** Pomodoro (lines 200-239) *)

Record CycleTypeBreakdown : Type := {
  work : nat;
  short_break : nat;
  long_break : nat
}.

Record PomodoroAnalytics : Type := {
  pm_totalSessions : nat;
  pm_completedSessions : nat;
  pm_totalCycles : nat;
  pm_completedCycles : nat;
  pm_averageFocusScore : Js.rounded;
  pm_averageCyclesPerSession : Js.rounded;
  pm_totalStudyTime : Js.num;
  pm_breakAdherence : Js.rounded;
  pm_userEngagement : nat;
  pm_cycleTypeBreakdown : CycleTypeBreakdown
}.

(** [c.completed_at], as a condition. *)
Definition is_completed (c : Cycle) : bool :=
  match Js.truthy_string (completed_at c) with
  | Some _ => true
  | None => false
  end.

Definition of_type (type : string) (c : Cycle) : bool :=
  String.eqb (cycle_type c) type.

(** [cycles.filter(c => c.focus_score).map(c => c.focus_score)] *)
Definition focusScores (cycles : list Cycle) : list Q :=
  flat_map (fun c => match focus_score c with
                     | Some q => if Qeq_bool q 0 then [] else [q]
                     | None => []
                     end)
           cycles.

Definition pomodoroAnalytics
           (pomodoroSessions : list Session)
           (pomodoroCycles : option (list Cycle)) : PomodoroAnalytics :=
  let cycles := match pomodoroCycles with Some l => l | None => [] end in
  let measured := (0 <? List.length cycles)%nat in
  let breaks := filter (fun c => negb (of_type "work" c)) cycles in
  {| pm_totalSessions := List.length pomodoroSessions;
     pm_completedSessions := with_status "completed" pomodoroSessions;
     pm_totalCycles := List.length cycles;
     pm_completedCycles := List.length (filter is_completed cycles);
     pm_averageFocusScore :=
       if measured && (0 <? List.length (focusScores cycles))%nat
       then Js.round (Js.div (Js.sum (focusScores cycles))
                             (Js.count (List.length (focusScores cycles))))
       else Js.RInt 0;
     pm_averageCyclesPerSession :=
       if measured && (0 <? List.length pomodoroSessions)%nat
       then Js.round (Js.div (Js.count (List.length cycles))
                             (Js.count (List.length pomodoroSessions)))
       else Js.RInt 0;
     pm_totalStudyTime :=
       fold_left (fun sum c =>
                    Js.add sum (Js.Fin (Js.or_Q (duration_minutes c) 25)))
                 (filter (of_type "work") cycles) (Js.Fin 0);
     pm_breakAdherence :=
       if measured && (0 <? List.length breaks)%nat
       then Js.round
              (Js.mul (Js.div (Js.count
                                 (List.length (filter is_completed breaks)))
                              (Js.count (List.length breaks)))
                      (Js.Fin 100))
       else Js.RInt 0;
     pm_userEngagement := userEngagement pomodoroSessions;
     pm_cycleTypeBreakdown :=
       {| work := List.length (filter (of_type "work") cycles);
          short_break := List.length (filter (of_type "short_break") cycles);
          long_break := List.length (filter (of_type "long_break") cycles) |} |}.

(** ** Effectiveness metrics (lines 356-385) *)

Inductive Rating : Type := High | Medium | Low.

Record Effectiveness : Type := {
  ef_averageImprovement : Js.rounded;
  sessionCount : nat;
  effectivenessRating : Rating
}.

(** [m?.improvement_percentage || m?.post_study_accuracy
     || m?.overall_accuracy || 0] *)
Definition performance_of (s : AnalyticsItem) : Q :=
  Js.or_Q (improvement_percentage s)
          (Js.or_Q (post_study_accuracy s) (Js.or_Q (overall_accuracy s) 0)).

(** The [map] and [filter] of lines 369-373. *)
Definition performances (sessions : list AnalyticsItem) : list Q :=
  filter (fun p => Js.Qltb 0 p) (map performance_of sessions).

(** The [reduce] of lines 359-365, for session types that are not
    inherited keys. *)
Definition analyticsByTechnique (items : list AnalyticsItem)
  : JsObject.t (list AnalyticsItem) :=
  fold_left (JsObject.upsert session_type (fun _ => [])
                             (fun group item => group ++ [item]))
            items (JsObject.empty (list AnalyticsItem)).

(** The value assigned to [effectivenessMetrics[technique]]. *)
Definition effectiveness_of (sessions : list AnalyticsItem) : Effectiveness :=
  let values := performances sessions in
  let average := Js.div (Js.sum values) (Js.count (List.length values)) in
  let rated := (0 <? List.length values)%nat in
  {| ef_averageImprovement := if rated then Js.round average else Js.RInt 0;
     sessionCount := List.length sessions;
     effectivenessRating :=
       if rated && Js.geb average 70 then High
       else if rated && Js.geb average 50 then Medium
       else Low |}.

(** The object [effectivenessMetrics]: [{}] when the query returns no
    data.  A session type that is an inherited key is not created in
    the accumulator and [push] is then called on the inherited member,
    which throws. *)
Definition effectivenessMetrics (analyticsData : option (list AnalyticsItem))
  : option (JsObject.t Effectiveness) :=
  match analyticsData with
  | Some items =>
      if existsb (fun item => JsPrototype.inherited (session_type item)) items
      then None
      else
        Some (fold_left
                (fun metrics entry =>
                   JsObject.set metrics (fst entry) (effectiveness_of (snd entry)))
                (JsObject.entries (analyticsByTechnique items))
                (JsObject.empty Effectiveness))
  | None => Some (JsObject.empty Effectiveness)
  end.

(** ** Technique comparison (lines 313-330) *)

(** An element of [techniques]. *)
Record Technique : Type := {
  name : string;
  sessions : nat;
  users : nat
}.

Record TechniqueComparison : Type := {
  tc_technique : string;
  tc_sessions : nat;
  tc_users : nat;
  tc_adoptionRate : Js.rounded;
  tc_sessionsPerUser : Js.rounded;
  tc_color : string
}.

Definition techniques (activeRecallSessions pomodoroSessions feynmanSessions
                       retrievalSessions : list Session) : list Technique :=
  [ {| name := "Active Recall";
       sessions := List.length activeRecallSessions;
       users := userEngagement activeRecallSessions |};
    {| name := "Pomodoro";
       sessions := List.length pomodoroSessions;
       users := userEngagement pomodoroSessions |};
    {| name := "Feynman";
       sessions := List.length feynmanSessions;
       users := userEngagement feynmanSessions |};
    {| name := "Retrieval Practice";
       sessions := List.length retrievalSessions;
       users := userEngagement retrievalSessions |} ].

(** The function mapped over [techniques]; [enrolled] is
    [studentIds.length]. *)
Definition compare_technique (enrolled : nat) (t : Technique)
  : TechniqueComparison :=
  {| tc_technique := name t;
     tc_sessions := sessions t;
     tc_users := users t;
     tc_adoptionRate :=
       Js.round (Js.mul (Js.div (Js.count (users t))
                                (Js.count (Nat.max enrolled 1)))
                        (Js.Fin 100));
     tc_sessionsPerUser :=
       if (0 <? users t)%nat
       then Js.round (Js.div (Js.count (sessions t)) (Js.count (users t)))
       else Js.RInt 0;
     tc_color :=
       if String.eqb (name t) "Active Recall" then "#10B981"
       else if String.eqb (name t) "Pomodoro" then "#3B82F6"
       else if String.eqb (name t) "Feynman" then "#EF4444"
       else "#8B5CF6" |}.

Definition by_sessions_descending (a b : TechniqueComparison) : Z :=
  (Z.of_nat (tc_sessions b) - Z.of_nat (tc_sessions a))%Z.

Definition techniqueComparison (enrolled : nat) (ts : list Technique)
  : list TechniqueComparison :=
  Js.sort by_sessions_descending (map (compare_technique enrolled) ts).

(** ** Time-based analysis (lines 332-354) *)

Record DayBucket : Type := {
  date : string;
  activeRecall : nat;
  pomodoro : nat;
  feynman : nat;
  retrievalPractice : nat;
  total : nat
}.

(** [timeRange === 'week' ? 7 : timeRange === 'month' ? 30 : 90] *)
Definition days (timeRange : string) : nat :=
  if String.eqb timeRange "week" then 7
  else if String.eqb timeRange "month" then 30
  else 90.

(** [sessions.filter(s => s.created_at.startsWith(dateStr)).length] *)
Definition sessions_on (dateStr : string) (sessions : list Session) : nat :=
  List.length (filter (fun s => String.prefix dateStr (created_at s)) sessions).

(** The body of the loop for one value of [i]. *)
Definition bucket (cal : Js.Calendar) (now : Z)
           (activeRecallSessions pomodoroSessions feynmanSessions
            retrievalSessions : list Session) (i : nat) : DayBucket :=
  let dateStr := Js.iso_date cal (Js.add_days cal now (- Z.of_nat i)) in
  let dayActiveRecall := sessions_on dateStr activeRecallSessions in
  let dayPomodoro := sessions_on dateStr pomodoroSessions in
  let dayFeynman := sessions_on dateStr feynmanSessions in
  let dayRetrieval := sessions_on dateStr retrievalSessions in
  {| date := dateStr;
     activeRecall := dayActiveRecall;
     pomodoro := dayPomodoro;
     feynman := dayFeynman;
     retrievalPractice := dayRetrieval;
     total := dayActiveRecall + dayPomodoro + dayFeynman + dayRetrieval |}.

(** [for (let i = n - 1; i >= 0; i--) push(bucket i)]; every iteration
    reads the clock at the instant [now] of the request. *)
Fixpoint buckets_down (cal : Js.Calendar) (now : Z)
         (activeRecallSessions pomodoroSessions feynmanSessions
          retrievalSessions : list Session) (n : nat) : list DayBucket :=
  match n with
  | O => []
  | S i =>
      bucket cal now activeRecallSessions pomodoroSessions feynmanSessions
             retrievalSessions i
      :: buckets_down cal now activeRecallSessions pomodoroSessions
                      feynmanSessions retrievalSessions i
  end.

Definition timeBasedAnalysis (cal : Js.Calendar) (now : Z) (timeRange : string)
           (activeRecallSessions pomodoroSessions feynmanSessions
            retrievalSessions : list Session) : list DayBucket :=
  buckets_down cal now activeRecallSessions pomodoroSessions feynmanSessions
               retrievalSessions (days timeRange).

(** ** The handler *)

(** [{}] in the literal of the early returns is [None] for the two
    summaries described here, [Js.JObject []] for the two that are not,
    and the empty object for the effectiveness metrics. *)
Record Data : Type := {
  data_activeRecallAnalytics : option ActiveRecallAnalytics;
  data_pomodoroAnalytics : option PomodoroAnalytics;
  data_feynmanAnalytics : Js.json;
  data_retrievalPracticeAnalytics : Js.json;
  data_techniqueComparison : list TechniqueComparison;
  data_timeBasedAnalysis : list DayBucket;
  data_effectivenessMetrics : JsObject.t Effectiveness
}.

(** The literal returned at lines 56 and 86: [{}] for the five objects,
    [[]] for the two lists. *)
Definition empty_data : Data :=
  {| data_activeRecallAnalytics := None;
     data_pomodoroAnalytics := None;
     data_feynmanAnalytics := Js.JObject [];
     data_retrievalPracticeAnalytics := Js.JObject [];
     data_techniqueComparison := [];
     data_timeBasedAnalysis := [];
     data_effectivenessMetrics := JsObject.empty Effectiveness |}.

(** Lines 241-311 build the Feynman and the Retrieval Practice summary
    from the sessions and from the tables of explanations and attempts.
    They are not described here; they have no statement that can throw,
    and the handler receives them as functions of the fetched sessions
    and of [startDate]. *)
Record OtherAnalytics : Type := {
  feynmanAnalytics : list Session -> Z -> Js.json;
  retrievalPracticeAnalytics : list Session -> Z -> Js.json
}.

(** The handler.  An exception thrown while the effectiveness metrics
    are built is caught at lines 402-411 and answered with status 500. *)
Definition GET (cal : Js.Calendar) (other : OtherAnalytics) (db : Store)
           (now : Z) (request : Request) : Response Data :=
  match Js.truthy_string (x_user_id request) with
  | None => Failure 401 "Authentication required"
  | Some userId =>
      match single_user (users_table (accounts db)) userId with
      | None => Failure 403 "Access denied. Instructor role required."
      | Some userProfile =>
          if negb (String.eqb (u_role userProfile) "instructor")
          then Failure 403 "Access denied. Instructor role required."
          else
            let timeRange := timeRange_of request in
            let start := startDate cal now timeRange in
            let instructorCourses :=
              match courses_table (accounts db) with
              | Some rows =>
                  filter (fun c => String.eqb (c_instructor_id c) userId) rows
              | None => []
              end in
            match instructorCourses with
            | [] => Success empty_data
            | _ :: _ =>
                let enrolled := get_instructor_enrolled_students (accounts db) userId in
                if rpc_error enrolled
                then Failure 500 "Failed to fetch students"
                else
                  let studentIds :=
                    match rpc_data enrolled with
                    | Some ids => ids
                    | None => []
                    end in
                  match studentIds with
                  | [] => Success empty_data
                  | _ :: _ =>
                      let activeRecallSessions :=
                        fetch_sessions cal (active_recall_sessions db)
                                       studentIds start in
                      let pomodoroSessions :=
                        fetch_sessions cal (pomodoro_sessions db)
                                       studentIds start in
                      let feynmanSessions :=
                        fetch_sessions cal (feynman_sessions db)
                                       studentIds start in
                      let retrievalSessions :=
                        fetch_sessions cal (retrieval_practice_sessions db)
                                       studentIds start in
                      match effectivenessMetrics
                              (fetch_analytics cal db studentIds start) with
                      | None => Failure 500 "Internal server error"
                      | Some metrics =>
                          Success
                            {| data_activeRecallAnalytics :=
                                 Some (activeRecallAnalytics
                                         activeRecallSessions
                                         (fetch_attempts cal db start));
                               data_pomodoroAnalytics :=
                                 Some (pomodoroAnalytics
                                         pomodoroSessions
                                         (fetch_cycles cal db start));
                               data_feynmanAnalytics :=
                                 feynmanAnalytics other feynmanSessions start;
                               data_retrievalPracticeAnalytics :=
                                 retrievalPracticeAnalytics
                                   other retrievalSessions start;
                               data_techniqueComparison :=
                                 techniqueComparison
                                   (List.length studentIds)
                                   (techniques activeRecallSessions
                                               pomodoroSessions
                                               feynmanSessions
                                               retrievalSessions);
                               data_timeBasedAnalysis :=
                                 timeBasedAnalysis cal now timeRange
                                   activeRecallSessions pomodoroSessions
                                   feynmanSessions retrievalSessions;
                               data_effectivenessMetrics := metrics |}
                      end
                  end
            end
      end
  end.

(** The two summaries as the handler computes them for the students
    [studentIds] since [start]. *)
Definition activeRecall_summary (cal : Js.Calendar) (db : Store)
           (studentIds : list string) (start : Z) : ActiveRecallAnalytics :=
  activeRecallAnalytics
    (fetch_sessions cal (active_recall_sessions db) studentIds start)
    (fetch_attempts cal db start).

Definition pomodoro_summary (cal : Js.Calendar) (db : Store)
           (studentIds : list string) (start : Z) : PomodoroAnalytics :=
  pomodoroAnalytics
    (fetch_sessions cal (pomodoro_sessions db) studentIds start)
    (fetch_cycles cal db start).

End StudyTechniques.

(* ================================================================== *)
(** * [export-report/route.ts] *)
(* ================================================================== *)

Module ExportReport.

(** Row of [modules]. *)
Record Module_ : Type := {
  m_id : string;
  m_title : string;
  m_description : string;
  m_course_id : string;
  m_order_index : Js.json;
  m_passing_threshold : Js.json;
  m_available_techniques : Js.json
}.

(** Row of [course_materials]. *)
Record Material : Type := {
  mat_id : string;
  mat_title : string;
  mat_file_type : string;
  mat_file_size : Js.json;
  mat_created_at : string;
  mat_module_id : string
}.

(** Row of [user_module_progress].  [best_score] is the parsed numeric
    column, [None] when null. *)
Record Progress : Type := {
  p_user_id : string;
  p_module_id : string;
  p_best_score : option Q;
  p_status : string;
  p_passed : bool;
  p_needs_remedial : bool
}.

(** An element of [allSessions]: a session row tagged with its
    [session_type]. *)
Record Session : Type := {
  s_id : string;
  s_user_id : string;
  s_module_id : string;
  s_created_at : string;
  s_status : string;
  session_type : string
}.

Record SessionsByType : Type := {
  active_recall : nat;
  pomodoro : nat;
  feynman : nat;
  retrieval_practice : nat
}.

Record MaterialInfo : Type := {
  mi_id : string;
  mi_title : string;
  mi_fileType : string;
  mi_fileSize : Js.json;
  mi_createdAt : string
}.

(** An element of [moduleAnalysis]. *)
Record ModuleAnalysis : Type := {
  ma_id : string;
  ma_title : string;
  ma_description : string;
  ma_orderIndex : Js.json;
  ma_passingThreshold : Js.json;
  ma_availableTechniques : Js.json;
  ma_totalStudents : nat;
  ma_completedStudents : nat;
  ma_averageScore : Js.rounded;
  ma_totalSessions : nat;
  ma_totalMaterials : nat;
  ma_needRemedial : nat;
  ma_sessionsByType : SessionsByType;
  ma_materials : list MaterialInfo
}.

(** The [modules] field of a course: a number or an array. *)
Inductive ModulesField : Type :=
| ModuleCount (n : nat)
| ModuleList (modules : list ModuleAnalysis).

(** An element of [courseAnalysis]. *)
Record CourseAnalysis : Type := {
  ca_id : string;
  ca_title : string;
  ca_description : string;
  ca_status : string;
  ca_createdAt : string;
  totalModules : nat;
  totalMaterials : nat;
  totalStudents : nat;
  totalSessions : nat;
  averageScore : Js.rounded;
  completionRate : Js.rounded;
  modules : ModulesField
}.

(** [parseFloat(p.best_score || '0')] *)
Definition best_score_of (p : Progress) : Q :=
  match p_best_score p with
  | Some q => q
  | None => 0
  end.

(** [rows.length > 0
       ? Math.round(rows.reduce((sum, p) =>
           sum + parseFloat(p.best_score || '0'), 0) / rows.length)
       : 0] *)
Definition average_best_score (rows : list Progress) : Js.rounded :=
  if (0 <? List.length rows)%nat
  then Js.round
         (Js.div (fold_left (fun sum p => Js.add sum (Js.Fin (best_score_of p)))
                            rows (Js.Fin 0))
                 (Js.count (List.length rows)))
  else Js.RInt 0.

(** [rows.length > 0
       ? Math.round((rows.filter(p => p.passed).length / rows.length) * 100)
       : 0] *)
Definition passed_rate (rows : list Progress) : Js.rounded :=
  if (0 <? List.length rows)%nat
  then Js.round
         (Js.mul (Js.div (Js.count (List.length (filter p_passed rows)))
                         (Js.count (List.length rows)))
                 (Js.Fin 100))
  else Js.RInt 0.

Definition count_type (sessions : list Session) (type : string) : nat :=
  List.length (filter (fun s => String.eqb (session_type s) type) sessions).

(** The function mapped over [courseModules] (lines 185-218). *)
Definition analyse_module (courseProgress : list Progress)
           (courseSessions : list Session) (courseMats : list Material)
           (module : Module_) : ModuleAnalysis :=
  let moduleProgress :=
    filter (fun p => String.eqb (p_module_id p) (m_id module)) courseProgress in
  let moduleSessions :=
    filter (fun s => String.eqb (s_module_id s) (m_id module)) courseSessions in
  let moduleMaterials :=
    filter (fun m => String.eqb (mat_module_id m) (m_id module)) courseMats in
  {| ma_id := m_id module;
     ma_title := m_title module;
     ma_description := m_description module;
     ma_orderIndex := m_order_index module;
     ma_passingThreshold := m_passing_threshold module;
     ma_availableTechniques := m_available_techniques module;
     ma_totalStudents := List.length moduleProgress;
     ma_completedStudents :=
       List.length
         (filter (fun p => String.eqb (p_status p) "completed" || p_passed p)
                 moduleProgress);
     ma_averageScore := average_best_score moduleProgress;
     ma_totalSessions := List.length moduleSessions;
     ma_totalMaterials := List.length moduleMaterials;
     ma_needRemedial := List.length (filter p_needs_remedial moduleProgress);
     ma_sessionsByType :=
       {| active_recall := count_type moduleSessions "active_recall";
          pomodoro := count_type moduleSessions "pomodoro";
          feynman := count_type moduleSessions "feynman";
          retrieval_practice := count_type moduleSessions "retrieval_practice" |};
     ma_materials :=
       map (fun mat => {| mi_id := mat_id mat;
                          mi_title := mat_title mat;
                          mi_fileType := mat_file_type mat;
                          mi_fileSize := mat_file_size mat;
                          mi_createdAt := mat_created_at mat |})
           moduleMaterials |}.

(** [rows?.filter(keep) || []] *)
Definition filter_or_empty (A : Type) (keep : A -> bool) (rows : option (list A))
  : list A :=
  match rows with
  | Some l => filter keep l
  | None => []
  end.

(** The function mapped over [instructorCourses] (lines 173-236). *)
Definition analyse_course (includeDetails : Js.json)
           (modules_rows : option (list Module_))
           (courseMaterials : option (list Material))
           (userProgress : option (list Progress))
           (allSessions : list Session) (course : Course) : CourseAnalysis :=
  let courseModules :=
    filter_or_empty (fun m => String.eqb (m_course_id m) (c_id course))
                    modules_rows in
  let in_course (module_id : string) : bool :=
    existsb (fun m => String.eqb (m_id m) module_id) courseModules in
  let courseMats :=
    filter_or_empty (fun m => in_course (mat_module_id m)) courseMaterials in
  let courseProgress :=
    filter_or_empty (fun p => in_course (p_module_id p)) userProgress in
  let courseSessions := filter (fun s => in_course (s_module_id s)) allSessions in
  let moduleAnalysis :=
    map (analyse_module courseProgress courseSessions courseMats) courseModules in
  {| ca_id := c_id course;
     ca_title := c_title course;
     ca_description := c_description course;
     ca_status := c_status course;
     ca_createdAt := c_created_at course;
     totalModules := List.length courseModules;
     totalMaterials := List.length courseMats;
     totalStudents := Js.size (Js.set_of_list (map p_user_id courseProgress));
     totalSessions := List.length courseSessions;
     averageScore := average_best_score courseProgress;
     completionRate := passed_rate courseProgress;
     modules :=
       if Js.truthy includeDetails
       then ModuleList moduleAnalysis
       else ModuleCount (List.length moduleAnalysis) |}.

Definition courseAnalysis (includeDetails : Js.json)
           (instructorCourses : list Course)
           (modules_rows : option (list Module_))
           (courseMaterials : option (list Material))
           (userProgress : option (list Progress))
           (allSessions : list Session) : list CourseAnalysis :=
  map (analyse_course includeDetails modules_rows courseMaterials userProgress
                      allSessions)
      instructorCourses.

End ExportReport.

(* ================================================================== *)
(** * [export-report/route.ts]: the handler *)
(* ================================================================== *)

(** The [POST] handler around [ExportReport.courseAnalysis]: the
    queries, the summary (lines 239-257), the student progress report
    (lines 309-355) and the choice of the exported data by
    [exportType]. *)
Module ExportHandler.

(** ** Request and store *)

(** The request: the header [X-User-ID] and the body.  [exportType]
    and [timeRange] are [None] when the field is absent or not a
    string. *)
Record Request : Type := {
  x_user_id : option string;
  exportType : option string;
  timeRange : option string;
  includeCharts : Js.json;
  includeDetails : Js.json
}.

(** Row of [course_materials] joined with the course of its module. *)
Record MaterialRow : Type := {
  material : ExportReport.Material;
  material_course_id : string
}.

(** Row of [user_module_progress] joined with its module and course. *)
Record ProgressRow : Type := {
  progress : ExportReport.Progress;
  course_id : string;
  module_title : string;
  latest_score : option Q;
  attempt_count : option Z;
  completed_at : option string;
  last_attempt_at : option string;
  first_attempt_at : option string
}.

(** Row of [users] as the student report reads it. *)
Record StudentRow : Type := {
  student : User;
  last_login : option string;
  created_at : string
}.

(** The tables; [modules] is listed by ascending [order_index]. *)
Record Store : Type := {
  accounts : Accounts;
  modules : option (list ExportReport.Module_);
  course_materials : option (list MaterialRow);
  user_module_progress : option (list ProgressRow);
  users : option (list StudentRow);
  sessions : StudyTechniques.Store
}.

(** ** The queries *)

(** Lines 84-98. *)
Definition fetch_modules (db : Store) (courseIds : list string)
  : option (list ExportReport.Module_) :=
  match modules db with
  | Some rows =>
      Some (filter (fun m => in_ids courseIds (ExportReport.m_course_id m)) rows)
  | None => None
  end.

(** Lines 100-115. *)
Definition fetch_materials (db : Store) (courseIds : list string)
  : option (list ExportReport.Material) :=
  match course_materials db with
  | Some rows =>
      Some (map material
                (filter (fun m => in_ids courseIds (material_course_id m)) rows))
  | None => None
  end.

(** Lines 118-139 and 284-307: the rows of [studentIds] in the courses
    [courseIds]. *)
Definition fetch_progress (db : Store) (studentIds courseIds : list string)
  : option (list ProgressRow) :=
  match user_module_progress db with
  | Some rows =>
      Some (filter (fun p => in_ids studentIds
                                    (ExportReport.p_user_id (progress p))
                             && in_ids courseIds (course_id p))
                   rows)
  | None => None
  end.

(** Lines 278-281. *)
Definition fetch_students (db : Store) (studentIds : list string)
  : option (list StudentRow) :=
  match users db with
  | Some rows => Some (filter (fun u => in_ids studentIds (u_id (student u))) rows)
  | None => None
  end.

(** ** The sessions (lines 142-170) *)

(** [{...s, session_type: type}] *)
Definition tag (type : string) (s : StudyTechniques.Session)
  : ExportReport.Session :=
  {| ExportReport.s_id := StudyTechniques.session_id s;
     ExportReport.s_user_id := StudyTechniques.user_id s;
     ExportReport.s_module_id := StudyTechniques.module_id s;
     ExportReport.s_created_at := StudyTechniques.created_at s;
     ExportReport.s_status := StudyTechniques.status s;
     ExportReport.session_type := type |}.

Definition allSessions (activeRecallSessions pomodoroSessions feynmanSessions
                        retrievalSessions : list StudyTechniques.Session)
  : list ExportReport.Session :=
  map (tag "active_recall") activeRecallSessions
  ++ map (tag "pomodoro") pomodoroSessions
  ++ map (tag "feynman") feynmanSessions
  ++ map (tag "retrieval_practice") retrievalSessions.

(** ** The summary (lines 239-257) *)

Record Summary : Type := {
  totalCourses : nat;
  activeCourses : nat;
  totalModules : nat;
  totalMaterials : nat;
  totalStudents : nat;
  totalSessions : nat;
  completedSessions : nat;
  averageScoreAcrossCourses : Js.rounded;
  averageCompletionRate : Js.rounded;
  sessionsByType : ExportReport.SessionsByType
}.

(** [sum + r] for a value [r] of [Math.round]. *)
Definition add_rounded (sum : Js.num) (r : Js.rounded) : Js.num :=
  Js.add sum (Js.of_rounded r).

(** [a / n] for a count [n]. *)
Definition div_count (a : Js.num) (n : nat) : Js.num :=
  Js.div a (Js.count n).

(** [l.length > 0
       ? Math.round(l.reduce((sum, c) => sum + field(c), 0) / l.length)
       : 0] *)
Definition average_across (field : ExportReport.CourseAnalysis -> Js.rounded)
           (courseAnalysis : list ExportReport.CourseAnalysis) : Js.rounded :=
  if (0 <? List.length courseAnalysis)%nat
  then Js.round
         (div_count (fold_left (fun sum c => add_rounded sum (field c))
                               courseAnalysis (Js.Fin 0))
                    (List.length courseAnalysis))
  else Js.RInt 0.

Definition summary (instructorCourses : list Course)
           (modules_rows : option (list ExportReport.Module_))
           (courseMaterials : option (list ExportReport.Material))
           (studentIds : list string)
           (sessions : list ExportReport.Session)
           (courseAnalysis : list ExportReport.CourseAnalysis) : Summary :=
  {| totalCourses := List.length instructorCourses;
     activeCourses :=
       List.length (filter (fun c => String.eqb (c_status c) "active")
                           instructorCourses);
     totalModules := match modules_rows with Some l => List.length l | None => 0 end;
     totalMaterials :=
       match courseMaterials with Some l => List.length l | None => 0 end;
     totalStudents := List.length studentIds;
     totalSessions := List.length sessions;
     completedSessions :=
       List.length (filter (fun s => String.eqb (ExportReport.s_status s)
                                                "completed")
                           sessions);
     averageScoreAcrossCourses :=
       average_across ExportReport.averageScore courseAnalysis;
     averageCompletionRate :=
       average_across ExportReport.completionRate courseAnalysis;
     sessionsByType :=
       {| ExportReport.active_recall :=
            ExportReport.count_type sessions "active_recall";
          ExportReport.pomodoro := ExportReport.count_type sessions "pomodoro";
          ExportReport.feynman := ExportReport.count_type sessions "feynman";
          ExportReport.retrieval_practice :=
            ExportReport.count_type sessions "retrieval_practice" |} |}.

(** ** The student progress report (lines 309-355) *)

Record ModuleDetail : Type := {
  md_moduleId : string;
  md_moduleTitle : string;
  md_bestScore : Q;
  md_latestScore : Q;
  md_status : string;
  md_passed : bool;
  md_attemptCount : option Z;
  md_needsRemedial : bool;
  md_completedAt : option string;
  md_lastAttemptAt : option string;
  md_firstAttemptAt : option string
}.

Record CourseProgress : Type := {
  cp_courseId : string;
  cp_courseTitle : string;
  cp_totalModules : nat;
  cp_completedModules : nat;
  cp_averageScore : Js.rounded;
  cp_needRemedial : nat;
  cp_moduleDetails : list ModuleDetail
}.

Record OverallProgress : Type := {
  op_totalModules : nat;
  op_completedModules : nat;
  op_averageScore : Js.rounded;
  op_needRemedial : nat;
  op_totalAttempts : Js.num
}.

Record StudentReport : Type := {
  sr_studentId : string;
  sr_studentName : option string;
  sr_studentEmail : string;
  sr_lastLogin : option string;
  sr_enrolledSince : string;
  sr_overallProgress : OverallProgress;
  sr_courseProgress : list CourseProgress
}.

(** [p.status === 'completed' || p.passed] *)
Definition is_completed (p : ProgressRow) : bool :=
  String.eqb (ExportReport.p_status (progress p)) "completed"
  || ExportReport.p_passed (progress p).

(** [parseFloat(score || '0')] *)
Definition score (s : option Q) : Q :=
  match s with Some q => q | None => 0 end.

Definition module_detail (p : ProgressRow) : ModuleDetail :=
  {| md_moduleId := ExportReport.p_module_id (progress p);
     md_moduleTitle := module_title p;
     md_bestScore := score (ExportReport.p_best_score (progress p));
     md_latestScore := score (latest_score p);
     md_status := ExportReport.p_status (progress p);
     md_passed := ExportReport.p_passed (progress p);
     md_attemptCount := attempt_count p;
     md_needsRemedial := ExportReport.p_needs_remedial (progress p);
     md_completedAt := completed_at p;
     md_lastAttemptAt := last_attempt_at p;
     md_firstAttemptAt := first_attempt_at p |}.

(** The function mapped over [instructorCourses] for one student. *)
Definition course_progress (includeDetails : Js.json)
           (studentProgress : list ProgressRow) (course : Course)
  : CourseProgress :=
  let courseModuleProgress :=
    filter (fun p => String.eqb (course_id p) (c_id course)) studentProgress in
  {| cp_courseId := c_id course;
     cp_courseTitle := c_title course;
     cp_totalModules := List.length courseModuleProgress;
     cp_completedModules := List.length (filter is_completed courseModuleProgress);
     cp_averageScore :=
       ExportReport.average_best_score (map progress courseModuleProgress);
     cp_needRemedial :=
       List.length (filter (fun p => ExportReport.p_needs_remedial (progress p))
                           courseModuleProgress);
     cp_moduleDetails :=
       if Js.truthy includeDetails
       then map module_detail courseModuleProgress
       else [] |}.

(** The function mapped over [studentsInfo || []]. *)
Definition student_report (includeDetails : Js.json)
           (instructorCourses : list Course)
           (detailedProgress : option (list ProgressRow)) (row : StudentRow)
  : StudentReport :=
  let studentProgress :=
    match detailedProgress with
    | Some rows =>
        filter (fun p => String.eqb (ExportReport.p_user_id (progress p))
                                    (u_id (student row)))
               rows
    | None => []
    end in
  {| sr_studentId := u_id (student row);
     sr_studentName := u_name (student row);
     sr_studentEmail := u_email (student row);
     sr_lastLogin := last_login row;
     sr_enrolledSince := created_at row;
     sr_overallProgress :=
       {| op_totalModules := List.length studentProgress;
          op_completedModules := List.length (filter is_completed studentProgress);
          op_averageScore :=
            ExportReport.average_best_score (map progress studentProgress);
          op_needRemedial :=
            List.length
              (filter (fun p => ExportReport.p_needs_remedial (progress p))
                      studentProgress);
          op_totalAttempts :=
            fold_left (fun sum p =>
                         Js.add sum (Js.Fin (inject_Z match attempt_count p with
                                                      | Some z => z
                                                      | None => 0%Z
                                                      end)))
                      studentProgress (Js.Fin 0) |};
     sr_courseProgress :=
       map (course_progress includeDetails studentProgress) instructorCourses |}.

Definition studentProgressReport (includeDetails : Js.json)
           (instructorCourses : list Course)
           (studentsInfo : option (list StudentRow))
           (detailedProgress : option (list ProgressRow)) : list StudentReport :=
  map (student_report includeDetails instructorCourses detailedProgress)
      (match studentsInfo with Some rows => rows | None => [] end).

(** ** The exported data *)

(** The part written when [exportType] is ['comprehensive'] or
    ['overview']. *)
Record Overview : Type := {
  ov_summary : Summary;
  ov_courses : list ExportReport.CourseAnalysis;
  ov_generatedAt : string;
  ov_instructor : option string;
  ov_instructorEmail : string;
  ov_timeRange : option string;
  ov_startDate : string;
  ov_endDate : string;
  ov_exportType : option string;
  ov_includeCharts : Js.json;
  ov_includeDetails : Js.json
}.

(** The object written when [exportType] is ['student-progress']. *)
Record StudentExport : Type := {
  se_students : list StudentReport;
  se_generatedAt : string;
  se_instructor : option string;
  se_timeRange : option string;
  se_totalStudents : nat;
  se_exportType : option string;
  se_includeDetails : Js.json
}.

(** [exportData]: the literal of lines 56-62, [{}], the overview with
    or without [studentProgress], or the student export. *)
Inductive ExportData : Type :=
| NoCourses (summary : string) (generatedAt : string)
            (instructor : option string) (timeRange : option string)
| Nothing
| Overall (overview : Overview) (studentProgress : option (list StudentReport))
| Students (export : StudentExport).

(** [data] of the response. *)
Record Data : Type := {
  exportData : ExportData;
  (** [downloadUrl] is always [null] *)
  generatedAt : string
}.

(** [exportType === a] *)
Definition equals (type : option string) (a : string) : bool :=
  match type with
  | Some t => String.eqb t a
  | None => false
  end.

(** [exportType === a || exportType === b] *)
Definition is_one_of (type : option string) (a b : string) : bool :=
  equals type a || equals type b.

(** The handler.  [toISOString] is [Date.prototype.toISOString] on an
    instant; the clock is read at [now].  The error of the remote
    procedure is not read. *)
Definition POST (cal : Js.Calendar) (toISOString : Z -> string) (db : Store)
           (now : Z) (request : Request) : Response Data :=
  match Js.truthy_string (x_user_id request) with
  | None => Failure 401 "Authentication required"
  | Some userId =>
      match single_user (users_table (accounts db)) userId with
      | None => Failure 403 "Access denied. Instructor role required."
      | Some userProfile =>
          if negb (String.eqb (u_role userProfile) "instructor")
          then Failure 403 "Access denied. Instructor role required."
          else
            let start :=
              startDate cal now
                        (match timeRange request with Some r => r | None => "" end) in
            let instructorCourses :=
              match courses_table (accounts db) with
              | Some rows =>
                  filter (fun c => String.eqb (c_instructor_id c) userId) rows
              | None => []
              end in
            match instructorCourses with
            | [] =>
                Success
                  {| exportData :=
                       NoCourses "No courses found for this instructor"
                                 (toISOString now) (u_name userProfile)
                                 (timeRange request);
                     generatedAt := toISOString now |}
            | _ :: _ =>
                let courseIds := map c_id instructorCourses in
                let studentIds :=
                  match rpc_data (get_instructor_enrolled_students
                                    (accounts db) userId) with
                  | Some ids => ids
                  | None => []
                  end in
                let overview :=
                  if is_one_of (exportType request) "comprehensive" "overview"
                  then
                    let modules_rows := fetch_modules db courseIds in
                    let courseMaterials := fetch_materials db courseIds in
                    let userProgress :=
                      option_map (map progress)
                                 (fetch_progress db studentIds courseIds) in
                    let fetched table :=
                      StudyTechniques.fetch_sessions cal (table (sessions db))
                                                     studentIds start in
                    let all :=
                      allSessions
                        (fetched StudyTechniques.active_recall_sessions)
                        (fetched StudyTechniques.pomodoro_sessions)
                        (fetched StudyTechniques.feynman_sessions)
                        (fetched StudyTechniques.retrieval_practice_sessions) in
                    let courseAnalysis :=
                      ExportReport.courseAnalysis
                        (includeDetails request) instructorCourses modules_rows
                        courseMaterials userProgress all in
                    Some {| ov_summary :=
                              summary instructorCourses modules_rows
                                      courseMaterials studentIds all
                                      courseAnalysis;
                            ov_courses := courseAnalysis;
                            ov_generatedAt := toISOString now;
                            ov_instructor := u_name userProfile;
                            ov_instructorEmail := u_id userProfile;
                            ov_timeRange := timeRange request;
                            ov_startDate := toISOString start;
                            ov_endDate := toISOString now;
                            ov_exportType := exportType request;
                            ov_includeCharts := includeCharts request;
                            ov_includeDetails := includeDetails request |}
                  else None in
                let report :=
                  if is_one_of (exportType request) "student-progress"
                               "comprehensive"
                  then
                    Some (studentProgressReport
                            (includeDetails request) instructorCourses
                            (fetch_students db studentIds)
                            (fetch_progress db studentIds courseIds))
                  else None in
                Success
                  {| exportData :=
                       match report with
                       | Some students =>
                           if equals (exportType request) "student-progress"
                           then
                             Students
                               {| se_students := students;
                                  se_generatedAt := toISOString now;
                                  se_instructor := u_name userProfile;
                                  se_timeRange := timeRange request;
                                  se_totalStudents := List.length students;
                                  se_exportType := exportType request;
                                  se_includeDetails := includeDetails request |}
                           else
                             match overview with
                             | Some o => Overall o (Some students)
                             | None => Nothing
                             end
                       | None =>
                           match overview with
                           | Some o => Overall o None
                           | None => Nothing
                           end
                       end;
                     generatedAt := toISOString now |}
            end
      end
  end.

End ExportHandler.

(* ================================================================== *)
(** * [lib/auth-utils.ts] *)
(* ================================================================== *)

(** The client side of the header [X-User-ID]: the functions that build
    the headers of a request, check the role of the user and word an
    authentication error. *)
Module AuthUtils.

(** The session returned by [supabase.auth.getSession()]:
    [session.access_token] and [session.user?.id]. *)
Record Session : Type := {
  access_token : option string;
  user_id : option string
}.

(** The outcome of a call: a value, or an [Error] thrown with its
    message. *)
Inductive Outcome (A : Type) : Type :=
| Returned (value : A)
| Thrown (message : string).

Arguments Returned {A} value.
Arguments Thrown {A} message.

(** [getAuthenticatedHeaders] (lines 11-36); [sessionError] tells
    whether [getSession] reported an error, and the [catch] throws the
    error again. *)
Definition getAuthenticatedHeaders (sessionError : bool)
           (session : option Session) : Outcome (JsObject.t string) :=
  if sessionError then Thrown "Failed to get authentication session"
  else
    match session with
    | Some s =>
        match Js.truthy_string (access_token s), Js.truthy_string (user_id s) with
        | Some token, Some id =>
            Returned [ ("Content-Type", "application/json");
                       ("Authorization", "Bearer " ++ token);
                       ("X-User-ID", id) ]%string
        | _, _ => Thrown "No active authentication session"
        end
    | None => Thrown "No active authentication session"
    end.

Record AuthCheck : Type := {
  isAuthenticated : bool;
  (** the profile row, when the check returns it as [user] *)
  profile : option User;
  hasRequiredRole : bool
}.

(** [checkAuthAndRole] (lines 66-114).  [session_user] is
    [session?.user?.id], [None] when there is no session or no user;
    [users] is the table read by the profile query.  ['' ] as a
    required role is falsy and requires nothing. *)
Definition checkAuthAndRole (requiredRole : option string) (sessionError : bool)
           (session_user : option string) (users : option (list User))
  : AuthCheck :=
  if sessionError then
    {| isAuthenticated := false; profile := None; hasRequiredRole := false |}
  else
    match session_user with
    | None =>
        {| isAuthenticated := false; profile := None; hasRequiredRole := false |}
    | Some id =>
        match single_user users id with
        | None =>
            {| isAuthenticated := true; profile := None;
               hasRequiredRole := false |}
        | Some userProfile =>
            {| isAuthenticated := true;
               profile := Some userProfile;
               hasRequiredRole :=
                 match Js.truthy_string requiredRole with
                 | Some role => String.eqb (u_role userProfile) role
                 | None => true
                 end |}
        end
    end.

(** [s.includes(sub)] *)
Fixpoint includes (sub s : string) : bool :=
  String.prefix sub s
  || match s with
     | EmptyString => false
     | String _ rest => includes sub rest
     end.

(** [handleAuthError] (lines 119-133); [message] is [error.message],
    [None] when the error has none. *)
Definition handleAuthError (message : option string) : string :=
  let mentions (text : string) : bool :=
    match message with
    | Some m => includes text m
    | None => false
    end in
  if mentions "No active authentication session"%string then
    "Please log in to access this feature"
  else if mentions "Failed to get authentication session"%string then
    "Authentication session expired. Please log in again"
  else if mentions "timeout"%string then
    "Connection timeout. Please check your network and try again"
  else
    match Js.truthy_string message with
    | Some m => m
    | None => "Authentication error occurred"
    end.

End AuthUtils.

(* ================================================================== *)
(** * A calendar for the examples: a process running in UTC *)
(* ================================================================== *)

Module Utc.

Definition ms_per_day : Z := 86400000.

(** Year, month and day of a day number counted from 1970-01-01. *)
Definition civil_from_days (day : Z) : Z * Z * Z :=
  let z := (day + 719468)%Z in
  let era := (z / 146097)%Z in
  let doe := (z - era * 146097)%Z in
  let yoe := ((doe - doe / 1460 + doe / 36524 - doe / 146096) / 365)%Z in
  let doy := (doe - (365 * yoe + yoe / 4 - yoe / 100))%Z in
  let mp := ((5 * doy + 2) / 153)%Z in
  let d := (doy - (153 * mp + 2) / 5 + 1)%Z in
  let m := (if mp <? 10 then mp + 3 else mp - 9)%Z in
  let y := (yoe + era * 400)%Z in
  ((if m <=? 2 then y + 1 else y)%Z, m, d).

Definition days_from_civil (year month day : Z) : Z :=
  let y := (if month <=? 2 then year - 1 else year)%Z in
  let era := (y / 400)%Z in
  let yoe := (y - era * 400)%Z in
  let mp := (if 2 <? month then month - 3 else month + 9)%Z in
  let doy := ((153 * mp + 2) / 5 + day - 1)%Z in
  let doe := (yoe * 365 + yoe / 4 - yoe / 100 + doy)%Z in
  (era * 146097 + doe - 719468)%Z.

Definition pad (width : nat) (z : Z) : string :=
  let digits := Js.Z_to_string z in
  (string_of_list_ascii
     (List.repeat "0"%char (width - String.length digits)) ++ digits)%string.

(** [YYYY-MM-DD] for the day number [day]. *)
Definition date_string (day : Z) : string :=
  let '(y, m, d) := civil_from_days day in
  (pad 4 y ++ "-" ++ pad 2 m ++ "-" ++ pad 2 d)%string.

Definition iso_date (t : Z) : string := date_string (t / ms_per_day).

Definition add_days (t n : Z) : Z := (t + n * ms_per_day)%Z.

(** The day of the month is kept and overflows into the next month. *)
Definition add_months (t n : Z) : Z :=
  let '(y, m, d) := civil_from_days (t / ms_per_day) in
  let months := (y * 12 + (m - 1) + n)%Z in
  ((days_from_civil (months / 12) (months mod 12 + 1) 1 + (d - 1)) * ms_per_day
   + t mod ms_per_day)%Z.

Definition number_at (s : string) (start len : nat) : option Z :=
  let part := substring start len s in
  if (String.length part =? len)%nat
  then option_map Z.of_N (JsObject.digits_value part 0)
  else None.

(** The text after the first [n] characters. *)
Definition after (n : nat) (s : string) : string :=
  substring n (String.length s - n) s.

Fixpoint skip_digits (s : string) : string :=
  match s with
  | String c rest => if JsObject.is_digit c then skip_digits rest else s
  | EmptyString => EmptyString
  end.

(** The milliseconds that the digits of a fraction of a second stand
    for; digits after the third are dropped. *)
Fixpoint milliseconds (s : string) (place : Z) : Z :=
  match s with
  | String c rest =>
      if JsObject.is_digit c
      then ((Z.of_N (N_of_ascii c) - 48) * place
            + milliseconds rest (place / 10))%Z
      else 0%Z
  | EmptyString => 0%Z
  end.

(** The offset that a zone designator stands for, in milliseconds:
    nothing (local time), [Z], [+HH:MM] or [-HH:MM]. *)
Definition zone (s : string) : option (option Z) :=
  if String.eqb s "" then Some None
  else if String.eqb s "Z" then Some (Some 0%Z)
  else if (String.length s =? 6)%nat && String.eqb (substring 3 1 s) ":" then
    match number_at s 1 2, number_at s 4 2 with
    | Some h, Some m =>
        let minutes := (h * 60 + m)%Z in
        if String.eqb (substring 0 1 s) "+"
        then Some (Some (minutes * 60000)%Z)
        else if String.eqb (substring 0 1 s) "-"
        then Some (Some (- minutes * 60000)%Z)
        else None
    | _, _ => None
    end
  else None.

(** Reads the date-time forms in which the store prints its
    timestamps: [YYYY-MM-DDTHH:MM:SS], an optional fraction of a second
    and an optional zone designator, and the date alone, which stands
    for midnight in UTC.  The result is the civil time in milliseconds
    and the offset of the zone, if any.  Texts of another form are not
    described: they are read as invalid dates. *)
Definition parse (s : string) : option (Z * option Z) :=
  if (String.length s =? 10)%nat
     && String.eqb (substring 4 1 s) "-" && String.eqb (substring 7 1 s) "-"
  then
    match number_at s 0 4, number_at s 5 2, number_at s 8 2 with
    | Some y, Some mo, Some d =>
        Some ((days_from_civil y mo d * 86400000)%Z, Some 0%Z)
    | _, _, _ => None
    end
  else
  if String.eqb (substring 4 1 s) "-" && String.eqb (substring 7 1 s) "-"
     && String.eqb (substring 10 1 s) "T" && String.eqb (substring 13 1 s) ":"
     && String.eqb (substring 16 1 s) ":"
  then
    match number_at s 0 4, number_at s 5 2, number_at s 8 2,
          number_at s 11 2, number_at s 14 2, number_at s 17 2 with
    | Some y, Some mo, Some d, Some h, Some mi, Some se =>
        let seconds :=
          (days_from_civil y mo d * 86400 + h * 3600 + mi * 60 + se)%Z in
        let rest := after 19 s in
        let fraction := String.eqb (substring 0 1 rest) "." in
        let digits := if fraction then after 1 rest else ""%string in
        let designator := if fraction then skip_digits digits else rest in
        if fraction && String.eqb digits designator then None
        else
          match zone designator with
          | Some offset =>
              Some ((seconds * 1000 + milliseconds digits 100)%Z, offset)
          | None => None
          end
    | _, _, _, _, _, _ => None
    end
  else None.

(** [new Date(s).getTime()] in a process running in UTC. *)
Definition get_time (s : string) : option Z :=
  match parse s with
  | Some (t, Some offset) => Some (t - offset)%Z
  | Some (t, None) => Some t
  | None => None
  end.

Definition calendar : Js.Calendar :=
  {| Js.add_days := add_days;
     Js.add_months := add_months;
     Js.iso_date := iso_date;
     Js.get_time := get_time |}.

End Utc.

(* ================================================================== *)
(** * A process running in New York *)
(* ================================================================== *)

(** The zone America/New_York between November 2024 and November 2025:
    five hours behind UTC until 2025-03-09T07:00:00Z, four hours from
    then on.  [setDate] and [setMonth] change the local date and keep
    the local time of day; [toISOString] prints the date in UTC. *)
Module NewYork.

Definition hour : Z := 3600000.

(** 2025-03-09T07:00:00Z *)
Definition spring_forward : Z :=
  (Utc.days_from_civil 2025 3 9 * Utc.ms_per_day + 7 * hour)%Z.

(** The local time of an instant, as milliseconds of the civil
    calendar. *)
Definition to_local (t : Z) : Z :=
  if (t <? spring_forward)%Z then (t - 5 * hour)%Z else (t - 4 * hour)%Z.

(** The instant of a local time; a local time skipped by the change is
    read with the offset before it. *)
Definition of_local (l : Z) : Z :=
  if (spring_forward <=? l + 4 * hour)%Z then (l + 4 * hour)%Z
  else (l + 5 * hour)%Z.

Definition add_days (t n : Z) : Z := of_local (Utc.add_days (to_local t) n).

Definition add_months (t n : Z) : Z := of_local (Utc.add_months (to_local t) n).

Definition get_time (s : string) : option Z :=
  match Utc.parse s with
  | Some (t, Some offset) => Some (t - offset)%Z
  | Some (t, None) => Some (of_local t)
  | None => None
  end.

Definition calendar : Js.Calendar :=
  {| Js.add_days := add_days;
     Js.add_months := add_months;
     Js.iso_date := Utc.iso_date;
     Js.get_time := get_time |}.

End NewYork.

Unset Implicit Arguments.

(* ================================================================== *)
(** * Vocabulary of the statements *)
(* ================================================================== *)

(** [a] may stay in front of [b] under the comparator. *)
Definition keeps_order {A : Type} (cmp : A -> A -> Z) (a b : A) : Prop :=
  (cmp a b <= 0)%Z.

(** A comparator that orders its arguments consistently. *)
Record consistent {A : Type} (cmp : A -> A -> Z) : Prop := {
  cmp_total : forall a b, (0 < cmp a b)%Z -> (cmp b a <= 0)%Z;
  cmp_trans : forall a b c,
      (cmp a b <= 0)%Z -> (cmp b c <= 0)%Z -> (cmp a c <= 0)%Z
}.

(** The own keys of an object, in creation order. *)
Definition keys {B : Type} (o : JsObject.t B) : list string := map fst o.

(** The elements of [l] that carry the key [k]. *)
Definition with_key {A : Type} (key : A -> string) (k : string) (l : list A)
  : list A :=
  filter (fun a => String.eqb (key a) k) l.

(** The object built by the accumulation idiom over [l]. *)
Definition accumulate {A B : Type} (key : A -> string) (init : A -> B)
           (upd : B -> A -> B) (l : list A) : JsObject.t B :=
  fold_left (JsObject.upsert key init upd) l (JsObject.empty B).

(** [a.reduce((x, y) => x + y, 0) / a.length] as the runtime computes
    it, every sum and the quotient rounded to a double; [0] for an empty
    array. *)
Definition mean (l : list Q) : Js.num :=
  if (0 <? List.length l)%nat
  then Js.div (Js.sum l) (Js.count (List.length l))
  else Js.Fin 0.

(** The unrounded percentage [(count / total) * 100] as the runtime
    computes it: the quotient rounded to a double, then the product. *)
Definition percentage (count total : nat) : Js.num :=
  Js.mul (Js.div (Js.count count) (Js.count total)) (Js.Fin 100).

(** A number that is not negative: a finite one from zero on, or
    [+Infinity]; and the same for a value of [Math.round]. *)
Definition nonnegative (a : Js.num) : Prop :=
  match a with
  | Js.Fin q => 0 <= q
  | Js.Inf s => s = true
  | Js.NaN => False
  end.

Definition rounded_nonnegative (r : Js.rounded) : Prop :=
  match r with
  | Js.RInt z => (0 <= z)%Z
  | Js.RInf s => s = true
  | Js.RNaN => False
  end.

(** The recommendations carried by a session, none when the column is
    null. *)
Definition recommendations_of (s : AiInsights.AnalyticsRow)
  : list AiInsights.Recommendation :=
  match AiInsights.recommendations s with
  | Some recs => recs
  | None => []
  end.

(** The sessions of a student, and the recommendations they carry, in
    the order of [analyticsData]. *)
Definition sessions_of (userId : string) (analyticsData : list AiInsights.AnalyticsRow)
  : list AiInsights.AnalyticsRow :=
  with_key AiInsights.user_id userId analyticsData.

Definition student_recommendations (userId : string)
           (analyticsData : list AiInsights.AnalyticsRow)
  : list AiInsights.Recommendation :=
  flat_map recommendations_of (sessions_of userId analyticsData).

(** Position of a level in the fixed order urgent, high, medium. *)
Definition level_rank (l : AiInsights.InterventionLevel) : Z :=
  match l with
  | AiInsights.LevelUrgent => 0
  | AiInsights.LevelHigh => 1
  | AiInsights.LevelMedium => 2
  | AiInsights.LevelNone => 3
  end.

Definition level_order (a b : AiInsights.StudentIntervention) : Prop :=
  (level_rank (AiInsights.si_interventionLevel a)
   <= level_rank (AiInsights.si_interventionLevel b))%Z.

(** On interventions, whose level is never ['none'], the comparator of
    line 317 is the difference of the ranks. *)
Definition by_rank (a b : AiInsights.StudentIntervention) : Z :=
  (level_rank (AiInsights.si_interventionLevel a)
   - level_rank (AiInsights.si_interventionLevel b))%Z.

(** All recommendation occurrences of the input, in the order in which
    the nested loops visit them. *)
Definition occurrences (analyticsData : list AiInsights.AnalyticsRow)
  : list AiInsights.Occurrence :=
  flat_map (fun s => map (pair (AiInsights.user_id s)) (recommendations_of s))
           analyticsData.

(** The occurrences that share the key [k]. *)
Definition group_of (k : string) (analyticsData : list AiInsights.AnalyticsRow)
  : list AiInsights.Occurrence :=
  with_key AiInsights.occ_key k (occurrences analyticsData).

(** The confidence counted for an occurrence
    ([rec.confidence_score || 0.7]). *)
Definition confidence_of (o : AiInsights.Occurrence) : Q :=
  Js.or_Q (AiInsights.confidence_score (snd o)) (Js.nearest (7 # 10)).

(** The order of the final list: ascending priority, then descending
    frequency. *)
Definition rank_order (a b : AiInsights.TeachingRecommendation) : Prop :=
  (AiInsights.tr_priority a < AiInsights.tr_priority b)%Z \/
  (AiInsights.tr_priority a = AiInsights.tr_priority b /\
   (AiInsights.tr_frequency b <= AiInsights.tr_frequency a)%nat).

(** The deduplication as the specification words it.
    Groups are the classes of the pair (type, title); the frequency of
    a group is the number of its occurrences, its student count the
    number of distinct students among them, and its confidence the mean
    of their scores, an absent score counting as 0.7. *)
Definition same_type_and_title (g : AiInsights.RecGroup)
           (o : AiInsights.Occurrence) : bool :=
  String.eqb (AiInsights.rec_type (snd o)) (AiInsights.g_type g)
  && String.eqb (AiInsights.rec_title (snd o)) (AiInsights.g_title g).

Definition stated_confidence (o : AiInsights.Occurrence) : Q :=
  match AiInsights.confidence_score (snd o) with
  | Some q => q
  | None => Js.nearest (7 # 10)
  end.

Definition groups_by_type_and_title
           (analyticsData : list AiInsights.AnalyticsRow) : Prop :=
  forall k g,
    JsObject.get (AiInsights.recommendationCounts analyticsData) k = Some g ->
    let class := filter (same_type_and_title g) (occurrences analyticsData) in
    AiInsights.frequency g = List.length class /\
    Js.size (AiInsights.affectedStudents g)
      = Js.size (Js.set_of_list (map fst class)) /\
    AiInsights.avgConfidence g = mean (map stated_confidence class).

(** An authenticated instructor who has at least one course and for
    whom the remote procedure reports no error and no student. *)
Definition instructor_without_students (acc : Accounts) (request : Request)
  : Prop :=
  exists userId profile rows course,
    Js.truthy_string (x_user_id request) = Some userId /\
    single_user (users_table acc) userId = Some profile /\
    u_role profile = "instructor"%string /\
    courses_table acc = Some rows /\
    In course rows /\
    c_instructor_id course = userId /\
    rpc_error (get_instructor_enrolled_students acc userId) = false /\
    (rpc_data (get_instructor_enrolled_students acc userId) = None \/
     rpc_data (get_instructor_enrolled_students acc userId) = Some []).

(** The module rows of a course, and the progress rows that refer to
    one of them. *)
Definition course_modules (modules_rows : option (list ExportReport.Module_))
           (course : Course) : list ExportReport.Module_ :=
  ExportReport.filter_or_empty
    (fun m => String.eqb (ExportReport.m_course_id m) (c_id course))
    modules_rows.

Definition course_progress (modules_rows : option (list ExportReport.Module_))
           (userProgress : option (list ExportReport.Progress))
           (course : Course) : list ExportReport.Progress :=
  ExportReport.filter_or_empty
    (fun p => existsb (fun m => String.eqb (ExportReport.m_id m)
                                           (ExportReport.p_module_id p))
                      (course_modules modules_rows course))
    userProgress.

(** The caller named by the request is an instructor: the header is
    present, exactly one row of [users] has this id, and its role is
    ['instructor']. *)
Definition authorized_instructor (acc : Accounts) (request : Request)
           (userId : string) : Prop :=
  Js.truthy_string (x_user_id request) = Some userId /\
  exists rows profile,
    users_table acc = Some rows /\
    filter (fun u => String.eqb (u_id u) userId) rows = [profile] /\
    u_role profile = "instructor"%string.

(** The courses of an instructor, as the handlers select them. *)
Definition courses_of (acc : Accounts) (userId : string) : list Course :=
  match courses_table acc with
  | Some rows => filter (fun c => String.eqb (c_instructor_id c) userId) rows
  | None => []
  end.

(** The sum of a measure over the values of an object. *)
Definition total_of {B : Type} (measure : B -> nat) (o : list (string * B)) : nat :=
  list_sum (map (fun e => measure (snd e)) o).

(** The students the remote procedure returns for an instructor, none
    when it returns no data. *)
Definition enrolled (acc : Accounts) (userId : string) : list string :=
  match rpc_data (get_instructor_enrolled_students acc userId) with
  | Some ids => ids
  | None => []
  end.

(** What makes [ai-insights-detailed] throw for an instructor with
    students: among the analytics rows it fetches, which are not empty,
    one has a pattern type that names a member of [Object.prototype],
    or a fetched feedback row has a type that does. *)
Definition insights_thrown (cal : Js.Calendar) (db : AiInsights.Store)
           (now : Z) (request : Request) (userId : string) : Prop :=
  let start := startDate cal now (timeRange_of request) in
  enrolled (AiInsights.accounts db) userId <> [] /\
  exists analyticsData,
    AiInsights.fetch_analytics cal db (enrolled (AiInsights.accounts db) userId)
                               start
      = Some analyticsData /\
    analyticsData <> [] /\
    ((exists s pattern,
         In s analyticsData /\ AiInsights.pattern_of s = Some pattern /\
         In pattern JsPrototype.members) \/
     (exists rows f,
         AiInsights.fetch_feedback cal db start = Some rows /\ In f rows /\
         In (AiInsights.feedback_type f) JsPrototype.members)).

(** What makes [study-techniques-detailed] throw for an instructor with
    students: a fetched analytics item has a session type that names a
    member of [Object.prototype]. *)
Definition techniques_thrown (cal : Js.Calendar) (db : StudyTechniques.Store)
           (now : Z) (request : Request) (userId : string) : Prop :=
  let start := startDate cal now (timeRange_of request) in
  enrolled (StudyTechniques.accounts db) userId <> [] /\
  exists items item,
    StudyTechniques.fetch_analytics
      cal db (enrolled (StudyTechniques.accounts db) userId) start
      = Some items /\
    In item items /\
    In (StudyTechniques.session_type item) JsPrototype.members.

(** What a response of one of the two [GET] handlers says about the
    caller: 401 without the header, 403 for anyone who is not an
    instructor, 500 when the enrolment procedure fails for an
    instructor with courses or when the handler throws, which is
    [thrown], and a success otherwise. *)
Definition status_table {D : Type} (acc : Accounts) (request : Request)
           (thrown : string -> Prop) (response : Response D) : Prop :=
  match response with
  | Failure status error =>
      (status = 401%nat /\ error = "Authentication required"%string /\
       Js.truthy_string (x_user_id request) = None)
      \/
      (status = 403%nat /\
       error = "Access denied. Instructor role required."%string /\
       exists userId,
         Js.truthy_string (x_user_id request) = Some userId /\
         ~ authorized_instructor acc request userId)
      \/
      (status = 500%nat /\ error = "Failed to fetch students"%string /\
       exists userId,
         authorized_instructor acc request userId /\
         courses_of acc userId <> [] /\
         rpc_error (get_instructor_enrolled_students acc userId) = true)
      \/
      (status = 500%nat /\ error = "Internal server error"%string /\
       exists userId,
         authorized_instructor acc request userId /\
         courses_of acc userId <> [] /\
         rpc_error (get_instructor_enrolled_students acc userId) = false /\
         thrown userId)
  | Success _ =>
      exists userId,
        authorized_instructor acc request userId /\
        (courses_of acc userId = [] \/
         (rpc_error (get_instructor_enrolled_students acc userId) = false /\
          ~ thrown userId))
  end.

(** The three kinds of progress rows the alert counters distinguish:
    a positive score below 60, a score from 60 up to 70, and any other
    row. *)
Definition is_failing (mp : AiInsights.ModuleProgress) : bool :=
  Js.Qltb 0 (AiInsights.score_of mp) && Js.Qltb (AiInsights.score_of mp) 60.

Definition is_borderline (mp : AiInsights.ModuleProgress) : bool :=
  Js.Qltb 0 (AiInsights.score_of mp)
  && negb (Js.Qltb (AiInsights.score_of mp) 60)
  && Js.Qltb (AiInsights.score_of mp) 70.

Definition has_score (mp : AiInsights.ModuleProgress) : bool :=
  Js.Qltb 0 (AiInsights.score_of mp).

(** The progress rows of a module. *)
Definition rows_of_module (moduleId : string)
           (rows : list AiInsights.ModuleProgress)
  : list AiInsights.ModuleProgress :=
  with_key AiInsights.module_id moduleId rows.

(** The improvement percentages of some rows that are not zero, in the
    order of the rows, and the difference between the last and the
    first of them, [0] when there are fewer than two. *)
Definition improvements (rows : list AiInsights.AnalyticsRow) : list Q :=
  filter (fun p => negb (Qeq_bool p 0))
         (map (fun s => Js.or_Q (AiInsights.improvement_percentage s) 0) rows).

Definition trend_between (rows : list AiInsights.AnalyticsRow) : Js.num :=
  if (2 <=? List.length (improvements rows))%nat
  then Js.sub (Js.Fin (last (improvements rows) 0))
              (Js.Fin (hd 0 (improvements rows)))
  else Js.Fin 0.

(** [r.actionable_advice || r.actionableAdvice] *)
Definition advice_of (r : AiInsights.Recommendation) : option string :=
  Js.or_string (AiInsights.actionable_advice r) (AiInsights.actionableAdvice r).

(** The instant at which a row was analysed, when its timestamp
    parses. *)
Definition analysed_time (cal : Js.Calendar) (s : AiInsights.AnalyticsRow)
  : option Z :=
  Js.get_time cal (AiInsights.analyzed_at s).

(** The comparator of line 296 on rows whose timestamps parse. *)
Definition by_time (cal : Js.Calendar) (a b : AiInsights.AnalyticsRow) : Z :=
  (match analysed_time cal b with Some t => t | None => 0 end
   - match analysed_time cal a with Some t => t | None => 0 end)%Z.

(** The sessions of a table that a list of bucket dates covers: those
    whose [created_at] starts with one of the dates. *)
Definition covered (dates : list string) (sessions : list StudyTechniques.Session)
  : list StudyTechniques.Session :=
  filter (fun s => existsb (fun d => String.prefix d (StudyTechniques.created_at s))
                           dates)
         sessions.

(** The lengths of the arrays of the runtime are below [2^32]. *)
Definition array_length (n : nat) : Prop := (Z.of_nat n < 2 ^ 32)%Z.


(** The list of [techniques] before it is compared and sorted: the
    listing order of the source. *)
Definition listed (enrolled : nat)
           (activeRecallSessions pomodoroSessions feynmanSessions
            retrievalSessions : list StudyTechniques.Session)
  : list StudyTechniques.TechniqueComparison :=
  map (StudyTechniques.compare_technique enrolled)
      (StudyTechniques.techniques activeRecallSessions pomodoroSessions
                                  feynmanSessions retrievalSessions).

(** The rows that carry a learning pattern, with their pattern, and the
    rows of one pattern. *)
Definition patterned (rows : list AiInsights.AnalyticsRow)
  : list (string * AiInsights.AnalyticsRow) :=
  flat_map (fun s => match AiInsights.pattern_of s with
                     | Some pattern => [(pattern, s)]
                     | None => []
                     end)
           rows.

Definition rows_with_pattern (pattern : string)
           (rows : list AiInsights.AnalyticsRow)
  : list AiInsights.AnalyticsRow :=
  map snd (with_key fst pattern (patterned rows)).

(** The velocities that count for some rows. *)
Definition velocities (rows : list AiInsights.AnalyticsRow) : list Q :=
  flat_map (fun s => match AiInsights.velocity_of s with
                     | Some v => [v]
                     | None => []
                     end)
           rows.

(** The distinct students of some rows. *)
Definition distinct_students (userIds : list string) : nat :=
  Js.size (Js.set_of_list userIds).

(** The feedback rows of one type, and the severity under which a row
    is counted. *)
Definition feedback_of_type (type : string)
           (rows : list AiInsights.Feedback)
  : list AiInsights.Feedback :=
  with_key AiInsights.feedback_type type rows.

Definition counted_severity (f : AiInsights.Feedback) : string :=
  match Js.truthy_string (AiInsights.severity f) with
  | Some s => s
  | None => "medium"%string
  end.

Definition with_severity (s : string) (rows : list AiInsights.Feedback)
  : nat :=
  List.length (filter (fun f => String.eqb (counted_severity f) s) rows).

(** The two updates of the entry of a pattern, seen from the list of
    patterned rows. *)
Definition new_pattern_entry (e : string * AiInsights.AnalyticsRow)
  : AiInsights.PatternData :=
  AiInsights.new_pattern (snd e).

Definition record_pattern_entry (d : AiInsights.PatternData)
           (e : string * AiInsights.AnalyticsRow)
  : AiInsights.PatternData :=
  AiInsights.record_pattern d (snd e).


(** The non-empty suggested improvements of some feedback rows. *)
Definition improvements_suggested (rows : list AiInsights.Feedback)
  : list string :=
  flat_map (fun f => match Js.truthy_string
                             (AiInsights.suggested_improvement f) with
                     | Some s => [s]
                     | None => []
                     end)
           rows.

(** The severities that [severityBreakdown] is created with. *)
Definition known_severity (s : string) : bool :=
  String.eqb s "low" || String.eqb s "medium" || String.eqb s "high"
  || String.eqb s "critical".

(** The four counters of a breakdown that only known severities were
    counted in. *)
Definition breakdown_of (low medium high critical : nat)
  : JsObject.t AiInsights.Counter :=
  [ ("low"%string, Some low); ("medium"%string, Some medium);
    ("high"%string, Some high); ("critical"%string, Some critical) ].

(** The analytics items of one session type. *)
Definition items_of_type (type : string)
           (items : list StudyTechniques.AnalyticsItem)
  : list StudyTechniques.AnalyticsItem :=
  with_key StudyTechniques.session_type type items.

(** The attempts and cycles of the store whose session was created at
    or after [start], whoever the student is. *)
Definition attempts_since (cal : Js.Calendar) (db : StudyTechniques.Store)
           (start : Z) : list StudyTechniques.Attempt :=
  match StudyTechniques.active_recall_attempts db with
  | Some rows =>
      filter (fun a => since cal start
                             (StudyTechniques.attempt_session_created_at a))
             rows
  | None => []
  end.

Definition cycles_since (cal : Js.Calendar) (db : StudyTechniques.Store)
           (start : Z) : list StudyTechniques.Cycle :=
  match StudyTechniques.pomodoro_cycles db with
  | Some rows =>
      filter (fun c => since cal start
                             (StudyTechniques.cycle_session_created_at c))
             rows
  | None => []
  end.

(** The cycles that are breaks. *)
Definition breaks_of (cycles : list StudyTechniques.Cycle)
  : list StudyTechniques.Cycle :=
  filter (fun c => negb (StudyTechniques.of_type "work" c)) cycles.

(** The header of an export request, as the shared prelude reads it. *)
Definition export_header (request : ExportHandler.Request) : Request :=
  {| x_user_id := ExportHandler.x_user_id request;
     timeRange_param := ExportHandler.timeRange request |}.

(** How the exported data depend on [exportType], for an instructor
    [userId] with [studentCount] enrolled students. *)
Definition export_shape (acc : Accounts) (request : ExportHandler.Request)
           (userId : string) (data : ExportHandler.Data) : Prop :=
  match ExportHandler.exportData data with
  | ExportHandler.NoCourses summary _ _ timeRange =>
      courses_of acc userId = [] /\
      summary = "No courses found for this instructor"%string /\
      timeRange = ExportHandler.timeRange request
  | ExportHandler.Nothing =>
      courses_of acc userId <> [] /\
      ExportHandler.exportType request <> Some "comprehensive"%string /\
      ExportHandler.exportType request <> Some "overview"%string /\
      ExportHandler.exportType request <> Some "student-progress"%string
  | ExportHandler.Overall overview studentProgress =>
      courses_of acc userId <> [] /\
      ExportHandler.exportType request
        = Some (match studentProgress with
                | Some _ => "comprehensive"
                | None => "overview"
                end)%string /\
      ExportHandler.ov_instructorEmail overview = userId /\
      ExportHandler.totalStudents (ExportHandler.ov_summary overview)
        = List.length (enrolled acc userId) /\
      ExportHandler.totalCourses (ExportHandler.ov_summary overview)
        = List.length (courses_of acc userId) /\
      List.length (ExportHandler.ov_courses overview)
        = List.length (courses_of acc userId)
  | ExportHandler.Students export =>
      courses_of acc userId <> [] /\
      ExportHandler.exportType request = Some "student-progress"%string /\
      ExportHandler.se_totalStudents export
        = List.length (ExportHandler.se_students export) /\
      forall r, In r (ExportHandler.se_students export) ->
                In (ExportHandler.sr_studentId r) (enrolled acc userId)
  end.

(** The number of buckets and the start of the fetched period for a
    range token. *)
Definition token_days (token : option string) : nat :=
  match Js.truthy_string token with
  | None => 30
  | Some t =>
      if String.eqb t "week" then 7
      else if String.eqb t "month" then 30
      else 90
  end.

Definition token_start (cal : Js.Calendar) (now : Z) (token : option string) : Z :=
  match Js.truthy_string token with
  | None => Js.add_months cal now (-1)
  | Some t =>
      if String.eqb t "week" then Js.add_days cal now (-7)
      else if String.eqb t "quarter" then Js.add_months cal now (-3)
      else Js.add_months cal now (-1)
  end.

(** A row is listed before the rows analysed earlier. *)
Definition not_before (cal : Js.Calendar) (a b : AiInsights.AnalyticsRow) : Prop :=
  forall ta tb, analysed_time cal a = Some ta -> analysed_time cal b = Some tb ->
                (tb <= ta)%Z.

(** The distinct keys of the recommendations, in the order of their
    first occurrence. *)
Definition keys_in_order (analyticsData : list AiInsights.AnalyticsRow)
  : list string :=
  Js.set_of_list (map AiInsights.occ_key (occurrences analyticsData)).

(** The request that carries the headers built by
    [getAuthenticatedHeaders], with some [timeRange]. *)
Definition request_with (headers : JsObject.t string) (timeRange : option string)
  : Request :=
  {| x_user_id := JsObject.get headers "X-User-ID";
     timeRange_param := timeRange |}.

(* ================================================================== *)
(** * Example data *)
(* ================================================================== *)

Module Example.

Import AiInsights.

(** The number that a decimal literal denotes. *)
Definition decimal (n : Z) (d : positive) : Q := Js.nearest (n # d).

Definition recommendation (type title : string) (p : Js.field Z)
           (confidence : option Q) : Recommendation :=
  {| rec_type := type;
     rec_title := title;
     rec_description := "";
     actionable_advice := Some ("Do: " ++ title)%string;
     actionableAdvice := None;
     priority := p;
     confidence_score := confidence |}.

Definition analysed (user at_time : string) (improvement : option Q)
           (recs : list Recommendation) : AnalyticsRow :=
  {| user_id := user;
     created_at := at_time;
     analyzed_at := at_time;
     improvement_percentage := improvement;
     recommendations := Some recs;
     learning_patterns := None |}.

Definition student (name : string) : User :=
  {| u_id := name;
     u_name := Some name;
     u_email := (name ++ "@school.example")%string;
     u_role := "student" |}.

Definition instructor : User :=
  {| u_id := "prof";
     u_name := Some "Prof"%string;
     u_email := "prof@school.example";
     u_role := "instructor" |}.

Definition course : Course :=
  {| c_id := "course-1";
     c_title := "Algebra";
     c_description := "";
     c_status := "active";
     c_created_at := "2025-01-10T08:00:00+00:00";
     c_instructor_id := "prof" |}.

(** Five students have analytics; [eve] has no row in [users]. *)
Definition analytics : list AnalyticsRow :=
  [ analysed "ana" "2025-03-13T09:00:00+00:00" None
      [ recommendation "pacing" "Slow down" (Js.Value 2%Z) (Some (decimal 8 10));
        recommendation "practice" "More drills" (Js.Value 2%Z) None;
        recommendation "review" "Revisit basics" (Js.Value 2%Z) (Some (decimal 6 10)) ];
    analysed "ben" "2025-03-12T09:00:00+00:00" None
      [ recommendation "pacing" "Slow down" (Js.Value 1%Z) (Some (decimal 6 10)) ];
    analysed "eve" "2025-03-11T09:00:00+00:00" None
      [ recommendation "review" "Revisit basics" (Js.Value 1%Z) None ];
    analysed "cleo" "2025-03-10T09:00:00+00:00" (Some 40) [];
    analysed "dan" "2025-03-09T09:00:00+00:00" None
      [ recommendation "practice" "More drills" (Js.Value 3%Z) None ];
    analysed "cleo" "2025-03-08T09:00:00+00:00" (Some 10) [] ].

Definition accounts : Accounts :=
  {| users_table :=
       Some [instructor; student "ana"; student "ben"; student "cleo";
             student "dan"];
     courses_table := Some [course];
     get_instructor_enrolled_students :=
       fun _ => {| rpc_data := Some ["ana"; "ben"; "cleo"; "dan"; "eve"]%string;
                   rpc_error := false |} |}.

Definition store : Store :=
  {| AiInsights.accounts := accounts;
     study_session_analytics := Some analytics;
     user_module_progress := Some [];
     feynman_feedback := Some [] |}.

(** 2025-03-14T10:00:00Z *)
Definition now : Z := 1741946400000.

Definition request : Request :=
  {| x_user_id := Some "prof"%string; timeRange_param := Some "month"%string |}.

Definition response : Response Data :=
  GET Utc.calendar store now request.

Definition data : Data :=
  match response with
  | Success d => d
  | Failure _ _ => empty_data
  end.

Definition students : JsObject.t User :=
  studentMap (fetch_students_info store ["ana"; "ben"; "cleo"; "dan"; "eve"]%string).

(** The group of the key [pacing-Slow down]: one occurrence from [ana],
    one from [ben]. *)
Definition pacing_group : RecGroup :=
  match JsObject.get (recommendationCounts analytics) "pacing-Slow down" with
  | Some g => g
  | None => new_group (""%string, recommendation "" "" Js.Undefined None)
  end.

(** Two recommendations whose types and titles differ and whose keys
    coincide. *)
Definition collision : list AnalyticsRow :=
  [ analysed "ana" "2025-03-13T09:00:00+00:00" None
      [ recommendation "self-study" "review" (Js.Value 2%Z) (Some (decimal 8 10)) ];
    analysed "ben" "2025-03-12T09:00:00+00:00" None
      [ recommendation "self" "study-review" (Js.Value 2%Z) (Some (decimal 6 10)) ] ].

(** A recommendation without [priority] and without
    [confidence_score], next to one of priority 2. *)
Definition unranked : Recommendation :=
  recommendation "habits" "Sleep earlier" Js.Undefined None.

Definition unranked_and_ranked : list AnalyticsRow :=
  [ analysed "ana" "2025-03-13T09:00:00+00:00" None
      [ recommendation "pacing" "Slow down" (Js.Value 2%Z) (Some (decimal 8 10)) ];
    analysed "ben" "2025-03-12T09:00:00+00:00" None [ unranked ] ].

(** A module with twenty students: seven fail, ten score between 60
    and 70, three pass well.  Its failure rate is 35 and its remedial
    rate 50. *)
Definition progress_row (score : Q) (n : nat) : ModuleProgress :=
  {| mp_user_id := ("student-" ++ Js.nat_to_string n)%string;
     module_id := "module-1";
     best_score := Some score;
     needs_remedial := false;
     module_title := "Fractions";
     module_course_id := "course-1" |}.

Definition progress_rows : list ModuleProgress :=
  map (progress_row 50) (seq 1 7)
  ++ map (progress_row 65) (seq 8 10)
  ++ map (progress_row 90) (seq 18 3).

Definition progress : option (list ModuleProgress) := Some progress_rows.

(** The instructor of these twenty students; one of them has an
    analytics row. *)
Definition scenario_ids : list string :=
  map (fun n => ("student-" ++ Js.nat_to_string n)%string) (seq 1 20).

Definition scenario_store : Store :=
  {| AiInsights.accounts :=
       {| users_table := Some [instructor];
          courses_table := Some [course];
          get_instructor_enrolled_students :=
            fun _ => {| rpc_data := Some scenario_ids; rpc_error := false |} |};
     study_session_analytics :=
       Some [analysed "student-1" "2025-03-13T09:00:00+00:00" None []];
     user_module_progress := progress;
     feynman_feedback := Some [] |}.

Definition scenario_data : Data :=
  match GET Utc.calendar scenario_store now request with
  | Success d => d
  | Failure _ _ => empty_data
  end.

Definition module_performance : ModulePerformance :=
  match JsObject.get (modulePerformanceMap progress) "module-1" with
  | Some d => d
  | None => new_module (progress_row 0 0)
  end.

(** A module where 59 of 200 students fail: the rate 29.5 is shown as
    30 and is below the threshold. *)
Definition borderline : ModulePerformance :=
  {| title := "Decimals";
     scores := [80];
     needsRemedial := 0;
     failing := 59;
     totalStudents := 200 |}.

(** The same instructor before any student enrols. *)
Definition accounts_without_students : Accounts :=
  {| users_table := Some [instructor];
     courses_table := Some [course];
     get_instructor_enrolled_students :=
       fun _ => {| rpc_data := Some []; rpc_error := false |} |}.

Definition store_without_students : Store :=
  {| AiInsights.accounts := accounts_without_students;
     study_session_analytics := Some analytics;
     user_module_progress := progress;
     feynman_feedback := None |}.

End Example.

Module TechniquesExample.

Import StudyTechniques.

Definition session (table user at_time : string) : Session :=
  {| session_id := (table ++ "/" ++ user ++ "/" ++ at_time)%string;
     user_id := user;
     module_id := "module-1";
     created_at := at_time;
     status := "completed" |}.

Definition store : Store :=
  {| accounts := Example.accounts;
     active_recall_sessions :=
       Some [ session "ar" "ana" "2025-03-13T09:00:00+00:00";
              session "ar" "ana" "2025-03-14T08:00:00+00:00";
              session "ar" "ben" "2025-03-14T08:30:00+00:00";
              session "ar" "zed" "2025-03-14T09:00:00+00:00" ];
     pomodoro_sessions :=
       Some [ session "po" "cleo" "2025-03-10T09:00:00+00:00" ];
     feynman_sessions := None;
     retrieval_practice_sessions := Some [];
     active_recall_attempts := None;
     pomodoro_cycles := None;
     study_session_analytics := None |}.

Definition no_other_analytics : OtherAnalytics :=
  {| feynmanAnalytics := fun _ _ => Js.JObject [];
     retrievalPracticeAnalytics := fun _ _ => Js.JObject [] |}.

Definition request : Request :=
  {| x_user_id := Some "prof"%string; timeRange_param := Some "week"%string |}.

Definition response : Response Data :=
  GET Utc.calendar no_other_analytics store Example.now request.

Definition data : Data :=
  match response with
  | Success d => d
  | Failure _ _ => empty_data
  end.

Definition store_without_students : Store :=
  {| accounts := Example.accounts_without_students;
     active_recall_sessions := active_recall_sessions store;
     pomodoro_sessions := pomodoro_sessions store;
     feynman_sessions := None;
     retrieval_practice_sessions := None;
     active_recall_attempts := None;
     pomodoro_cycles := None;
     study_session_analytics := None |}.

End TechniquesExample.

Module ReportExample.

Import ExportReport.

Definition module_row (id title : string) : Module_ :=
  {| m_id := id;
     m_title := title;
     m_description := "";
     m_course_id := "course-1";
     m_order_index := Js.JNull;
     m_passing_threshold := Js.JNull;
     m_available_techniques := Js.JArray [] |}.

Definition modules_rows : option (list Module_) :=
  Some [module_row "module-1" "Fractions"; module_row "module-2" "Decimals"].

(** The course has two modules and no progress row yet. *)
Definition report (includeDetails : bool) : CourseAnalysis :=
  analyse_course (Js.JBool includeDetails) modules_rows None (Some []) []
                 Example.course.

End ReportExample.

(** Progress rows for the alerts: [ana] fails the first module and
    [ben] is between 60 and 70 and flagged; [cleo] is alone in the
    second module, between 60 and 70 and flagged.  The rows of [zed],
    who is not enrolled, and of another instructor's course are not
    fetched. *)
Module AlertExample.

Import AiInsights.

Definition progress_of (user module course : string) (score : Q) (flagged : bool)
  : ModuleProgress :=
  {| mp_user_id := user;
     module_id := module;
     best_score := Some score;
     needs_remedial := flagged;
     module_title := ("Title of " ++ module)%string;
     module_course_id := course |}.

Definition progress_rows : list ModuleProgress :=
  [ progress_of "ana" "module-1" "course-1" 50 false;
    progress_of "ben" "module-1" "course-1" 65 true;
    progress_of "zed" "module-1" "course-1" 20 false;
    progress_of "ana" "module-9" "course-9" 30 false;
    progress_of "cleo" "module-2" "course-1" 65 true ].

Definition store : Store :=
  {| AiInsights.accounts := Example.accounts;
     study_session_analytics := Some Example.analytics;
     user_module_progress := Some progress_rows;
     feynman_feedback := Some [] |}.

Definition enrolled_ids : list string := ["ana"; "ben"; "cleo"; "dan"; "eve"]%string.

Definition fetched_progress : list ModuleProgress :=
  match fetch_module_progress store enrolled_ids ["course-1"%string] with
  | Some rows => rows
  | None => []
  end.

Definition second_module : ModulePerformance :=
  match JsObject.get (modulePerformanceMap (Some fetched_progress)) "module-2" with
  | Some d => d
  | None => new_module (progress_of "" "" "" 0 false)
  end.

Definition response : Response Data :=
  GET Utc.calendar store Example.now Example.request.

Definition data : Data :=
  match response with
  | Success d => d
  | Failure _ _ => empty_data
  end.

(** The rows of the analytics as the query returns them. *)
Definition fetched : list AnalyticsRow :=
  match fetch_analytics Utc.calendar store enrolled_ids
                        (startDate Utc.calendar Example.now "month") with
  | Some rows => rows
  | None => []
  end.

Definition intervention_of (user : string) : StudentIntervention :=
  match filter (fun i => String.eqb (si_studentId i) user)
               (studentInterventions Utc.calendar fetched Example.students) with
  | i :: _ => i
  | [] => {| si_studentId := "";
             si_studentName := None;
             si_studentEmail := "";
             si_interventionLevel := LevelNone;
             si_reasons := [];
             si_recommendedActions := [];
             si_lastAnalyzed := "";
             si_sessionsAnalyzed := 0;
             si_improvementTrend := Js.RInt 0 |}
  end.

Definition recommendation_of (analyticsData : list AnalyticsRow) (position : nat)
  : TeachingRecommendation :=
  nth position
      (teachingRecommendations analyticsData Example.students)
      (teachingRecommendation Example.students 0
         (new_group (""%string, Example.recommendation "" "" Js.Undefined None))).

End AlertExample.

(** Rows with learning patterns and rows of Feynman feedback. *)
Module ListsExample.

Import AiInsights.

Definition pattern_row (user : string) (pattern : option string)
           (velocity : option Q) : AnalyticsRow :=
  {| user_id := user;
     created_at := "2025-03-13T09:00:00+00:00";
     analyzed_at := "2025-03-13T09:00:00+00:00";
     improvement_percentage := None;
     recommendations := Some [];
     learning_patterns :=
       Some {| pattern_type := pattern; learning_velocity := velocity |} |}.

(** Three rows struggle, two of them of [ana]; one learns rapidly; one
    has no pattern. *)
Definition pattern_rows : list AnalyticsRow :=
  [ pattern_row "ana" (Some "strugglingConcepts"%string) (Some (3 # 2));
    pattern_row "ben" (Some "strugglingConcepts"%string) None;
    pattern_row "cleo" (Some "rapidLearning"%string) (Some 3);
    pattern_row "ana" (Some "strugglingConcepts"%string) (Some 1);
    pattern_row "dan" None (Some 2) ].

Definition insights : list LearningPatternInsight :=
  match learningPatternInsights pattern_rows with
  | Some l => l
  | None => []
  end.

(** A pattern named like a member of [Object.prototype]. *)
Definition inherited_pattern_rows : list AnalyticsRow :=
  pattern_rows ++ [ pattern_row "eve" (Some "constructor"%string) None ].

Definition feedback (type : string) (p : option Z) (sev improvement : option string)
  : Feedback :=
  {| feedback_type := type;
     suggested_improvement := improvement;
     severity := sev;
     fb_priority := p;
     feedback_session_created_at := "2025-03-13T09:00:00+00:00" |}.

(** Three rows on clarity, one on examples. *)
Definition feedback_rows : list Feedback :=
  [ feedback "clarity" (Some 1%Z) (Some "high"%string)
             (Some "Use shorter sentences"%string);
    feedback "examples" (Some 3%Z) None (Some "Add a worked example"%string);
    feedback "clarity" None None (Some "Use shorter sentences"%string);
    feedback "clarity" (Some 3%Z) (Some "low"%string) (Some "Define the terms"%string) ].

Definition suggestions : list ContentSuggestion :=
  match contentOptimizationSuggestions (Some feedback_rows) with
  | Some l => l
  | None => []
  end.

Definition clarity : ContentSuggestion :=
  match suggestions with
  | c :: _ => c
  | [] => {| cs_area := "";
             cs_frequency := 0;
             cs_priority := PriorityMedium;
             cs_suggestions := [];
             cs_description := "";
             cs_impact := AiInsights.ImpactLow;
             cs_severityBreakdown := [] |}
  end.

End ListsExample.

(** Attempts, cycles and analytics items for the summaries per
    technique; [zed] is not a student of the instructor. *)
Module SummaryExample.

Import StudyTechniques.

Definition attempt (correct : bool) (seconds : option Q) : Attempt :=
  {| is_correct := correct;
     response_time_seconds := seconds;
     attempt_session_created_at := "2025-03-13T09:00:00+00:00" |}.

Definition cycle (type : string) (completed : bool) : Cycle :=
  {| cycle_type := type;
     completed_at :=
       if completed then Some "2025-03-13T09:30:00+00:00"%string else None;
     focus_score := Some 80;
     duration_minutes := None;
     cycle_session_created_at := "2025-03-13T09:00:00+00:00" |}.

Definition item (user type : string) (improvement accuracy : option Q)
  : AnalyticsItem :=
  {| item_user_id := user;
     item_created_at := "2025-03-13T09:00:00+00:00";
     session_type := type;
     improvement_percentage := improvement;
     post_study_accuracy := accuracy;
     overall_accuracy := None |}.

Definition items : list AnalyticsItem :=
  [ item "ana" "active_recall" (Some 80) None;
    item "ben" "pomodoro" None (Some 40);
    item "ana" "active_recall" None (Some 70);
    item "cleo" "feynman" (Some (-5)) (Some 90) ].

Definition store : Store :=
  {| accounts := Example.accounts;
     active_recall_sessions := active_recall_sessions TechniquesExample.store;
     pomodoro_sessions := pomodoro_sessions TechniquesExample.store;
     feynman_sessions := None;
     retrieval_practice_sessions := Some [];
     active_recall_attempts :=
       Some [ attempt true (Some 10); attempt false (Some 20);
              attempt true None ];
     pomodoro_cycles :=
       Some [ cycle "work" true; cycle "short_break" true;
              cycle "work" false; cycle "long_break" false ];
     study_session_analytics := Some items |}.

Definition metrics : JsObject.t Effectiveness :=
  match effectivenessMetrics (Some items) with
  | Some m => m
  | None => []
  end.

End SummaryExample.

(** A store for the export: the course of the examples with two
    modules, one material, and progress rows of [ana] and [ben]. *)
Module ExportExample.

Import ExportHandler.

Definition progress_row (user module : string) (score : Q) (done : bool)
  : ProgressRow :=
  {| progress :=
       {| ExportReport.p_user_id := user;
          ExportReport.p_module_id := module;
          ExportReport.p_best_score := Some score;
          ExportReport.p_status := if done then "completed" else "in_progress";
          ExportReport.p_passed := done;
          ExportReport.p_needs_remedial := negb done |};
     course_id := "course-1";
     module_title := ("Title of " ++ module)%string;
     latest_score := Some score;
     attempt_count := Some 2%Z;
     completed_at := None;
     last_attempt_at := None;
     first_attempt_at := None |}.

Definition student_row (name : string) : StudentRow :=
  {| student := Example.student name;
     last_login := None;
     created_at := "2025-01-15T08:00:00+00:00" |}.

Definition store : Store :=
  {| accounts := Example.accounts;
     modules := ReportExample.modules_rows;
     course_materials :=
       Some [ {| material :=
                   {| ExportReport.mat_id := "material-1";
                      ExportReport.mat_title := "Slides";
                      ExportReport.mat_file_type := "pdf";
                      ExportReport.mat_file_size := Js.JNull;
                      ExportReport.mat_created_at := "2025-01-20T08:00:00+00:00";
                      ExportReport.mat_module_id := "module-1" |};
                 material_course_id := "course-1" |} ];
     user_module_progress :=
       Some [ progress_row "ana" "module-1" 80 true;
              progress_row "ana" "module-2" 50 false;
              progress_row "ben" "module-1" 65 true ];
     users := Some [ student_row "ana"; student_row "ben"; student_row "zed" ];
     sessions := TechniquesExample.store |}.

Definition request (type : option string) : Request :=
  {| x_user_id := Some "prof"%string;
     exportType := type;
     timeRange := Some "week"%string;
     includeCharts := Js.JBool false;
     includeDetails := Js.JBool true |}.

(** The instants are printed by their date. *)
Definition toISOString (instant : Z) : string :=
  Js.iso_date Utc.calendar instant.

Definition response (type : option string) : Response Data :=
  POST Utc.calendar toISOString store Example.now (request type).

(** What the handler fetches for the course, and the detailed report
    of the course. *)
Definition fetched_modules : option (list ExportReport.Module_) :=
  fetch_modules store ["course-1"%string].

Definition fetched_materials : option (list ExportReport.Material) :=
  fetch_materials store ["course-1"%string].

Definition fetched_progress : option (list ExportReport.Progress) :=
  option_map (map progress)
             (fetch_progress store AlertExample.enrolled_ids ["course-1"%string]).

Definition week_sessions : list ExportReport.Session :=
  allSessions
    (StudyTechniques.fetch_sessions
       Utc.calendar
       (StudyTechniques.active_recall_sessions TechniquesExample.store)
       AlertExample.enrolled_ids (startDate Utc.calendar Example.now "week"))
    [] [] [].

Definition course_report : ExportReport.CourseAnalysis :=
  ExportReport.analyse_course (Js.JBool true) fetched_modules fetched_materials
                              fetched_progress week_sessions Example.course.

Definition course_details : list ExportReport.ModuleAnalysis :=
  match ExportReport.modules course_report with
  | ExportReport.ModuleList l => l
  | ExportReport.ModuleCount _ => []
  end.

Definition student_reports : list StudentReport :=
  studentProgressReport (Js.JBool true) [Example.course]
    (fetch_students store AlertExample.enrolled_ids)
    (fetch_progress store AlertExample.enrolled_ids
                    (map c_id [Example.course])).

Definition report_of_ana : StudentReport :=
  match student_reports with
  | r :: _ => r
  | [] => student_report (Js.JBool true) [] None (student_row "")
  end.

End ExportExample.

(** A session of the instructor on the client. *)
Module AuthExample.

Definition session : AuthUtils.Session :=
  {| AuthUtils.access_token := Some "token"%string;
     AuthUtils.user_id := Some "prof"%string |}.

Definition headers : JsObject.t string :=
  match AuthUtils.getAuthenticatedHeaders false (Some session) with
  | AuthUtils.Returned h => h
  | AuthUtils.Thrown _ => []
  end.

End AuthExample.

(** The sessions of the last week as the handler fetches them. *)
Module WeekExample.

Definition recall : list StudyTechniques.Session :=
  StudyTechniques.fetch_sessions
    Utc.calendar (StudyTechniques.active_recall_sessions TechniquesExample.store)
    AlertExample.enrolled_ids (startDate Utc.calendar Example.now "week").

Definition pomodoro : list StudyTechniques.Session :=
  StudyTechniques.fetch_sessions
    Utc.calendar (StudyTechniques.pomodoro_sessions TechniquesExample.store)
    AlertExample.enrolled_ids (startDate Utc.calendar Example.now "week").

Definition series : list StudyTechniques.DayBucket :=
  StudyTechniques.timeBasedAnalysis Utc.calendar Example.now "week"
                                    recall pomodoro [] [].

End WeekExample.

(** Further requests and values of the examples. *)
(** Forty enrolled students.  Twenty-three of them have one Active
    Recall session each; the first has two Pomodoro sessions and the
    second one. *)
Module ComparisonExample.

Import StudyTechniques.

Definition student_id (n : nat) : string :=
  ("student-" ++ Js.nat_to_string n)%string.

Definition enrolled_ids : list string := map student_id (seq 1 40).

Definition accounts : Accounts :=
  {| users_table := Some [Example.instructor];
     courses_table := Some [Example.course];
     get_instructor_enrolled_students :=
       fun _ => {| rpc_data := Some enrolled_ids; rpc_error := false |} |}.

Definition store : Store :=
  {| StudyTechniques.accounts := accounts;
     active_recall_sessions :=
       Some (map (fun n => TechniquesExample.session
                             "ar" (student_id n) "2025-03-13T09:00:00+00:00")
                 (seq 1 23));
     pomodoro_sessions :=
       Some [ TechniquesExample.session
                "po" (student_id 1) "2025-03-12T09:00:00+00:00";
              TechniquesExample.session
                "po" (student_id 1) "2025-03-13T09:00:00+00:00";
              TechniquesExample.session
                "po" (student_id 2) "2025-03-13T10:00:00+00:00" ];
     feynman_sessions := Some [];
     retrieval_practice_sessions := None;
     active_recall_attempts := None;
     pomodoro_cycles := None;
     study_session_analytics := None |}.

Definition response : Response Data :=
  GET Utc.calendar TechniquesExample.no_other_analytics store Example.now
      TechniquesExample.request.

Definition data : Data :=
  match response with
  | Success d => d
  | Failure _ _ => empty_data
  end.

End ComparisonExample.

(** Twelve different recommendations in the rows of two students: the
    groups are created in the order of the titles, the last two with
    the priorities 1 and 2. *)
Module RankingExample.

Import AiInsights.

Definition advice (title : string) (p : Z) : Recommendation :=
  Example.recommendation "practice" title (Js.Value p) None.

Definition analytics : list AnalyticsRow :=
  [ Example.analysed "ana" "2025-03-13T09:00:00+00:00" None
      [ advice "t01" 3; advice "t02" 3; advice "t03" 2; advice "t04" 3;
        advice "t05" 3; advice "t06" 2; advice "t07" 3; advice "t08" 3 ];
    Example.analysed "ben" "2025-03-12T09:00:00+00:00" None
      [ advice "t09" 3; advice "t10" 3; advice "t08" 3; advice "t11" 1;
        advice "t12" 2; advice "t12" 2 ] ].

Definition store : Store :=
  {| AiInsights.accounts := Example.accounts;
     study_session_analytics := Some analytics;
     user_module_progress := Some [];
     feynman_feedback := Some [] |}.

Definition response : Response Data :=
  GET Utc.calendar store Example.now Example.request.

Definition data : Data :=
  match response with
  | Success d => d
  | Failure _ _ => empty_data
  end.

End RankingExample.

Module NewYorkExample.

Import StudyTechniques.

(** 2025-03-09T23:30:00Z: 19:30 in New York, on the day the clocks are
    set forward. *)
Definition now : Z := 1741563000000.

(** One session, of [ana], created at noon of that day. *)
Definition store : Store :=
  {| accounts := Example.accounts;
     active_recall_sessions :=
       Some [ TechniquesExample.session "ar" "ana" "2025-03-09T12:00:00+00:00" ];
     pomodoro_sessions := Some [];
     feynman_sessions := Some [];
     retrieval_practice_sessions := Some [];
     active_recall_attempts := None;
     pomodoro_cycles := None;
     study_session_analytics := None |}.

(** The response to the request for the week, in a process of the given
    calendar. *)
Definition data (cal : Js.Calendar) : Data :=
  match GET cal TechniquesExample.no_other_analytics store now
            TechniquesExample.request with
  | Success d => d
  | Failure _ _ => empty_data
  end.

Definition series : list DayBucket := data_timeBasedAnalysis (data NewYork.calendar).

End NewYorkExample.

Module MoreExample.

(** The class insight of the analytics of the examples. *)
Definition class_insight : AiInsights.ClassInsight :=
  match AiInsights.classPerformanceInsights Example.analytics with
  | c :: _ => c
  | [] => {| AiInsights.ci_type := "";
             AiInsights.ci_title := "";
             AiInsights.ci_insight := "";
             AiInsights.ci_metrics :=
               {| AiInsights.averageImprovement := Js.RInt 0;
                  AiInsights.improvementRate := Js.RInt 0;
                  AiInsights.cm_studentsAnalyzed := 0 |};
             AiInsights.ci_trend := AiInsights.Stable |}
  end.

(** A request with a range token that the handlers do not know. *)
Definition year_request : Request :=
  {| x_user_id := Some "prof"%string; timeRange_param := Some "year"%string |}.

(** The enrolment procedure reports an error and no data. *)
Definition accounts_with_error : Accounts :=
  {| users_table := users_table Example.accounts;
     courses_table := courses_table Example.accounts;
     get_instructor_enrolled_students :=
       fun _ => {| rpc_data := None; rpc_error := true |} |}.

Definition export_store_with_error : ExportHandler.Store :=
  {| ExportHandler.accounts := accounts_with_error;
     ExportHandler.modules := ExportHandler.modules ExportExample.store;
     ExportHandler.course_materials :=
       ExportHandler.course_materials ExportExample.store;
     ExportHandler.user_module_progress :=
       ExportHandler.user_module_progress ExportExample.store;
     ExportHandler.users := ExportHandler.users ExportExample.store;
     ExportHandler.sessions := ExportHandler.sessions ExportExample.store |}.

Definition week_start : Z := startDate Utc.calendar Example.now "week".

End MoreExample.

(* ================================================================== *)
(** * Facts about the runtime fragment *)
(* ================================================================== *)

(** Array-index keys come first, in numeric order; the other keys keep
    their creation order. *)
Example entries_enumeration_order :
  map fst (JsObject.entries
             [("b"%string, 1%nat); ("2"%string, 2%nat); ("a"%string, 3%nat);
              ("10"%string, 4%nat); ("1"%string, 5%nat)])
  = ["1"; "2"; "10"; "b"; "a"]%string.
Proof. reflexivity. Qed.

(** [Math.round] rounds halves towards [+Infinity]. *)
Example round_halves_up :
  Js.round_Q (5 # 2) = 3%Z /\ Js.round_Q (-5 # 2) = (-2)%Z /\
  Js.round_Q (59 # 2) = 30%Z.
Proof. repeat split. Qed.

Section SortFacts.

Variable A : Type.
Variable cmp : A -> A -> Z.

Lemma insert_Permutation (x : A) (l : list A) :
  Permutation (Js.insert cmp x l) (x :: l).
Proof.
  induction l as [|y l IH]; simpl.
  - apply Permutation_refl.
  - destruct (0 <? cmp x y)%Z.
    + eapply perm_trans; [apply perm_skip, IH | apply perm_swap].
    + apply Permutation_refl.
Qed.

Lemma sort_Permutation (l : list A) : Permutation (Js.sort cmp l) l.
Proof.
  induction l as [|x l IH]; simpl.
  - apply perm_nil.
  - eapply perm_trans; [apply insert_Permutation | apply perm_skip, IH].
Qed.

Lemma sort_In (l : list A) (x : A) : In x (Js.sort cmp l) <-> In x l.
Proof.
  split; apply Permutation_in;
    [apply sort_Permutation | apply Permutation_sym, sort_Permutation].
Qed.

Lemma sort_length (l : list A) : List.length (Js.sort cmp l) = List.length l.
Proof. apply Permutation_length, sort_Permutation. Qed.

Hypothesis cmp_ok : consistent cmp.

Lemma insert_sorted (x : A) (l : list A) :
  StronglySorted (keeps_order cmp) l ->
  StronglySorted (keeps_order cmp) (Js.insert cmp x l).
Proof.
  induction 1 as [|y l Hl IH Hy]; simpl.
  - constructor; [constructor | constructor].
  - destruct (0 <? cmp x y)%Z eqn:E.
    + apply Z.ltb_lt in E.
      constructor; [exact IH|].
      apply Forall_forall. intros z Hz.
      apply (Permutation_in _ (insert_Permutation x l)) in Hz.
      destruct Hz as [<-|Hz].
      * apply (cmp_total _ cmp_ok), E.
      * rewrite Forall_forall in Hy. apply Hy, Hz.
    + apply Z.ltb_ge in E.
      constructor; [constructor; assumption|].
      constructor; [exact E|].
      apply Forall_forall. intros z Hz.
      rewrite Forall_forall in Hy.
      apply (cmp_trans _ cmp_ok) with y; [exact E | apply Hy, Hz].
Qed.

Lemma sort_sorted (l : list A) : StronglySorted (keeps_order cmp) (Js.sort cmp l).
Proof.
  induction l as [|x l IH]; simpl.
  - constructor.
  - apply insert_sorted, IH.
Qed.

End SortFacts.

(** A prefix of a sorted list is sorted, and everything it leaves out
    comes after everything it keeps. *)
Lemma firstn_sorted (A : Type) (R : A -> A -> Prop) (n : nat) (l : list A) :
  StronglySorted R l -> StronglySorted R (firstn n l).
Proof.
  intros H. revert n.
  induction H as [|x l Hl IH Hx]; intros [|n]; simpl; try constructor.
  - apply IH.
  - apply Forall_forall. intros y Hy.
    rewrite Forall_forall in Hx. apply Hx.
    rewrite <- (firstn_skipn n l). apply in_or_app. left. exact Hy.
Qed.

Lemma firstn_before_skipn (A : Type) (R : A -> A -> Prop) (n : nat) (l : list A) :
  StronglySorted R l ->
  forall a b, In a (firstn n l) -> In b (skipn n l) -> R a b.
Proof.
  intros H. revert n.
  induction H as [|x l Hl IH Hx]; intros n a b Ha Hb.
  - rewrite firstn_nil in Ha. destruct Ha.
  - destruct n as [|n]; simpl in *; [destruct Ha|].
    destruct Ha as [<-|Ha].
    + rewrite Forall_forall in Hx. apply Hx.
      rewrite <- (firstn_skipn n l). apply in_or_app. right. exact Hb.
    + apply (IH n); assumption.
Qed.

Section SetFacts.

Lemma set_mem_In (x : string) (s : list string) :
  Js.set_mem x s = true <-> In x s.
Proof.
  induction s as [|y s IH]; simpl.
  - split; [discriminate | contradiction].
  - rewrite orb_true_iff, IH, String.eqb_eq. intuition congruence.
Qed.

Lemma set_add_In (s : list string) (x y : string) :
  In y (Js.set_add s x) <-> In y s \/ y = x.
Proof.
  unfold Js.set_add. destruct (Js.set_mem x s) eqn:E.
  - apply set_mem_In in E. intuition congruence.
  - rewrite in_app_iff. simpl. intuition congruence.
Qed.

Lemma set_add_NoDup (s : list string) (x : string) :
  NoDup s -> NoDup (Js.set_add s x).
Proof.
  intros H. unfold Js.set_add. destruct (Js.set_mem x s) eqn:E; [exact H|].
  apply NoDup_app; [exact H | repeat constructor; intros [] |].
  intros y Hy [<-|[]].
  apply set_mem_In in Hy. congruence.
Qed.

Lemma fold_set_add_In (l acc : list string) (x : string) :
  In x (fold_left Js.set_add l acc) <-> In x acc \/ In x l.
Proof.
  revert acc. induction l as [|y l IH]; intros acc; simpl.
  - intuition.
  - rewrite IH, set_add_In. intuition congruence.
Qed.

Lemma fold_set_add_NoDup (l acc : list string) :
  NoDup acc -> NoDup (fold_left Js.set_add l acc).
Proof.
  revert acc. induction l as [|y l IH]; intros acc H; simpl.
  - exact H.
  - apply IH, set_add_NoDup, H.
Qed.

Lemma set_of_list_In (l : list string) (x : string) :
  In x (Js.set_of_list l) <-> In x l.
Proof. unfold Js.set_of_list. rewrite fold_set_add_In. simpl. intuition. Qed.

Lemma set_of_list_NoDup (l : list string) : NoDup (Js.set_of_list l).
Proof. apply fold_set_add_NoDup. constructor. Qed.

Lemma set_of_list_snoc (l : list string) (x : string) :
  Js.set_of_list (l ++ [x]) = Js.set_add (Js.set_of_list l) x.
Proof. unfold Js.set_of_list. rewrite fold_left_app. reflexivity. Qed.

(** A set drawn from [universe] has at most as many members as
    [universe] has entries. *)
Lemma set_size_le (l universe : list string) :
  incl l universe ->
  (Js.size (Js.set_of_list l) <= List.length universe)%nat.
Proof.
  intros H. unfold Js.size.
  apply NoDup_incl_length; [apply set_of_list_NoDup|].
  intros x Hx. apply H, set_of_list_In, Hx.
Qed.

End SetFacts.

Section ObjectFacts.

Variable B : Type.

Lemma get_set (o : JsObject.t B) (k k' : string) (v : B) :
  JsObject.get (JsObject.set o k v) k' =
  if String.eqb k' k then Some v else JsObject.get o k'.
Proof.
  induction o as [|[k0 v0] o IH]; simpl.
  - reflexivity.
  - destruct (String.eqb k k0) eqn:E; simpl.
    + apply String.eqb_eq in E. subst k0.
      destruct (String.eqb k' k); reflexivity.
    + rewrite IH.
      destruct (String.eqb k' k0) eqn:E0; [|reflexivity].
      apply String.eqb_eq in E0. subst k0.
      rewrite String.eqb_sym, E. reflexivity.
Qed.

Lemma keys_set (o : JsObject.t B) (k x : string) (v : B) :
  In x (keys (JsObject.set o k v)) <-> x = k \/ In x (keys o).
Proof.
  unfold keys. induction o as [|[k0 v0] o IH]; simpl.
  - intuition.
  - destruct (String.eqb k k0) eqn:E; simpl.
    + apply String.eqb_eq in E. subst k0. intuition.
    + rewrite IH. intuition.
Qed.

Lemma keys_set_NoDup (o : JsObject.t B) (k : string) (v : B) :
  NoDup (keys o) -> NoDup (keys (JsObject.set o k v)).
Proof.
  unfold keys. induction o as [|[k0 v0] o IH]; simpl; intros H.
  - repeat constructor. intros [].
  - inversion H as [|? ? Hk0 Ho]; subst.
    destruct (String.eqb k k0) eqn:E; simpl.
    + apply String.eqb_eq in E. subst k0. constructor; assumption.
    + constructor; [|apply IH, Ho].
      intros Hin. apply keys_set in Hin. destruct Hin as [->|Hin].
      * rewrite String.eqb_refl in E. discriminate.
      * apply Hk0, Hin.
Qed.

Lemma get_In (o : JsObject.t B) (k : string) (v : B) :
  JsObject.get o k = Some v -> In (k, v) o.
Proof.
  induction o as [|[k0 v0] o IH]; simpl; [discriminate|].
  destruct (String.eqb k k0) eqn:E.
  - apply String.eqb_eq in E. subst k0. intros [= ->]. left. reflexivity.
  - intros H. right. apply IH, H.
Qed.

Lemma In_get (o : JsObject.t B) (k : string) (v : B) :
  NoDup (keys o) -> In (k, v) o -> JsObject.get o k = Some v.
Proof.
  unfold keys. induction o as [|[k0 v0] o IH]; simpl; [contradiction|].
  intros H Hin. inversion H as [|? ? Hk0 Ho]; subst.
  destruct Hin as [[= -> ->]|Hin].
  - rewrite String.eqb_refl. reflexivity.
  - destruct (String.eqb k k0) eqn:E.
    + apply String.eqb_eq in E. subst k0.
      exfalso. apply Hk0. apply (in_map fst) in Hin. exact Hin.
    + apply IH; assumption.
Qed.

Lemma filter_split_Permutation (A : Type) (f : A -> bool) (l : list A) :
  Permutation (filter f l ++ filter (fun x => negb (f x)) l) l.
Proof.
  induction l as [|x l IH]; simpl.
  - apply perm_nil.
  - destruct (f x); simpl.
    + apply perm_skip, IH.
    + apply Permutation_sym, Permutation_cons_app, Permutation_sym, IH.
Qed.

Lemma entries_Permutation (o : JsObject.t B) :
  Permutation (JsObject.entries o) o.
Proof.
  unfold JsObject.entries.
  eapply perm_trans; [|apply (filter_split_Permutation _
                                (fun e => JsObject.is_index (fst e)))].
  apply Permutation_app_tail, sort_Permutation.
Qed.

Lemma entries_In (o : JsObject.t B) (e : string * B) :
  In e (JsObject.entries o) <-> In e o.
Proof.
  split; apply Permutation_in;
    [apply entries_Permutation | apply Permutation_sym, entries_Permutation].
Qed.

End ObjectFacts.

(** The accumulation idiom computes, under each key, the fold of the
    update over the elements that carry this key, in their order, from
    the initial value made for the first of them. *)
Section UpsertFacts.

Variables A B : Type.
Variable key : A -> string.
Variable init : A -> B.
Variable upd : B -> A -> B.

Lemma get_upsert (o : JsObject.t B) (a : A) (k : string) :
  JsObject.get (JsObject.upsert key init upd o a) k =
  if String.eqb k (key a)
  then Some (upd (match JsObject.get o (key a) with
                  | Some b => b
                  | None => init a
                  end) a)
  else JsObject.get o k.
Proof. unfold JsObject.upsert. apply get_set. Qed.

Lemma get_accumulate (l : list A) (k : string) :
  JsObject.get (accumulate key init upd l) k =
  match with_key key k l with
  | [] => None
  | first :: rest => Some (fold_left upd (first :: rest) (init first))
  end.
Proof.
  unfold accumulate, with_key.
  induction l as [|a l IH] using rev_ind.
  - reflexivity.
  - rewrite fold_left_app, filter_app. simpl.
    rewrite get_upsert, (String.eqb_sym k).
    destruct (String.eqb (key a) k) eqn:E.
    + apply String.eqb_eq in E. subst k. rewrite IH.
      destruct (filter _ l) as [|first rest]; simpl.
      * reflexivity.
      * rewrite fold_left_app. reflexivity.
    + rewrite app_nil_r. exact IH.
Qed.

Lemma accumulate_keys_NoDup (l : list A) :
  NoDup (keys (accumulate key init upd l)).
Proof.
  unfold accumulate.
  induction l as [|a l IH] using rev_ind.
  - constructor.
  - rewrite fold_left_app. simpl. apply keys_set_NoDup, IH.
Qed.

(** An enumerated entry is the accumulated value of a non-empty class
    of elements. *)
Lemma accumulate_entry (l : list A) (k : string) (b : B) :
  In (k, b) (JsObject.entries (accumulate key init upd l)) ->
  exists first rest,
    with_key key k l = first :: rest /\
    b = fold_left upd (first :: rest) (init first).
Proof.
  intros H. apply (proj1 (entries_In _ _ _)) in H.
  apply In_get in H; [|apply accumulate_keys_NoDup].
  rewrite get_accumulate in H.
  destruct (with_key key k l) as [|first rest]; [discriminate|].
  injection H as <-. exists first, rest. split; reflexivity.
Qed.

End UpsertFacts.

Lemma insert_ext_in (A : Type) (cmp cmp' : A -> A -> Z) (x : A) (l : list A) :
  (forall y, In y l -> cmp x y = cmp' x y) ->
  Js.insert cmp x l = Js.insert cmp' x l.
Proof.
  induction l as [|y l IH]; intros H; simpl; [reflexivity|].
  rewrite (H y) by (left; reflexivity).
  rewrite IH by (intros z Hz; apply H; right; exact Hz).
  reflexivity.
Qed.

(** Two comparators that agree on the elements of a list sort it to the
    same result. *)
Lemma sort_ext_in (A : Type) (cmp cmp' : A -> A -> Z) (l : list A) :
  (forall x y, In x l -> In y l -> cmp x y = cmp' x y) ->
  Js.sort cmp l = Js.sort cmp' l.
Proof.
  induction l as [|x l IH]; intros H; simpl; [reflexivity|].
  rewrite IH by (intros a b Ha Hb; apply H; right; assumption).
  apply insert_ext_in. intros y Hy. apply H; [left; reflexivity|].
  right. apply (sort_In _ cmp' l y), Hy.
Qed.

Lemma StronglySorted_weaken (A : Type) (R R' : A -> A -> Prop) (l : list A) :
  (forall a b, R a b -> R' a b) -> StronglySorted R l -> StronglySorted R' l.
Proof.
  intros H. induction 1 as [|x l Hl IH Hx]; constructor.
  - exact IH.
  - revert Hx. apply Forall_impl. intros y. apply H.
Qed.

Lemma firstn_In (A : Type) (n : nat) (l : list A) (x : A) :
  In x (firstn n l) -> In x l.
Proof.
  intros H. rewrite <- (firstn_skipn n l). apply in_or_app. left. exact H.
Qed.


Lemma filter_length_le (A : Type) (f : A -> bool) (l : list A) :
  (List.length (filter f l) <= List.length l)%nat.
Proof.
  induction l as [|a l IH]; simpl; [lia|]. destruct (f a); simpl; lia.
Qed.

Section MoreListFacts.

Variable A : Type.

Lemma NoDup_firstn_of (n : nat) (l : list A) : NoDup l -> NoDup (firstn n l).
Proof.
  intros H. revert n. induction H as [|x l Hx Hl IH]; intros [|n]; simpl;
    try constructor.
  - intros Hin. apply Hx. apply firstn_In in Hin. exact Hin.
  - apply IH.
Qed.

(** A loop body that pushes at most one element per entry, carrying the
    key of the entry, never pushes a key twice. *)
Lemma flat_map_keys_NoDup (B C : Type) (body : string * B -> list C)
      (id_of : C -> string) (entries : list (string * B)) :
  NoDup (map fst entries) ->
  (forall e c, In c (body e) -> body e = [c] /\ id_of c = fst e) ->
  NoDup (map id_of (flat_map body entries)).
Proof.
  intros Hnd Hbody. induction entries as [|e entries IH]; simpl.
  - constructor.
  - inversion Hnd as [|? ? Hfresh Hrest]; subst.
    rewrite map_app. apply NoDup_app.
    + destruct (body e) as [|c cs] eqn:E; [constructor|].
      destruct (Hbody e c) as [Hone _]; [rewrite E; left; reflexivity|].
      rewrite E in Hone. injection Hone as ->.
      simpl. constructor; [intros []|constructor].
    + apply IH, Hrest.
    + intros k Hk Hk'. apply in_map_iff in Hk. destruct Hk as (c & <- & Hc).
      destruct (Hbody e c Hc) as [_ Hid].
      apply in_map_iff in Hk'. destruct Hk' as (c' & Heq & Hc').
      apply in_flat_map in Hc'. destruct Hc' as (e' & He' & Hc').
      destruct (Hbody e' c' Hc') as [_ Hid'].
      apply Hfresh. rewrite <- Hid, <- Heq, Hid'. apply in_map, He'.
Qed.

Lemma filter_twice (f g : A -> bool) (l : list A) :
  filter f (filter g l) = filter (fun x => g x && f x) l.
Proof.
  induction l as [|x l IH]; simpl; [reflexivity|].
  destruct (g x); simpl; [destruct (f x)|]; rewrite IH; reflexivity.
Qed.

End MoreListFacts.

Section MoreObjectFacts.

Variable B : Type.

Lemma entries_keys_NoDup (o : JsObject.t B) :
  NoDup (keys o) -> NoDup (map fst (JsObject.entries o)).
Proof.
  intros H. eapply Permutation_NoDup; [|exact H].
  apply Permutation_map, Permutation_sym, entries_Permutation.
Qed.

Variable measure : B -> nat.

Lemma total_of_set (o : JsObject.t B) (k : string) (v : B) :
  (total_of measure (JsObject.set o k v)
   + match JsObject.get o k with Some b => measure b | None => 0 end
   = total_of measure o + measure v)%nat.
Proof.
  unfold total_of. induction o as [|[k0 v0] o IH]; simpl.
  - lia.
  - destruct (String.eqb k k0); simpl; lia.
Qed.

Lemma total_of_entries (o : JsObject.t B) :
  total_of measure (JsObject.entries o) = total_of measure o.
Proof.
  unfold total_of. apply Permutation_list_sum, Permutation_map,
    entries_Permutation.
Qed.

End MoreObjectFacts.

(** When every update adds one to a measure that starts at zero, the
    measures of the accumulated object add up to the number of
    elements: each element is counted under exactly one key. *)
Lemma accumulate_total (A B : Type) (key : A -> string) (init : A -> B)
      (upd : B -> A -> B) (measure : B -> nat) (l : list A) :
  (forall a, measure (init a) = 0%nat) ->
  (forall b a, measure (upd b a) = S (measure b)) ->
  total_of measure (JsObject.entries (accumulate key init upd l)) = List.length l.
Proof.
  intros Hinit Hupd. rewrite total_of_entries. unfold accumulate.
  induction l as [|a l IH] using rev_ind; [reflexivity|].
  rewrite fold_left_app, length_app. simpl.
  set (o := fold_left (JsObject.upsert key init upd) l (JsObject.empty B)) in *.
  unfold JsObject.upsert.
  pose proof (total_of_set B measure o (key a)
                (upd match JsObject.get o (key a) with
                     | Some b => b
                     | None => init a
                     end a)) as H.
  rewrite Hupd in H.
  destruct (JsObject.get o (key a)) as [b|]; [|rewrite Hinit in H]; lia.
Qed.

(** A loop body that pushes its elements under the key of the entry:
    the elements pushed under one key are those of its entry. *)
Lemma filter_flat_map_other (B C : Type) (body : string * B -> list C)
      (id_of : C -> string) (entries : list (string * B)) (k : string) :
  (forall e c, In c (body e) -> id_of c = fst e) ->
  ~ In k (map fst entries) ->
  filter (fun c => String.eqb (id_of c) k) (flat_map body entries) = [].
Proof.
  intros Hbody Hk.
  destruct (filter _ (flat_map body entries)) as [|c cs] eqn:E; [reflexivity|].
  assert (Hc : In c (filter (fun c => String.eqb (id_of c) k)
                            (flat_map body entries)))
    by (rewrite E; left; reflexivity).
  apply filter_In in Hc. destruct Hc as [Hc Hid].
  apply String.eqb_eq in Hid. apply in_flat_map in Hc.
  destruct Hc as (e & He & Hc). exfalso. apply Hk.
  rewrite <- Hid, (Hbody e c Hc). apply in_map, He.
Qed.

Lemma filter_flat_map_key (B C : Type) (body : string * B -> list C)
      (id_of : C -> string) (entries : list (string * B)) (k : string) (b : B) :
  NoDup (map fst entries) ->
  (forall e c, In c (body e) -> id_of c = fst e) ->
  In (k, b) entries ->
  filter (fun c => String.eqb (id_of c) k) (flat_map body entries) = body (k, b).
Proof.
  intros Hnd Hbody Hin.
  induction entries as [|e entries IH]; [contradiction|].
  simpl. rewrite filter_app.
  inversion Hnd as [|? ? Hfresh Hrest]; subst.
  destruct Hin as [-> | Hin].
  - rewrite (filter_flat_map_other B C body id_of entries k Hbody Hfresh).
    rewrite app_nil_r. apply forallb_filter_id. apply forallb_forall.
    intros c Hc. rewrite (Hbody _ c Hc). apply String.eqb_refl.
  - rewrite <- (IH Hrest Hin).
    assert (Hnone : filter (fun c => String.eqb (id_of c) k) (body e) = []).
    { pose proof (filter_flat_map_other B C body id_of [e] k Hbody) as H.
      simpl in H. rewrite app_nil_r in H. apply H.
      intros [He|[]]. apply Hfresh. rewrite He.
      change k with (fst (k, b)). apply in_map, Hin. }
    rewrite Hnone. reflexivity.
Qed.

(* ================================================================== *)
(** * Numbers *)
(* ================================================================== *)

Section NumberFacts.

Lemma Qltb_true (x y : Q) : Js.Qltb x y = true <-> x < y.
Proof.
  unfold Js.Qltb. rewrite negb_true_iff.
  split; intros H.
  - apply Qnot_le_lt. intros Hle. apply Qle_bool_iff in Hle. congruence.
  - destruct (Qle_bool y x) eqn:E; [|reflexivity].
    apply Qle_bool_iff in E. exfalso. exact (Qlt_not_le _ _ H E).
Qed.

Lemma Qltb_false (x y : Q) : Js.Qltb x y = false <-> y <= x.
Proof.
  unfold Js.Qltb. rewrite negb_false_iff. apply Qle_bool_iff.
Qed.

Lemma of_nat_nonzero (n : nat) : (0 < n)%nat -> Qeq_bool (Js.of_nat n) 0 = false.
Proof.
  intros H. destruct (Qeq_bool (Js.of_nat n) 0) eqn:E; [|reflexivity].
  apply Qeq_bool_eq in E. unfold Js.of_nat, Qeq in E. simpl in E. lia.
Qed.

Lemma of_nat_nonneg (n : nat) : 0 <= Js.of_nat n.
Proof. unfold Js.of_nat, Qle. simpl. lia. Qed.

Lemma of_nat_pos (n : nat) : (0 < n)%nat -> 0 < Js.of_nat n.
Proof. intros H. unfold Js.of_nat, Qlt. simpl. lia. Qed.

Lemma of_nat_le (m n : nat) : (m <= n)%nat -> Js.of_nat m <= Js.of_nat n.
Proof. intros H. unfold Js.of_nat, Qle. simpl. lia. Qed.

Lemma round_Q_nonneg (x : Q) : 0 <= x -> (0 <= Js.round_Q x)%Z.
Proof.
  intros H. unfold Js.round_Q.
  change 0%Z with (Qfloor 0). apply Qfloor_resp_le.
  apply Qle_trans with x; [exact H|].
  rewrite <- (Qplus_0_r x) at 1. apply Qplus_le_r. discriminate.
Qed.

Lemma round_Q_le_100 (x : Q) : x <= 100 -> (Js.round_Q x <= 100)%Z.
Proof.
  intros H. unfold Js.round_Q.
  change 100%Z with (Qfloor (100 + (1 # 2))). apply Qfloor_resp_le.
  apply Qplus_le_l, H.
Qed.

Lemma round_Q_ge_1 (x : Q) : 1 <= x -> (1 <= Js.round_Q x)%Z.
Proof.
  intros H. unfold Js.round_Q.
  change 1%Z with (Qfloor (1 + (1 # 2))). apply Qfloor_resp_le.
  apply Qplus_le_l, H.
Qed.

Lemma round_Q_zero (x : Q) : x == 0 -> Js.round_Q x = 0%Z.
Proof.
  intros H. unfold Js.round_Q. rewrite H. reflexivity.
Qed.

End NumberFacts.

(** ** Rounding to binary64 *)

Section DoubleFacts.

Lemma pow2_pos (k : Z) : 0 < Js.pow2 k.
Proof. apply Qpower_0_lt. reflexivity. Qed.

Lemma pow2_plus (a b : Z) : Js.pow2 (a + b) == Js.pow2 a * Js.pow2 b.
Proof. apply Qpower_plus. discriminate. Qed.

Lemma pow2_le (a b : Z) : (a <= b)%Z -> Js.pow2 a <= Js.pow2 b.
Proof. intros H. apply Qpower_le_compat_l; [exact H | discriminate]. Qed.

Lemma pow2_lt (a b : Z) : (a < b)%Z -> Js.pow2 a < Js.pow2 b.
Proof. intros H. apply Qpower_lt_compat_l; [exact H | reflexivity]. Qed.

Lemma pow2_lt_inv (a b : Z) : Js.pow2 a < Js.pow2 b -> (a < b)%Z.
Proof. intros H. apply (Qpower_lt_compat_l_inv 2); [exact H | reflexivity]. Qed.

Lemma pow2_Z (k : Z) : (0 <= k)%Z -> Js.pow2 k == inject_Z (2 ^ k).
Proof. intros H. unfold Js.pow2. rewrite Zpower_Qpower by exact H. reflexivity. Qed.

(** [ilog2 x] is the exponent of the binade of [x]. *)
Lemma ilog2_spec (x : Q) :
  0 < x -> Js.pow2 (Js.ilog2 x) <= x /\ x < Js.pow2 (Js.ilog2 x + 1).
Proof.
  intros Hx. destruct x as [n d].
  assert (Hn : (0 < n)%Z).
  { unfold Qlt in Hx. simpl in Hx. lia. }
  destruct (Z.log2_spec n Hn) as [Hn1 Hn2].
  destruct (Z.log2_spec (Zpos d) (Pos2Z.is_pos d)) as [Hd1 Hd2].
  set (a := Z.log2 n) in *. set (b := Z.log2 (Zpos d)) in *.
  assert (Ha : (0 <= a)%Z) by apply Z.log2_nonneg.
  assert (Hb : (0 <= b)%Z) by apply Z.log2_nonneg.
  assert (Hxq : n # d == inject_Z n / inject_Z (Zpos d)) by apply Qmake_Qdiv.
  assert (Hdpos : 0 < inject_Z (Zpos d)) by (unfold Qlt; simpl; lia).
  assert (Hn1q : Js.pow2 a <= inject_Z n).
  { rewrite pow2_Z by exact Ha. rewrite <- Zle_Qle. exact Hn1. }
  assert (Hn2q : inject_Z n < Js.pow2 (a + 1)).
  { rewrite pow2_Z by lia. rewrite <- Zlt_Qlt. exact Hn2. }
  assert (Hd1q : Js.pow2 b <= inject_Z (Zpos d)).
  { rewrite pow2_Z by exact Hb. rewrite <- Zle_Qle. exact Hd1. }
  assert (Hd2q : inject_Z (Zpos d) < Js.pow2 (b + 1)).
  { rewrite pow2_Z by lia. rewrite <- Zlt_Qlt. exact Hd2. }
  unfold Js.ilog2. cbn [Qnum Qden]. fold a b.
  destruct (Qle_bool (Js.pow2 (a - b)) (n # d)) eqn:E.
  - apply Qle_bool_iff in E. split; [exact E|].
    rewrite Hxq. apply Qlt_shift_div_r; [exact Hdpos|].
    apply Qlt_le_trans with (Js.pow2 (a + 1)); [exact Hn2q|].
    replace (a + 1)%Z with ((a - b + 1) + b)%Z by ring.
    rewrite pow2_plus.
    apply Qmult_le_compat_nonneg; split; try apply Qle_refl; try exact Hd1q;
      apply Qlt_le_weak, pow2_pos.
  - assert (E' : n # d < Js.pow2 (a - b)).
    { apply Qnot_le_lt. intros H. apply Qle_bool_iff in H. congruence. }
    split.
    + rewrite Hxq. apply Qle_shift_div_l; [exact Hdpos|].
      apply Qle_trans with (Js.pow2 a); [|exact Hn1q].
      replace a with ((a - b - 1) + (b + 1))%Z at 2 by ring.
      rewrite pow2_plus.
      apply Qmult_le_compat_nonneg; split; try apply Qle_refl;
        try (apply Qlt_le_weak; exact Hd2q);
        try (apply Qlt_le_weak, pow2_pos).
      apply Qlt_le_weak. exact Hdpos.
    + replace (a - b - 1 + 1)%Z with (a - b)%Z by ring. exact E'.
Qed.

Lemma ilog2_unique (x : Q) (k : Z) :
  Js.pow2 k <= x -> x < Js.pow2 (k + 1) -> Js.ilog2 x = k.
Proof.
  intros H1 H2.
  assert (Hx : 0 < x) by (apply Qlt_le_trans with (Js.pow2 k); [apply pow2_pos | exact H1]).
  destruct (ilog2_spec x Hx) as [H3 H4].
  assert (Js.ilog2 x < k + 1)%Z.
  { apply pow2_lt_inv. apply Qle_lt_trans with x; assumption. }
  assert (k < Js.ilog2 x + 1)%Z.
  { apply pow2_lt_inv. apply Qle_lt_trans with x; assumption. }
  lia.
Qed.

Lemma ilog2_le (x y : Q) : 0 < x -> x <= y -> (Js.ilog2 x <= Js.ilog2 y)%Z.
Proof.
  intros Hx Hxy.
  assert (Hy : 0 < y) by (apply Qlt_le_trans with x; assumption).
  destruct (ilog2_spec x Hx) as [H1 _]. destruct (ilog2_spec y Hy) as [_ H2].
  assert (Js.ilog2 x < Js.ilog2 y + 1)%Z.
  { apply pow2_lt_inv. apply Qle_lt_trans with x; [exact H1|].
    apply Qle_lt_trans with y; assumption. }
  lia.
Qed.

(** ** Rounding to the nearest integer, ties to even *)

Lemma round_half_even_floor (x : Q) :
  (Qfloor x <= Js.round_half_even x <= Qfloor x + 1)%Z.
Proof.
  unfold Js.round_half_even.
  destruct (x - inject_Z (Qfloor x) ?= 1 # 2); [destruct (Z.even _)| |]; lia.
Qed.

Lemma round_half_even_comp (x y : Q) :
  x == y -> Js.round_half_even x = Js.round_half_even y.
Proof.
  intros H. unfold Js.round_half_even.
  rewrite (Qfloor_comp _ _ H).
  assert (E : (x - inject_Z (Qfloor y) ?= 1 # 2) = (y - inject_Z (Qfloor y) ?= 1 # 2)).
  { apply Qcompare_comp; [rewrite H; reflexivity | reflexivity]. }
  rewrite E. reflexivity.
Qed.

Lemma round_half_even_Z (z : Z) : Js.round_half_even (inject_Z z) = z.
Proof.
  unfold Js.round_half_even. rewrite Qfloor_Z.
  assert (E : (inject_Z z - inject_Z z ?= 1 # 2) = Lt).
  { apply Qlt_alt. setoid_replace (inject_Z z - inject_Z z) with 0 by ring.
    reflexivity. }
  rewrite E. reflexivity.
Qed.

Lemma round_half_even_le (x y : Q) :
  x <= y -> (Js.round_half_even x <= Js.round_half_even y)%Z.
Proof.
  intros Hxy.
  pose proof (Qfloor_resp_le x y Hxy) as Hf.
  destruct (Z.eq_dec (Qfloor x) (Qfloor y)) as [E|N].
  - unfold Js.round_half_even. rewrite E.
    destruct (Qcompare_spec (x - inject_Z (Qfloor y)) (1 # 2)) as [H1|H1|H1];
      destruct (Qcompare_spec (y - inject_Z (Qfloor y)) (1 # 2)) as [H2|H2|H2];
      try (destruct (Z.even (Qfloor y))); try lia; exfalso; lra.
  - pose proof (round_half_even_floor x). pose proof (round_half_even_floor y).
    lia.
Qed.

(** ** The nearest double *)

Lemma Qabs_pos_eq (x : Q) : 0 <= x -> Qabs x = x.
Proof.
  destruct x as [n d]. unfold Qle. simpl. intros H.
  unfold Qabs. f_equal. apply Z.abs_eq. lia.
Qed.

Lemma nearest_pos (x : Q) :
  0 < x ->
  Js.nearest x ==
  inject_Z (Js.round_half_even (x / Js.pow2 (Js.exponent x)))
  * Js.pow2 (Js.exponent x).
Proof.
  intros Hx. unfold Js.nearest.
  destruct (Qeq_bool x 0) eqn:E.
  - apply Qeq_bool_iff in E. lra.
  - apply Qred_correct.
Qed.

Lemma nearest_zero (x : Q) : x == 0 -> Js.nearest x = 0.
Proof.
  intros H. unfold Js.nearest.
  apply Qeq_bool_iff in H. rewrite H. reflexivity.
Qed.

Lemma exponent_pos (x : Q) :
  0 < x -> Js.exponent x = Z.max (Js.ilog2 x - 52) (-1074).
Proof.
  intros Hx. unfold Js.exponent. rewrite Qabs_pos_eq by lra. reflexivity.
Qed.

(** The scaled value lies below [2^53], and from [2^52] on above the
    subnormal range. *)
Lemma scaled_lt (x : Q) :
  0 < x -> x / Js.pow2 (Js.exponent x) < Js.pow2 53.
Proof.
  intros Hx. apply Qlt_shift_div_r; [apply pow2_pos|].
  destruct (ilog2_spec x Hx) as [_ H].
  apply Qlt_le_trans with (Js.pow2 (Js.ilog2 x + 1)); [exact H|].
  rewrite <- pow2_plus. apply pow2_le.
  rewrite exponent_pos by exact Hx. lia.
Qed.

Lemma scaled_ge (x : Q) :
  0 < x -> (-1074 < Js.exponent x)%Z ->
  Js.pow2 52 <= x / Js.pow2 (Js.exponent x).
Proof.
  intros Hx He. apply Qle_shift_div_l; [apply pow2_pos|].
  destruct (ilog2_spec x Hx) as [H _].
  apply Qle_trans with (Js.pow2 (Js.ilog2 x)); [|exact H].
  rewrite <- pow2_plus. apply pow2_le.
  rewrite exponent_pos in * by exact Hx. lia.
Qed.

Lemma nearest_nonneg (x : Q) : 0 <= x -> 0 <= Js.nearest x.
Proof.
  intros Hx. destruct (Qeq_dec x 0) as [E|N].
  - rewrite (nearest_zero x E). apply Qle_refl.
  - assert (Hpos : 0 < x) by (apply Qle_lteq in Hx; destruct Hx as [H|H]; [exact H | symmetry in H; contradiction]).
    rewrite (nearest_pos x Hpos).
    apply Qmult_le_0_compat; [|apply Qlt_le_weak, pow2_pos].
    change 0 with (inject_Z 0). rewrite <- Zle_Qle.
    rewrite <- (round_half_even_Z 0). apply round_half_even_le.
    apply Qle_shift_div_l; [apply pow2_pos|].
    setoid_replace (inject_Z 0 * Js.pow2 (Js.exponent x)) with 0 by ring.
    exact Hx.
Qed.

(** Rounding is monotone. *)
Lemma nearest_le (x y : Q) : 0 <= x -> x <= y -> Js.nearest x <= Js.nearest y.
Proof.
  intros Hx Hxy. destruct (Qeq_dec x 0) as [E|N].
  - rewrite (nearest_zero x E). apply nearest_nonneg. lra.
  - assert (Hpx : 0 < x) by (apply Qle_lteq in Hx; destruct Hx as [H|H]; [exact H | symmetry in H; contradiction]).
    assert (Hpy : 0 < y) by lra.
    rewrite (nearest_pos x Hpx), (nearest_pos y Hpy).
    pose proof (ilog2_le x y Hpx Hxy) as Hlog.
    assert (He : (Js.exponent x <= Js.exponent y)%Z).
    { rewrite !exponent_pos by assumption. lia. }
    destruct (Z.eq_dec (Js.exponent x) (Js.exponent y)) as [Eq|Neq].
    + rewrite Eq. apply Qmult_le_compat_r; [|apply Qlt_le_weak, pow2_pos].
      rewrite <- Zle_Qle. apply round_half_even_le.
      apply Qmult_le_compat_r; [exact Hxy|].
      apply Qlt_le_weak, Qinv_lt_0_compat, pow2_pos.
    + assert (Hlt : (Js.exponent x + 1 <= Js.exponent y)%Z) by lia.
      assert (Hy1074 : (-1074 < Js.exponent y)%Z).
      { pose proof (exponent_pos x Hpx). lia. }
      apply Qle_trans with (Js.pow2 53 * Js.pow2 (Js.exponent x)).
      * apply Qmult_le_compat_r; [|apply Qlt_le_weak, pow2_pos].
        rewrite (pow2_Z 53) by lia. rewrite <- Zle_Qle.
        rewrite <- (round_half_even_Z (2 ^ 53)).
        apply round_half_even_le. rewrite <- (pow2_Z 53) by lia.
        apply Qlt_le_weak, scaled_lt. exact Hpx.
      * apply Qle_trans with (Js.pow2 52 * Js.pow2 (Js.exponent y)).
        -- rewrite <- !pow2_plus. apply pow2_le. lia.
        -- apply Qmult_le_compat_r; [|apply Qlt_le_weak, pow2_pos].
           rewrite (pow2_Z 52) by lia. rewrite <- Zle_Qle.
           rewrite <- (round_half_even_Z (2 ^ 52)).
           apply round_half_even_le. rewrite <- (pow2_Z 52) by lia.
           apply scaled_ge; assumption.
Qed.


(** An operation on finite operands never gives [NaN]. *)
Lemma double_not_NaN (x : Q) : Js.double x <> Js.NaN.
Proof.
  unfold Js.double. destruct (Qle_bool _ _); discriminate.
Qed.

(** A result between zero and a double below [2^1024] is finite and
    between the two. *)
Lemma double_between (x c : Q) :
  0 <= x -> x <= c -> Js.nearest c == c -> c < Js.pow2 1024 ->
  exists q, Js.double x = Js.Fin q /\ 0 <= q /\ q <= c.
Proof.
  intros H0 Hc Hfix Hmax.
  pose proof (nearest_nonneg x H0) as Hn0.
  pose proof (nearest_le x c H0 Hc) as Hnc. rewrite Hfix in Hnc.
  exists (Js.nearest x). split; [|split; assumption].
  unfold Js.double.
  destruct (Qle_bool (Js.pow2 1024) (Qabs (Js.nearest x))) eqn:E; [|reflexivity].
  apply Qle_bool_iff in E. rewrite Qabs_pos in E by exact Hn0.
  exfalso. apply (Qlt_irrefl c).
  apply Qlt_le_trans with (Js.pow2 1024); [exact Hmax|].
  apply Qle_trans with (Js.nearest x); assumption.
Qed.

(** A result from a double on is at least this double. *)
Lemma double_from (x c : Q) :
  0 <= c -> c <= x -> Js.nearest c == c ->
  match Js.double x with
  | Js.Fin q => c <= q
  | Js.Inf s => s = true
  | Js.NaN => False
  end.
Proof.
  intros H0 Hc Hfix.
  pose proof (nearest_le c x H0 Hc) as Hn. rewrite Hfix in Hn.
  unfold Js.double.
  destruct (Qle_bool (Js.pow2 1024) (Qabs (Js.nearest x))) eqn:E; [|exact Hn].
  apply Qltb_true. apply Qlt_le_trans with (Js.pow2 1024); [apply pow2_pos|].
  apply Qle_bool_iff in E.
  rewrite Qabs_pos in E; [exact E|]. apply Qle_trans with c; assumption.
Qed.

Lemma div_counts (a b : nat) :
  (0 < b)%nat ->
  Js.div (Js.count a) (Js.count b) = Js.double (Js.of_nat a / Js.of_nat b).
Proof.
  intros H. unfold Js.div, Js.count. rewrite (of_nat_nonzero b H). reflexivity.
Qed.

(** A quotient of two counts, the first at most [k] times the second,
    is a number between 0 and [k]. *)
Lemma ratio_between (a b : nat) (k : Q) :
  (0 < b)%nat -> Js.of_nat a <= k * Js.of_nat b ->
  Js.nearest k == k -> k < Js.pow2 1024 ->
  exists q, Js.div (Js.count a) (Js.count b) = Js.Fin q /\ 0 <= q /\ q <= k.
Proof.
  intros Hb Hab Hfix Hmax. rewrite (div_counts a b Hb).
  apply double_between; try assumption.
  - apply Qle_shift_div_l; [apply of_nat_pos, Hb|].
    rewrite Qmult_0_l. apply of_nat_nonneg.
  - apply Qle_shift_div_r; [apply of_nat_pos, Hb|]. exact Hab.
Qed.

Lemma pow2_1024_large (c : Q) : c <= 200 -> c < Js.pow2 1024.
Proof.
  intros H. apply Qle_lt_trans with 200; [exact H|].
  apply Qlt_le_trans with (Js.pow2 8); [reflexivity|].
  apply pow2_le. lia.
Qed.

(** A percentage of a part is a number between 0 and 100. *)
Lemma percentage_between (count total : nat) :
  (0 < total)%nat -> (count <= total)%nat ->
  exists q, percentage count total = Js.Fin q /\ 0 <= q /\ q <= 100.
Proof.
  intros Ht Hc. unfold percentage.
  destruct (ratio_between count total 1 Ht) as (r & Hr & Hr0 & Hr1).
  - rewrite Qmult_1_l. apply of_nat_le, Hc.
  - reflexivity.
  - apply pow2_1024_large. discriminate.
  - rewrite Hr. cbn [Js.mul].
    apply double_between.
    + apply Qmult_le_0_compat; [exact Hr0 | discriminate].
    + apply Qle_trans with (1 * 100); [|discriminate].
      apply Qmult_le_compat_r; [exact Hr1 | discriminate].
    + reflexivity.
    + apply pow2_1024_large. discriminate.
Qed.

(** The percentage of a count that is at most twice the total lies
    between 0 and 200. *)
Lemma percentage_between_200 (count total : nat) :
  (0 < total)%nat -> (count <= 2 * total)%nat ->
  exists q, percentage count total = Js.Fin q /\ 0 <= q /\ q <= 200.
Proof.
  intros Ht Hc. unfold percentage.
  destruct (ratio_between count total 2 Ht) as (r & Hr & Hr0 & Hr1).
  - unfold Js.of_nat. rewrite <- (inject_Z_mult 2). rewrite <- Zle_Qle. lia.
  - reflexivity.
  - apply pow2_1024_large. discriminate.
  - rewrite Hr. cbn [Js.mul].
    apply double_between.
    + apply Qmult_le_0_compat; [exact Hr0 | discriminate].
    + apply Qle_trans with (2 * 100); [|discriminate].
      apply Qmult_le_compat_r; [exact Hr1 | discriminate].
    + reflexivity.
    + apply pow2_1024_large. discriminate.
Qed.


(** The rounded percentage of a part is an integer between 0 and 100. *)
Lemma rounded_percentage (count total : nat) :
  (0 < total)%nat -> (count <= total)%nat ->
  exists z, Js.round (percentage count total) = Js.RInt z /\ (0 <= z <= 100)%Z.
Proof.
  intros Ht Hc.
  destruct (percentage_between count total Ht Hc) as (q & Hq & H0 & H100).
  exists (Js.round_Q q). rewrite Hq. split; [reflexivity|].
  split; [apply round_Q_nonneg, H0 | apply round_Q_le_100, H100].
Qed.

(** ** Integers and sums *)

Lemma pow2_opp (k : Z) : Js.pow2 (- k) == / Js.pow2 k.
Proof. unfold Js.pow2. apply Qpower_opp. Qed.

(** Integers below [2^53] are doubles. *)
Lemma nearest_Z (z : Z) :
  (0 <= z < 2 ^ 53)%Z -> Js.nearest (inject_Z z) == inject_Z z.
Proof.
  intros [H0 H53].
  destruct (Z.eq_dec z 0) as [->|N]; [reflexivity|].
  assert (Hpos : 0 < inject_Z z).
  { change 0 with (inject_Z 0). rewrite <- Zlt_Qlt. lia. }
  rewrite (nearest_pos _ Hpos).
  set (e := Js.exponent (inject_Z z)).
  assert (He : (e <= 0)%Z).
  { unfold e. rewrite exponent_pos by exact Hpos.
    destruct (ilog2_spec _ Hpos) as [Hlo _].
    assert (Js.ilog2 (inject_Z z) < 53)%Z.
    { apply pow2_lt_inv. apply Qle_lt_trans with (inject_Z z); [exact Hlo|].
      rewrite (pow2_Z 53) by lia. rewrite <- Zlt_Qlt. exact H53. }
    lia. }
  assert (Hscaled : inject_Z z / Js.pow2 e == inject_Z (z * 2 ^ (- e))).
  { rewrite inject_Z_mult, <- pow2_Z by lia. rewrite pow2_opp.
    unfold Qdiv. reflexivity. }
  rewrite (round_half_even_comp _ _ Hscaled), round_half_even_Z.
  rewrite inject_Z_mult, <- pow2_Z by lia.
  rewrite <- Qmult_assoc, <- pow2_plus.
  replace (- e + e)%Z with 0%Z by lia. change (Js.pow2 0) with 1. ring.
Qed.

Lemma double_Z (z : Z) :
  (0 <= z < 2 ^ 53)%Z -> exists q, Js.double (inject_Z z) = Js.Fin q /\ q == inject_Z z.
Proof.
  intros H. pose proof (nearest_Z z H) as Hn.
  exists (Js.nearest (inject_Z z)). split; [|exact Hn].
  unfold Js.double.
  destruct (Qle_bool (Js.pow2 1024) (Qabs (Js.nearest (inject_Z z)))) eqn:E;
    [|reflexivity].
  exfalso. apply Qle_bool_iff in E. rewrite Hn in E.
  rewrite Qabs_pos in E.
  - apply (Qlt_irrefl (Js.pow2 1024)). apply Qle_lt_trans with (inject_Z z); [exact E|].
    apply Qlt_le_trans with (Js.pow2 53); [|apply pow2_le; lia].
    rewrite (pow2_Z 53) by lia. rewrite <- Zlt_Qlt. lia.
  - change 0 with (inject_Z 0). rewrite <- Zle_Qle. lia.
Qed.

(** A result below a number whose nearest double is below [2^1024] is
    finite. *)
Lemma double_below (x c : Q) :
  0 <= x -> x <= c -> Js.nearest c < Js.pow2 1024 ->
  exists q, Js.double x = Js.Fin q /\ 0 <= q /\ q <= Js.nearest c.
Proof.
  intros H0 Hc Hmax.
  pose proof (nearest_nonneg x H0) as Hn0.
  pose proof (nearest_le x c H0 Hc) as Hnc.
  exists (Js.nearest x). split; [|split; assumption].
  unfold Js.double.
  destruct (Qle_bool (Js.pow2 1024) (Qabs (Js.nearest x))) eqn:E; [|reflexivity].
  apply Qle_bool_iff in E. rewrite Qabs_pos in E by exact Hn0.
  exfalso. apply (Qlt_irrefl (Js.nearest c)).
  apply Qlt_le_trans with (Js.pow2 1024); [exact Hmax|].
  apply Qle_trans with (Js.nearest x); assumption.
Qed.

(** Adding a finite number never gives [NaN]. *)
Lemma add_Fin_not_NaN (a : Js.num) (q : Q) :
  a <> Js.NaN -> Js.add a (Js.Fin q) <> Js.NaN.
Proof.
  destruct a as [x|s|]; intros H; cbn [Js.add];
    [apply double_not_NaN | discriminate | contradiction].
Qed.

Lemma fold_add_not_NaN (A : Type) (f : A -> Q) (l : list A) (a : Js.num) :
  a <> Js.NaN ->
  fold_left (fun sum p => Js.add sum (Js.Fin (f p))) l a <> Js.NaN.
Proof.
  revert a. induction l as [|p l IH]; intros a Ha; cbn [fold_left]; [exact Ha|].
  apply IH, add_Fin_not_NaN, Ha.
Qed.

Lemma div_count_not_NaN (a : Js.num) (n : nat) :
  a <> Js.NaN -> (0 < n)%nat -> Js.div a (Js.count n) <> Js.NaN.
Proof.
  intros Ha Hn. destruct a as [x|s|]; [| |contradiction]; unfold Js.count;
    cbn [Js.div]; rewrite (of_nat_nonzero n Hn);
    [apply double_not_NaN | discriminate].
Qed.

Lemma round_not_NaN (a : Js.num) : a <> Js.NaN -> Js.round a <> Js.RNaN.
Proof. destruct a; intros H; [discriminate | discriminate | contradiction]. Qed.

(** A running sum that has reached [M] no longer grows when the terms
    are at most [B] and [M + B] rounds to [M]. *)
Lemma add_saturated (M B x b : Q) :
  Js.nearest (M + B) == M -> M < Js.pow2 1024 ->
  0 <= x -> x <= M -> 0 <= b -> b <= B ->
  exists y, Js.add (Js.Fin x) (Js.Fin b) = Js.Fin y /\ 0 <= y /\ y <= M.
Proof.
  intros Hfix Hmax Hx0 Hx Hb0 Hb. cbn [Js.add].
  destruct (double_below (x + b) (M + B)) as (y & Hy & Hy0 & Hyc).
  - lra.
  - lra.
  - rewrite Hfix. exact Hmax.
  - exists y. rewrite Hfix in Hyc. auto.
Qed.

Lemma fold_add_saturated (A : Type) (f : A -> Q) (M B : Q) (l : list A) (x : Q) :
  Js.nearest (M + B) == M -> M < Js.pow2 1024 ->
  (forall p, In p l -> 0 <= f p /\ f p <= B) ->
  0 <= x -> x <= M ->
  exists y, fold_left (fun sum p => Js.add sum (Js.Fin (f p))) l (Js.Fin x)
            = Js.Fin y /\ 0 <= y /\ y <= M.
Proof.
  intros Hfix Hmax. revert x.
  induction l as [|p l IH]; intros x Hl Hx0 Hx; cbn [fold_left].
  - exists x. auto.
  - destruct (add_saturated M B x (f p) Hfix Hmax Hx0 Hx) as (y & Hy & Hy0 & HyM);
      try apply (Hl p); try (left; reflexivity).
    rewrite Hy. apply IH; try assumption.
    intros q Hq. apply Hl. right. exact Hq.
Qed.

(** The sum of [n] numbers between 0 and 100 is at most [100 n], for
    [n] below [2^32]: the bounds are integers below [2^53]. *)
Lemma fold_add_linear (A : Type) (f : A -> Q) (l : list A) (x : Q) (k : nat) :
  (forall p, In p l -> 0 <= f p /\ f p <= 100) ->
  0 <= x -> x <= 100 * Js.of_nat k ->
  array_length (k + List.length l) ->
  exists y, fold_left (fun sum p => Js.add sum (Js.Fin (f p))) l (Js.Fin x)
            = Js.Fin y /\ 0 <= y /\ y <= 100 * Js.of_nat (k + List.length l).
Proof.
  revert x k. induction l as [|p l IH]; intros x k Hl Hx0 Hx Hlen;
    cbn [fold_left].
  - exists x. rewrite Nat.add_0_r. auto.
  - assert (Hp : 0 <= f p /\ f p <= 100) by (apply Hl; left; reflexivity).
    assert (Hnext : 100 * Js.of_nat (S k) == inject_Z (100 * Z.of_nat (S k))).
    { unfold Js.of_nat. rewrite inject_Z_mult. reflexivity. }
    assert (Hrange : (0 <= 100 * Z.of_nat (S k) < 2 ^ 53)%Z).
    { unfold array_length in Hlen. cbn [List.length] in Hlen. lia. }
    assert (Hsum : x + f p <= inject_Z (100 * Z.of_nat (S k))).
    { rewrite <- Hnext.
      assert (Hs : Js.of_nat (S k) == Js.of_nat k + 1).
      { unfold Js.of_nat. rewrite Nat2Z.inj_succ, <- Z.add_1_r.
        rewrite inject_Z_plus. reflexivity. }
      rewrite Hs. lra. }
    cbn [Js.add].
    destruct (double_below (x + f p) (inject_Z (100 * Z.of_nat (S k))))
      as (y & Hy & Hy0 & Hyc).
    + lra.
    + exact Hsum.
    + rewrite (nearest_Z _ Hrange).
      apply Qlt_le_trans with (Js.pow2 53); [|apply pow2_le; lia].
      rewrite (pow2_Z 53) by lia. rewrite <- Zlt_Qlt. lia.
    + rewrite (nearest_Z _ Hrange), <- Hnext in Hyc. rewrite Hy.
      destruct (IH y (S k)) as (y' & Hy' & Hy'0 & Hy'c).
      * intros q Hq. apply Hl. right. exact Hq.
      * exact Hy0.
      * exact Hyc.
      * cbn [List.length] in Hlen. rewrite Nat.add_succ_r in Hlen. exact Hlen.
      * exists y'. split; [exact Hy'|]. split; [exact Hy'0|].
        cbn [List.length]. rewrite Nat.add_succ_r. exact Hy'c.
Qed.

(** The quotient of a number between 0 and [c n] by the count [n] is
    between 0 and [c], for a double [c]. *)
Lemma div_count_between (y c : Q) (n : nat) :
  0 <= y -> y <= c * Js.of_nat n -> (0 < n)%nat ->
  Js.nearest c == c -> c < Js.pow2 1024 ->
  exists q, Js.div (Js.Fin y) (Js.count n) = Js.Fin q /\ 0 <= q /\ q <= c.
Proof.
  intros Hy0 Hy Hn Hfix Hmax. unfold Js.count. cbn [Js.div].
  rewrite (of_nat_nonzero n Hn).
  apply double_between; try assumption.
  - apply Qle_shift_div_l; [apply of_nat_pos, Hn|]. lra.
  - apply Qle_shift_div_r; [apply of_nat_pos, Hn|]. exact Hy.
Qed.

Lemma round_Q_le (x : Q) (z : Z) : x <= inject_Z z -> (Js.round_Q x <= z)%Z.
Proof.
  intros H. unfold Js.round_Q.
  pose proof (Qfloor_le (x + (1 # 2))) as Hf.
  assert (Hlt : inject_Z (Qfloor (x + (1 # 2))) < inject_Z (z + 1)).
  { rewrite inject_Z_plus. change (inject_Z 1) with 1. lra. }
  rewrite <- Zlt_Qlt in Hlt. lia.
Qed.

(** Sums and means of numbers that are not negative. *)
Lemma add_nonnegative (a : Js.num) (b : Q) :
  nonnegative a -> 0 <= b -> nonnegative (Js.add a (Js.Fin b)).
Proof.
  destruct a as [x|s|]; cbn [nonnegative Js.add]; intros Ha Hb;
    [|exact Ha | contradiction].
  apply (double_from (x + b) 0); [apply Qle_refl | | reflexivity].
  apply Qle_trans with (0 + 0); [apply Qle_refl|].
  apply Qplus_le_compat; assumption.
Qed.

Lemma sum_nonnegative (l : list Q) :
  (forall x, In x l -> 0 <= x) -> nonnegative (Js.sum l).
Proof.
  unfold Js.sum.
  assert (H : forall a, nonnegative a -> (forall x, In x l -> 0 <= x) ->
                        nonnegative (fold_left (fun a b => Js.add a (Js.Fin b)) l a)).
  { induction l as [|x l IH]; intros a Ha Hl; cbn [fold_left]; [exact Ha|].
    apply IH.
    - apply add_nonnegative; [exact Ha | apply Hl; left; reflexivity].
    - intros y Hy. apply Hl. right. exact Hy. }
  intros Hl. apply H; [apply Qle_refl | exact Hl].
Qed.

Lemma div_count_nonnegative (a : Js.num) (n : nat) :
  nonnegative a -> (0 < n)%nat -> nonnegative (Js.div a (Js.count n)).
Proof.
  intros Ha Hn. unfold Js.count.
  destruct a as [x|s|]; cbn [nonnegative Js.div] in *;
    rewrite ?(of_nat_nonzero n Hn); [| |contradiction].
  - apply (double_from (x / Js.of_nat n) 0);
      [apply Qle_refl | | reflexivity].
    apply Qle_shift_div_l; [apply of_nat_pos, Hn|].
    rewrite Qmult_0_l. exact Ha.
  - subst s. cbn [nonnegative].
    assert (E : Js.Qltb 0 (Js.of_nat n) = true)
      by (apply Qltb_true, of_nat_pos, Hn).
    rewrite E. reflexivity.
Qed.

Lemma round_nonnegative (a : Js.num) :
  nonnegative a -> rounded_nonnegative (Js.round a).
Proof.
  destruct a as [x|s|]; cbn [nonnegative Js.round rounded_nonnegative];
    [apply round_Q_nonneg | auto | auto].
Qed.

Lemma mean_nonnegative (l : list Q) :
  (forall x, In x l -> 0 <= x) -> nonnegative (mean l).
Proof.
  intros H. unfold mean.
  destruct (0 <? List.length l)%nat eqn:E; [|apply Qle_refl].
  apply Nat.ltb_lt in E.
  apply div_count_nonnegative; [apply sum_nonnegative, H | exact E].
Qed.

Lemma geb_weaken (a : Js.num) (x y : Q) :
  x <= y -> Js.geb a y = true -> Js.geb a x = true.
Proof.
  destruct a as [q|s|]; cbn [Js.geb]; intros Hxy H; [|exact H | exact H].
  apply Qle_bool_iff. apply Qle_bool_iff in H.
  apply Qle_trans with y; assumption.
Qed.

End DoubleFacts.


(* ================================================================== *)
(** * Performance alerts *)
(* ================================================================== *)

Section AlertFacts.

Import AiInsights.

Lemma totalStudents_fold (rows : list ModuleProgress) (d : ModulePerformance) :
  totalStudents (fold_left record_progress rows d) =
  (totalStudents d + List.length rows)%nat.
Proof.
  revert d. induction rows as [|mp rows IH]; intros d; simpl.
  - lia.
  - rewrite IH. simpl. lia.
Qed.

(** Every module of the map has at least one progress row, and
    [totalStudents] counts its rows. *)
Lemma module_entry_rows (moduleProgressData : option (list ModuleProgress))
      (moduleId : string) (d : ModulePerformance) :
  In (moduleId, d) (JsObject.entries (modulePerformanceMap moduleProgressData)) ->
  exists rows,
    moduleProgressData = Some rows /\
    totalStudents d = List.length (with_key module_id moduleId rows) /\
    (1 <= totalStudents d)%nat.
Proof.
  destruct moduleProgressData as [rows|]; simpl; [|contradiction].
  intros H. apply accumulate_entry in H.
  destruct H as (first & rest & Hk & ->).
  exists rows. split; [reflexivity|].
  rewrite totalStudents_fold, Hk. simpl. lia.
Qed.

(** A row is counted as failing at most once and as needing remedial
    work at most twice. *)
Lemma counters_fold (rows : list ModuleProgress) (d : ModulePerformance) :
  (failing d <= totalStudents d)%nat ->
  (needsRemedial d <= 2 * totalStudents d)%nat ->
  (failing (fold_left record_progress rows d)
   <= totalStudents (fold_left record_progress rows d))%nat /\
  (needsRemedial (fold_left record_progress rows d)
   <= 2 * totalStudents (fold_left record_progress rows d))%nat.
Proof.
  revert d. induction rows as [|mp rows IH]; intros d Hf Hr; [split; assumption|].
  simpl. apply IH; unfold record_progress; cbn [failing needsRemedial totalStudents].
  - destruct (_ && _); lia.
  - destruct (needs_remedial mp), (_ && _ && _); lia.
Qed.

Lemma module_entry_counters (moduleProgressData : option (list ModuleProgress))
      (moduleId : string) (d : ModulePerformance) :
  In (moduleId, d) (JsObject.entries (modulePerformanceMap moduleProgressData)) ->
  (1 <= totalStudents d)%nat /\
  (failing d <= totalStudents d)%nat /\
  (needsRemedial d <= 2 * totalStudents d)%nat.
Proof.
  intros H. destruct (module_entry_rows _ _ _ H) as (rows & -> & _ & Hpos).
  split; [exact Hpos|].
  simpl in H. apply accumulate_entry in H.
  destruct H as (first & rest & _ & ->).
  apply counters_fold; simpl; lia.
Qed.

Lemma avgScore_mean (d : ModulePerformance) : avgScore d = mean (scores d).
Proof. reflexivity. Qed.

Lemma modulePerformanceMap_keys (moduleProgressData : option (list ModuleProgress)) :
  NoDup (map fst (JsObject.entries (modulePerformanceMap moduleProgressData))).
Proof.
  apply entries_keys_NoDup.
  destruct moduleProgressData as [rows|]; [|constructor].
  apply (accumulate_keys_NoDup _ _ module_id new_module record_progress rows).
Qed.

(** The alert of an entry carries the id of its module. *)
Lemma alert_for_id (entry : string * ModulePerformance) (a : PerformanceAlert) :
  alert_for entry = Some a -> pa_moduleId a = fst entry.
Proof.
  destruct entry as [moduleId d]. unfold alert_for.
  destruct (Js.geb _ _); [intros [= <-]; reflexivity|].
  destruct (Js.geb _ _); [intros [= <-]; reflexivity|].
  destruct (Js.ltb _ _); [intros [= <-]; reflexivity | discriminate].
Qed.

(** The alerts of the list that concern one module are the alert of its
    entry, if any. *)
Lemma alerts_of_module (moduleProgressData : option (list ModuleProgress))
      (moduleId : string) (d : ModulePerformance) :
  In (moduleId, d) (JsObject.entries (modulePerformanceMap moduleProgressData)) ->
  filter (fun a => String.eqb (pa_moduleId a) moduleId)
         (performanceAlerts moduleProgressData)
  = match alert_for (moduleId, d) with
    | Some a => [a]
    | None => []
    end.
Proof.
  intros H. unfold performanceAlerts.
  apply (filter_flat_map_key
           _ _
           (fun entry => match alert_for entry with
                         | Some a => [a]
                         | None => []
                         end)
           pa_moduleId _ moduleId d).
  - apply modulePerformanceMap_keys.
  - intros e c Hc. destruct (alert_for e) as [a|] eqn:E; [|contradiction].
    destruct Hc as [<-|[]]. apply alert_for_id, E.
  - exact H.
Qed.

End AlertFacts.

Section ModuleCounterFacts.

Import AiInsights.

Lemma record_progress_spec (d : ModulePerformance) (mp : ModuleProgress) :
  let d' := record_progress d mp in
  title d' = title d /\
  failing d' = (failing d + if is_failing mp then 1 else 0)%nat /\
  needsRemedial d' =
    (needsRemedial d + (if is_borderline mp then 1 else 0)
     + (if needs_remedial mp then 1 else 0))%nat /\
  scores d' = scores d ++ (if has_score mp then [score_of mp] else []).
Proof.
  unfold record_progress, is_failing, is_borderline, has_score. simpl.
  destruct (Js.Qltb 0 (score_of mp)), (Js.Qltb (score_of mp) 60),
    (Js.Qltb (score_of mp) 70), (needs_remedial mp); simpl;
    rewrite ?app_nil_r; repeat split; lia.
Qed.

Lemma record_progresses_spec (l : list ModuleProgress) (d : ModulePerformance) :
  let d' := fold_left record_progress l d in
  title d' = title d /\
  failing d' = (failing d + List.length (filter is_failing l))%nat /\
  needsRemedial d' =
    (needsRemedial d + List.length (filter is_borderline l)
     + List.length (filter needs_remedial l))%nat /\
  scores d' = scores d ++ map score_of (filter has_score l).
Proof.
  revert d. induction l as [|mp l IH]; intros d; simpl.
  - rewrite app_nil_r. repeat split; lia.
  - destruct (IH (record_progress d mp)) as (H1 & H2 & H3 & H4).
    destruct (record_progress_spec d mp) as (R1 & R2 & R3 & R4).
    rewrite H1, H2, H3, H4, R1, R2, R3, R4.
    destruct (is_failing mp), (is_borderline mp), (needs_remedial mp),
      (has_score mp); simpl; rewrite <- ?app_assoc; simpl;
      rewrite ?app_nil_r; repeat split; lia.
Qed.

(** The counters of a module are read off its rows. *)
Lemma module_counters (rows : list ModuleProgress) (moduleId : string)
      (d : ModulePerformance) :
  In (moduleId, d) (JsObject.entries (modulePerformanceMap (Some rows))) ->
  let mine := rows_of_module moduleId rows in
  totalStudents d = List.length mine /\
  failing d = List.length (filter is_failing mine) /\
  needsRemedial d =
    (List.length (filter is_borderline mine)
     + List.length (filter needs_remedial mine))%nat /\
  scores d = map score_of (filter has_score mine) /\
  exists first rest, mine = first :: rest /\ title d = module_title first.
Proof.
  intros Hin mine.
  destruct (module_entry_rows _ _ _ Hin) as (rows' & Hrows & Htotal & Hpos).
  injection Hrows as <-. fold (rows_of_module moduleId rows) in Htotal.
  fold mine in Htotal.
  simpl in Hin. apply accumulate_entry in Hin.
  destruct Hin as (first & rest & Hmine & ->).
  fold (rows_of_module moduleId rows) in Hmine. fold mine in Hmine.
  destruct (record_progresses_spec (first :: rest) (new_module first))
    as (Ht & Hf & Hr & Hs).
  clearbody mine. subst mine.
  cbn [new_module failing needsRemedial scores title Nat.add app]
    in Ht, Hf, Hr, Hs.
  split; [exact Htotal|]. split; [exact Hf|]. split; [exact Hr|].
  split; [exact Hs|].
  exists first, rest. split; [reflexivity | exact Ht].
Qed.

(** The module of every progress row has an entry in the map. *)
Lemma module_of_row (rows : list ModuleProgress) (row : ModuleProgress) :
  In row rows ->
  exists d,
    In (module_id row, d) (JsObject.entries (modulePerformanceMap (Some rows))).
Proof.
  intros Hin.
  assert (Hmine : In row (with_key module_id (module_id row) rows)).
  { unfold with_key. apply filter_In. split; [exact Hin|].
    apply String.eqb_refl. }
  pose proof (get_accumulate _ _ module_id new_module record_progress rows
                             (module_id row)) as Hget.
  destruct (with_key module_id (module_id row) rows) as [|first rest];
    [contradiction|].
  eexists. apply entries_In, get_In. exact Hget.
Qed.

End ModuleCounterFacts.

(** The alerts of the module of a progress row.  The module has at
    least one row, so its two rates, computed over its rows, are finite
    numbers, and the list of alerts holds at most one alert for it,
    decided on the unrounded numbers by the first rule that matches. *)
Lemma alerts_first_match
        (rows : list AiInsights.ModuleProgress)
        (row : AiInsights.ModuleProgress) :
  In row rows ->
  let moduleId := AiInsights.module_id row in
  let mine := rows_of_module moduleId rows in
  let emitted :=
    filter (fun a => String.eqb (AiInsights.pa_moduleId a) moduleId)
           (AiInsights.performanceAlerts (Some rows)) in
  let total := List.length mine in
  let average :=
    mean (map AiInsights.score_of (filter has_score mine)) in
  (1 <= total)%nat /\
  exists failure remedial,
    percentage (List.length (filter is_failing mine)) total
      = Js.Fin failure /\
    percentage (List.length (filter is_borderline mine)
                + List.length (filter AiInsights.needs_remedial mine)) total
      = Js.Fin remedial /\
    (30 <= failure ->
     exists a, emitted = [a] /\
               AiInsights.pa_type a = AiInsights.Critical /\
               AiInsights.pa_severity a = AiInsights.SeverityHigh /\
               AiInsights.pa_value a = Js.RInt (Js.round_Q failure)) /\
    (failure < 30 -> 40 <= remedial ->
     exists a, emitted = [a] /\
               AiInsights.pa_type a = AiInsights.Warning /\
               AiInsights.pa_severity a = AiInsights.SeverityMedium /\
               AiInsights.pa_value a = Js.RInt (Js.round_Q remedial)) /\
    (failure < 30 -> remedial < 40 -> Js.ltb average 70 = true ->
     exists a, emitted = [a] /\
               AiInsights.pa_type a = AiInsights.Info /\
               AiInsights.pa_severity a = AiInsights.SeverityLow /\
               AiInsights.pa_value a = Js.round average) /\
    (failure < 30 -> remedial < 40 -> Js.ltb average 70 = false ->
     emitted = []).
Proof.
  intros Hrow moduleId mine emitted total average.
  destruct (module_of_row rows row Hrow) as (d & Hin).
  fold moduleId in Hin.
  destruct (module_entry_counters _ _ _ Hin) as (Hpos & Hfail & Hrem).
  destruct (module_counters rows moduleId d Hin)
    as (Htotal & Hfailing & Hremedial & Hscores & _).
  fold mine in Htotal, Hfailing, Hremedial, Hscores.
  fold total in Htotal.
  assert (Hem : emitted = match AiInsights.alert_for (moduleId, d) with
                          | Some a => [a]
                          | None => []
                          end)
    by (apply alerts_of_module, Hin).
  unfold AiInsights.alert_for in Hem.
  change (AiInsights.failureRate d)
    with (percentage (AiInsights.failing d) (AiInsights.totalStudents d)) in Hem.
  change (AiInsights.remedialRate d)
    with (percentage (AiInsights.needsRemedial d) (AiInsights.totalStudents d))
    in Hem.
  change (AiInsights.avgScore d) with (mean (AiInsights.scores d)) in Hem.
  rewrite Htotal in Hpos, Hfail, Hrem, Hem.
  rewrite Hfailing in Hfail, Hem. rewrite Hremedial in Hrem, Hem.
  rewrite Hscores in Hem. fold average in Hem.
  split; [exact Hpos|].
  destruct (percentage_between (List.length (filter is_failing mine)) total)
    as (failure & Hf & _); [lia | exact Hfail |].
  destruct (percentage_between_200
              (List.length (filter is_borderline mine)
               + List.length (filter AiInsights.needs_remedial mine)) total)
    as (remedial & Hr & _); [lia | exact Hrem |].
  exists failure, remedial.
  split; [exact Hf|]. split; [exact Hr|].
  rewrite Hf, Hr in Hem. cbn [Js.geb Js.round] in Hem.
  repeat split.
  - intros H1. apply Qle_bool_iff in H1. rewrite H1 in Hem.
    eexists. split; [exact Hem|]. repeat split.
  - intros H1 H2.
    assert (E1 : Qle_bool 30 failure = false).
    { destruct (Qle_bool 30 failure) eqn:E; [|reflexivity].
      apply Qle_bool_iff in E. lra. }
    apply Qle_bool_iff in H2. rewrite E1, H2 in Hem.
    eexists. split; [exact Hem|]. repeat split.
  - intros H1 H2 H3.
    assert (E1 : Qle_bool 30 failure = false).
    { destruct (Qle_bool 30 failure) eqn:E; [|reflexivity].
      apply Qle_bool_iff in E. lra. }
    assert (E2 : Qle_bool 40 remedial = false).
    { destruct (Qle_bool 40 remedial) eqn:E; [|reflexivity].
      apply Qle_bool_iff in E. lra. }
    rewrite E1, E2, H3 in Hem.
    eexists. split; [exact Hem|]. repeat split.
  - intros H1 H2 H3.
    assert (E1 : Qle_bool 30 failure = false).
    { destruct (Qle_bool 30 failure) eqn:E; [|reflexivity].
      apply Qle_bool_iff in E. lra. }
    assert (E2 : Qle_bool 40 remedial = false).
    { destruct (Qle_bool 40 remedial) eqn:E; [|reflexivity].
      apply Qle_bool_iff in E. lra. }
    rewrite E1, E2, H3 in Hem. exact Hem.
Qed.

(* ================================================================== *)
(** * Student interventions *)
(* ================================================================== *)

Section InterventionFacts.

Import AiInsights.

Lemma count_issues_spec (recs : list Recommendation) (h c : nat) :
  count_issues (h, c) recs =
  ((h + List.length (filter is_high_priority recs))%nat,
   (c + List.length (filter is_critical recs))%nat).
Proof.
  revert h c. induction recs as [|r recs IH]; intros h c; simpl.
  - f_equal; lia.
  - rewrite IH.
    destruct (is_high_priority r), (is_critical r); simpl; f_equal; lia.
Qed.

Lemma record_session_spec (d : StudentData) (s : AnalyticsRow) :
  sessions (record_session d s) = sessions d ++ [s] /\
  highPriorityIssues (record_session d s) =
    (highPriorityIssues d
     + List.length (filter is_high_priority (recommendations_of s)))%nat /\
  criticalIssues (record_session d s) =
    (criticalIssues d
     + List.length (filter is_critical (recommendations_of s)))%nat /\
  improvementTrend (record_session d s) = improvementTrend d.
Proof.
  unfold record_session, recommendations_of.
  destruct (recommendations s) as [recs|]; simpl.
  - rewrite count_issues_spec. simpl. auto.
  - repeat split; lia.
Qed.

Lemma record_sessions_spec (l : list AnalyticsRow) (d : StudentData) :
  let d' := fold_left record_session l d in
  sessions d' = sessions d ++ l /\
  highPriorityIssues d' =
    (highPriorityIssues d
     + List.length (filter is_high_priority (flat_map recommendations_of l)))%nat /\
  criticalIssues d' =
    (criticalIssues d
     + List.length (filter is_critical (flat_map recommendations_of l)))%nat /\
  improvementTrend d' = improvementTrend d.
Proof.
  revert d. induction l as [|s l IH]; intros d; simpl.
  - rewrite app_nil_r. repeat split; lia.
  - destruct (IH (record_session d s)) as (H1 & H2 & H3 & H4).
    destruct (record_session_spec d s) as (R1 & R2 & R3 & R4).
    rewrite H1, H2, H3, H4, R1, R2, R3, R4, <- app_assoc.
    rewrite !filter_app, !length_app. simpl. repeat split; lia.
Qed.

(** What an entry of [studentAnalytics] holds. *)
Lemma student_entry (analyticsData : list AnalyticsRow) (userId : string)
      (d : StudentData) :
  In (userId, d) (JsObject.entries (studentAnalytics analyticsData)) ->
  sessions d = sessions_of userId analyticsData /\
  sessions d <> [] /\
  highPriorityIssues d =
    List.length (filter is_high_priority
                        (student_recommendations userId analyticsData)) /\
  criticalIssues d =
    List.length (filter is_critical
                        (student_recommendations userId analyticsData)) /\
  improvementTrend d = Js.Fin 0.
Proof.
  intros H. apply accumulate_entry in H.
  destruct H as (first & rest & Hk & ->).
  destruct (record_sessions_spec (first :: rest) (new_student first))
    as (H1 & H2 & H3 & H4).
  unfold student_recommendations, sessions_of. rewrite Hk.
  rewrite H1, H2, H3, H4. simpl. repeat split; try reflexivity.
  discriminate.
Qed.

Lemma trend_of_entry (d : StudentData) :
  improvementTrend d = Js.Fin 0 -> trend_of d = trend_between (sessions d).
Proof.
  intros H. unfold trend_of, trend_between, improvements. rewrite H. reflexivity.
Qed.

(** The first-match rule of lines 282-291. *)
Lemma interventionLevel_rule (critical high : nat) (trend : Js.num) :
  let level := fst (interventionLevel critical high trend) in
  ((0 < critical)%nat -> level = LevelUrgent) /\
  (critical = 0%nat -> (3 <= high)%nat -> level = LevelHigh) /\
  (critical = 0%nat -> (high < 3)%nat -> Js.ltb trend (-20) = true ->
   level = LevelMedium) /\
  (critical = 0%nat -> (high < 3)%nat -> Js.ltb trend (-20) = false ->
   level = LevelNone).
Proof.
  unfold interventionLevel. repeat split.
  - intros H. apply Nat.ltb_lt in H. rewrite H. reflexivity.
  - intros -> H. apply Nat.leb_le in H.
    rewrite Nat.ltb_irrefl, H. reflexivity.
  - intros -> H Ht. apply Nat.leb_gt in H.
    rewrite Nat.ltb_irrefl, H, Ht. reflexivity.
  - intros -> H Ht. apply Nat.leb_gt in H.
    rewrite Nat.ltb_irrefl, H, Ht. reflexivity.
Qed.

(** What the loop body pushes for one entry. *)
Lemma intervention_for_spec (cal : Js.Calendar) (students : JsObject.t User)
      (userId : string) (d : StudentData) (i : StudentIntervention) :
  In i (intervention_for cal students (userId, d)) ->
  si_studentId i = userId /\
  si_interventionLevel i =
    fst (interventionLevel (criticalIssues d) (highPriorityIssues d) (trend_of d)) /\
  si_interventionLevel i <> LevelNone /\
  exists student,
    JsObject.get students userId = Some student /\
    si_studentName i = u_name student /\
    si_studentEmail i = u_email student.
Proof.
  unfold intervention_for.
  destruct (JsObject.get students userId) as [student|]; [|contradiction].
  destruct (interventionLevel (criticalIssues d) (highPriorityIssues d)
                              (trend_of d)) as [level reasons].
  destruct (Js.sort (latest_first cal) (sessions d)) as [|latest others];
    destruct level; simpl; try contradiction;
    intros [<-|[]]; simpl; repeat split; try discriminate;
    exists student; repeat split.
Qed.

(** Conversely, a student known to [studentMap] whose level is not
    ['none'] is pushed. *)
Lemma intervention_for_complete (cal : Js.Calendar) (students : JsObject.t User)
      (userId : string) (d : StudentData) (student : User) :
  JsObject.get students userId = Some student ->
  sessions d <> [] ->
  fst (interventionLevel (criticalIssues d) (highPriorityIssues d) (trend_of d))
    <> LevelNone ->
  exists i, intervention_for cal students (userId, d) = [i] /\
            si_studentId i = userId.
Proof.
  intros Hs Hne Hl. unfold intervention_for. rewrite Hs.
  destruct (interventionLevel (criticalIssues d) (highPriorityIssues d)
                              (trend_of d)) as [level reasons].
  simpl in Hl.
  destruct (Js.sort (latest_first cal) (sessions d)) as [|latest others] eqn:E.
  - exfalso. apply Hne.
    apply length_zero_iff_nil. rewrite <- (sort_length _ (latest_first cal)), E.
    reflexivity.
  - destruct level; [contradiction| | |]; eexists; split; reflexivity.
Qed.

Lemma by_rank_consistent : consistent by_rank.
Proof. split; unfold by_rank; intros; lia. Qed.

Lemma by_level_by_rank (a b : StudentIntervention) :
  si_interventionLevel a <> LevelNone ->
  si_interventionLevel b <> LevelNone ->
  by_level a b = by_rank a b.
Proof.
  unfold by_level, by_rank.
  destruct (si_interventionLevel a), (si_interventionLevel b);
    simpl; intros; try reflexivity; contradiction.
Qed.

End InterventionFacts.

Section StudentMapFacts.

Import AiInsights.

Lemma fold_set_students (rows : list User) (acc : JsObject.t User)
      (k : string) (s : User) :
  JsObject.get
    (fold_left (fun acc student => JsObject.set acc (u_id student) student)
               rows acc) k = Some s ->
  (In s rows /\ u_id s = k) \/ JsObject.get acc k = Some s.
Proof.
  revert acc. induction rows as [|r rows IH]; intros acc H; simpl in *.
  - right. exact H.
  - apply IH in H. destruct H as [[H1 H2]|H].
    + left. split; [right; exact H1 | exact H2].
    + rewrite get_set in H. destruct (String.eqb k (u_id r)) eqn:E.
      * apply String.eqb_eq in E. injection H as <-.
        left. split; [left; reflexivity | symmetry; exact E].
      * right. exact H.
Qed.

(** [studentMap] only knows the rows of [studentsInfo]. *)
Lemma studentMap_get (studentsInfo : option (list User)) (k : string) (s : User) :
  JsObject.get (studentMap studentsInfo) k = Some s ->
  exists rows, studentsInfo = Some rows /\ In s rows /\ u_id s = k.
Proof.
  unfold studentMap. intros H. apply fold_set_students in H.
  destruct H as [[H1 H2]|H]; [|discriminate].
  destruct studentsInfo as [rows|]; [|contradiction].
  exists rows. auto.
Qed.

Lemma interventions_levels (cal : Js.Calendar) (analyticsData : list AnalyticsRow)
      (students : JsObject.t User) (i : StudentIntervention) :
  In i (flat_map (intervention_for cal students)
                 (JsObject.entries (studentAnalytics analyticsData))) ->
  si_interventionLevel i <> LevelNone.
Proof.
  intros H. apply in_flat_map in H. destruct H as ([u d] & _ & H).
  apply intervention_for_spec in H. tauto.
Qed.

Lemma studentInterventions_by_rank (cal : Js.Calendar)
      (analyticsData : list AnalyticsRow) (students : JsObject.t User) :
  studentInterventions cal analyticsData students =
  Js.sort by_rank
          (flat_map (intervention_for cal students)
                    (JsObject.entries (studentAnalytics analyticsData))).
Proof.
  unfold studentInterventions. apply sort_ext_in.
  intros a b Ha Hb.
  apply by_level_by_rank; eapply interventions_levels; eassumption.
Qed.

Lemma studentInterventions_In (cal : Js.Calendar)
      (analyticsData : list AnalyticsRow) (students : JsObject.t User)
      (i : StudentIntervention) :
  In i (studentInterventions cal analyticsData students) <->
  exists d,
    In (si_studentId i, d) (JsObject.entries (studentAnalytics analyticsData)) /\
    In i (intervention_for cal students (si_studentId i, d)).
Proof.
  unfold studentInterventions. rewrite sort_In, in_flat_map. split.
  - intros ([u d] & Hin & H).
    pose proof (intervention_for_spec _ _ _ _ _ H) as (Hid & _).
    rewrite Hid. exists d. split; assumption.
  - intros (d & Hin & H). exists (si_studentId i, d). split; assumption.
Qed.

End StudentMapFacts.

(** A successful response is the empty literal or is built from a
    non-empty list of analytics rows, no list having thrown. *)
Lemma GET_success (cal : Js.Calendar) (db : AiInsights.Store)
      (now : Z) (request : Request) (data : AiInsights.Data) :
  AiInsights.GET cal db now request = Success data ->
  data = AiInsights.empty_data \/
  exists userId studentIds analyticsData patterns suggestions,
    Js.truthy_string (x_user_id request) = Some userId /\
    courses_of (AiInsights.accounts db) userId <> [] /\
    rpc_data (get_instructor_enrolled_students (AiInsights.accounts db) userId)
      = Some studentIds /\
    AiInsights.fetch_analytics cal db studentIds
                               (startDate cal now (timeRange_of request))
      = Some analyticsData /\
    analyticsData <> [] /\
    AiInsights.learningPatternInsights analyticsData = Some patterns /\
    AiInsights.contentOptimizationSuggestions
      (AiInsights.fetch_feedback cal db
                                 (startDate cal now (timeRange_of request)))
      = Some suggestions /\
    data =
      {| AiInsights.data_teachingRecommendations :=
           Js.slice0 10
             (AiInsights.teachingRecommendations analyticsData
                (AiInsights.studentMap
                   (AiInsights.fetch_students_info db studentIds)));
         AiInsights.data_studentInterventions :=
           Js.slice0 15
             (AiInsights.studentInterventions cal analyticsData
                (AiInsights.studentMap
                   (AiInsights.fetch_students_info db studentIds)));
         AiInsights.data_learningPatternInsights := Js.slice0 8 patterns;
         AiInsights.data_performanceAlerts :=
           Js.slice0 10
             (AiInsights.performanceAlerts
                (AiInsights.fetch_module_progress db studentIds
                   (map c_id (courses_of (AiInsights.accounts db) userId))));
         AiInsights.data_contentOptimizationSuggestions :=
           Js.slice0 8 suggestions;
         AiInsights.data_studyPlanRecommendations := [];
         AiInsights.data_classPerformanceInsights :=
           AiInsights.classPerformanceInsights analyticsData |}.
Proof.
  unfold AiInsights.GET.
  destruct (Js.truthy_string (x_user_id request)) as [userId|]; [|discriminate].
  destruct (single_user _ userId) as [profile|]; [|discriminate].
  destruct (negb _); [discriminate|].
  fold (courses_of (AiInsights.accounts db) userId).
  destruct (courses_of (AiInsights.accounts db) userId) as [|c cs] eqn:Hc;
    [intros H; left; congruence|].
  destruct (rpc_error _); [discriminate|].
  destruct (rpc_data _) as [[|sid sids]|] eqn:Hd;
    try (intros H; left; congruence).
  destruct (AiInsights.fetch_analytics _ _ _ _) as [[|row rows]|] eqn:Hf;
    try (intros H; left; congruence).
  destruct (AiInsights.learningPatternInsights (row :: rows))
    as [patterns|] eqn:Hp; [|discriminate].
  destruct (AiInsights.contentOptimizationSuggestions _)
    as [suggestions|] eqn:Hs; [|discriminate].
  intros H. right.
  exists userId, (sid :: sids), (row :: rows), patterns, suggestions.
  split; [reflexivity|]. split; [rewrite Hc; discriminate|].
  split; [exact Hd|]. split; [exact Hf|].
  split; [discriminate|]. split; [exact Hp|]. split; [reflexivity|].
  rewrite Hc. congruence.
Qed.

(** The interventions built from analytics rows and a map of
    students: the rule of the level, the counters and the level of
    every intervention among the first fifteen, the students that the
    list cannot miss, and the order of the list. *)
Lemma interventions_first_match
        (cal : Js.Calendar) (analyticsData : list AiInsights.AnalyticsRow)
        (students : JsObject.t User) :
  let all := AiInsights.studentInterventions cal analyticsData students in
  let emitted := Js.slice0 15 all in
  (forall (critical high : nat) (trend : Js.num),
      let level := fst (AiInsights.interventionLevel critical high trend) in
      ((0 < critical)%nat -> level = AiInsights.LevelUrgent) /\
      (critical = 0%nat -> (3 <= high)%nat -> level = AiInsights.LevelHigh) /\
      (critical = 0%nat -> (high < 3)%nat -> Js.ltb trend (-20) = true ->
       level = AiInsights.LevelMedium) /\
      (critical = 0%nat -> (high < 3)%nat -> Js.ltb trend (-20) = false ->
       level = AiInsights.LevelNone)) /\
  (forall i, In i emitted ->
     exists d,
       In (AiInsights.si_studentId i, d)
          (JsObject.entries (AiInsights.studentAnalytics analyticsData)) /\
       AiInsights.criticalIssues d =
         List.length (filter AiInsights.is_critical
                        (student_recommendations (AiInsights.si_studentId i)
                                                 analyticsData)) /\
       AiInsights.highPriorityIssues d =
         List.length (filter AiInsights.is_high_priority
                        (student_recommendations (AiInsights.si_studentId i)
                                                 analyticsData)) /\
       AiInsights.trend_of d =
         trend_between (sessions_of (AiInsights.si_studentId i) analyticsData) /\
       AiInsights.si_interventionLevel i =
         fst (AiInsights.interventionLevel
                (AiInsights.criticalIssues d) (AiInsights.highPriorityIssues d)
                (AiInsights.trend_of d)) /\
       AiInsights.si_interventionLevel i <> AiInsights.LevelNone) /\
  (forall userId d student,
     In (userId, d)
        (JsObject.entries (AiInsights.studentAnalytics analyticsData)) ->
     JsObject.get students userId = Some student ->
     fst (AiInsights.interventionLevel
            (AiInsights.criticalIssues d) (AiInsights.highPriorityIssues d)
            (AiInsights.trend_of d)) <> AiInsights.LevelNone ->
     exists i, In i all /\ AiInsights.si_studentId i = userId) /\
  StronglySorted level_order emitted.
Proof.
  intros all emitted. split; [|split; [|split]].
  - intros critical high trend. apply interventionLevel_rule.
  - intros i Hi. apply firstn_In in Hi.
    apply studentInterventions_In in Hi. destruct Hi as (d & Hin & H).
    exists d. split; [exact Hin|].
    destruct (student_entry _ _ _ Hin) as (Hs & _ & Hhigh & Hcritical & Ht).
    split; [exact Hcritical|]. split; [exact Hhigh|].
    split; [rewrite <- Hs; apply trend_of_entry, Ht|].
    apply intervention_for_spec in H. tauto.
  - intros userId d student Hin Hs Hl.
    destruct (student_entry _ _ _ Hin) as (_ & Hne & _).
    destruct (@intervention_for_complete cal students userId d student Hs Hne Hl)
      as (i & Hi & Hid).
    exists i. split; [|exact Hid].
    apply studentInterventions_In. rewrite Hid. exists d.
    split; [exact Hin|]. rewrite Hi. left. reflexivity.
  - apply firstn_sorted. subst all.
    rewrite studentInterventions_by_rank.
    apply StronglySorted_weaken with (R := keeps_order by_rank).
    + unfold keeps_order, by_rank, level_order. intros a b. lia.
    + apply sort_sorted, by_rank_consistent.
Qed.

(** C10.  Every intervention that the handler emits refers to a row of
    the fetched [users] table; hence a student with analytics records
    whose id is missing from that table has no intervention, whatever
    the recommendations say, and the response is still a success. *)
Theorem C10_interventions_only_for_known_students
        (cal : Js.Calendar)
        (db : AiInsights.Store) (now : Z) (request : Request)
        (data : AiInsights.Data) :
  AiInsights.GET cal db now request = Success data ->
  (forall i, In i (AiInsights.data_studentInterventions data) ->
     exists rows student,
       users_table (AiInsights.accounts db) = Some rows /\
       In student rows /\
       u_id student = AiInsights.si_studentId i /\
       AiInsights.si_studentName i = u_name student) /\
  (forall userId,
     (forall rows, users_table (AiInsights.accounts db) = Some rows ->
                   ~ In userId (map u_id rows)) ->
     forall i, In i (AiInsights.data_studentInterventions data) ->
               AiInsights.si_studentId i <> userId).
Proof.
  intros HGET.
  assert (Hknown : forall i, In i (AiInsights.data_studentInterventions data) ->
     exists rows student,
       users_table (AiInsights.accounts db) = Some rows /\
       In student rows /\
       u_id student = AiInsights.si_studentId i /\
       AiInsights.si_studentName i = u_name student).
  { intros i Hi.
    destruct (GET_success _ _ _ _ _ HGET)
      as [-> | (userId & studentIds & analyticsData & patterns & suggestions
                & _ & _ & _ & _ & _ & _ & _ & ->)]; [destruct Hi|].
    cbn [AiInsights.data_studentInterventions] in Hi. unfold Js.slice0 in Hi.
    apply firstn_In in Hi. apply studentInterventions_In in Hi.
    destruct Hi as (d & _ & Hi).
    apply intervention_for_spec in Hi.
    destruct Hi as (_ & _ & _ & student & Hget & Hname & _).
    apply studentMap_get in Hget. destruct Hget as (info & Hinfo & Hin & Hid).
    unfold AiInsights.fetch_students_info in Hinfo.
    destruct (users_table (AiInsights.accounts db)) as [urows|]; [|discriminate].
    injection Hinfo as <-. apply filter_In in Hin.
    exists urows, student. tauto. }
  split; [exact Hknown|].
  intros userId Habsent i Hi Heq.
  destruct (Hknown i Hi) as (rows & student & Hrows & Hin & Hid & _).
  apply (Habsent rows Hrows). rewrite <- Heq, <- Hid. apply in_map, Hin.
Qed.

(* ================================================================== *)
(** * Teaching recommendations *)
(* ================================================================== *)

Section DeduplicationFacts.

Import AiInsights.

Lemma fold_left_map (A B C : Type) (f : C -> B -> C) (h : A -> B)
      (l : list A) (acc : C) :
  fold_left (fun c a => f c (h a)) l acc = fold_left f (map h l) acc.
Proof.
  revert acc. induction l as [|a l IH]; intros acc; simpl; [reflexivity|].
  apply IH.
Qed.

(** The nested loops are one pass over the occurrences. *)
Lemma recommendationCounts_accumulate (analyticsData : list AnalyticsRow) :
  recommendationCounts analyticsData =
  accumulate occ_key new_group count_occurrence (occurrences analyticsData).
Proof.
  unfold recommendationCounts, accumulate, occurrences.
  generalize (JsObject.empty RecGroup).
  induction analyticsData as [|s data IH]; intros acc; simpl; [reflexivity|].
  rewrite fold_left_app, <- IH. f_equal.
  unfold recommendations_of.
  destruct (recommendations s) as [recs|]; simpl; [|reflexivity].
  apply (fold_left_map _ _ _ add_occurrence (pair (user_id s))).
Qed.

Lemma count_occurrences_spec (l : list Occurrence) (g : RecGroup) :
  let g' := fold_left count_occurrence l g in
  g_type g' = g_type g /\
  g_title g' = g_title g /\
  g_priority g' = g_priority g /\
  frequency g' = (frequency g + List.length l)%nat /\
  affectedStudents g' = fold_left Js.set_add (map fst l) (affectedStudents g) /\
  totalConfidence g'
  = fold_left (fun a b => Js.add a (Js.Fin b)) (map confidence_of l)
              (totalConfidence g).
Proof.
  revert g. induction l as [|o l IH]; intros g; simpl.
  - repeat split. lia.
  - destruct (IH (count_occurrence g o)) as (H1 & H2 & H3 & H4 & H5 & H6).
    rewrite H1, H2, H3, H4, H5, H6. simpl. repeat split. lia.
Qed.

(** What an entry of [recommendationCounts] holds. *)
Lemma group_entry (analyticsData : list AnalyticsRow) (k : string) (g : RecGroup) :
  JsObject.get (recommendationCounts analyticsData) k = Some g ->
  exists first rest,
    group_of k analyticsData = first :: rest /\
    k = rec_key (snd first) /\
    g_type g = rec_type (snd first) /\
    g_title g = rec_title (snd first) /\
    g_priority g = Js.or_Z (priority (snd first)) 1 /\
    frequency g = List.length (first :: rest) /\
    affectedStudents g = Js.set_of_list (map fst (first :: rest)) /\
    totalConfidence g = Js.sum (map confidence_of (first :: rest)).
Proof.
  rewrite recommendationCounts_accumulate, get_accumulate.
  unfold group_of.
  destruct (with_key occ_key k (occurrences analyticsData))
    as [|first rest] eqn:E; [discriminate|].
  intros H.
  assert (Hg : g = fold_left count_occurrence (first :: rest) (new_group first))
    by congruence.
  clear H. subst g. exists first, rest.
  assert (Hk : occ_key first = k).
  { assert (Hin : In first (with_key occ_key k (occurrences analyticsData)))
      by (rewrite E; left; reflexivity).
    apply filter_In in Hin. apply String.eqb_eq, Hin. }
  destruct (count_occurrences_spec (first :: rest) (new_group first))
    as (H1 & H2 & H3 & H4 & H5 & H6).
  rewrite H1, H2, H3, H4, H5, H6.
  repeat split. symmetry. exact Hk.
Qed.

Lemma avgConfidence_mean (g : RecGroup) (l : list Occurrence) :
  frequency g = List.length l ->
  totalConfidence g = Js.sum (map confidence_of l) ->
  avgConfidence g = mean (map confidence_of l).
Proof.
  intros Hf Ht. unfold avgConfidence, mean.
  rewrite Hf, Ht, length_map. reflexivity.
Qed.

Lemma by_priority_then_frequency_consistent :
  consistent by_priority_then_frequency.
Proof.
  split; unfold by_priority_then_frequency; intros a b.
  - destruct (Z.eqb_spec (tr_priority a) (tr_priority b)) as [E|E];
      destruct (Z.eqb_spec (tr_priority b) (tr_priority a)) as [E'|E'];
      simpl; lia.
  - intros c.
    destruct (Z.eqb_spec (tr_priority a) (tr_priority b));
      destruct (Z.eqb_spec (tr_priority b) (tr_priority c));
      destruct (Z.eqb_spec (tr_priority a) (tr_priority c));
      simpl; lia.
Qed.

Lemma keeps_order_rank_order (a b : TeachingRecommendation) :
  keeps_order by_priority_then_frequency a b -> rank_order a b.
Proof.
  unfold keeps_order, by_priority_then_frequency, rank_order.
  destruct (Z.eqb_spec (tr_priority a) (tr_priority b)); simpl; lia.
Qed.

Lemma push_all_length (students : JsObject.t User) (position : nat)
      (groups : list RecGroup) :
  List.length (push_all students position groups) = List.length groups.
Proof.
  revert position. induction groups as [|g groups IH]; intros position; simpl.
  - reflexivity.
  - rewrite IH. reflexivity.
Qed.

Lemma push_all_In (students : JsObject.t User) (position : nat)
      (groups : list RecGroup) (t : TeachingRecommendation) :
  In t (push_all students position groups) ->
  exists p g, In g groups /\ t = teachingRecommendation students p g.
Proof.
  revert position. induction groups as [|g groups IH]; intros position; simpl.
  - contradiction.
  - intros [<-|H].
    + exists position, g. auto.
    + destruct (IH _ H) as (p & g' & Hin & ->). exists p, g'. auto.
Qed.

Lemma values_In (B : Type) (o : JsObject.t B) (b : B) :
  In b (JsObject.values o) -> exists k, In (k, b) o.
Proof.
  unfold JsObject.values. intros H. apply in_map_iff in H.
  destruct H as ([k b'] & <- & H). apply (proj1 (entries_In _ _ _)) in H.
  exists k. exact H.
Qed.

End DeduplicationFacts.

(** X26.  A group of the deduplication is the non-empty class of the
    occurrences that have its key, and it contains every occurrence
    with the type and title of the group.  Its frequency is the number
    of these occurrences, its student set holds exactly their distinct
    student ids, and its confidence is the mean, as the runtime computes
    it, of the scores counted for them; the emitted record reports the
    frequency, the size of the student set and the mean times 100,
    rounded.  In particular a group made of two occurrences from two
    different students has frequency 2 and two affected students. *)
Theorem X26_groups_by_string_key
        (analyticsData : list AiInsights.AnalyticsRow)
        (students : JsObject.t User)
        (k : string) (g : AiInsights.RecGroup) :
  JsObject.get (AiInsights.recommendationCounts analyticsData) k = Some g ->
  let group := group_of k analyticsData in
  let emitted := fun position =>
                   AiInsights.teachingRecommendation students position g in
  group <> [] /\
  (forall o, In o group <->
             In o (occurrences analyticsData) /\ AiInsights.rec_key (snd o) = k) /\
  (forall o, In o (occurrences analyticsData) ->
             AiInsights.rec_type (snd o) = AiInsights.g_type g ->
             AiInsights.rec_title (snd o) = AiInsights.g_title g ->
             In o group) /\
  AiInsights.frequency g = List.length group /\
  AiInsights.affectedStudents g = Js.set_of_list (map fst group) /\
  NoDup (AiInsights.affectedStudents g) /\
  (forall u, In u (AiInsights.affectedStudents g) <-> In u (map fst group)) /\
  AiInsights.avgConfidence g = mean (map confidence_of group) /\
  (forall position,
      AiInsights.tr_frequency (emitted position) = List.length group /\
      AiInsights.tr_affectedStudentsCount (emitted position)
        = Js.size (Js.set_of_list (map fst group)) /\
      AiInsights.tr_confidence (emitted position)
        = Js.round (Js.mul (mean (map confidence_of group)) (Js.Fin 100))) /\
  (forall u1 r1 u2 r2,
      group = [(u1, r1); (u2, r2)] -> u1 <> u2 ->
      AiInsights.frequency g = 2%nat /\
      Js.size (AiInsights.affectedStudents g) = 2%nat).
Proof.
  intros Hget group emitted.
  destruct (group_entry _ _ _ Hget)
    as (first & rest & Hgroup & Hk & Htype & Htitle & _ & Hfreq & Hset & Htotal).
  fold group in Hgroup. rewrite <- Hgroup in Hfreq, Hset, Htotal.
  assert (Hmember : forall o, In o group <->
            In o (occurrences analyticsData) /\ AiInsights.rec_key (snd o) = k).
  { intros o. unfold group, group_of, with_key.
    rewrite filter_In, String.eqb_eq. reflexivity. }
  assert (Havg := avgConfidence_mean g group Hfreq Htotal).
  split; [rewrite Hgroup; discriminate|].
  split; [exact Hmember|].
  split.
  { intros o Hin Ht Hti. apply Hmember. split; [exact Hin|].
    unfold AiInsights.rec_key. rewrite Ht, Hti, Htype, Htitle. symmetry. exact Hk. }
  split; [exact Hfreq|].
  split; [exact Hset|].
  split; [rewrite Hset; apply set_of_list_NoDup|].
  split; [intros u; rewrite Hset; apply set_of_list_In|].
  split; [exact Havg|].
  split.
  { intros position. unfold emitted, AiInsights.teachingRecommendation.
    cbn [AiInsights.tr_frequency AiInsights.tr_affectedStudentsCount
         AiInsights.tr_confidence].
    rewrite Havg, Hfreq, Hset. repeat split. }
  intros u1 r1 u2 r2 Hshape Hne.
  rewrite Hfreq, Hset, Hshape. split; [reflexivity|].
  unfold Js.set_of_list, Js.set_add. simpl.
  destruct (String.eqb_spec u2 u1) as [E|E]; [congruence|reflexivity].
Qed.

(** On the path that aggregates, the response is built from the fetched
    rows, provided no list has thrown. *)
Lemma GET_aggregated (cal : Js.Calendar) (db : AiInsights.Store)
      (now : Z) (request : Request) (data : AiInsights.Data)
      (userId : string) (studentIds : list string)
      (analyticsData : list AiInsights.AnalyticsRow) :
  AiInsights.GET cal db now request = Success data ->
  Js.truthy_string (x_user_id request) = Some userId ->
  courses_of (AiInsights.accounts db) userId <> [] ->
  rpc_data (get_instructor_enrolled_students (AiInsights.accounts db) userId)
    = Some studentIds ->
  studentIds <> [] ->
  AiInsights.fetch_analytics cal db studentIds
                             (startDate cal now (timeRange_of request))
    = Some analyticsData ->
  analyticsData <> [] ->
  exists patterns suggestions,
    AiInsights.learningPatternInsights analyticsData = Some patterns /\
    AiInsights.contentOptimizationSuggestions
      (AiInsights.fetch_feedback cal db
                                 (startDate cal now (timeRange_of request)))
      = Some suggestions /\
    data =
      {| AiInsights.data_teachingRecommendations :=
           Js.slice0 10
             (AiInsights.teachingRecommendations analyticsData
                (AiInsights.studentMap
                   (AiInsights.fetch_students_info db studentIds)));
         AiInsights.data_studentInterventions :=
           Js.slice0 15
             (AiInsights.studentInterventions cal analyticsData
                (AiInsights.studentMap
                   (AiInsights.fetch_students_info db studentIds)));
         AiInsights.data_learningPatternInsights := Js.slice0 8 patterns;
         AiInsights.data_performanceAlerts :=
           Js.slice0 10
             (AiInsights.performanceAlerts
                (AiInsights.fetch_module_progress db studentIds
                   (map c_id (courses_of (AiInsights.accounts db) userId))));
         AiInsights.data_contentOptimizationSuggestions :=
           Js.slice0 8 suggestions;
         AiInsights.data_studyPlanRecommendations := [];
         AiInsights.data_classPerformanceInsights :=
           AiInsights.classPerformanceInsights analyticsData |}.
Proof.
  intros HGET Hu Hc Hd Hne Hf Hne'. revert HGET.
  unfold AiInsights.GET. rewrite Hu.
  destruct (single_user _ userId) as [profile|]; [|discriminate].
  destruct (negb _); [discriminate|].
  fold (courses_of (AiInsights.accounts db) userId).
  destruct (courses_of (AiInsights.accounts db) userId) as [|c cs] eqn:Hc';
    [congruence|].
  destruct (rpc_error _); [discriminate|].
  rewrite Hd. destruct studentIds as [|sid sids]; [congruence|].
  rewrite Hf. destruct analyticsData as [|row rows]; [congruence|].
  destruct (AiInsights.learningPatternInsights (row :: rows))
    as [patterns|]; [|discriminate].
  destruct (AiInsights.contentOptimizationSuggestions _)
    as [suggestions|]; [|discriminate].
  intros H. exists patterns, suggestions.
  split; [reflexivity|]. split; [reflexivity|]. congruence.
Qed.

(** C1.  When the handler aggregates the fetched rows and succeeds,
    the alerts of its response are the first ten of the list of alerts
    built from the fetched progress rows.  Take the module of one of
    these rows.  It has at least one row, so its two rates, computed
    over its rows, are finite numbers: the failure rate counts the rows
    with a positive score below 60, the remedial rate the rows with a
    score from 60 up to 70 plus the rows flagged as needing remedial
    work.  The list of alerts holds at most one alert for the module,
    decided on the unrounded numbers by the first rule that matches: a
    failure rate of at least 30 gives a critical alert of high
    severity; otherwise a remedial rate of at least 40 gives a warning
    of medium severity; otherwise an average of the positive scores
    below 70 gives an info alert of low severity; otherwise the list
    has no alert for the module.  The rates and the average are the
    numbers that the runtime computes, each operation rounded to a
    double; the alert shows the rounded number. *)
Theorem C1_alert_first_match
        (cal : Js.Calendar) (db : AiInsights.Store) (now : Z)
        (request : Request) (data : AiInsights.Data)
        (userId : string) (studentIds : list string)
        (analyticsData : list AiInsights.AnalyticsRow)
        (rows : list AiInsights.ModuleProgress)
        (row : AiInsights.ModuleProgress) :
  AiInsights.GET cal db now request = Success data ->
  Js.truthy_string (x_user_id request) = Some userId ->
  courses_of (AiInsights.accounts db) userId <> [] ->
  rpc_data (get_instructor_enrolled_students (AiInsights.accounts db) userId)
    = Some studentIds ->
  studentIds <> [] ->
  AiInsights.fetch_analytics cal db studentIds
                             (startDate cal now (timeRange_of request))
    = Some analyticsData ->
  analyticsData <> [] ->
  AiInsights.fetch_module_progress
    db studentIds (map c_id (courses_of (AiInsights.accounts db) userId))
    = Some rows ->
  In row rows ->
  let moduleId := AiInsights.module_id row in
  let mine := rows_of_module moduleId rows in
  let alerts := AiInsights.performanceAlerts (Some rows) in
  let emitted :=
    filter (fun a => String.eqb (AiInsights.pa_moduleId a) moduleId) alerts in
  let total := List.length mine in
  let average :=
    mean (map AiInsights.score_of (filter has_score mine)) in
  AiInsights.data_performanceAlerts data = Js.slice0 10 alerts /\
  (1 <= total)%nat /\
  exists failure remedial,
    percentage (List.length (filter is_failing mine)) total
      = Js.Fin failure /\
    percentage (List.length (filter is_borderline mine)
                + List.length (filter AiInsights.needs_remedial mine)) total
      = Js.Fin remedial /\
    (30 <= failure ->
     exists a, emitted = [a] /\
               AiInsights.pa_type a = AiInsights.Critical /\
               AiInsights.pa_severity a = AiInsights.SeverityHigh /\
               AiInsights.pa_value a = Js.RInt (Js.round_Q failure)) /\
    (failure < 30 -> 40 <= remedial ->
     exists a, emitted = [a] /\
               AiInsights.pa_type a = AiInsights.Warning /\
               AiInsights.pa_severity a = AiInsights.SeverityMedium /\
               AiInsights.pa_value a = Js.RInt (Js.round_Q remedial)) /\
    (failure < 30 -> remedial < 40 -> Js.ltb average 70 = true ->
     exists a, emitted = [a] /\
               AiInsights.pa_type a = AiInsights.Info /\
               AiInsights.pa_severity a = AiInsights.SeverityLow /\
               AiInsights.pa_value a = Js.round average) /\
    (failure < 30 -> remedial < 40 -> Js.ltb average 70 = false ->
     emitted = []).
Proof.
  intros HGET Hu Hc Hd Hne Hf Hne' Hrows Hrow
         moduleId mine alerts emitted total average.
  destruct (GET_aggregated _ _ _ _ _ _ _ _ HGET Hu Hc Hd Hne Hf Hne')
    as (patterns & suggestions & _ & _ & Hdata).
  split.
  - rewrite Hdata. cbn [AiInsights.data_performanceAlerts].
    rewrite Hrows. reflexivity.
  - exact (alerts_first_match rows row Hrow).
Qed.

(** C2.  When the handler aggregates the fetched rows and succeeds,
    the interventions of its response are the first fifteen of the list
    built from these rows.  The intervention level follows the first rule that matches:
    a critical issue gives urgent; otherwise three or more high
    priority issues give high; otherwise a trend below -20 gives
    medium; otherwise the level is none.  Every emitted intervention
    belongs to a student with analytics records, whose counters are the
    numbers of that student's recommendations of priority 1 and of
    priority at most 2, a priority [null] counting as at most 2, and
    whose trend is the difference, rounded to a double, between the last
    and the first non-zero improvement percentage of the student's
    rows; it carries the level the rule computes from them, and this
    level is not none; a student known to [studentMap] whose level is
    not none is in the list before it is cut; and the emitted list is
    ordered urgent before high before medium. *)
Theorem C2_intervention_first_match_and_order
        (cal : Js.Calendar) (db : AiInsights.Store) (now : Z)
        (request : Request) (data : AiInsights.Data)
        (userId : string) (studentIds : list string)
        (analyticsData : list AiInsights.AnalyticsRow) :
  AiInsights.GET cal db now request = Success data ->
  Js.truthy_string (x_user_id request) = Some userId ->
  courses_of (AiInsights.accounts db) userId <> [] ->
  rpc_data (get_instructor_enrolled_students (AiInsights.accounts db) userId)
    = Some studentIds ->
  studentIds <> [] ->
  AiInsights.fetch_analytics cal db studentIds
                             (startDate cal now (timeRange_of request))
    = Some analyticsData ->
  analyticsData <> [] ->
  let students :=
    AiInsights.studentMap (AiInsights.fetch_students_info db studentIds) in
  let all := AiInsights.studentInterventions cal analyticsData students in
  let emitted := AiInsights.data_studentInterventions data in
  emitted = Js.slice0 15 all /\
  (forall (critical high : nat) (trend : Js.num),
      let level := fst (AiInsights.interventionLevel critical high trend) in
      ((0 < critical)%nat -> level = AiInsights.LevelUrgent) /\
      (critical = 0%nat -> (3 <= high)%nat -> level = AiInsights.LevelHigh) /\
      (critical = 0%nat -> (high < 3)%nat -> Js.ltb trend (-20) = true ->
       level = AiInsights.LevelMedium) /\
      (critical = 0%nat -> (high < 3)%nat -> Js.ltb trend (-20) = false ->
       level = AiInsights.LevelNone)) /\
  (forall i, In i emitted ->
     exists d,
       In (AiInsights.si_studentId i, d)
          (JsObject.entries (AiInsights.studentAnalytics analyticsData)) /\
       AiInsights.criticalIssues d =
         List.length (filter AiInsights.is_critical
                        (student_recommendations (AiInsights.si_studentId i)
                                                 analyticsData)) /\
       AiInsights.highPriorityIssues d =
         List.length (filter AiInsights.is_high_priority
                        (student_recommendations (AiInsights.si_studentId i)
                                                 analyticsData)) /\
       AiInsights.trend_of d =
         trend_between (sessions_of (AiInsights.si_studentId i) analyticsData) /\
       AiInsights.si_interventionLevel i =
         fst (AiInsights.interventionLevel
                (AiInsights.criticalIssues d) (AiInsights.highPriorityIssues d)
                (AiInsights.trend_of d)) /\
       AiInsights.si_interventionLevel i <> AiInsights.LevelNone) /\
  (forall userId d student,
     In (userId, d)
        (JsObject.entries (AiInsights.studentAnalytics analyticsData)) ->
     JsObject.get students userId = Some student ->
     fst (AiInsights.interventionLevel
            (AiInsights.criticalIssues d) (AiInsights.highPriorityIssues d)
            (AiInsights.trend_of d)) <> AiInsights.LevelNone ->
     exists i, In i all /\ AiInsights.si_studentId i = userId) /\
  StronglySorted level_order emitted.
Proof.
  intros HGET Hu Hc Hd Hne Hf Hne' students all emitted.
  destruct (GET_aggregated _ _ _ _ _ _ _ _ HGET Hu Hc Hd Hne Hf Hne')
    as (patterns & suggestions & _ & _ & Hdata).
  assert (Hemitted : emitted = Js.slice0 15 all).
  { unfold emitted. rewrite Hdata. reflexivity. }
  split; [exact Hemitted|].
  rewrite Hemitted.
  exact (interventions_first_match cal analyticsData students).
Qed.

(** C9.  When the handler aggregates the fetched rows and succeeds, the
    recommendations of its response are the first ten entries of the
    list of all groups of these rows, ordered by ascending priority,
    ties by descending frequency: that list holds one entry per group,
    the emitted list is its prefix and is ordered in the same way, and
    every group left out ranks after every group emitted. *)
Theorem C9_sorted_then_truncated
        (cal : Js.Calendar) (db : AiInsights.Store) (now : Z)
        (request : Request) (data : AiInsights.Data)
        (userId : string) (studentIds : list string)
        (analyticsData : list AiInsights.AnalyticsRow) :
  AiInsights.GET cal db now request = Success data ->
  Js.truthy_string (x_user_id request) = Some userId ->
  courses_of (AiInsights.accounts db) userId <> [] ->
  rpc_data (get_instructor_enrolled_students (AiInsights.accounts db) userId)
    = Some studentIds ->
  studentIds <> [] ->
  AiInsights.fetch_analytics cal db studentIds
                             (startDate cal now (timeRange_of request))
    = Some analyticsData ->
  analyticsData <> [] ->
  let students :=
    AiInsights.studentMap (AiInsights.fetch_students_info db studentIds) in
  let groups := AiInsights.recommendationCounts analyticsData in
  let all := AiInsights.teachingRecommendations analyticsData students in
  let emitted := AiInsights.data_teachingRecommendations data in
  Permutation all (AiInsights.push_all students 0 (JsObject.values groups)) /\
  List.length all = List.length groups /\
  StronglySorted rank_order all /\
  emitted = firstn 10 all /\
  List.length emitted = Nat.min 10 (List.length groups) /\
  StronglySorted rank_order emitted /\
  (forall a b, In a emitted -> In b (skipn 10 all) -> rank_order a b).
Proof.
  intros HGET Hu Hc Hd Hne Hf Hne' students groups all emitted.
  destruct (GET_aggregated _ _ _ _ _ _ _ _ HGET Hu Hc Hd Hne Hf Hne')
    as (patterns & suggestions & _ & _ & Hdata).
  assert (Hemitted : emitted = firstn 10 all).
  { unfold emitted. rewrite Hdata. reflexivity. }
  assert (Hsorted : StronglySorted rank_order all).
  { apply StronglySorted_weaken
      with (R := keeps_order AiInsights.by_priority_then_frequency).
    - apply keeps_order_rank_order.
    - apply sort_sorted, by_priority_then_frequency_consistent. }
  assert (Hlen : List.length all = List.length groups).
  { unfold all, AiInsights.teachingRecommendations.
    rewrite sort_length, push_all_length. unfold JsObject.values.
    rewrite length_map. apply Permutation_length, entries_Permutation. }
  split; [apply sort_Permutation|].
  split; [exact Hlen|].
  split; [exact Hsorted|].
  split; [exact Hemitted|].
  rewrite Hemitted.
  split; [rewrite length_firstn, Hlen; reflexivity|].
  split; [apply firstn_sorted, Hsorted|].
  apply firstn_before_skipn, Hsorted.
Qed.

(* ================================================================== *)
(** * The empty result *)
(* ================================================================== *)

Lemma filter_nonempty (A : Type) (f : A -> bool) (l : list A) (x : A) :
  In x l -> f x = true -> exists y rest, filter f l = y :: rest.
Proof.
  intros Hin Hf.
  destruct (filter f l) as [|y rest] eqn:E.
  - assert (H : In x (filter f l)) by (apply filter_In; split; assumption).
    rewrite E in H. destruct H.
  - exists y, rest. reflexivity.
Qed.

(** C5.  For an instructor with courses but no enrolled students both
    handlers answer with a success whose data is the all-empty literal:
    every list is [[]] and every object is [{}]. *)
Theorem C5_no_students_gives_empty_success
        (cal : Js.Calendar)
        (analytics : StudyTechniques.OtherAnalytics)
        (db1 : AiInsights.Store) (db2 : StudyTechniques.Store)
        (now : Z) (request : Request) :
  instructor_without_students (AiInsights.accounts db1) request ->
  instructor_without_students (StudyTechniques.accounts db2) request ->
  AiInsights.GET cal db1 now request =
    Success {| AiInsights.data_teachingRecommendations := [];
               AiInsights.data_studentInterventions := [];
               AiInsights.data_learningPatternInsights := [];
               AiInsights.data_performanceAlerts := [];
               AiInsights.data_contentOptimizationSuggestions := [];
               AiInsights.data_studyPlanRecommendations := [];
               AiInsights.data_classPerformanceInsights := [] |} /\
  StudyTechniques.GET cal analytics db2 now request =
    Success {| StudyTechniques.data_activeRecallAnalytics := None;
               StudyTechniques.data_pomodoroAnalytics := None;
               StudyTechniques.data_feynmanAnalytics := Js.JObject [];
               StudyTechniques.data_retrievalPracticeAnalytics := Js.JObject [];
               StudyTechniques.data_techniqueComparison := [];
               StudyTechniques.data_timeBasedAnalysis := [];
               StudyTechniques.data_effectivenessMetrics :=
                 JsObject.empty StudyTechniques.Effectiveness |}.
Proof.
  intros (u1 & p1 & rows1 & c1 & Hu1 & Hp1 & Hr1 & Hc1 & Hin1 & Hi1 & He1 & Hd1)
         (u2 & p2 & rows2 & c2 & Hu2 & Hp2 & Hr2 & Hc2 & Hin2 & Hi2 & He2 & Hd2).
  split.
  - unfold AiInsights.GET.
    rewrite Hu1, Hp1, Hr1, Hc1, He1. simpl.
    destruct (filter_nonempty _
                (fun c => String.eqb (c_instructor_id c) u1) rows1 c1 Hin1)
      as (y & rest & ->); [apply String.eqb_eq, Hi1|].
    destruct Hd1 as [-> | ->]; reflexivity.
  - unfold StudyTechniques.GET.
    rewrite Hu2, Hp2, Hr2, Hc2, He2. simpl.
    destruct (filter_nonempty _
                (fun c => String.eqb (c_instructor_id c) u2) rows2 c2 Hin2)
      as (y & rest & ->); [apply String.eqb_eq, Hi2|].
    destruct Hd2 as [-> | ->]; reflexivity.
Qed.

(* ================================================================== *)
(** * The course report *)
(* ================================================================== *)

Section ReportFacts.

Import ExportReport.

(** The average is never [NaN], and it is [0] without rows. *)
Lemma average_best_score_not_NaN (rows : list Progress) :
  average_best_score rows <> Js.RNaN /\
  (rows = [] -> average_best_score rows = Js.RInt 0).
Proof.
  unfold average_best_score. split.
  - destruct (0 <? List.length rows)%nat eqn:E; [|discriminate].
    apply Nat.ltb_lt in E.
    apply round_not_NaN, div_count_not_NaN; [|exact E].
    apply fold_add_not_NaN. discriminate.
  - intros ->. reflexivity.
Qed.

(** Scores between 0 and 100 have an integer average, which is at
    most 100 for as many rows as an array can hold. *)
Lemma average_best_score_integer (rows : list Progress) :
  (forall p, In p rows -> 0 <= best_score_of p /\ best_score_of p <= 100) ->
  exists z, average_best_score rows = Js.RInt z /\ (0 <= z <= 2 ^ 60)%Z /\
            (array_length (List.length rows) -> (z <= 100)%Z).
Proof.
  intros Hrows. unfold average_best_score.
  destruct (0 <? List.length rows)%nat eqn:E.
  - apply Nat.ltb_lt in E.
    assert (Hn1 : 1 <= Js.of_nat (List.length rows)).
    { unfold Js.of_nat. change 1 with (inject_Z 1). rewrite <- Zle_Qle. lia. }
    destruct (fold_add_saturated _ best_score_of (Js.pow2 60) 100 rows 0)
      as (y & Hy & Hy0 & Hy60);
      [vm_compute; reflexivity | apply pow2_lt; lia | exact Hrows
       | apply Qle_refl | apply Qlt_le_weak, pow2_pos |].
    rewrite Hy.
    destruct (div_count_between y (Js.pow2 60) (List.length rows))
      as (q & Hq & Hq0 & Hq60);
      [exact Hy0 | | exact E | vm_compute; reflexivity | apply pow2_lt; lia |].
    { apply Qle_trans with (Js.pow2 60 * 1); [lra|].
      apply Qmult_le_l; [apply pow2_pos | exact Hn1]. }
    rewrite Hq. exists (Js.round_Q q). split; [reflexivity|].
    split.
    + split; [apply round_Q_nonneg, Hq0|].
      apply round_Q_le. rewrite <- (pow2_Z 60) by lia. exact Hq60.
    + intros Hlen.
      destruct (fold_add_linear _ best_score_of rows 0 0 Hrows)
        as (y' & Hy' & _ & Hy'c);
        [apply Qle_refl | apply Qle_refl | exact Hlen |].
      rewrite Hy in Hy'. injection Hy' as <-. cbn [Nat.add] in Hy'c.
      destruct (div_count_between y 100 (List.length rows))
        as (q' & Hq' & _ & Hq'c);
        [exact Hy0 | exact Hy'c | exact E | reflexivity
         | apply pow2_1024_large; discriminate |].
      rewrite Hq in Hq'. injection Hq' as <-.
      apply round_Q_le_100, Hq'c.
  - exists 0%Z. split; [reflexivity|]. split; [lia|]. intros _. lia.
Qed.

Lemma passed_rate_integer (rows : list Progress) :
  exists z, passed_rate rows = Js.RInt z /\ (0 <= z <= 100)%Z /\
            (rows = [] -> z = 0%Z).
Proof.
  unfold passed_rate.
  destruct (0 <? List.length rows)%nat eqn:E.
  - apply Nat.ltb_lt in E.
    destruct (rounded_percentage (List.length (filter p_passed rows))
                                 (List.length rows) E)
      as (z & Hz & Hbounds); [apply filter_length_le|].
    exists z. split; [exact Hz|]. split; [exact Hbounds|].
    intros ->. simpl in E. lia.
  - exists 0%Z. split; [reflexivity|]. split; [lia | reflexivity].
Qed.

End ReportFacts.

(** C6.  In every course of the report, [modules] is the number of
    module rows of the course when [includeDetails] is false, and an
    array of that length when it is true.  [averageScore] is never
    [NaN] and [completionRate] is an integer between 0 and 100; both
    are 0 when the course has no progress row, that is, when their
    denominator is zero.  When the scores lie between 0 and 100,
    [averageScore] is a non-negative integer, at most 100 for as many
    progress rows as an array can hold; for scores near the largest
    double the sum is [Infinity], and so is the average.  The average
    of each listed module is never [NaN] either, it is 0 for a module
    without progress row, and a non-negative integer for such
    scores. *)
Theorem C6_report_shape_and_zero_denominators
        (includeDetails : Js.json)
        (instructorCourses : list Course)
        (modules_rows : option (list ExportReport.Module_))
        (courseMaterials : option (list ExportReport.Material))
        (userProgress : option (list ExportReport.Progress))
        (allSessions : list ExportReport.Session)
        (report : ExportReport.CourseAnalysis) :
  In report (ExportReport.courseAnalysis includeDetails instructorCourses
               modules_rows courseMaterials userProgress allSessions) ->
  exists course,
    In course instructorCourses /\
    ExportReport.ca_id report = c_id course /\
    let count := List.length (course_modules modules_rows course) in
    let progress := course_progress modules_rows userProgress course in
    ExportReport.totalModules report = count /\
    (Js.truthy includeDetails = false ->
     ExportReport.modules report = ExportReport.ModuleCount count) /\
    (Js.truthy includeDetails = true ->
     exists details,
       ExportReport.modules report = ExportReport.ModuleList details /\
       List.length details = count /\
       forall m, In m details ->
         ExportReport.ma_averageScore m <> Js.RNaN /\
         (ExportReport.ma_totalStudents m = 0%nat ->
          ExportReport.ma_averageScore m = Js.RInt 0) /\
         ((forall p, In p progress ->
                     0 <= ExportReport.best_score_of p /\
                     ExportReport.best_score_of p <= 100) ->
          exists z, ExportReport.ma_averageScore m = Js.RInt z /\
                    (0 <= z)%Z)) /\
    ExportReport.averageScore report <> Js.RNaN /\
    (exists rate,
        ExportReport.completionRate report = Js.RInt rate /\
        (0 <= rate <= 100)%Z) /\
    (List.length progress = 0%nat ->
     ExportReport.averageScore report = Js.RInt 0 /\
     ExportReport.completionRate report = Js.RInt 0) /\
    ((forall p, In p progress ->
                0 <= ExportReport.best_score_of p /\
                ExportReport.best_score_of p <= 100) ->
     exists average,
       ExportReport.averageScore report = Js.RInt average /\
       (0 <= average)%Z /\
       (array_length (List.length progress) -> (average <= 100)%Z)).
Proof.
  intros Hin. unfold ExportReport.courseAnalysis in Hin.
  apply in_map_iff in Hin. destruct Hin as (course & <- & Hc).
  exists course. split; [exact Hc|]. split; [reflexivity|].
  unfold ExportReport.analyse_course.
  cbn [ExportReport.totalModules ExportReport.modules
       ExportReport.averageScore ExportReport.completionRate].
  fold (course_modules modules_rows course).
  fold (course_progress modules_rows userProgress course).
  split; [reflexivity|].
  split; [intros ->; rewrite length_map; reflexivity|].
  split.
  { intros ->. eexists. split; [reflexivity|].
    split; [apply length_map|].
    intros m Hm. apply in_map_iff in Hm. destruct Hm as (row & <- & _).
    unfold ExportReport.analyse_module.
    cbn [ExportReport.ma_averageScore ExportReport.ma_totalStudents].
    destruct (average_best_score_not_NaN
                (filter (fun p => String.eqb (ExportReport.p_module_id p)
                                             (ExportReport.m_id row))
                        (course_progress modules_rows userProgress course)))
      as (Hnan & Hzero).
    split; [exact Hnan|].
    split; [intros Hlen; apply Hzero, length_zero_iff_nil, Hlen|].
    intros Hscores.
    destruct (average_best_score_integer
                (filter (fun p => String.eqb (ExportReport.p_module_id p)
                                             (ExportReport.m_id row))
                        (course_progress modules_rows userProgress course)))
      as (z & Hz & Hb & _).
    { intros p Hp. apply filter_In in Hp. apply Hscores, Hp. }
    exists z. split; [exact Hz | lia]. }
  destruct (average_best_score_not_NaN
              (course_progress modules_rows userProgress course))
    as (Hnan & Ha0).
  destruct (passed_rate_integer
              (course_progress modules_rows userProgress course))
    as (rate & Hr & Hbounds & Hr0).
  split; [exact Hnan|].
  split; [exists rate; split; assumption|].
  split.
  - intros Hlen. apply length_zero_iff_nil in Hlen.
    split; [apply Ha0, Hlen|]. rewrite Hr, (Hr0 Hlen). reflexivity.
  - intros Hscores.
    destruct (average_best_score_integer _ Hscores) as (z & Hz & Hb & H100).
    exists z. split; [exact Hz|]. split; [lia | exact H100].
Qed.

(* ================================================================== *)
(** * Technique comparison *)
(* ================================================================== *)

Section ComparisonFacts.

Import StudyTechniques.

Lemma in_ids_In (ids : list string) (x : string) :
  in_ids ids x = true -> In x ids.
Proof.
  unfold in_ids. intros H. apply existsb_exists in H.
  destruct H as (y & Hy & E). apply String.eqb_eq in E. subst y. exact Hy.
Qed.

(** The students seen in fetched sessions are enrolled students. *)
Lemma fetched_users_enrolled (cal : Js.Calendar) (table : option (list Session))
      (studentIds : list string) (start : Z) :
  (userEngagement (fetch_sessions cal table studentIds start)
   <= List.length studentIds)%nat.
Proof.
  unfold userEngagement. apply set_size_le.
  intros u Hu. apply in_map_iff in Hu. destruct Hu as (s & <- & Hs).
  unfold fetch_sessions in Hs. destruct table as [rows|]; [|destruct Hs].
  apply filter_In in Hs. destruct Hs as [_ Hs].
  apply andb_true_iff in Hs. apply in_ids_In, Hs.
Qed.

Lemma userEngagement_le (l : list Session) :
  (userEngagement l <= List.length l)%nat.
Proof.
  unfold userEngagement. rewrite <- (length_map user_id l).
  apply set_size_le. intros u Hu. exact Hu.
Qed.

(** The quotient of two counts of arrays is finite. *)
Lemma count_ratio_finite (a b : nat) :
  (0 < b)%nat -> array_length a ->
  exists q, Js.div (Js.count a) (Js.count b) = Js.Fin q /\ 0 <= q /\
            ((b <= a)%nat -> 1 <= q).
Proof.
  intros Hb Ha. rewrite (div_counts a b Hb).
  destruct (double_between (Js.of_nat a / Js.of_nat b) (Js.pow2 32))
    as (q & Hq & Hq0 & _).
  - apply Qle_shift_div_l; [apply of_nat_pos, Hb|].
    rewrite Qmult_0_l. apply of_nat_nonneg.
  - apply Qle_shift_div_r; [apply of_nat_pos, Hb|].
    apply Qle_trans with (Js.pow2 32 * 1).
    + rewrite Qmult_1_r, (pow2_Z 32) by lia. unfold Js.of_nat.
      rewrite <- Zle_Qle. unfold array_length in Ha. lia.
    + apply Qmult_le_l; [apply pow2_pos|].
      unfold Js.of_nat. change 1 with (inject_Z 1). rewrite <- Zle_Qle. lia.
  - vm_compute. reflexivity.
  - apply pow2_lt. lia.
  - exists q. split; [exact Hq|]. split; [exact Hq0|].
    intros Hle.
    pose proof (double_from (Js.of_nat a / Js.of_nat b) 1) as H.
    rewrite Hq in H. apply H; [discriminate | | reflexivity].
    apply Qle_shift_div_l; [apply of_nat_pos, Hb|].
    rewrite Qmult_1_l. apply of_nat_le, Hle.
Qed.



End ComparisonFacts.


(* ================================================================== *)
(** * Time-based analysis *)
(* ================================================================== *)

Section TimeSeriesFacts.

Import StudyTechniques.

Variable cal : Js.Calendar.
Variable now : Z.
Variables activeRecallSessions pomodoroSessions feynmanSessions
          retrievalSessions : list Session.

Lemma buckets_down_length (n : nat) :
  List.length (buckets_down cal now activeRecallSessions pomodoroSessions
                            feynmanSessions retrievalSessions n) = n.
Proof.
  induction n as [|n IH]; simpl; [reflexivity|].
  rewrite IH. reflexivity.
Qed.

(** The bucket at position [k] is the one pushed for [i = n - 1 - k]. *)
Lemma buckets_down_nth (n k : nat) :
  (k < n)%nat ->
  nth_error (buckets_down cal now activeRecallSessions pomodoroSessions
                          feynmanSessions retrievalSessions n) k =
  Some (bucket cal now activeRecallSessions pomodoroSessions feynmanSessions
               retrievalSessions (n - 1 - k)).
Proof.
  revert k. induction n as [|n IH]; intros k Hk; [lia|].
  destruct k as [|k]; cbn [buckets_down nth_error].
  - do 2 f_equal. lia.
  - rewrite IH by lia. do 2 f_equal. lia.
Qed.

Lemma sessions_on_none (dateStr : string) (l : list Session) :
  (forall s, In s l -> String.prefix dateStr (created_at s) = false) ->
  sessions_on dateStr l = 0%nat.
Proof.
  intros H. unfold sessions_on.
  induction l as [|s l IH]; simpl; [reflexivity|].
  rewrite (H s) by (left; reflexivity).
  apply IH. intros s' Hs'. apply H. right. exact Hs'.
Qed.

End TimeSeriesFacts.

(** X27.  For the range tokens week, month and quarter the time-based
    analysis has exactly 7, 30 and 90 buckets.  The bucket at position
    [k] is the one pushed for [i = days - 1 - k]: its date is the UTC
    date of the instant that the calendar of the process reaches by
    moving the day of the month of the request [i] days back, its
    counts are the numbers of sessions of each technique whose
    [created_at] starts with that date, zero if there is none, and its
    total is the sum of the four counts. *)
Theorem X27_one_bucket_per_loop_index
        (cal : Js.Calendar) (now : Z) (timeRange : string)
        (activeRecallSessions pomodoroSessions feynmanSessions
         retrievalSessions : list StudyTechniques.Session) :
  let series :=
    StudyTechniques.timeBasedAnalysis cal now timeRange activeRecallSessions
      pomodoroSessions feynmanSessions retrievalSessions in
  let days := List.length series in
  (timeRange = "week"%string -> days = 7%nat) /\
  (timeRange = "month"%string -> days = 30%nat) /\
  (timeRange = "quarter"%string -> days = 90%nat) /\
  forall k, (k < days)%nat ->
    exists b,
      nth_error series k = Some b /\
      StudyTechniques.date b =
        Js.iso_date cal (Js.add_days cal now (- Z.of_nat (days - 1 - k))) /\
      StudyTechniques.activeRecall b =
        StudyTechniques.sessions_on (StudyTechniques.date b) activeRecallSessions /\
      StudyTechniques.pomodoro b =
        StudyTechniques.sessions_on (StudyTechniques.date b) pomodoroSessions /\
      StudyTechniques.feynman b =
        StudyTechniques.sessions_on (StudyTechniques.date b) feynmanSessions /\
      StudyTechniques.retrievalPractice b =
        StudyTechniques.sessions_on (StudyTechniques.date b) retrievalSessions /\
      StudyTechniques.total b =
        (StudyTechniques.activeRecall b + StudyTechniques.pomodoro b
         + StudyTechniques.feynman b + StudyTechniques.retrievalPractice b)%nat /\
      ((forall s,
           In s (activeRecallSessions ++ pomodoroSessions
                 ++ feynmanSessions ++ retrievalSessions) ->
           String.prefix (StudyTechniques.date b) (StudyTechniques.created_at s)
           = false) ->
       StudyTechniques.total b = 0%nat).
Proof.
  intros series days.
  assert (Hdays : days = StudyTechniques.days timeRange)
    by apply buckets_down_length.
  split; [intros ->; rewrite Hdays; reflexivity|].
  split; [intros ->; rewrite Hdays; reflexivity|].
  split; [intros ->; rewrite Hdays; reflexivity|].
  intros k Hk. eexists. split.
  - unfold series, StudyTechniques.timeBasedAnalysis.
    apply buckets_down_nth. rewrite <- Hdays. exact Hk.
  - rewrite <- Hdays. unfold StudyTechniques.bucket.
    cbn [StudyTechniques.date StudyTechniques.activeRecall
         StudyTechniques.pomodoro StudyTechniques.feynman
         StudyTechniques.retrievalPractice StudyTechniques.total].
    repeat (split; [reflexivity|]).
    intros Hnone.
    rewrite !sessions_on_none; [reflexivity| | | |];
      intros s Hs; apply Hnone; rewrite !in_app_iff; auto.
Qed.

Example utc_dates :
  Utc.date_string 0 = "1970-01-01"%string /\
  Utc.date_string 19000 = "2022-01-08"%string /\
  Utc.date_string 19782 = "2024-02-29"%string /\
  Utc.date_string (-1) = "1969-12-31"%string /\
  Utc.days_from_civil 2025 3 14 = 20161%Z /\
  Utc.get_time "2025-03-14T10:00:00.123456+00:00" = Some 1741946400123%Z /\
  Utc.get_time "2025-03-14T12:00:00+02:00" = Some 1741946400000%Z /\
  Utc.get_time "2025-03-14T10:00:00Z" = Some 1741946400000%Z /\
  Utc.get_time "2025-03-14" = Some 1741910400000%Z /\
  Utc.get_time "soon" = None /\
  Utc.iso_date 1741946400000 = "2025-03-14"%string /\
  Utc.iso_date (Utc.add_months 1743415200000 (-1)) = "2025-03-03"%string.
Proof. vm_compute. repeat split. Qed.

(** In UTC the buckets of the time series are consecutive calendar
    days: the day [i] days before [now] is the day number of [now]
    minus [i]. *)
Lemma utc_day_before (now : Z) (i : nat) :
  Js.iso_date Utc.calendar (Js.add_days Utc.calendar now (- Z.of_nat i)) =
  Utc.date_string (now / Utc.ms_per_day - Z.of_nat i).
Proof.
  cbn [Js.iso_date Js.add_days Utc.calendar].
  unfold Utc.iso_date, Utc.add_days. f_equal.
  rewrite Z.div_add by (unfold Utc.ms_per_day; lia). lia.
Qed.

(** C8.  In a process whose time zone is America/New_York, asked for
    the week at 2025-03-09T23:30:00Z, the evening of the day on which
    the clocks are set forward, the seven buckets of the response carry
    the date 2025-03-09 twice and no bucket carries 2025-03-03, the day
    six days before the request: the day is moved back in local time
    and the date is then read in UTC.  The one session of that day is
    counted in both buckets.  A process in UTC lists the seven days
    from 2025-03-03 to 2025-03-09 once each. *)
Theorem C8_week_in_new_york_repeats_a_day :
  Utc.iso_date NewYorkExample.now = "2025-03-09"%string /\
  Utc.iso_date (NewYork.to_local NewYorkExample.now) = "2025-03-09"%string /\
  StudyTechniques.GET NewYork.calendar TechniquesExample.no_other_analytics
                      NewYorkExample.store NewYorkExample.now
                      TechniquesExample.request
  = Success (NewYorkExample.data NewYork.calendar) /\
  map (fun b => (StudyTechniques.date b, StudyTechniques.activeRecall b,
                 StudyTechniques.total b))
      (StudyTechniques.data_timeBasedAnalysis
         (NewYorkExample.data NewYork.calendar))
  = [("2025-03-04"%string, 0%nat, 0%nat); ("2025-03-05"%string, 0%nat, 0%nat);
     ("2025-03-06"%string, 0%nat, 0%nat); ("2025-03-07"%string, 0%nat, 0%nat);
     ("2025-03-08"%string, 0%nat, 0%nat); ("2025-03-09"%string, 1%nat, 1%nat);
     ("2025-03-09"%string, 1%nat, 1%nat)] /\
  ~ In "2025-03-03"%string (map StudyTechniques.date NewYorkExample.series) /\
  ~ NoDup (map StudyTechniques.date NewYorkExample.series) /\
  StudyTechniques.GET Utc.calendar TechniquesExample.no_other_analytics
                      NewYorkExample.store NewYorkExample.now
                      TechniquesExample.request
  = Success (NewYorkExample.data Utc.calendar) /\
  map (fun b => (StudyTechniques.date b, StudyTechniques.activeRecall b,
                 StudyTechniques.total b))
      (StudyTechniques.data_timeBasedAnalysis (NewYorkExample.data Utc.calendar))
  = [("2025-03-03"%string, 0%nat, 0%nat); ("2025-03-04"%string, 0%nat, 0%nat);
     ("2025-03-05"%string, 0%nat, 0%nat); ("2025-03-06"%string, 0%nat, 0%nat);
     ("2025-03-07"%string, 0%nat, 0%nat); ("2025-03-08"%string, 0%nat, 0%nat);
     ("2025-03-09"%string, 1%nat, 1%nat)].
Proof.
  assert (Hdates : map StudyTechniques.date NewYorkExample.series
                   = ["2025-03-04"; "2025-03-05"; "2025-03-06"; "2025-03-07";
                      "2025-03-08"; "2025-03-09"; "2025-03-09"]%string)
    by (vm_compute; reflexivity).
  split; [vm_compute; reflexivity|]. split; [vm_compute; reflexivity|].
  split; [vm_compute; reflexivity|]. split; [vm_compute; reflexivity|].
  rewrite Hdates.
  split; [simpl; intuition discriminate|].
  split; [|split; vm_compute; reflexivity].
  intros H. do 5 (apply NoDup_cons_iff in H; destruct H as [_ H]).
  apply NoDup_cons_iff in H. destruct H as [H _].
  apply H. left. reflexivity.
Qed.

(* ================================================================== *)
(** * The statements at work *)
(* ================================================================== *)

(** The module of the specification's scenario: 7 of its 20 rows fail
    and 10 are borderline, failure rate 35 and remedial rate 50.  The
    response has one alert, which is critical and shows 35. *)
Lemma C1_alert_first_match_witness :
  AiInsights.GET Utc.calendar Example.scenario_store Example.now Example.request
    = Success Example.scenario_data /\
  List.length (rows_of_module "module-1" Example.progress_rows) = 20%nat /\
  List.length
    (filter is_failing (rows_of_module "module-1" Example.progress_rows))
  = 7%nat /\
  map (fun a => (AiInsights.pa_moduleId a, AiInsights.pa_type a,
                 AiInsights.pa_severity a, AiInsights.pa_value a))
      (AiInsights.data_performanceAlerts Example.scenario_data)
  = [("module-1"%string, AiInsights.Critical, AiInsights.SeverityHigh,
      Js.RInt 35)] /\
  AiInsights.data_performanceAlerts Example.scenario_data
  = Js.slice0 10 (AiInsights.performanceAlerts (Some Example.progress_rows)) /\
  exists a,
    filter (fun a => String.eqb (AiInsights.pa_moduleId a) "module-1")
           (AiInsights.performanceAlerts (Some Example.progress_rows)) = [a] /\
    AiInsights.pa_type a = AiInsights.Critical /\
    AiInsights.pa_severity a = AiInsights.SeverityHigh /\
    AiInsights.pa_value a = Js.RInt 35.
Proof.
  assert (HGET : AiInsights.GET Utc.calendar Example.scenario_store Example.now
                                Example.request
                 = Success Example.scenario_data)
    by (vm_compute; reflexivity).
  assert (Hc : courses_of (AiInsights.accounts Example.scenario_store) "prof"
               <> [])
    by (vm_compute; discriminate).
  assert (Hf : AiInsights.fetch_analytics
                 Utc.calendar Example.scenario_store Example.scenario_ids
                 (startDate Utc.calendar Example.now
                            (timeRange_of Example.request))
               = Some [Example.analysed "student-1" "2025-03-13T09:00:00+00:00"
                                        None []])
    by (vm_compute; reflexivity).
  assert (Hrows : AiInsights.fetch_module_progress
                    Example.scenario_store Example.scenario_ids
                    (map c_id (courses_of
                                 (AiInsights.accounts Example.scenario_store)
                                 "prof"))
                  = Some Example.progress_rows)
    by (vm_compute; reflexivity).
  assert (Hin : In (Example.progress_row 50 1) Example.progress_rows)
    by (left; reflexivity).
  split; [exact HGET|].
  split; [vm_compute; reflexivity|]. split; [vm_compute; reflexivity|].
  split; [vm_compute; reflexivity|].
  pose proof (C1_alert_first_match
                Utc.calendar Example.scenario_store Example.now Example.request
                Example.scenario_data "prof" Example.scenario_ids
                [Example.analysed "student-1" "2025-03-13T09:00:00+00:00"
                                  None []]
                Example.progress_rows (Example.progress_row 50 1)
                HGET eq_refl Hc eq_refl ltac:(discriminate) Hf
                ltac:(discriminate) Hrows Hin) as H.
  cbv zeta in H.
  destruct H as (Hdata & _ & failure & remedial & Hfail & _ & Hcritical & _).
  split; [exact Hdata|].
  assert (E : failure = 35) by (vm_compute in Hfail; congruence).
  subst failure.
  destruct Hcritical as (a & Ha & Ht & Hs & Hv); [discriminate|].
  exists a. split; [exact Ha|]. split; [exact Ht|]. split; [exact Hs|].
  exact Hv.
Defined.

(** The rate 29.5 is displayed as 30, yet the module gets no critical
    alert: the thresholds read the unrounded rate. *)
Example alert_reads_unrounded_rate :
  Js.round (AiInsights.failureRate Example.borderline) = Js.RInt 30 /\
  AiInsights.alert_for ("module-2"%string, Example.borderline) = None.
Proof. vm_compute. split; reflexivity. Qed.

(** The rates are doubles: 23 failing students of 40 give
    57.49999999999999, displayed as 57, and the scores 61.3, 74.6 and
    74.1 have the average 69.99999999999999, which is below 70. *)
Example alert_reads_doubles :
  (exists a,
      AiInsights.alert_for
        ("module-3"%string,
         {| AiInsights.title := "Ratios";
            AiInsights.scores := [80];
            AiInsights.needsRemedial := 0;
            AiInsights.failing := 23;
            AiInsights.totalStudents := 40 |}) = Some a /\
      AiInsights.pa_type a = AiInsights.Critical /\
      AiInsights.pa_value a = Js.RInt 57) /\
  (exists a,
      AiInsights.alert_for
        ("module-4"%string,
         {| AiInsights.title := "Roots";
            AiInsights.scores := [Example.decimal 613 10; Example.decimal 746 10;
                                  Example.decimal 741 10];
            AiInsights.needsRemedial := 0;
            AiInsights.failing := 0;
            AiInsights.totalStudents := 3 |}) = Some a /\
      AiInsights.pa_type a = AiInsights.Info /\
      AiInsights.pa_value a = Js.RInt 70).
Proof. split; eexists; vm_compute; repeat split. Qed.

(** In the response of the example the urgent student comes first,
    then the high one, then the medium one; [dan], whose level is none,
    and [eve], who has no row in [users], are left out. *)
Lemma C2_intervention_first_match_and_order_witness :
  AiInsights.GET Utc.calendar Example.store Example.now Example.request
    = Success Example.data /\
  map (fun i => (AiInsights.si_studentId i, AiInsights.si_interventionLevel i))
      (AiInsights.data_studentInterventions Example.data)
  = [("ben"%string, AiInsights.LevelUrgent);
     ("ana"%string, AiInsights.LevelHigh);
     ("cleo"%string, AiInsights.LevelMedium)] /\
  AiInsights.data_studentInterventions Example.data
  = Js.slice0 15 (AiInsights.studentInterventions
                    Utc.calendar Example.analytics Example.students) /\
  StronglySorted level_order
    (AiInsights.data_studentInterventions Example.data).
Proof.
  assert (HGET : AiInsights.GET Utc.calendar Example.store Example.now
                                Example.request
                 = Success Example.data)
    by (vm_compute; reflexivity).
  assert (Hc : courses_of (AiInsights.accounts Example.store) "prof" <> [])
    by (vm_compute; discriminate).
  assert (Hf : AiInsights.fetch_analytics
                 Utc.calendar Example.store
                 ["ana"; "ben"; "cleo"; "dan"; "eve"]%string
                 (startDate Utc.calendar Example.now
                            (timeRange_of Example.request))
               = Some Example.analytics)
    by (vm_compute; reflexivity).
  split; [exact HGET|]. split; [vm_compute; reflexivity|].
  pose proof (C2_intervention_first_match_and_order
                Utc.calendar Example.store Example.now Example.request
                Example.data "prof"
                ["ana"; "ben"; "cleo"; "dan"; "eve"]%string
                Example.analytics
                HGET eq_refl Hc eq_refl ltac:(discriminate) Hf
                ltac:(discriminate)) as H.
  cbv zeta in H.
  destruct H as (Hemitted & _ & _ & _ & Hsorted).
  split; [exact Hemitted | exact Hsorted].
Defined.

(** A priority [null] counts as a high priority issue and not as a
    critical one; the improvements 32.2 and then 12.2 have the trend
    -20.000000000000004, which is below -20. *)
Example intervention_reads_null_and_doubles :
  AiInsights.is_high_priority
    (Example.recommendation "pacing" "Slow down" Js.Null None) = true /\
  AiInsights.is_critical
    (Example.recommendation "pacing" "Slow down" Js.Null None) = false /\
  trend_between
    [ Example.analysed "cleo" "2025-03-10T09:00:00+00:00"
                       (Some (Example.decimal 322 10)) [];
      Example.analysed "cleo" "2025-03-08T09:00:00+00:00"
                       (Some (Example.decimal 122 10)) [] ]
  = Js.Fin (- (5629499534213121 # 281474976710656)) /\
  fst (AiInsights.interventionLevel
         0 0 (Js.Fin (- (5629499534213121 # 281474976710656))))
  = AiInsights.LevelMedium /\
  Js.round (Js.Fin (- (5629499534213121 # 281474976710656))) = Js.RInt (-20).
Proof. vm_compute. repeat split. Qed.

(** Two occurrences of one key from two students. *)
Lemma X26_groups_by_string_key_witness :
  JsObject.get (AiInsights.recommendationCounts Example.analytics)
               "pacing-Slow down" = Some Example.pacing_group /\
  AiInsights.frequency Example.pacing_group = 2%nat /\
  Js.size (AiInsights.affectedStudents Example.pacing_group) = 2%nat.
Proof.
  assert (Hget : JsObject.get (AiInsights.recommendationCounts Example.analytics)
                              "pacing-Slow down" = Some Example.pacing_group)
    by (vm_compute; reflexivity).
  split; [exact Hget|].
  pose proof (X26_groups_by_string_key Example.analytics Example.students
                                       _ _ Hget) as H.
  cbv zeta in H.
  destruct H as (_ & _ & _ & _ & _ & _ & _ & _ & _ & Htwo).
  apply (Htwo "ana"%string
              (Example.recommendation "pacing" "Slow down" (Js.Value 2%Z)
                                      (Some (Example.decimal 8 10)))
              "ben"%string
              (Example.recommendation "pacing" "Slow down" (Js.Value 1%Z)
                                      (Some (Example.decimal 6 10)))).
  - vm_compute. reflexivity.
  - discriminate.
Defined.

(** C3.  Two recommendations whose types and titles differ,
    ['self-study'] with ['review'] and ['self'] with ['study-review'],
    have the same key and are merged: the list has one recommendation,
    of type ['self-study'], with frequency 2 and two affected students,
    so the groups are not the classes of the pair (type, title).
    Besides, a score of zero is counted as 0.7, like an absent one. *)
Theorem C3_different_pairs_are_merged :
  map (fun o => (AiInsights.rec_type (snd o), AiInsights.rec_title (snd o)))
      (occurrences Example.collision)
  = [("self-study", "review"); ("self", "study-review")]%string /\
  map (fun t => (AiInsights.tr_type t, AiInsights.tr_title t,
                 AiInsights.tr_frequency t,
                 AiInsights.tr_affectedStudentsCount t,
                 AiInsights.tr_confidence t))
      (AiInsights.teachingRecommendations Example.collision Example.students)
  = [("self-study"%string, "review"%string, 2%nat, 2%nat, Js.RInt 70)] /\
  ~ groups_by_type_and_title Example.collision /\
  confidence_of ("ana"%string,
                 Example.recommendation "pacing" "Slow down" Js.Undefined
                                        (Some 0))
  = Js.nearest (7 # 10).
Proof.
  split; [vm_compute; reflexivity|].
  split; [vm_compute; reflexivity|].
  split; [|reflexivity].
  intros H.
  destruct (JsObject.get (AiInsights.recommendationCounts Example.collision)
                         "self-study-review") as [g|] eqn:E;
    [|vm_compute in E; discriminate].
  destruct (H _ _ E) as [Hfreq _].
  vm_compute in E. injection E as <-.
  vm_compute in Hfreq. discriminate.
Qed.

(** C4.  A recommendation whose [priority] is absent gives its group
    the priority 1, not 3: it is ranked before a group of priority 2.
    The intervention counters treat it as neither high priority nor
    critical, as they would a priority of 3, and an absent
    [confidence_score] counts as 0.7. *)
Theorem C4_absent_priority_is_grouped_as_1 :
  AiInsights.priority Example.unranked = Js.Undefined /\
  AiInsights.confidence_score Example.unranked = None /\
  AiInsights.g_priority (AiInsights.new_group ("ben"%string, Example.unranked))
    = 1%Z /\
  map (fun t => (AiInsights.tr_title t, AiInsights.tr_priority t))
      (AiInsights.teachingRecommendations Example.unranked_and_ranked
                                          Example.students)
    = [("Sleep earlier"%string, 1%Z); ("Slow down"%string, 2%Z)] /\
  AiInsights.is_high_priority Example.unranked = false /\
  AiInsights.is_critical Example.unranked = false /\
  confidence_of ("ben"%string, Example.unranked) = Js.nearest (7 # 10).
Proof. vm_compute. repeat split. Qed.

(** Whatever the other fields, an absent priority is grouped as 1 and
    counted as no issue. *)
Lemma absent_priority (user : string) (r : AiInsights.Recommendation) :
  AiInsights.priority r = Js.Undefined ->
  AiInsights.g_priority (AiInsights.new_group (user, r)) = 1%Z /\
  AiInsights.is_high_priority r = false /\
  AiInsights.is_critical r = false.
Proof.
  intros H. unfold AiInsights.new_group, AiInsights.is_high_priority,
            AiInsights.is_critical.
  simpl. rewrite H. repeat split.
Qed.

Lemma instructor_without_students_example :
  instructor_without_students Example.accounts_without_students
                              Example.request.
Proof.
  exists "prof"%string, Example.instructor, [Example.course], Example.course.
  repeat split; try reflexivity.
  - left. reflexivity.
  - right. reflexivity.
Defined.

Lemma C5_no_students_gives_empty_success_witness :
  instructor_without_students Example.accounts_without_students
                              Example.request /\
  AiInsights.GET Utc.calendar Example.store_without_students Example.now
                 Example.request
    = Success AiInsights.empty_data /\
  StudyTechniques.GET Utc.calendar TechniquesExample.no_other_analytics
                      TechniquesExample.store_without_students Example.now
                      Example.request
    = Success StudyTechniques.empty_data.
Proof.
  split; [exact instructor_without_students_example|].
  exact (C5_no_students_gives_empty_success
           Utc.calendar
           TechniquesExample.no_other_analytics
           Example.store_without_students
           TechniquesExample.store_without_students
           Example.now Example.request
           instructor_without_students_example
           instructor_without_students_example).
Defined.

Lemma C6_report_shape_and_zero_denominators_witness :
  In (ReportExample.report false)
     (ExportReport.courseAnalysis (Js.JBool false) [Example.course]
        ReportExample.modules_rows None (Some []) []) /\
  ExportReport.modules (ReportExample.report false) = ExportReport.ModuleCount 2 /\
  ExportReport.averageScore (ReportExample.report false) = Js.RInt 0 /\
  ExportReport.completionRate (ReportExample.report false) = Js.RInt 0.
Proof.
  assert (Hin : In (ReportExample.report false)
                   (ExportReport.courseAnalysis (Js.JBool false) [Example.course]
                      ReportExample.modules_rows None (Some []) []))
    by (left; reflexivity).
  split; [exact Hin|].
  destruct (C6_report_shape_and_zero_denominators _ _ _ _ _ _ _ Hin)
    as (course & [<-|[]] & _ & H).
  cbv zeta in H.
  destruct H as (_ & Hcount & _ & _ & _ & Hzero & _).
  split; [apply Hcount; reflexivity|].
  apply Hzero. reflexivity.
Defined.

(** The average is a double: two rows with the score [2 ^ 1023] have
    the sum [Infinity], and the report shows [Infinity], which is not
    an integer and not [NaN]; with one such row the average is the
    score. *)
Example average_score_can_overflow :
  let row :=
    {| ExportReport.p_user_id := "ana";
       ExportReport.p_module_id := "module-1";
       ExportReport.p_best_score := Some (inject_Z (2 ^ 1023));
       ExportReport.p_status := "completed";
       ExportReport.p_passed := true;
       ExportReport.p_needs_remedial := false |} in
  ExportReport.average_best_score [row] = Js.RInt (2 ^ 1023) /\
  ExportReport.average_best_score [row; row] = Js.RInf true.
Proof. vm_compute. split; reflexivity. Qed.


Lemma X27_one_bucket_per_loop_index_witness :
  List.length (StudyTechniques.data_timeBasedAnalysis TechniquesExample.data)
  = 7%nat /\
  map StudyTechniques.date
      (StudyTechniques.data_timeBasedAnalysis TechniquesExample.data)
  = ["2025-03-08"; "2025-03-09"; "2025-03-10"; "2025-03-11"; "2025-03-12";
     "2025-03-13"; "2025-03-14"]%string.
Proof.
  split.
  - exact (proj1 (X27_one_bucket_per_loop_index
                    Utc.calendar Example.now "week"
                    (StudyTechniques.fetch_sessions Utc.calendar
                       (StudyTechniques.active_recall_sessions
                          TechniquesExample.store)
                       ["ana"; "ben"; "cleo"; "dan"; "eve"]%string
                       (startDate Utc.calendar Example.now "week"))
                    (StudyTechniques.fetch_sessions Utc.calendar
                       (StudyTechniques.pomodoro_sessions
                          TechniquesExample.store)
                       ["ana"; "ben"; "cleo"; "dan"; "eve"]%string
                       (startDate Utc.calendar Example.now "week"))
                    [] [])
                 eq_refl).
  - vm_compute. reflexivity.
Defined.

(** Of twelve groups the response lists ten: the groups created last,
    of priority 1 and 2, come first, and the two groups left out have
    priority 3 and frequency 1 and were created after the groups of the
    same rank that are listed. *)
Lemma C9_sorted_then_truncated_witness :
  AiInsights.GET Utc.calendar RankingExample.store Example.now Example.request
    = Success RankingExample.data /\
  map (fun t => (AiInsights.tr_title t, AiInsights.tr_priority t,
                 AiInsights.tr_frequency t))
      (AiInsights.data_teachingRecommendations RankingExample.data)
  = [("t11"%string, 1%Z, 1%nat); ("t12"%string, 2%Z, 2%nat);
     ("t03"%string, 2%Z, 1%nat); ("t06"%string, 2%Z, 1%nat);
     ("t08"%string, 3%Z, 2%nat); ("t01"%string, 3%Z, 1%nat);
     ("t02"%string, 3%Z, 1%nat); ("t04"%string, 3%Z, 1%nat);
     ("t05"%string, 3%Z, 1%nat); ("t07"%string, 3%Z, 1%nat)] /\
  map AiInsights.tr_title
      (skipn 10 (AiInsights.teachingRecommendations RankingExample.analytics
                                                    Example.students))
  = ["t09"; "t10"]%string /\
  AiInsights.data_teachingRecommendations RankingExample.data
  = firstn 10 (AiInsights.teachingRecommendations RankingExample.analytics
                                                  Example.students) /\
  StronglySorted rank_order
    (AiInsights.data_teachingRecommendations RankingExample.data).
Proof.
  assert (HGET : AiInsights.GET Utc.calendar RankingExample.store Example.now
                                Example.request
                 = Success RankingExample.data)
    by (vm_compute; reflexivity).
  assert (Hc : courses_of (AiInsights.accounts RankingExample.store) "prof" <> [])
    by (vm_compute; discriminate).
  assert (Hf : AiInsights.fetch_analytics
                 Utc.calendar RankingExample.store
                 ["ana"; "ben"; "cleo"; "dan"; "eve"]%string
                 (startDate Utc.calendar Example.now (timeRange_of Example.request))
               = Some RankingExample.analytics)
    by (vm_compute; reflexivity).
  split; [exact HGET|]. split; [vm_compute; reflexivity|].
  split; [vm_compute; reflexivity|].
  pose proof (C9_sorted_then_truncated
                Utc.calendar RankingExample.store Example.now Example.request
                RankingExample.data "prof"
                ["ana"; "ben"; "cleo"; "dan"; "eve"]%string
                RankingExample.analytics
                HGET eq_refl Hc eq_refl ltac:(discriminate) Hf
                ltac:(discriminate)) as H.
  cbv zeta in H.
  destruct H as (_ & _ & _ & Hemitted & _ & Hsorted & _).
  split; [exact Hemitted | exact Hsorted].
Defined.

(** A group created last is still ranked first when its priority is the
    smallest: the cut comes after the sort. *)
Example last_group_can_rank_first :
  map AiInsights.tr_id
      (Js.slice0 1 (AiInsights.teachingRecommendations
                      (Example.unranked_and_ranked) Example.students))
  = ["rec_2"%string].
Proof. vm_compute. reflexivity. Qed.

(** [eve] is enrolled and has a recommendation of priority 1, but no
    row in [users]: the response succeeds and has no intervention for
    her. *)
Lemma C10_interventions_only_for_known_students_witness :
  AiInsights.GET Utc.calendar Example.store Example.now Example.request
    = Success Example.data /\
  (exists d,
      JsObject.get (AiInsights.studentAnalytics Example.analytics) "eve" = Some d /\
      AiInsights.criticalIssues d = 1%nat) /\
  forall i, In i (AiInsights.data_studentInterventions Example.data) ->
            AiInsights.si_studentId i <> "eve"%string.
Proof.
  assert (HGET : AiInsights.GET Utc.calendar Example.store Example.now
                                Example.request
                 = Success Example.data)
    by (vm_compute; reflexivity).
  split; [exact HGET|].
  split; [eexists; split; vm_compute; reflexivity|].
  apply (proj2 (C10_interventions_only_for_known_students _ _ _ _ _ HGET)).
  intros rows Hrows. vm_compute in Hrows. injection Hrows as <-.
  vm_compute. intuition discriminate.
Defined.

(* ================================================================== *)
(** * The prelude of the handlers *)
(* ================================================================== *)

Lemma single_user_filter (users : option (list User)) (userId : string)
      (profile : User) :
  single_user users userId = Some profile <->
  exists rows, users = Some rows /\
               filter (fun u => String.eqb (u_id u) userId) rows = [profile].
Proof.
  unfold single_user. split.
  - destruct users as [rows|]; [|discriminate].
    destruct (filter _ rows) as [|p [|q rest]] eqn:E; try discriminate.
    intros [= ->]. exists rows. split; [reflexivity | exact E].
  - intros (rows & -> & ->). reflexivity.
Qed.

Lemma authorized_dec_role (acc : Accounts) (request : Request) (userId : string)
      (profile : User) :
  Js.truthy_string (x_user_id request) = Some userId ->
  single_user (users_table acc) userId = Some profile ->
  (authorized_instructor acc request userId <->
   u_role profile = "instructor"%string).
Proof.
  intros Hu Hp. apply single_user_filter in Hp.
  destruct Hp as (rows & Hrows & Hf). split.
  - intros (_ & rows' & profile' & Hrows' & Hf' & Hrole).
    rewrite Hrows in Hrows'. injection Hrows' as <-.
    rewrite Hf in Hf'. injection Hf' as <-. exact Hrole.
  - intros Hrole. split; [exact Hu|]. exists rows, profile. auto.
Qed.

Lemma not_authorized_without_profile (acc : Accounts) (request : Request)
      (userId : string) :
  single_user (users_table acc) userId = None ->
  ~ authorized_instructor acc request userId.
Proof.
  intros Hnone (_ & rows & profile & Hrows & Hf & _).
  assert (H : single_user (users_table acc) userId = Some profile)
    by (apply single_user_filter; exists rows; auto).
  congruence.
Qed.

Lemma inherited_In (k : string) :
  JsPrototype.inherited k = true <-> In k JsPrototype.members.
Proof.
  unfold JsPrototype.inherited. rewrite existsb_exists. split.
  - intros (x & Hx & E). apply String.eqb_eq in E. subst x. exact Hx.
  - intros H. exists k. split; [exact H | apply String.eqb_refl].
Qed.

Lemma learningPatternInsights_None (analyticsData : list AiInsights.AnalyticsRow) :
  AiInsights.learningPatternInsights analyticsData = None <->
  exists s pattern,
    In s analyticsData /\ AiInsights.pattern_of s = Some pattern /\
    In pattern JsPrototype.members.
Proof.
  unfold AiInsights.learningPatternInsights.
  destruct (existsb _ analyticsData) eqn:E.
  - split; [intros _|reflexivity].
    apply existsb_exists in E. destruct E as (s & Hs & H).
    destruct (AiInsights.pattern_of s) as [pattern|] eqn:Hp; [|discriminate].
    exists s, pattern. split; [exact Hs|]. split; [exact Hp|].
    apply inherited_In, H.
  - split; [discriminate|].
    intros (s & pattern & Hs & Hp & Hin). exfalso.
    assert (H : existsb (fun s => match AiInsights.pattern_of s with
                                  | Some pattern => JsPrototype.inherited pattern
                                  | None => false
                                  end) analyticsData = true).
    { apply existsb_exists. exists s. split; [exact Hs|].
      rewrite Hp. apply inherited_In, Hin. }
    congruence.
Qed.

Lemma contentOptimizationSuggestions_None
      (feynmanFeedback : option (list AiInsights.Feedback)) :
  AiInsights.contentOptimizationSuggestions feynmanFeedback = None <->
  exists rows f,
    feynmanFeedback = Some rows /\ In f rows /\
    In (AiInsights.feedback_type f) JsPrototype.members.
Proof.
  unfold AiInsights.contentOptimizationSuggestions.
  destruct (existsb _ _) eqn:E.
  - split; [intros _|reflexivity].
    apply existsb_exists in E. destruct E as (f & Hf & H).
    destruct feynmanFeedback as [rows|]; [|destruct Hf].
    exists rows, f. split; [reflexivity|]. split; [exact Hf|].
    apply inherited_In, H.
  - split; [discriminate|].
    intros (rows & f & -> & Hf & Hin). exfalso.
    assert (H : existsb (fun f => JsPrototype.inherited (AiInsights.feedback_type f))
                        rows = true).
    { apply existsb_exists. exists f. split; [exact Hf|].
      apply inherited_In, Hin. }
    congruence.
Qed.

Lemma effectivenessMetrics_None
      (analyticsData : option (list StudyTechniques.AnalyticsItem)) :
  StudyTechniques.effectivenessMetrics analyticsData = None <->
  exists items item,
    analyticsData = Some items /\ In item items /\
    In (StudyTechniques.session_type item) JsPrototype.members.
Proof.
  unfold StudyTechniques.effectivenessMetrics.
  destruct analyticsData as [items|].
  - destruct (existsb _ items) eqn:E.
    + split; [intros _|reflexivity].
      apply existsb_exists in E. destruct E as (item & Hi & H).
      exists items, item. split; [reflexivity|]. split; [exact Hi|].
      apply inherited_In, H.
    + split; [discriminate|].
      intros (items' & item & [= <-] & Hi & Hin). exfalso.
      assert (H : existsb (fun item => JsPrototype.inherited
                                         (StudyTechniques.session_type item))
                          items = true).
      { apply existsb_exists. exists item. split; [exact Hi|].
        apply inherited_In, Hin. }
      congruence.
  - split; [discriminate|]. intros (items & item & H & _). discriminate.
Qed.

(** X1.  The two [GET] handlers answer 401 exactly when the header
    [X-User-ID] is missing or empty, 403 exactly when it names no
    single row of [users] with the role instructor, 500 with the error
    'Failed to fetch students' exactly when the enrolment procedure
    reports an error for an instructor who has courses, 500 with the
    error 'Internal server error' exactly when the handler throws for
    an instructor with courses and students, which it does when a
    fetched row carries the name of a member of [Object.prototype] as
    its pattern type, feedback type or session type, and a success in
    every other case; a success therefore always belongs to an
    instructor. *)
Theorem X1_status_codes
        (cal : Js.Calendar)
        (analytics : StudyTechniques.OtherAnalytics)
        (db1 : AiInsights.Store) (db2 : StudyTechniques.Store)
        (now : Z) (request : Request) :
  status_table (AiInsights.accounts db1) request
               (insights_thrown cal db1 now request)
               (AiInsights.GET cal db1 now request) /\
  status_table (StudyTechniques.accounts db2) request
               (techniques_thrown cal db2 now request)
               (StudyTechniques.GET cal analytics db2 now request).
Proof.
  split.
  - unfold AiInsights.GET, status_table.
    destruct (Js.truthy_string (x_user_id request)) as [userId|] eqn:Hu;
      [|left; auto].
    destruct (single_user (users_table (AiInsights.accounts db1)) userId)
      as [profile|] eqn:Hp.
    2:{ right. left. repeat split. exists userId. split; [reflexivity|].
        apply not_authorized_without_profile, Hp. }
    pose proof (authorized_dec_role _ _ _ _ Hu Hp) as Hauth.
    destruct (String.eqb_spec (u_role profile) "instructor") as [Hrole|Hrole];
      simpl.
    2:{ right. left. repeat split. exists userId. split; [reflexivity|].
        intros H. apply Hrole, Hauth, H. }
    apply Hauth in Hrole.
    fold (courses_of (AiInsights.accounts db1) userId).
    destruct (courses_of (AiInsights.accounts db1) userId) as [|c cs] eqn:Hc.
    { exists userId. auto. }
    destruct (rpc_error _) eqn:He.
    { right. right. left. split; [reflexivity|]. split; [reflexivity|].
      exists userId. split; [exact Hrole|].
      split; [rewrite Hc; discriminate | exact He]. }
    fold (enrolled (AiInsights.accounts db1) userId).
    unfold insights_thrown. cbv zeta.
    destruct (enrolled (AiInsights.accounts db1) userId) as [|sid sids] eqn:Hen.
    { exists userId. split; [exact Hrole|]. right. split; [exact He|].
      intros (Hne & _). apply Hne, Hen. }
    assert (Hne : enrolled (AiInsights.accounts db1) userId <> [])
      by (rewrite Hen; discriminate).
    destruct (AiInsights.fetch_analytics _ _ _ _) as [[|row rows]|] eqn:Hf.
    + exists userId. split; [exact Hrole|]. right. split; [exact He|].
      intros (_ & a & Ha & Hnea & _). rewrite Hen, Hf in Ha.
      injection Ha as <-. apply Hnea. reflexivity.
    + destruct (AiInsights.learningPatternInsights (row :: rows))
        as [patterns|] eqn:Hpat.
      * destruct (AiInsights.contentOptimizationSuggestions _)
          as [suggestions|] eqn:Hsug.
        -- exists userId. split; [exact Hrole|]. right. split; [exact He|].
           intros (_ & a & Ha & _ & [H|H]).
           ++ rewrite Hen, Hf in Ha. injection Ha as <-.
              apply learningPatternInsights_None in H. congruence.
           ++ destruct H as (frows & f & Hfetch & Hin).
              assert (Hnone : AiInsights.contentOptimizationSuggestions
                                (AiInsights.fetch_feedback cal db1
                                   (startDate cal now (timeRange_of request)))
                              = None).
              { apply contentOptimizationSuggestions_None.
                exists frows, f. split; [exact Hfetch | exact Hin]. }
              congruence.
        -- right. right. right. split; [reflexivity|]. split; [reflexivity|].
           exists userId. split; [exact Hrole|].
           split; [rewrite Hc; discriminate|]. split; [exact He|].
           split; [exact Hne|]. exists (row :: rows).
           split; [rewrite Hen; exact Hf|]. split; [discriminate|]. right.
           apply contentOptimizationSuggestions_None, Hsug.
      * right. right. right. split; [reflexivity|]. split; [reflexivity|].
        exists userId. split; [exact Hrole|].
        split; [rewrite Hc; discriminate|]. split; [exact He|].
        split; [exact Hne|]. exists (row :: rows).
        split; [rewrite Hen; exact Hf|]. split; [discriminate|]. left.
        apply learningPatternInsights_None, Hpat.
    + exists userId. split; [exact Hrole|]. right. split; [exact He|].
      intros (_ & a & Ha & _). rewrite Hen, Hf in Ha. discriminate.
  - unfold StudyTechniques.GET, status_table.
    destruct (Js.truthy_string (x_user_id request)) as [userId|] eqn:Hu;
      [|left; auto].
    destruct (single_user (users_table (StudyTechniques.accounts db2)) userId)
      as [profile|] eqn:Hp.
    2:{ right. left. repeat split. exists userId. split; [reflexivity|].
        apply not_authorized_without_profile, Hp. }
    pose proof (authorized_dec_role _ _ _ _ Hu Hp) as Hauth.
    destruct (String.eqb_spec (u_role profile) "instructor") as [Hrole|Hrole];
      simpl.
    2:{ right. left. repeat split. exists userId. split; [reflexivity|].
        intros H. apply Hrole, Hauth, H. }
    apply Hauth in Hrole.
    fold (courses_of (StudyTechniques.accounts db2) userId).
    destruct (courses_of (StudyTechniques.accounts db2) userId) as [|c cs] eqn:Hc.
    { exists userId. auto. }
    destruct (rpc_error _) eqn:He.
    { right. right. left. split; [reflexivity|]. split; [reflexivity|].
      exists userId. split; [exact Hrole|].
      split; [rewrite Hc; discriminate | exact He]. }
    fold (enrolled (StudyTechniques.accounts db2) userId).
    unfold techniques_thrown. cbv zeta.
    destruct (enrolled (StudyTechniques.accounts db2) userId)
      as [|sid sids] eqn:Hen.
    { exists userId. split; [exact Hrole|]. right. split; [exact He|].
      intros (Hne & _). apply Hne, Hen. }
    assert (Hne : enrolled (StudyTechniques.accounts db2) userId <> [])
      by (rewrite Hen; discriminate).
    destruct (StudyTechniques.effectivenessMetrics _) as [metrics|] eqn:Hm.
    + exists userId. split; [exact Hrole|]. right. split; [exact He|].
      intros (_ & items & item & Hfetch & Hin).
      assert (Hnone : StudyTechniques.effectivenessMetrics
                        (StudyTechniques.fetch_analytics
                           cal db2 (sid :: sids)
                           (startDate cal now (timeRange_of request)))
                      = None).
      { apply effectivenessMetrics_None. exists items, item.
        rewrite Hen in Hfetch. split; [exact Hfetch | exact Hin]. }
      congruence.
    + right. right. right. split; [reflexivity|]. split; [reflexivity|].
      exists userId. split; [exact Hrole|].
      split; [rewrite Hc; discriminate|]. split; [exact He|].
      split; [exact Hne|].
      apply effectivenessMetrics_None in Hm.
      destruct Hm as (items & item & Hfetch & Hin).
      exists items, item. rewrite Hen. split; [exact Hfetch | exact Hin].
Qed.

(* ================================================================== *)
(** * The response of [ai-insights-detailed] *)
(* ================================================================== *)

(** X2.  In a successful response of [ai-insights-detailed] the lists
    are bounded: at most 10 teaching recommendations, 15 student
    interventions, 8 learning pattern insights, 10 performance alerts
    and 8 content suggestions, and never a study plan
    recommendation. *)
Theorem X2_response_bounds
        (cal : Js.Calendar)
        (db : AiInsights.Store) (now : Z) (request : Request)
        (data : AiInsights.Data) :
  AiInsights.GET cal db now request = Success data ->
  (List.length (AiInsights.data_teachingRecommendations data) <= 10)%nat /\
  (List.length (AiInsights.data_studentInterventions data) <= 15)%nat /\
  (List.length (AiInsights.data_learningPatternInsights data) <= 8)%nat /\
  (List.length (AiInsights.data_performanceAlerts data) <= 10)%nat /\
  (List.length (AiInsights.data_contentOptimizationSuggestions data) <= 8)%nat /\
  AiInsights.data_studyPlanRecommendations data = [].
Proof.
  intros H. apply GET_success in H.
  destruct H as [->|(u & ids & rows & patterns & suggestions
                      & _ & _ & _ & _ & _ & _ & _ & ->)].
  - simpl. repeat split; lia.
  - cbn [AiInsights.data_teachingRecommendations
         AiInsights.data_studentInterventions
         AiInsights.data_learningPatternInsights
         AiInsights.data_performanceAlerts
         AiInsights.data_contentOptimizationSuggestions
         AiInsights.data_studyPlanRecommendations].
    unfold Js.slice0. repeat split; apply firstn_le_length.
Qed.

Section UniquenessFacts.

Import AiInsights.

Lemma NoDup_map_through (A B C : Type) (f : A -> B) (g : A -> C) (h : C -> B)
      (l : list A) :
  (forall x, In x l -> f x = h (g x)) ->
  NoDup (map f l) -> NoDup (map g l).
Proof.
  induction l as [|x l IH]; intros Hf Hnd; simpl; [constructor|].
  inversion Hnd as [|? ? Hx Hl]; subst. constructor.
  - intros Hin. apply Hx. apply in_map_iff in Hin.
    destruct Hin as (y & Hy & Hyl). apply in_map_iff. exists y.
    split; [|exact Hyl].
    rewrite (Hf x) by (left; reflexivity).
    rewrite (Hf y) by (right; exact Hyl). rewrite Hy. reflexivity.
  - apply IH; [|exact Hl]. intros y Hy. apply Hf. right. exact Hy.
Qed.

Lemma NoDup_map_injective (A B : Type) (f : A -> B) (l : list A) :
  (forall x y, f x = f y -> x = y) -> NoDup l -> NoDup (map f l).
Proof.
  intros Hf. induction 1 as [|x l Hx Hl IH]; simpl; constructor.
  - intros Hin. apply in_map_iff in Hin. destruct Hin as (y & Hy & Hyl).
    apply Hf in Hy. subst y. contradiction.
  - exact IH.
Qed.

Lemma nat_to_string_inj (m n : nat) :
  Js.nat_to_string m = Js.nat_to_string n -> m = n.
Proof.
  unfold Js.nat_to_string. intros H.
  assert (Hnn : forall k, Nat.to_uint k <> Decimal.Nil).
  { intros k. rewrite <- (DecimalNat.Unsigned.of_to k) at 1.
    rewrite DecimalNat.Unsigned.to_of. apply DecimalFacts.unorm_nonnil. }
  apply DecimalNat.Unsigned.to_uint_inj.
  pose proof (NilZero.usu (Nat.to_uint m) (Hnn m)) as Hm.
  pose proof (NilZero.usu (Nat.to_uint n) (Hnn n)) as Hn.
  rewrite H in Hm. congruence.
Qed.

Lemma recommendationCounts_keys_NoDup (analyticsData : list AnalyticsRow) :
  NoDup (keys (recommendationCounts analyticsData)).
Proof.
  rewrite recommendationCounts_accumulate. apply accumulate_keys_NoDup.
Qed.

(** The key of an entry is made of the type and the title it stores. *)
Lemma group_key (analyticsData : list AnalyticsRow) (k : string) (g : RecGroup) :
  In (k, g) (JsObject.entries (recommendationCounts analyticsData)) ->
  k = (g_type g ++ "-" ++ g_title g)%string.
Proof.
  intros H. apply (proj1 (entries_In _ _ _)) in H.
  apply In_get in H; [|apply recommendationCounts_keys_NoDup].
  destruct (group_entry _ _ _ H) as (first & rest & _ & Hk & Ht & Hti & _).
  rewrite Hk, Ht, Hti. reflexivity.
Qed.

Lemma push_all_types (students : JsObject.t User) (position : nat)
      (groups : list RecGroup) :
  map (fun t => (tr_type t, tr_title t)) (push_all students position groups)
  = map (fun g => (g_type g, g_title g)) groups.
Proof.
  revert position. induction groups as [|g groups IH]; intros p; simpl.
  - reflexivity.
  - rewrite IH. reflexivity.
Qed.

Lemma push_all_ids (students : JsObject.t User) (position : nat)
      (groups : list RecGroup) :
  map tr_id (push_all students position groups)
  = map (fun i => ("rec_" ++ Js.nat_to_string (i + 1))%string)
        (seq position (List.length groups)).
Proof.
  revert position. induction groups as [|g groups IH]; intros p; simpl.
  - reflexivity.
  - rewrite IH. reflexivity.
Qed.

Lemma push_all_frequencies (students : JsObject.t User) (position : nat)
      (groups : list RecGroup) :
  map tr_frequency (push_all students position groups) = map frequency groups.
Proof.
  revert position. induction groups as [|g groups IH]; intros p; simpl.
  - reflexivity.
  - rewrite IH. reflexivity.
Qed.

Lemma teachingRecommendations_unique (analyticsData : list AnalyticsRow)
      (students : JsObject.t User) :
  NoDup (map (fun t => (tr_type t, tr_title t))
             (teachingRecommendations analyticsData students)) /\
  NoDup (map tr_id (teachingRecommendations analyticsData students)).
Proof.
  unfold teachingRecommendations. split.
  - eapply Permutation_NoDup.
    { apply Permutation_map, Permutation_sym, sort_Permutation. }
    rewrite push_all_types. unfold JsObject.values. rewrite map_map.
    apply NoDup_map_through
      with (f := fst)
           (h := fun p : string * string => (fst p ++ "-" ++ snd p)%string).
    + intros [k g] Hin. simpl. apply group_key with analyticsData, Hin.
    + apply entries_keys_NoDup, recommendationCounts_keys_NoDup.
  - eapply Permutation_NoDup.
    { apply Permutation_map, Permutation_sym, sort_Permutation. }
    rewrite push_all_ids.
    apply NoDup_map_injective; [|apply seq_NoDup].
    intros i j H. cbn in H. injection H as H.
    apply nat_to_string_inj in H. lia.
Qed.

Lemma studentAnalytics_keys_NoDup (analyticsData : list AnalyticsRow) :
  NoDup (keys (studentAnalytics analyticsData)).
Proof. apply accumulate_keys_NoDup. Qed.

Lemma studentInterventions_unique (cal : Js.Calendar)
      (analyticsData : list AnalyticsRow) (students : JsObject.t User) :
  NoDup (map si_studentId (studentInterventions cal analyticsData students)).
Proof.
  unfold studentInterventions.
  eapply Permutation_NoDup.
  { apply Permutation_map, Permutation_sym, sort_Permutation. }
  apply flat_map_keys_NoDup.
  - apply entries_keys_NoDup, studentAnalytics_keys_NoDup.
  - intros [userId d] i Hi.
    pose proof (intervention_for_spec _ _ _ _ _ Hi) as (Hid & _).
    split; [|exact Hid].
    revert Hi. unfold intervention_for.
    destruct (JsObject.get students userId); [|contradiction].
    destruct (interventionLevel _ _ _) as [level reasons].
    destruct (Js.sort _ _); destruct level; simpl; try contradiction;
      intros [<-|[]]; reflexivity.
Qed.

Lemma modulePerformanceMap_keys_NoDup
      (moduleProgressData : option (list ModuleProgress)) :
  NoDup (keys (modulePerformanceMap moduleProgressData)).
Proof.
  destruct moduleProgressData as [rows|]; simpl.
  - apply accumulate_keys_NoDup.
  - constructor.
Qed.

Lemma alert_for_moduleId (entry : string * ModulePerformance)
      (a : PerformanceAlert) :
  alert_for entry = Some a ->
  pa_moduleId a = fst entry /\ pa_moduleTitle a = title (snd entry) /\
  pa_totalStudents a = totalStudents (snd entry).
Proof.
  destruct entry as [m d]. unfold alert_for.
  destruct (Js.geb (failureRate d) 30); [intros [= <-]; auto|].
  destruct (Js.geb (remedialRate d) 40); [intros [= <-]; auto|].
  destruct (Js.ltb (avgScore d) 70); [intros [= <-]; auto|discriminate].
Qed.

Lemma performanceAlerts_unique (moduleProgressData : option (list ModuleProgress)) :
  NoDup (map pa_moduleId (performanceAlerts moduleProgressData)).
Proof.
  unfold performanceAlerts. apply flat_map_keys_NoDup.
  - apply entries_keys_NoDup, modulePerformanceMap_keys_NoDup.
  - intros e a Ha. destruct (alert_for e) as [a'|] eqn:E; [|destruct Ha].
    destruct Ha as [<-|[]]. split; [reflexivity|].
    apply alert_for_moduleId, E.
Qed.

End UniquenessFacts.

Lemma map_firstn_NoDup (A B : Type) (f : A -> B) (n : nat) (l : list A) :
  NoDup (map f l) -> NoDup (map f (firstn n l)).
Proof.
  intros H. rewrite <- firstn_map. apply NoDup_firstn_of, H.
Qed.

(** X3.  A successful response never names a student in two
    interventions, never raises two alerts for one module, and never
    lists two teaching recommendations with the same type and title or
    with the same id. *)
Theorem X3_response_without_duplicates
        (cal : Js.Calendar)
        (db : AiInsights.Store) (now : Z) (request : Request)
        (data : AiInsights.Data) :
  AiInsights.GET cal db now request = Success data ->
  NoDup (map AiInsights.si_studentId (AiInsights.data_studentInterventions data)) /\
  NoDup (map AiInsights.pa_moduleId (AiInsights.data_performanceAlerts data)) /\
  NoDup (map (fun t => (AiInsights.tr_type t, AiInsights.tr_title t))
             (AiInsights.data_teachingRecommendations data)) /\
  NoDup (map AiInsights.tr_id (AiInsights.data_teachingRecommendations data)).
Proof.
  intros H. apply GET_success in H.
  destruct H as [->|(u & ids & rows & patterns & suggestions
                      & _ & _ & _ & _ & _ & _ & _ & ->)].
  - simpl. repeat split; constructor.
  - cbn [AiInsights.data_teachingRecommendations
         AiInsights.data_studentInterventions
         AiInsights.data_performanceAlerts].
    unfold Js.slice0.
    split; [apply map_firstn_NoDup, studentInterventions_unique|].
    split; [apply map_firstn_NoDup, performanceAlerts_unique|].
    split; apply map_firstn_NoDup, teachingRecommendations_unique.
Qed.

(** X4.  The three grouping loops count every input exactly once: the
    frequencies of all teaching recommendations add up to the number of
    recommendation occurrences, the student counts of all modules to
    the number of progress rows, and the session counts of all
    students to the number of analytics rows. *)
Theorem X4_groupings_count_every_input_once
        (analyticsData : list AiInsights.AnalyticsRow)
        (students : JsObject.t User)
        (progressRows : list AiInsights.ModuleProgress) :
  list_sum (map AiInsights.tr_frequency
                (AiInsights.teachingRecommendations analyticsData students))
    = List.length (occurrences analyticsData) /\
  total_of AiInsights.totalStudents
           (JsObject.entries (AiInsights.modulePerformanceMap (Some progressRows)))
    = List.length progressRows /\
  total_of (fun d => List.length (AiInsights.sessions d))
           (JsObject.entries (AiInsights.studentAnalytics analyticsData))
    = List.length analyticsData.
Proof.
  split; [|split].
  - unfold AiInsights.teachingRecommendations.
    rewrite (Permutation_list_sum
               (Permutation_map _ (sort_Permutation _ _ _))).
    rewrite push_all_frequencies. unfold JsObject.values. rewrite map_map.
    rewrite recommendationCounts_accumulate.
    apply (accumulate_total _ _ AiInsights.occ_key AiInsights.new_group
                            AiInsights.count_occurrence AiInsights.frequency);
      reflexivity.
  - apply (accumulate_total _ _ AiInsights.module_id AiInsights.new_module
                            AiInsights.record_progress AiInsights.totalStudents);
      reflexivity.
  - apply (accumulate_total _ _ AiInsights.user_id AiInsights.new_student
                            AiInsights.record_session
                            (fun d => List.length (AiInsights.sessions d))).
    + reflexivity.
    + intros d s. destruct (record_session_spec d s) as (-> & _).
      rewrite length_app. simpl. lia.
Qed.

(* ================================================================== *)
(** * The counters of the performance alerts *)
(* ================================================================== *)


(** X5.  The counters of a module are read off its progress rows:
    [failing] counts the rows with a positive score below 60,
    [needsRemedial] the rows with a score from 60 up to 70 plus the rows
    flagged [needs_remedial] (a row can count twice), and [scores]
    holds the positive scores in row order.  Hence the failure rate
    lies between 0 and 100, while the remedial rate lies between 0 and
    200. *)
Theorem X5_module_counters
        (rows : list AiInsights.ModuleProgress)
        (moduleId : string) (d : AiInsights.ModulePerformance) :
  In (moduleId, d)
     (JsObject.entries (AiInsights.modulePerformanceMap (Some rows))) ->
  let mine := rows_of_module moduleId rows in
  AiInsights.totalStudents d = List.length mine /\
  AiInsights.failing d = List.length (filter is_failing mine) /\
  AiInsights.needsRemedial d =
    (List.length (filter is_borderline mine)
     + List.length (filter AiInsights.needs_remedial mine))%nat /\
  AiInsights.scores d = map AiInsights.score_of (filter has_score mine) /\
  (exists first rest, mine = first :: rest /\
                      AiInsights.title d = AiInsights.module_title first) /\
  (exists failure remedial,
      AiInsights.failureRate d = Js.Fin failure /\
      AiInsights.remedialRate d = Js.Fin remedial /\
      0 <= failure /\ failure <= 100 /\
      0 <= remedial /\ remedial <= 200).
Proof.
  intros Hin mine.
  destruct (module_entry_rows _ _ _ Hin) as (rows' & Hrows & Htotal & Hpos).
  injection Hrows as <-. fold (rows_of_module moduleId rows) in Htotal.
  fold mine in Htotal.
  simpl in Hin. apply accumulate_entry in Hin.
  destruct Hin as (first & rest & Hmine & ->).
  fold (rows_of_module moduleId rows) in Hmine. fold mine in Hmine.
  destruct (record_progresses_spec (first :: rest) (AiInsights.new_module first))
    as (Ht & Hf & Hr & Hs).
  clearbody mine. subst mine.
  cbn [AiInsights.new_module AiInsights.failing AiInsights.needsRemedial
       AiInsights.scores AiInsights.title Nat.add app] in Ht, Hf, Hr, Hs.
  split; [exact Htotal|]. split; [exact Hf|]. split; [exact Hr|].
  split; [exact Hs|].
  split; [exists first, rest; split; [reflexivity | exact Ht]|].
  pose proof (filter_length_le _ is_failing (first :: rest)) as L1.
  pose proof (filter_length_le _ is_borderline (first :: rest)) as L2.
  pose proof (filter_length_le _ AiInsights.needs_remedial (first :: rest)) as L3.
  set (d := fold_left AiInsights.record_progress (first :: rest)
                      (AiInsights.new_module first)) in *.
  destruct (percentage_between (AiInsights.failing d) (AiInsights.totalStudents d))
    as (failure & Hfail & A1 & A2); [lia | rewrite Hf, Htotal; lia |].
  destruct (percentage_between_200 (AiInsights.needsRemedial d)
                                   (AiInsights.totalStudents d))
    as (remedial & Hrem & B1 & B2); [lia | rewrite Hr, Htotal; lia |].
  exists failure, remedial.
  split; [exact Hfail|]. split; [exact Hrem|].
  repeat split; assumption.
Qed.

(* ================================================================== *)
(** * The details of an intervention and of a recommendation *)
(* ================================================================== *)

Section DetailFacts.

Import AiInsights.

Lemma intervention_for_details (cal : Js.Calendar) (students : JsObject.t User)
      (userId : string) (d : StudentData) (i : StudentIntervention) :
  In i (intervention_for cal students (userId, d)) ->
  si_sessionsAnalyzed i = List.length (sessions d) /\
  si_improvementTrend i = Js.round (trend_of d) /\
  List.length (si_reasons i) = 1%nat /\
  exists latest others,
    Js.sort (latest_first cal) (sessions d) = latest :: others /\
    si_lastAnalyzed i = analyzed_at latest /\
    si_recommendedActions i =
      map advice_of
          (Js.slice0 3 (filter is_high_priority (recommendations_of latest))).
Proof.
  unfold intervention_for.
  destruct (JsObject.get students userId) as [student|]; [|contradiction].
  unfold interventionLevel.
  destruct (0 <? criticalIssues d)%nat;
    [|destruct (3 <=? highPriorityIssues d)%nat;
      [|destruct (Js.ltb (trend_of d) (-20)); [|contradiction]]];
    (destruct (Js.sort (latest_first cal) (sessions d)) as [|latest others];
     [contradiction|]);
    intros [<-|[]]; cbn -[Js.slice0 Js.round];
    (repeat split; exists latest, others; repeat split).
Qed.

Lemma by_time_consistent (cal : Js.Calendar) : consistent (by_time cal).
Proof. split; unfold by_time; intros; lia. Qed.

Lemma latest_first_head (cal : Js.Calendar) (l : list AnalyticsRow)
      (latest : AnalyticsRow) (others : list AnalyticsRow) :
  (forall s, In s l -> analysed_time cal s <> None) ->
  Js.sort (latest_first cal) l = latest :: others ->
  In latest l /\
  forall s t t', In s l -> analysed_time cal s = Some t ->
                 analysed_time cal latest = Some t' -> (t <= t')%Z.
Proof.
  intros Hparse Hsort.
  assert (Hin : In latest l).
  { apply (sort_In _ (latest_first cal)). rewrite Hsort. left. reflexivity. }
  split; [exact Hin|].
  rewrite (sort_ext_in _ (latest_first cal) (by_time cal)) in Hsort.
  - pose proof (sort_sorted _ _ (by_time_consistent cal) l) as Hs.
    rewrite Hsort in Hs. apply StronglySorted_inv in Hs. destruct Hs as [_ Hall].
    intros s t t' Hs Ht Ht'.
    apply (sort_In _ (by_time cal)) in Hs. rewrite Hsort in Hs.
    destruct Hs as [<-|Hs].
    + unfold analysed_time in *. assert (t = t') by congruence. lia.
    + rewrite Forall_forall in Hall. specialize (Hall s Hs).
      unfold keeps_order, by_time in Hall. unfold analysed_time in *.
      rewrite Ht, Ht' in Hall. lia.
  - intros x y Hx Hy. unfold latest_first, by_time.
    pose proof (Hparse x Hx) as Px. pose proof (Hparse y Hy) as Py.
    unfold analysed_time in *.
    destruct (Js.get_time cal (analyzed_at x)), (Js.get_time cal (analyzed_at y));
      congruence.
Qed.

Lemma count_occurrences_keep (l : list Occurrence) (g : RecGroup) :
  g_description (fold_left count_occurrence l g) = g_description g /\
  g_actionableAdvice (fold_left count_occurrence l g) = g_actionableAdvice g.
Proof.
  revert g. induction l as [|o l IH]; intros g; simpl.
  - split; reflexivity.
  - destruct (IH (count_occurrence g o)) as [H1 H2]. rewrite H1, H2.
    split; reflexivity.
Qed.

Lemma student_names_spec (students : JsObject.t User) (ids : list string)
      (n : string) :
  In n (student_names students ids) <->
  exists id student,
    In id ids /\ JsObject.get students id = Some student /\
    u_name student = Some n /\ n <> ""%string.
Proof.
  unfold student_names. rewrite in_flat_map. split.
  - intros (id & Hid & H). destruct (JsObject.get students id) as [student|] eqn:E;
      [|contradiction].
    destruct (u_name student) as [[|c s]|] eqn:En; simpl in H; try contradiction.
    destruct H as [<-|[]]. exists id, student. repeat split; try assumption.
    discriminate.
  - intros (id & student & Hid & Hg & Hn & Hne). exists id. split; [exact Hid|].
    rewrite Hg, Hn. destruct n; [congruence|]. left. reflexivity.
Qed.

Lemma student_names_length (students : JsObject.t User) (ids : list string) :
  (List.length (student_names students ids) <= List.length ids)%nat.
Proof.
  induction ids as [|id ids IH]; simpl; [lia|].
  rewrite length_app.
  destruct (JsObject.get students id) as [student|]; simpl; [|lia].
  destruct (Js.truthy_string (u_name student)); simpl; lia.
Qed.

(** Where an element of [teachingRecommendations] comes from. *)
Lemma teachingRecommendations_group (analyticsData : list AnalyticsRow)
      (students : JsObject.t User) (t : TeachingRecommendation) :
  In t (teachingRecommendations analyticsData students) ->
  exists p g first rest,
    t = teachingRecommendation students p g /\
    JsObject.get (recommendationCounts analyticsData) (rec_key (snd first))
      = Some g /\
    group_of (rec_key (snd first)) analyticsData = first :: rest /\
    g = fold_left count_occurrence (first :: rest) (new_group first).
Proof.
  intros Hin. unfold teachingRecommendations in Hin.
  apply sort_In in Hin. apply push_all_In in Hin.
  destruct Hin as (p & g & Hg & ->).
  apply values_In in Hg. destruct Hg as (k & Hk).
  assert (Hget : JsObject.get (recommendationCounts analyticsData) k = Some g).
  { apply In_get; [apply recommendationCounts_keys_NoDup | exact Hk]. }
  destruct (group_entry _ _ _ Hget) as (first & rest & Hgroup & Hkey & _).
  exists p, g, first, rest. subst k.
  split; [reflexivity|]. split; [exact Hget|]. split; [exact Hgroup|].
  rewrite recommendationCounts_accumulate in Hget.
  rewrite (get_accumulate _ _ occ_key new_group count_occurrence) in Hget.
  unfold group_of in Hgroup. rewrite Hgroup in Hget.
  injection Hget as <-. reflexivity.
Qed.

End DetailFacts.

(** X6.  An intervention reports the number of analytics rows of its
    student, one reason, and the rounded difference, computed as a
    double, between the last and the first non-zero improvement
    percentage of these rows in the order of the input.  Its date and
    its actions come from one of these rows: the actions are the advice
    of the first three recommendations of that row whose priority is at
    most 2 or [null], and when the timestamps of the student's rows all
    parse, no row of the student was analysed later. *)
Theorem X6_intervention_details
        (cal : Js.Calendar) (analyticsData : list AiInsights.AnalyticsRow)
        (students : JsObject.t User) (i : AiInsights.StudentIntervention) :
  In i (AiInsights.studentInterventions cal analyticsData students) ->
  let mine := sessions_of (AiInsights.si_studentId i) analyticsData in
  AiInsights.si_sessionsAnalyzed i = List.length mine /\
  (1 <= List.length mine)%nat /\
  List.length (AiInsights.si_reasons i) = 1%nat /\
  AiInsights.si_improvementTrend i = Js.round (trend_between mine) /\
  exists latest,
    In latest mine /\
    AiInsights.si_lastAnalyzed i = AiInsights.analyzed_at latest /\
    AiInsights.si_recommendedActions i =
      map advice_of
          (firstn 3 (filter AiInsights.is_high_priority
                            (recommendations_of latest))) /\
    (List.length (AiInsights.si_recommendedActions i) <= 3)%nat /\
    ((forall s, In s mine -> analysed_time cal s <> None) ->
     forall s t t', In s mine -> analysed_time cal s = Some t ->
                    analysed_time cal latest = Some t' -> (t <= t')%Z).
Proof.
  intros Hin mine.
  apply studentInterventions_In in Hin. destruct Hin as (d & Hentry & Hi).
  destruct (student_entry _ _ _ Hentry) as (Hs & Hne & _ & _ & Ht).
  fold mine in Hs.
  destruct (intervention_for_details _ _ _ _ _ Hi)
    as (Hn & Htrend & Hreasons & latest & others & Hsort & Hlast & Hact).
  rewrite Hs in Hn, Hsort, Hne.
  split; [exact Hn|].
  split; [destruct mine; [congruence | simpl; lia]|].
  split; [exact Hreasons|].
  split; [rewrite Htrend, (trend_of_entry d Ht), Hs; reflexivity|].
  exists latest.
  assert (Hl : In latest mine).
  { apply (sort_In _ (AiInsights.latest_first cal)). rewrite Hsort.
    left. reflexivity. }
  split; [exact Hl|]. split; [exact Hlast|]. split; [exact Hact|].
  split.
  - rewrite Hact, length_map. apply firstn_le_length.
  - intros Hparse. apply (latest_first_head cal mine latest others Hparse Hsort).
Qed.

(** X7.  A teaching recommendation takes its description, its advice
    and its priority from the first occurrence of its key in the
    input; later occurrences only count.  It affects at least one and
    at most [frequency] students, and it displays at most three names,
    each the non-empty name of a row of [studentMap] for a student of
    one of its occurrences. *)
Theorem X7_recommendation_details
        (analyticsData : list AiInsights.AnalyticsRow)
        (students : JsObject.t User) (t : AiInsights.TeachingRecommendation) :
  In t (AiInsights.teachingRecommendations analyticsData students) ->
  exists first rest,
    group_of (AiInsights.tr_type t ++ "-" ++ AiInsights.tr_title t) analyticsData
      = first :: rest /\
    AiInsights.tr_type t = AiInsights.rec_type (snd first) /\
    AiInsights.tr_title t = AiInsights.rec_title (snd first) /\
    AiInsights.tr_description t = AiInsights.rec_description (snd first) /\
    AiInsights.tr_actionableAdvice t = advice_of (snd first) /\
    AiInsights.tr_priority t = Js.or_Z (AiInsights.priority (snd first)) 1 /\
    (1 <= AiInsights.tr_affectedStudentsCount t)%nat /\
    (AiInsights.tr_affectedStudentsCount t <= AiInsights.tr_frequency t)%nat /\
    (List.length (AiInsights.tr_affectedStudents t) <= 3)%nat /\
    (List.length (AiInsights.tr_affectedStudents t)
     <= AiInsights.tr_affectedStudentsCount t)%nat /\
    forall n, In n (AiInsights.tr_affectedStudents t) ->
      n <> ""%string /\
      exists id student,
        In id (map fst (first :: rest)) /\
        JsObject.get students id = Some student /\
        u_name student = Some n.
Proof.
  intros Hin. apply teachingRecommendations_group in Hin.
  destruct Hin as (p & g & first & rest & -> & Hget & Hgroup & Hfold).
  destruct (group_entry _ _ _ Hget)
    as (first' & rest' & Hgroup' & _ & Htype & Htitle & Hprio & Hfreq & Hset & _).
  rewrite Hgroup in Hgroup'. injection Hgroup' as <- <-.
  destruct (count_occurrences_keep (first :: rest) (AiInsights.new_group first))
    as [Hd Ha].
  rewrite <- Hfold in Hd, Ha.
  exists first, rest.
  cbn [AiInsights.teachingRecommendation AiInsights.tr_type AiInsights.tr_title
       AiInsights.tr_description AiInsights.tr_actionableAdvice
       AiInsights.tr_priority AiInsights.tr_affectedStudentsCount
       AiInsights.tr_frequency AiInsights.tr_affectedStudents].
  split.
  { rewrite Htype, Htitle. exact Hgroup. }
  split; [exact Htype|]. split; [exact Htitle|]. split; [exact Hd|].
  split; [exact Ha|]. split; [exact Hprio|].
  assert (Hsize : (Js.size (AiInsights.affectedStudents g)
                   <= List.length (first :: rest))%nat).
  { rewrite Hset.
    pose proof (set_size_le (map fst (first :: rest)) (map fst (first :: rest))
                            (incl_refl _)) as H.
    rewrite length_map in H. exact H. }
  assert (Hnames : (List.length (AiInsights.student_names
                                   students (AiInsights.affectedStudents g))
                    <= Js.size (AiInsights.affectedStudents g))%nat)
    by apply student_names_length.
  split.
  { assert (Hm : In (fst first) (AiInsights.affectedStudents g)).
    { rewrite Hset. apply set_of_list_In. left. reflexivity. }
    unfold Js.size. destruct (AiInsights.affectedStudents g); [destruct Hm|].
    simpl. lia. }
  split; [rewrite Hfreq; exact Hsize|].
  split; [unfold Js.slice0; apply firstn_le_length|].
  split.
  { unfold Js.slice0. rewrite length_firstn. lia. }
  intros n Hn. unfold Js.slice0 in Hn. apply firstn_In in Hn.
  apply student_names_spec in Hn.
  destruct Hn as (id & student & Hid & Hs & Hname & Hne).
  split; [exact Hne|]. exists id, student.
  split; [|split; assumption].
  rewrite Hset in Hid. apply (proj1 (set_of_list_In _ _)) in Hid. exact Hid.
Qed.

(* ================================================================== *)
(** * What the response is computed from *)
(* ================================================================== *)

Section OriginFacts.

Import AiInsights.

Lemma fetch_analytics_In (cal : Js.Calendar) (db : Store)
      (studentIds : list string) (start : Z) (fetched : list AnalyticsRow)
      (s : AnalyticsRow) :
  fetch_analytics cal db studentIds start = Some fetched ->
  (In s fetched <->
   exists rows, study_session_analytics db = Some rows /\ In s rows /\
                In (user_id s) studentIds /\
                since cal start (created_at s) = true).
Proof.
  unfold fetch_analytics.
  destruct (study_session_analytics db) as [rows|]; [|discriminate].
  intros [= <-]. rewrite sort_In, filter_In, andb_true_iff. split.
  - intros (H1 & H2 & H3). exists rows. repeat split; try assumption.
    apply in_ids_In, H2.
  - intros (rows' & [= <-] & H1 & H2 & H3). repeat split; try assumption.
    unfold in_ids. apply existsb_exists. exists (user_id s).
    split; [exact H2 | apply String.eqb_refl].
Qed.

Lemma occurrences_In (analyticsData : list AnalyticsRow) (o : Occurrence) :
  In o (occurrences analyticsData) <->
  exists s, In s analyticsData /\ user_id s = fst o /\
            In (snd o) (recommendations_of s).
Proof.
  unfold occurrences. rewrite in_flat_map. split.
  - intros (s & Hs & Ho). apply in_map_iff in Ho. destruct Ho as (r & <- & Hr).
    exists s. auto.
  - intros (s & Hs & Hu & Hr). exists s. split; [exact Hs|].
    apply in_map_iff. exists (snd o). split; [|exact Hr].
    rewrite Hu. destruct o; reflexivity.
Qed.

Lemma performanceAlerts_In (moduleProgressData : option (list ModuleProgress))
      (a : PerformanceAlert) :
  In a (performanceAlerts moduleProgressData) ->
  exists d,
    In (pa_moduleId a, d)
       (JsObject.entries (modulePerformanceMap moduleProgressData)) /\
    alert_for (pa_moduleId a, d) = Some a.
Proof.
  unfold performanceAlerts. intros H. apply in_flat_map in H.
  destruct H as ([m d] & Hin & Ha).
  destruct (alert_for (m, d)) as [a'|] eqn:E; [|contradiction].
  destruct Ha as [<-|[]].
  destruct (alert_for_moduleId _ _ E) as (Hm & _). simpl in Hm. subst m.
  exists d. split; assumption.
Qed.

End OriginFacts.

(** X8.  A successful response is computed from the rows of the
    instructor's own students only: every intervention names an
    enrolled student, every teaching recommendation has the type and
    title of a recommendation stored for an enrolled student since the
    start of the time range, and every alert concerns a module with a
    progress row of an enrolled student in one of the instructor's
    courses, whose rows of that kind it counts. *)
Theorem X8_response_from_enrolled_students_only
        (cal : Js.Calendar)
        (db : AiInsights.Store) (now : Z) (request : Request)
        (data : AiInsights.Data) (userId : string) (studentIds : list string) :
  AiInsights.GET cal db now request = Success data ->
  Js.truthy_string (x_user_id request) = Some userId ->
  rpc_data (get_instructor_enrolled_students (AiInsights.accounts db) userId)
    = Some studentIds ->
  let start := startDate cal now (timeRange_of request) in
  let courseIds := map c_id (courses_of (AiInsights.accounts db) userId) in
  (forall i, In i (AiInsights.data_studentInterventions data) ->
             In (AiInsights.si_studentId i) studentIds) /\
  (forall t, In t (AiInsights.data_teachingRecommendations data) ->
     exists rows s r,
       AiInsights.study_session_analytics db = Some rows /\
       In s rows /\ In (AiInsights.user_id s) studentIds /\
       since cal start (AiInsights.created_at s) = true /\
       In r (recommendations_of s) /\
       AiInsights.rec_type r = AiInsights.tr_type t /\
       AiInsights.rec_title r = AiInsights.tr_title t) /\
  (forall a, In a (AiInsights.data_performanceAlerts data) ->
     exists rows,
       AiInsights.user_module_progress db = Some rows /\
       let counted :=
         filter (fun p => in_ids studentIds (AiInsights.mp_user_id p)
                          && in_ids courseIds (AiInsights.module_course_id p)
                          && String.eqb (AiInsights.module_id p)
                                        (AiInsights.pa_moduleId a))
                rows in
       counted <> [] /\
       AiInsights.pa_totalStudents a = List.length counted).
Proof.
  intros HGET Hu Hids start courseIds.
  apply GET_success in HGET.
  destruct HGET as [->|(u & ids & fetched & patterns & suggestions
                         & Hu' & _ & Hids' & Hf & _ & _ & _ & ->)];
    [simpl; repeat split; intros ? []|].
  assert (u = userId) by congruence. subst u.
  assert (ids = studentIds) by congruence. subst ids.
  fold start in Hf. fold courseIds.
  cbn [AiInsights.data_teachingRecommendations
       AiInsights.data_studentInterventions
       AiInsights.data_performanceAlerts].
  unfold Js.slice0.
  split; [|split].
  - intros i Hi. apply firstn_In in Hi.
    apply studentInterventions_In in Hi. destruct Hi as (d & Hentry & _).
    destruct (student_entry _ _ _ Hentry) as (Hs & Hne & _).
    destruct (sessions_of (AiInsights.si_studentId i) fetched) as [|s rest] eqn:E;
      [congruence|].
    assert (Hin : In s (sessions_of (AiInsights.si_studentId i) fetched))
      by (rewrite E; left; reflexivity).
    apply filter_In in Hin. destruct Hin as [Hin Hk].
    apply String.eqb_eq in Hk. rewrite <- Hk.
    apply (proj1 (fetch_analytics_In _ _ _ _ _ s Hf)) in Hin.
    destruct Hin as (rows & _ & _ & H & _). exact H.
  - intros t Ht. apply firstn_In in Ht.
    apply teachingRecommendations_group in Ht.
    destruct Ht as (p & g & first & rest & -> & Hget & Hgroup & _).
    destruct (group_entry _ _ _ Hget)
      as (first' & rest' & Hgroup' & _ & Htype & Htitle & _).
    rewrite Hgroup in Hgroup'. injection Hgroup' as <- <-.
    assert (Hin : In first (group_of (AiInsights.rec_key (snd first)) fetched))
      by (rewrite Hgroup; left; reflexivity).
    apply filter_In in Hin. destruct Hin as [Hin _].
    apply occurrences_In in Hin. destruct Hin as (s & Hs & _ & Hr).
    apply (proj1 (fetch_analytics_In _ _ _ _ _ s Hf)) in Hs.
    destruct Hs as (rows & Hrows & Hs & Hid & Hsince).
    exists rows, s, (snd first). simpl. rewrite Htype, Htitle. auto 10.
  - intros a Ha. apply firstn_In in Ha.
    apply performanceAlerts_In in Ha. destruct Ha as (d & Hentry & Halert).
    destruct (module_entry_rows _ _ _ Hentry) as (fetched' & Hfetch & Htotal & Hpos).
    unfold AiInsights.fetch_module_progress in Hfetch.
    destruct (AiInsights.user_module_progress db) as [rows|]; [|discriminate].
    injection Hfetch as <-. exists rows. split; [reflexivity|].
    destruct (alert_for_moduleId _ _ Halert) as (_ & _ & Ht). simpl in Ht.
    unfold with_key in Htotal. rewrite filter_twice in Htotal. simpl.
    split; [|congruence].
    intros Hnil. rewrite Hnil in Htotal. simpl in Htotal. lia.
Qed.

(* ================================================================== *)
(** * Stability of the sort *)
(* ================================================================== *)

(** Elements that compare as equal or ordered among themselves keep
    their relative order. *)
Section StabilityFacts.

Variable A : Type.
Variable cmp : A -> A -> Z.
Variable P : A -> bool.
Hypothesis P_ordered : forall a b, P a = true -> P b = true -> (cmp a b <= 0)%Z.

Lemma insert_stable (x : A) (l : list A) :
  filter P (Js.insert cmp x l) = filter P (x :: l).
Proof.
  induction l as [|y l IH]; simpl; [reflexivity|].
  destruct (0 <? cmp x y)%Z eqn:E; [|reflexivity].
  apply Z.ltb_lt in E. simpl. rewrite IH. simpl.
  destruct (P x) eqn:Px, (P y) eqn:Py; try reflexivity.
  specialize (P_ordered x y Px Py). lia.
Qed.

Lemma sort_stable (l : list A) : filter P (Js.sort cmp l) = filter P l.
Proof.
  induction l as [|x l IH]; simpl; [reflexivity|].
  rewrite insert_stable. simpl. rewrite IH. reflexivity.
Qed.

End StabilityFacts.

(* ================================================================== *)
(** * The technique comparison *)
(* ================================================================== *)

Section MoreComparisonFacts.

Import StudyTechniques.

Lemma by_sessions_descending_consistent : consistent by_sessions_descending.
Proof. split; unfold by_sessions_descending; intros; lia. Qed.

Lemma userEngagement_pos (l : list Session) :
  l <> [] -> (1 <= userEngagement l)%nat.
Proof.
  destruct l as [|s l]; [congruence|]. intros _.
  unfold userEngagement, Js.size.
  assert (H : In (user_id s) (Js.set_of_list (map user_id (s :: l))))
    by (apply set_of_list_In; left; reflexivity).
  destruct (Js.set_of_list (map user_id (s :: l))); [destruct H | simpl; lia].
Qed.

Lemma sessions_per_user (enrolled : nat) (t : Technique) :
  (users t <= sessions t)%nat ->
  (sessions t = 0%nat -> users t = 0%nat) ->
  ((1 <= sessions t)%nat -> (1 <= users t)%nat) ->
  array_length (sessions t) ->
  exists perUser,
    tc_sessionsPerUser (compare_technique enrolled t) = Js.RInt perUser /\
    (sessions t = 0%nat -> perUser = 0%Z) /\
    ((1 <= sessions t)%nat -> (1 <= perUser)%Z).
Proof.
  intros Hle H0 H1 Hlen. unfold compare_technique. cbn [tc_sessionsPerUser].
  destruct (0 <? users t)%nat eqn:E.
  - apply Nat.ltb_lt in E.
    destruct (count_ratio_finite (sessions t) (users t) E Hlen)
      as (q & Hq & _ & Hq1).
    rewrite Hq. exists (Js.round_Q q). split; [reflexivity|]. split; [lia|].
    intros _. apply round_Q_ge_1, Hq1, Hle.
  - apply Nat.ltb_ge in E. exists 0%Z. split; [reflexivity|].
    split; [reflexivity | lia].
Qed.

End MoreComparisonFacts.

(** X9.  The technique comparison lists the four techniques once each,
    by descending number of sessions, techniques with the same number
    keeping the order Active Recall, Pomodoro, Feynman, Retrieval
    Practice.  A technique never has more users than sessions; for a
    number of sessions that an array can hold, its sessions per user
    are an integer, 0 without sessions and at least 1 otherwise. *)
Theorem X9_technique_comparison_order
        (enrolled : nat)
        (activeRecallSessions pomodoroSessions feynmanSessions
         retrievalSessions : list StudyTechniques.Session) :
  let result :=
    StudyTechniques.techniqueComparison
      enrolled
      (StudyTechniques.techniques activeRecallSessions pomodoroSessions
                                  feynmanSessions retrievalSessions) in
  Permutation (map StudyTechniques.tc_technique result)
              ["Active Recall"; "Pomodoro"; "Feynman"; "Retrieval Practice"]%string /\
  StronglySorted (fun a b => (StudyTechniques.tc_sessions b
                              <= StudyTechniques.tc_sessions a)%nat) result /\
  (forall n,
      filter (fun c => (StudyTechniques.tc_sessions c =? n)%nat) result =
      filter (fun c => (StudyTechniques.tc_sessions c =? n)%nat)
             (listed enrolled activeRecallSessions pomodoroSessions
                     feynmanSessions retrievalSessions)) /\
  (forall c, In c result ->
     (StudyTechniques.tc_users c <= StudyTechniques.tc_sessions c)%nat /\
     (array_length (StudyTechniques.tc_sessions c) ->
      exists perUser,
        StudyTechniques.tc_sessionsPerUser c = Js.RInt perUser /\
        (StudyTechniques.tc_sessions c = 0%nat -> perUser = 0%Z) /\
        ((1 <= StudyTechniques.tc_sessions c)%nat -> (1 <= perUser)%Z))).
Proof.
  intros result. unfold result, StudyTechniques.techniqueComparison.
  split; [|split; [|split]].
  - apply (Permutation_trans
             (Permutation_map _ (sort_Permutation _ _ _))).
    simpl. apply Permutation_refl.
  - eapply StronglySorted_weaken;
      [|apply sort_sorted, by_sessions_descending_consistent].
    unfold keeps_order, StudyTechniques.by_sessions_descending.
    intros a b. lia.
  - intros n. unfold listed. apply sort_stable.
    intros a b Ha Hb. apply Nat.eqb_eq in Ha, Hb.
    unfold StudyTechniques.by_sessions_descending. lia.
  - intros c Hc. apply sort_In in Hc. apply in_map_iff in Hc.
    destruct Hc as (t & <- & Ht).
    assert (Hfacts : (StudyTechniques.users t <= StudyTechniques.sessions t)%nat /\
                     (StudyTechniques.sessions t = 0%nat ->
                      StudyTechniques.users t = 0%nat) /\
                     ((1 <= StudyTechniques.sessions t)%nat ->
                      (1 <= StudyTechniques.users t)%nat)).
    { assert (Hany : forall l : list StudyTechniques.Session,
                 (StudyTechniques.userEngagement l <= List.length l)%nat /\
                 (List.length l = 0%nat -> StudyTechniques.userEngagement l = 0%nat) /\
                 ((1 <= List.length l)%nat ->
                  (1 <= StudyTechniques.userEngagement l)%nat)).
      { intros l. pose proof (userEngagement_le l) as Hle.
        split; [exact Hle|]. split; [lia|].
        intros Hl. apply userEngagement_pos. destruct l; [simpl in Hl; lia|].
        discriminate. }
      unfold StudyTechniques.techniques in Ht.
      destruct Ht as [<-|[<-|[<-|[<-|[]]]]]; apply Hany. }
    destruct Hfacts as (Hle & H0 & H1).
    split; [exact Hle|].
    apply (sessions_per_user enrolled t Hle H0 H1).
Qed.

(* ================================================================== *)
(** * The daily buckets *)
(* ================================================================== *)

Section MoreTimeSeriesFacts.

Import StudyTechniques.

Lemma prefix_same_length (a b s : string) :
  String.prefix a s = true -> String.prefix b s = true ->
  String.length a = String.length b -> a = b.
Proof.
  revert b s. induction a as [|c a IH]; intros b s Ha Hb Hl.
  - destruct b; [reflexivity | discriminate].
  - destruct b as [|c' b]; [discriminate|].
    destruct s as [|c'' s]; [discriminate|].
    simpl in Ha, Hb.
    destruct (Ascii.ascii_dec c c''); [|discriminate].
    destruct (Ascii.ascii_dec c' c''); [|discriminate].
    subst. f_equal. apply (IH b s Ha Hb). simpl in Hl. congruence.
Qed.

Lemma covered_cons (d : string) (dates : list string) (l : list Session) :
  (forall s, String.prefix d (created_at s) = true ->
             existsb (fun d' => String.prefix d' (created_at s)) dates = false) ->
  List.length (covered (d :: dates) l)
  = (sessions_on d l + List.length (covered dates l))%nat.
Proof.
  intros Hdis. unfold covered, sessions_on.
  induction l as [|s l IH]; [reflexivity|].
  simpl in IH |- *.
  destruct (String.prefix d (created_at s)) eqn:Ep; simpl.
  - rewrite (Hdis s Ep). simpl. rewrite IH. reflexivity.
  - destruct (existsb (fun d' => String.prefix d' (created_at s)) dates);
      simpl; rewrite IH; lia.
Qed.

(** Dates of one length that differ share no session. *)
Lemma sessions_on_sum (dates : list string) (l : list Session) :
  NoDup dates ->
  (forall d d', In d dates -> In d' dates ->
                String.length d = String.length d') ->
  list_sum (map (fun d => sessions_on d l) dates)
  = List.length (covered dates l).
Proof.
  intros Hnd Hlen. induction dates as [|d dates IH].
  - unfold covered. simpl. induction l; simpl; auto.
  - inversion Hnd as [|? ? Hd Hnd']; subst.
    rewrite covered_cons.
    + simpl. rewrite IH; [reflexivity | exact Hnd' |].
      intros; apply Hlen; right; assumption.
    + intros s Ep.
      destruct (existsb (fun d' => String.prefix d' (created_at s)) dates) eqn:Ee;
        [|reflexivity].
      exfalso. apply existsb_exists in Ee. destruct Ee as (d' & Hd' & Ep').
      assert (d = d').
      { apply (prefix_same_length d d' (created_at s) Ep Ep').
        apply Hlen; [left; reflexivity | right; exact Hd']. }
      subst d'. contradiction.
Qed.

Lemma buckets_down_columns (cal : Js.Calendar) (now : Z)
      (ar pom fey ret : list Session) (n : nat) :
  let result := buckets_down cal now ar pom fey ret n in
  map activeRecall result = map (fun d => sessions_on d ar) (map date result) /\
  map pomodoro result = map (fun d => sessions_on d pom) (map date result) /\
  map feynman result = map (fun d => sessions_on d fey) (map date result) /\
  map retrievalPractice result
    = map (fun d => sessions_on d ret) (map date result) /\
  list_sum (map total result)
    = (list_sum (map activeRecall result) + list_sum (map pomodoro result)
       + list_sum (map feynman result)
       + list_sum (map retrievalPractice result))%nat.
Proof.
  induction n as [|n IH]; simpl.
  - repeat split.
  - destruct IH as (H1 & H2 & H3 & H4 & H5).
    rewrite H5. repeat split; try (f_equal; assumption). lia.
Qed.

End MoreTimeSeriesFacts.

(** X10.  The total of every bucket is the sum of its four technique
    counts.  When the dates of the buckets are pairwise different
    strings of one length, no session is counted in two buckets: the
    counts of a technique add up to the number of its sessions whose
    [created_at] starts with one of the dates, and the totals to at
    most the number of all sessions. *)
Theorem X10_buckets_count_each_session_once
        (cal : Js.Calendar) (now : Z) (timeRange : string)
        (activeRecallSessions pomodoroSessions feynmanSessions
         retrievalSessions : list StudyTechniques.Session) :
  let result :=
    StudyTechniques.timeBasedAnalysis cal now timeRange activeRecallSessions
      pomodoroSessions feynmanSessions retrievalSessions in
  let dates := map StudyTechniques.date result in
  (forall b, In b result ->
     StudyTechniques.total b =
     (StudyTechniques.activeRecall b + StudyTechniques.pomodoro b
      + StudyTechniques.feynman b + StudyTechniques.retrievalPractice b)%nat) /\
  (NoDup dates ->
   (forall d d', In d dates -> In d' dates ->
                 String.length d = String.length d') ->
   list_sum (map StudyTechniques.activeRecall result)
     = List.length (covered dates activeRecallSessions) /\
   list_sum (map StudyTechniques.pomodoro result)
     = List.length (covered dates pomodoroSessions) /\
   list_sum (map StudyTechniques.feynman result)
     = List.length (covered dates feynmanSessions) /\
   list_sum (map StudyTechniques.retrievalPractice result)
     = List.length (covered dates retrievalSessions) /\
   (list_sum (map StudyTechniques.total result)
    <= List.length activeRecallSessions + List.length pomodoroSessions
       + List.length feynmanSessions + List.length retrievalSessions)%nat).
Proof.
  intros result dates. split.
  - unfold result, StudyTechniques.timeBasedAnalysis.
    generalize (StudyTechniques.days timeRange). intros n.
    induction n as [|n IH]; simpl; [intros ? []|].
    intros b [<-|Hb]; [reflexivity | apply IH, Hb].
  - intros Hnd Hlen.
    destruct (buckets_down_columns cal now activeRecallSessions pomodoroSessions
                feynmanSessions retrievalSessions (StudyTechniques.days timeRange))
      as (H1 & H2 & H3 & H4 & H5).
    fold (StudyTechniques.timeBasedAnalysis cal now timeRange activeRecallSessions
            pomodoroSessions feynmanSessions retrievalSessions)
      in H1, H2, H3, H4, H5.
    fold result in H1, H2, H3, H4, H5. fold dates in H1, H2, H3, H4.
    rewrite H5, H1, H2, H3, H4.
    rewrite !(sessions_on_sum dates _ Hnd Hlen).
    repeat split.
    unfold covered.
    pose proof (filter_length_le _
      (fun s => existsb (fun d => String.prefix d (StudyTechniques.created_at s))
                        dates) activeRecallSessions).
    pose proof (filter_length_le _
      (fun s => existsb (fun d => String.prefix d (StudyTechniques.created_at s))
                        dates) pomodoroSessions).
    pose proof (filter_length_le _
      (fun s => existsb (fun d => String.prefix d (StudyTechniques.created_at s))
                        dates) feynmanSessions).
    pose proof (filter_length_le _
      (fun s => existsb (fun d => String.prefix d (StudyTechniques.created_at s))
                        dates) retrievalSessions).
    lia.
Qed.

(* ================================================================== *)
(** * The class performance insight *)
(* ================================================================== *)

Section ClassInsightFacts.

Import AiInsights.

Variable A : Type.
Variable p : A -> bool.

Lemma findIndex_None (l : list A) :
  findIndex p l = None <-> existsb p l = false.
Proof.
  induction l as [|x l IH]; simpl; [tauto|].
  destruct (p x); simpl; [split; discriminate|].
  destruct (findIndex p l); [|tauto].
  split; [discriminate|]. intros H. apply IH in H. discriminate.
Qed.

Lemma findIndex_lt (l : list A) (j : nat) :
  findIndex p l = Some j -> (j < List.length l)%nat.
Proof.
  revert j. induction l as [|x l IH]; intros j; simpl; [discriminate|].
  destruct (p x); [intros [= <-]; lia|].
  destruct (findIndex p l) as [i|]; [|discriminate].
  intros [= <-]. specialize (IH i eq_refl). lia.
Qed.

Lemma findIndex_app (l l' : list A) :
  findIndex p (l ++ l') =
  match findIndex p l with
  | Some j => Some j
  | None => match findIndex p l' with
            | Some j => Some (List.length l + j)%nat
            | None => None
            end
  end.
Proof.
  induction l as [|x l IH]; simpl.
  - destruct (findIndex p l'); reflexivity.
  - destruct (p x); [reflexivity|]. rewrite IH.
    destruct (findIndex p l); [reflexivity|].
    destruct (findIndex p l'); reflexivity.
Qed.

End ClassInsightFacts.

Section DistinctStudentsFacts.

Import AiInsights.

(** The [findIndex] idiom keeps the first row of every student. *)
Lemma first_rows_count (l pre : list AiInsights.AnalyticsRow) :
  (List.length
     (filter_from
        (fun v i =>
           match findIndex (fun t => String.eqb (AiInsights.user_id t)
                                                (AiInsights.user_id v))
                           (pre ++ l) with
           | Some j => (j =? i)%nat
           | None => false
           end)
        (List.length pre) l)
   + distinct_students (map AiInsights.user_id pre))%nat
  = distinct_students (map AiInsights.user_id (pre ++ l)).
Proof.
  revert pre. induction l as [|v rest IH]; intros pre.
  - rewrite app_nil_r. reflexivity.
  - specialize (IH (pre ++ [v])).
    rewrite <- app_assoc, length_app in IH. simpl in IH.
    rewrite Nat.add_1_r in IH.
    cbn [filter_from].
    rewrite <- IH. clear IH.
    rewrite (findIndex_app _ _ pre (v :: rest)). cbn [findIndex].
    rewrite String.eqb_refl.
    rewrite map_app. cbn [map]. unfold distinct_students.
    rewrite set_of_list_snoc.
    unfold Js.set_add, Js.size.
    destruct (findIndex (fun t => String.eqb (AiInsights.user_id t)
                                             (AiInsights.user_id v)) pre)
      as [j|] eqn:E.
    + pose proof (findIndex_lt _ _ _ _ E) as Hlt.
      assert (Hneq : (j =? List.length pre)%nat = false)
        by (apply Nat.eqb_neq; lia).
      rewrite Hneq.
      assert (Hmem : Js.set_mem (AiInsights.user_id v)
                       (Js.set_of_list (map AiInsights.user_id pre)) = true).
      { apply set_mem_In, set_of_list_In.
        destruct (existsb (fun t => String.eqb (AiInsights.user_id t)
                                               (AiInsights.user_id v)) pre) eqn:Ex.
        - apply existsb_exists in Ex. destruct Ex as (t & Ht & Heq).
          apply String.eqb_eq in Heq. rewrite <- Heq.
          apply in_map, Ht.
        - apply findIndex_None in Ex. congruence. }
      rewrite Hmem. reflexivity.
    + rewrite Nat.add_0_r, Nat.eqb_refl.
      assert (Hmem : Js.set_mem (AiInsights.user_id v)
                       (Js.set_of_list (map AiInsights.user_id pre)) = false).
      { destruct (Js.set_mem _ _) eqn:Em; [|reflexivity].
        apply set_mem_In, set_of_list_In, in_map_iff in Em.
        destruct Em as (t & Heq & Ht).
        apply findIndex_None in E.
        assert (Hex : existsb (fun t => String.eqb (AiInsights.user_id t)
                                                   (AiInsights.user_id v)) pre
                      = true).
        { apply existsb_exists. exists t. split; [exact Ht|].
          apply String.eqb_eq, Heq. }
        congruence. }
      rewrite Hmem, length_app. simpl. lia.
Qed.

Lemma studentsAnalyzed_distinct (analyticsData : list AiInsights.AnalyticsRow) :
  studentsAnalyzed analyticsData
  = distinct_students (map AiInsights.user_id analyticsData).
Proof.
  pose proof (first_rows_count analyticsData []) as H.
  simpl in H. unfold distinct_students at 1 in H. simpl in H.
  unfold studentsAnalyzed. lia.
Qed.

End DistinctStudentsFacts.

(** X11.  There is one class performance insight when some row has a
    non-zero improvement percentage, and none otherwise.  Its
    [studentsAnalyzed] is the number of distinct students of the rows,
    its average improvement is the rounded mean of the non-zero values,
    its improvement rate is the rounded percentage of positive values
    among them, an integer between 0 and 100, and its trend is read off
    the unrounded mean: positive above 10, concerning below -10, stable
    otherwise.  The mean and the percentage are the doubles that the
    runtime computes. *)
Theorem X11_class_performance_insight
        (analyticsData : list AiInsights.AnalyticsRow) :
  let values := improvements analyticsData in
  let positive := List.length (filter (fun v => Js.Qltb 0 v) values) in
  match AiInsights.classPerformanceInsights analyticsData with
  | [] => values = []
  | [c] =>
      values <> [] /\
      AiInsights.cm_studentsAnalyzed (AiInsights.ci_metrics c)
        = distinct_students (map AiInsights.user_id analyticsData) /\
      AiInsights.averageImprovement (AiInsights.ci_metrics c)
        = Js.round (mean values) /\
      AiInsights.improvementRate (AiInsights.ci_metrics c)
        = Js.round (percentage positive (List.length values)) /\
      (exists rate,
          AiInsights.improvementRate (AiInsights.ci_metrics c) = Js.RInt rate /\
          (0 <= rate <= 100)%Z) /\
      (Js.gtb (mean values) 10 = true ->
       AiInsights.ci_trend c = AiInsights.Positive) /\
      (Js.gtb (mean values) 10 = false -> Js.ltb (mean values) (-10) = true ->
       AiInsights.ci_trend c = AiInsights.Concerning) /\
      (Js.gtb (mean values) 10 = false -> Js.ltb (mean values) (-10) = false ->
       AiInsights.ci_trend c = AiInsights.Stable)
  | _ :: _ :: _ => False
  end.
Proof.
  intros values positive.
  unfold AiInsights.classPerformanceInsights.
  change (AiInsights.overallPerformances analyticsData) with values.
  destruct (0 <? List.length values)%nat eqn:E.
  - assert (Hmean : Js.div (Js.sum values) (Js.count (List.length values))
                    = mean values).
    { unfold mean. rewrite E. reflexivity. }
    rewrite Hmean. apply Nat.ltb_lt in E.
    assert (Hne : values <> []) by (destruct values; [simpl in E; lia | discriminate]).
    fold positive. fold (percentage positive (List.length values)).
    cbn [AiInsights.ci_metrics AiInsights.cm_studentsAnalyzed
         AiInsights.averageImprovement AiInsights.improvementRate
         AiInsights.ci_trend].
    split; [exact Hne|].
    split; [apply studentsAnalyzed_distinct|].
    split; [reflexivity|]. split; [reflexivity|].
    assert (Hle : (positive <= List.length values)%nat)
      by apply filter_length_le.
    split; [apply rounded_percentage; assumption|].
    split; [|split].
    + intros ->. reflexivity.
    + intros -> ->. reflexivity.
    + intros -> ->. reflexivity.
  - apply Nat.ltb_ge in E. destruct values; [reflexivity | simpl in E; lia].
Qed.

(* ================================================================== *)
(** * Learning pattern insights *)
(* ================================================================== *)

Section PatternFacts.

Import AiInsights.

Lemma patternCounts_accumulate (rows : list AnalyticsRow) :
  patternCounts rows =
  accumulate fst new_pattern_entry record_pattern_entry (patterned rows).
Proof.
  unfold patternCounts, accumulate, patterned.
  generalize (JsObject.empty PatternData).
  induction rows as [|s rows IH]; intros acc; simpl; [reflexivity|].
  rewrite fold_left_app, <- IH. f_equal.
  destruct (pattern_of s); reflexivity.
Qed.

Lemma patternCounts_keys_NoDup (rows : list AnalyticsRow) :
  NoDup (keys (patternCounts rows)).
Proof. rewrite patternCounts_accumulate. apply accumulate_keys_NoDup. Qed.

Lemma record_patterns_spec (l : list (string * AnalyticsRow)) (d : PatternData) :
  let d' := fold_left record_pattern_entry l d in
  pc_count d' = (pc_count d + List.length l)%nat /\
  pc_students d' = fold_left Js.set_add (map AiInsights.user_id (map snd l))
                             (pc_students d) /\
  pc_totalVelocity d'
  = fold_left (fun a b => Js.add a (Js.Fin b)) (velocities (map snd l))
              (pc_totalVelocity d).
Proof.
  revert d. induction l as [|e l IH]; intros d; simpl.
  - repeat split. lia.
  - destruct (IH (record_pattern_entry d e)) as (H1 & H2 & H3).
    rewrite H1, H2, H3. unfold record_pattern_entry, velocities. simpl.
    rewrite fold_left_app.
    repeat split; [lia|].
    destruct (velocity_of (snd e)); reflexivity.
Qed.

(** What an entry of [patternCounts] holds. *)
Lemma pattern_entry (rows : list AnalyticsRow) (pattern : string) (d : PatternData) :
  In (pattern, d) (JsObject.entries (patternCounts rows)) ->
  let mine := rows_with_pattern pattern rows in
  mine <> [] /\
  pc_count d = List.length mine /\
  pc_students d = Js.set_of_list (map AiInsights.user_id mine) /\
  pc_totalVelocity d = Js.sum (velocities mine).
Proof.
  rewrite patternCounts_accumulate. intros H.
  apply accumulate_entry in H. destruct H as (first & rest & Hk & ->).
  intros mine. unfold mine, rows_with_pattern. rewrite Hk.
  destruct (record_patterns_spec (first :: rest) (new_pattern_entry first))
    as (H1 & H2 & H3).
  rewrite H1, H2, H3. simpl. rewrite length_map.
  repeat split. discriminate.
Qed.

Lemma patterned_In (rows : list AnalyticsRow) (pattern : string) (s : AnalyticsRow) :
  In (pattern, s) (patterned rows) <-> In s rows /\ pattern_of s = Some pattern.
Proof.
  unfold patterned. rewrite in_flat_map. split.
  - intros (s' & Hs & H). destruct (pattern_of s') eqn:E; [|contradiction].
    destruct H as [[= <- <-]|[]]. auto.
  - intros [Hs Hp]. exists s. rewrite Hp. split; [exact Hs | left; reflexivity].
Qed.

End PatternFacts.

(** X12.  When no row carries a pattern named like a member of
    [Object.prototype], there is one learning pattern insight for every
    pattern that a row carries.  Its frequency is the number of rows
    with the pattern, its affected students their distinct students, at
    least one and at most the frequency, and its average velocity the
    sum of their non-zero velocities over the frequency, multiplied by
    100, rounded and divided by 100, every operation giving a
    double. *)
Theorem X12_learning_pattern_insights
        (rows : list AiInsights.AnalyticsRow)
        (insights : list AiInsights.LearningPatternInsight) :
  AiInsights.learningPatternInsights rows = Some insights ->
  NoDup (map AiInsights.lp_pattern insights) /\
  (forall pattern,
      In pattern (map AiInsights.lp_pattern insights) <->
      exists s, In s rows /\ AiInsights.pattern_of s = Some pattern) /\
  list_sum (map AiInsights.lp_frequency insights)
    = List.length (patterned rows) /\
  forall i, In i insights ->
    let mine := rows_with_pattern (AiInsights.lp_pattern i) rows in
    AiInsights.lp_frequency i = List.length mine /\
    AiInsights.lp_studentsAffected i
      = distinct_students (map AiInsights.user_id mine) /\
    (1 <= AiInsights.lp_studentsAffected i)%nat /\
    (AiInsights.lp_studentsAffected i
     <= AiInsights.lp_frequency i)%nat /\
    AiInsights.lp_averageVelocity i
      = Js.div
          (Js.of_rounded
             (Js.round
                (Js.mul (Js.div (Js.sum (velocities mine))
                                (Js.count (List.length mine)))
                        (Js.Fin 100))))
          (Js.Fin 100) /\
    AiInsights.lp_impact i
      = AiInsights.impact_of (AiInsights.lp_studentsAffected i).
Proof.
  unfold AiInsights.learningPatternInsights.
  destruct (existsb _ rows); [discriminate|].
  intros [= <-].
  assert (Hpatterns :
            map AiInsights.lp_pattern
                (map AiInsights.pattern_insight
                     (JsObject.entries (AiInsights.patternCounts rows)))
            = map fst (JsObject.entries (AiInsights.patternCounts rows))).
  { rewrite map_map. apply map_ext. intros [k d]. reflexivity. }
  split; [rewrite Hpatterns; apply entries_keys_NoDup, patternCounts_keys_NoDup|].
  split.
  { intros pattern. rewrite Hpatterns, in_map_iff. split.
    - intros ([k d] & <- & H). simpl.
      destruct (pattern_entry _ _ _ H) as (Hne & _).
      unfold rows_with_pattern in Hne.
      destruct (with_key fst k (patterned rows)) as [|[k' s] rest] eqn:E;
        [simpl in Hne; congruence|].
      assert (Hin : In (k', s) (with_key fst k (patterned rows)))
        by (rewrite E; left; reflexivity).
      apply filter_In in Hin. destruct Hin as [Hin Hk].
      apply String.eqb_eq in Hk. simpl in Hk. subst k'.
      apply patterned_In in Hin. exists s. exact Hin.
    - intros (s & Hs & Hp).
      assert (Hin : In (pattern, s) (patterned rows))
        by (apply patterned_In; auto).
      destruct (JsObject.get (AiInsights.patternCounts rows) pattern)
        as [d|] eqn:Hget.
      + exists (pattern, d). split; [reflexivity|].
        apply entries_In, get_In, Hget.
      + rewrite patternCounts_accumulate, get_accumulate in Hget.
        destruct (with_key fst pattern (patterned rows)) eqn:E;
          [|discriminate].
        assert (Hf : In (pattern, s) (with_key fst pattern (patterned rows))).
        { apply filter_In. split; [exact Hin | apply String.eqb_refl]. }
        rewrite E in Hf. destruct Hf. }
  split.
  { rewrite map_map.
    rewrite (map_ext _ (fun e => AiInsights.pc_count (snd e)))
      by (intros [k d]; reflexivity).
    rewrite patternCounts_accumulate.
    apply (accumulate_total _ _ fst new_pattern_entry record_pattern_entry
                            AiInsights.pc_count); reflexivity. }
  intros i Hi. apply in_map_iff in Hi. destruct Hi as ([k d] & <- & Hin).
  destruct (pattern_entry _ _ _ Hin) as (Hne & Hc & Hs & Hv).
  cbn [AiInsights.pattern_insight AiInsights.lp_pattern
       AiInsights.lp_frequency AiInsights.lp_studentsAffected
       AiInsights.lp_averageVelocity AiInsights.lp_impact].
  set (mine := rows_with_pattern k rows) in *.
  assert (Hpos : (0 < List.length mine)%nat)
    by (destruct mine; [congruence | simpl; lia]).
  split; [exact Hc|].
  split; [rewrite Hs; reflexivity|].
  split.
  { rewrite Hs. destruct mine as [|s mine']; [congruence|].
    assert (Hm : In (AiInsights.user_id s)
                    (Js.set_of_list (map AiInsights.user_id (s :: mine'))))
      by (apply set_of_list_In; left; reflexivity).
    unfold Js.size.
    destruct (Js.set_of_list (map AiInsights.user_id (s :: mine')));
      [destruct Hm | simpl; lia]. }
  split.
  { rewrite Hs, Hc.
    pose proof (set_size_le (map AiInsights.user_id mine)
                            (map AiInsights.user_id mine) (incl_refl _)) as H.
    rewrite length_map in H. exact H. }
  split; [|reflexivity].
  unfold AiInsights.hundredths, AiInsights.avgVelocity. rewrite Hc, Hv.
  apply Nat.ltb_lt in Hpos. rewrite Hpos. reflexivity.
Qed.

(* ================================================================== *)
(** * Content optimization suggestions *)
(* ================================================================== *)

Section FeedbackFacts.

Import AiInsights.

Lemma feedbackAnalysis_keys_NoDup (feynmanFeedback : option (list Feedback)) :
  NoDup (keys (feedbackAnalysis feynmanFeedback)).
Proof.
  destruct feynmanFeedback as [rows|]; simpl; [|constructor].
  apply (accumulate_keys_NoDup _ _ feedback_type new_feedback record_feedback).
Qed.

Lemma record_feedbacks_spec (l : list Feedback) (d : FeedbackData) :
  let d' := fold_left record_feedback l d in
  fd_count d' = (fd_count d + List.length l)%nat /\
  highPriority d' = (highPriority d
                     + List.length (filter feedback_is_high_priority l))%nat /\
  suggestions d' = fold_left Js.set_add (improvements_suggested l)
                             (suggestions d) /\
  severityBreakdown d' = fold_left increment (map counted_severity l)
                                   (severityBreakdown d).
Proof.
  revert d. induction l as [|f l IH]; intros d; simpl.
  - repeat split; lia.
  - destruct (IH (record_feedback d f)) as (H1 & H2 & H3 & H4).
    rewrite H1, H2, H3, H4. unfold improvements_suggested. simpl.
    rewrite fold_left_app.
    destruct (feedback_is_high_priority f),
      (Js.truthy_string (suggested_improvement f));
      simpl; repeat split; first [lia | reflexivity].
Qed.

(** What an entry of [feedbackAnalysis] holds. *)
Lemma feedback_entry (rows : list Feedback) (type : string) (d : FeedbackData) :
  In (type, d) (JsObject.entries (feedbackAnalysis (Some rows))) ->
  let mine := feedback_of_type type rows in
  mine <> [] /\
  fd_count d = List.length mine /\
  highPriority d = List.length (filter feedback_is_high_priority mine) /\
  suggestions d = Js.set_of_list (improvements_suggested mine) /\
  severityBreakdown d
    = fold_left increment (map counted_severity mine) new_breakdown.
Proof.
  simpl. intros H. apply accumulate_entry in H.
  destruct H as (first & rest & Hk & ->).
  unfold feedback_of_type. rewrite Hk.
  destruct (record_feedbacks_spec (first :: rest) (new_feedback first))
    as (H1 & H2 & H3 & H4).
  rewrite H1, H2, H3, H4. repeat split. discriminate.
Qed.

Lemma known_severity_cases (s : string) :
  known_severity s = true ->
  s = "low"%string \/ s = "medium"%string \/ s = "high"%string
  \/ s = "critical"%string.
Proof.
  unfold known_severity. rewrite !orb_true_iff, !String.eqb_eq. tauto.
Qed.

(** Known severities are counted one by one. *)
Lemma breakdown_known (sevs : list string) (low medium high critical : nat) :
  forallb known_severity sevs = true ->
  fold_left increment sevs (breakdown_of low medium high critical)
  = breakdown_of
      (low + List.length (filter (fun s => String.eqb s "low") sevs))
      (medium + List.length (filter (fun s => String.eqb s "medium") sevs))
      (high + List.length (filter (fun s => String.eqb s "high") sevs))
      (critical + List.length (filter (fun s => String.eqb s "critical") sevs)).
Proof.
  revert low medium high critical.
  induction sevs as [|s sevs IH]; intros low medium high critical H.
  - simpl. rewrite !Nat.add_0_r. reflexivity.
  - simpl in H. apply andb_true_iff in H. destruct H as [Hs H].
    apply known_severity_cases in Hs.
    destruct Hs as [ -> | [ -> | [ -> | -> ] ] ]; cbn [fold_left].
    + change (increment (breakdown_of low medium high critical) "low")
        with (breakdown_of (S low) medium high critical).
      rewrite (IH _ _ _ _ H). simpl. unfold breakdown_of.
      repeat f_equal; lia.
    + change (increment (breakdown_of low medium high critical) "medium")
        with (breakdown_of low (S medium) high critical).
      rewrite (IH _ _ _ _ H). simpl. unfold breakdown_of.
      repeat f_equal; lia.
    + change (increment (breakdown_of low medium high critical) "high")
        with (breakdown_of low medium (S high) critical).
      rewrite (IH _ _ _ _ H). simpl. unfold breakdown_of.
      repeat f_equal; lia.
    + change (increment (breakdown_of low medium high critical) "critical")
        with (breakdown_of low medium high (S critical)).
      rewrite (IH _ _ _ _ H). simpl. unfold breakdown_of.
      repeat f_equal; lia.
Qed.

Lemma severity_count (s : string) (l : list Feedback) :
  List.length (filter (fun x => String.eqb x s) (map counted_severity l))
  = List.length (filter (fun f => String.eqb (counted_severity f) s) l).
Proof.
  induction l as [|f l IH]; simpl; [reflexivity|].
  destruct (String.eqb (counted_severity f) s); simpl; rewrite IH; reflexivity.
Qed.

Lemma suggestion_for_spec (type : string) (d : FeedbackData)
      (c : ContentSuggestion) :
  suggestion_for (type, d) = Some c ->
  (2 <= fd_count d)%nat /\
  cs_area c = type /\
  cs_frequency c = fd_count d /\
  (cs_priority c = PriorityHigh <-> (fd_count d <= 2 * highPriority d)%nat) /\
  cs_suggestions c = firstn 3 (suggestions d) /\
  cs_severityBreakdown c = severityBreakdown d /\
  cs_impact c = (if (5 <=? fd_count d)%nat then AiInsights.ImpactHigh
                 else if (3 <=? fd_count d)%nat then AiInsights.ImpactMedium
                 else AiInsights.ImpactLow).
Proof.
  unfold suggestion_for.
  destruct (2 <=? fd_count d)%nat eqn:E; [|discriminate].
  apply Nat.leb_le in E. intros [= <-].
  cbn [cs_area cs_frequency cs_priority cs_suggestions cs_severityBreakdown
       cs_impact].
  repeat split; try assumption.
  - match goal with
    | |- (if ?b then _ else _) = _ -> _ => destruct b eqn:E2
    end; [intros _; apply Nat.leb_le in E2; lia | intros H; discriminate H].
  - intros H.
    match goal with
    | |- (if ?b then _ else _) = _ => destruct b eqn:E2
    end; [reflexivity | apply Nat.leb_gt in E2; lia].
Qed.

End FeedbackFacts.

(** X13.  The content optimization suggestions fail exactly when a
    feedback row has a type named like a member of [Object.prototype].
    Otherwise there is one suggestion for every feedback type with at
    least two rows, its frequency being the number of these rows.  Its
    priority is high exactly when at least half of the rows have
    priority at most 2 or no priority; it shows the first three
    distinct non-empty suggested improvements of the rows; and when the
    rows only carry the severities low, medium, high and critical, an
    absent severity counting as medium, the breakdown holds the number
    of rows of each. *)
Theorem X13_content_suggestions
        (feynmanFeedback : option (list AiInsights.Feedback)) :
  let rows := match feynmanFeedback with Some rows => rows | None => [] end in
  (AiInsights.contentOptimizationSuggestions feynmanFeedback = None <->
   exists f, In f rows /\
             JsPrototype.inherited (AiInsights.feedback_type f) = true) /\
  forall suggestions,
    AiInsights.contentOptimizationSuggestions feynmanFeedback
      = Some suggestions ->
    NoDup (map AiInsights.cs_area suggestions) /\
    (forall type,
        In type (map AiInsights.cs_area suggestions) <->
        (2 <= List.length (feedback_of_type type rows))%nat) /\
    forall c, In c suggestions ->
      let mine := feedback_of_type (AiInsights.cs_area c) rows in
      AiInsights.cs_frequency c = List.length mine /\
      (AiInsights.cs_priority c = AiInsights.PriorityHigh <->
       (List.length mine
        <= 2 * List.length (filter AiInsights.feedback_is_high_priority mine))%nat) /\
      AiInsights.cs_suggestions c
        = firstn 3 (Js.set_of_list (improvements_suggested mine)) /\
      (List.length (AiInsights.cs_suggestions c) <= 3)%nat /\
      NoDup (AiInsights.cs_suggestions c) /\
      (forallb known_severity (map counted_severity mine) = true ->
       AiInsights.cs_severityBreakdown c
         = breakdown_of (with_severity "low" mine) (with_severity "medium" mine)
                        (with_severity "high" mine)
                        (with_severity "critical" mine)).
Proof.
  intros rows. unfold AiInsights.contentOptimizationSuggestions.
  fold rows.
  assert (Hmap : feynmanFeedback = Some rows \/
                 (feynmanFeedback = None /\ rows = [])).
  { unfold rows. destruct feynmanFeedback; auto. }
  clearbody rows. split.
  - destruct (existsb _ rows) eqn:E.
    + split; [intros _|reflexivity].
      apply existsb_exists in E. exact E.
    + split; [discriminate|]. intros (f & Hf & Hi).
      assert (Hex : existsb (fun f => JsPrototype.inherited
                                        (AiInsights.feedback_type f)) rows
                    = true)
        by (apply existsb_exists; exists f; auto).
      congruence.
  - destruct (existsb _ rows); [discriminate|].
    intros suggestions [= <-].
    assert (Hentries :
              forall type d,
                In (type, d)
                   (JsObject.entries
                      (AiInsights.feedbackAnalysis feynmanFeedback)) ->
                In (type, d)
                   (JsObject.entries
                      (AiInsights.feedbackAnalysis (Some rows)))).
    { destruct Hmap as [->|[-> ->]]; [auto|]. simpl. intros ? ? []. }
    split.
    { apply flat_map_keys_NoDup.
      - apply entries_keys_NoDup, feedbackAnalysis_keys_NoDup.
      - intros [type d] c.
        destruct (AiInsights.suggestion_for (type, d)) as [c'|] eqn:E;
          [|contradiction].
        intros [<-|[]]. split; [reflexivity|].
        apply suggestion_for_spec in E. apply E. }
    split.
    { intros type. rewrite in_map_iff. split.
      - intros (c & <- & Hc). apply in_flat_map in Hc.
        destruct Hc as ([type d] & Hin & Hc).
        destruct (AiInsights.suggestion_for (type, d)) as [c'|] eqn:E;
          [|contradiction].
        destruct Hc as [<-|[]].
        apply suggestion_for_spec in E.
        destruct E as (H2 & -> & _).
        destruct (feedback_entry _ _ _ (Hentries _ _ Hin)) as (_ & Hc & _).
        rewrite <- Hc. exact H2.
      - intros Hlen.
        destruct Hmap as [Hsome|[_ Hnil]];
          [|rewrite Hnil in Hlen; simpl in Hlen; lia].
        destruct (JsObject.get (AiInsights.feedbackAnalysis (Some rows)) type)
          as [d|] eqn:Hget.
        + assert (Hin : In (type, d)
                           (JsObject.entries
                              (AiInsights.feedbackAnalysis (Some rows))))
            by (apply entries_In, get_In, Hget).
          destruct (feedback_entry _ _ _ Hin) as (_ & Hc & _).
          destruct (AiInsights.suggestion_for (type, d)) as [c|] eqn:E.
          * exists c. split; [apply suggestion_for_spec in E; apply E|].
            apply in_flat_map. exists (type, d).
            rewrite Hsome. split; [exact Hin|]. rewrite E. left. reflexivity.
          * unfold AiInsights.suggestion_for in E.
            rewrite Hc in E. apply Nat.leb_le in Hlen. rewrite Hlen in E.
            discriminate.
        + change (JsObject.get
                    (accumulate AiInsights.feedback_type
                                AiInsights.new_feedback
                                AiInsights.record_feedback rows) type
                  = None) in Hget.
          rewrite (get_accumulate _ _ AiInsights.feedback_type
                                  AiInsights.new_feedback
                                  AiInsights.record_feedback) in Hget.
          unfold feedback_of_type in Hlen.
          destruct (with_key AiInsights.feedback_type type rows);
            [simpl in Hlen; lia | discriminate]. }
    intros c Hc. apply in_flat_map in Hc.
    destruct Hc as ([type d] & Hin & Hc).
    destruct (AiInsights.suggestion_for (type, d)) as [c'|] eqn:E;
      [|contradiction].
    destruct Hc as [<-|[]].
    apply suggestion_for_spec in E.
    destruct E as (H2 & Harea & Hfreq & Hprio & Hsugg & Hsev & _).
    destruct (feedback_entry _ _ _ (Hentries _ _ Hin))
      as (_ & Hc & Hh & Hs & Hb).
    rewrite Harea.
    set (mine := feedback_of_type type rows) in *.
    split; [congruence|].
    split; [rewrite Hprio, Hc, Hh; reflexivity|].
    split; [rewrite Hsugg, Hs; reflexivity|].
    split; [rewrite Hsugg; apply firstn_le_length|].
    split; [rewrite Hsugg, Hs; apply NoDup_firstn_of, set_of_list_NoDup|].
    intros Hknown. rewrite Hsev, Hb.
    change AiInsights.new_breakdown with (breakdown_of 0 0 0 0).
    rewrite (breakdown_known _ _ _ _ _ Hknown). simpl.
    unfold with_severity.
    rewrite !severity_count. reflexivity.
Qed.

(* ================================================================== *)
(** * The summaries per technique *)
(* ================================================================== *)

Section SummaryFacts.

Import StudyTechniques.

Lemma with_status_le (status : string) (l : list StudyTechniques.Session) :
  (with_status status l <= List.length l)%nat.
Proof. apply filter_length_le. Qed.

(** A session has one status. *)
Lemma recall_statuses_disjoint (l : list StudyTechniques.Session) :
  (with_status "completed" l + with_status "preparing" l
   + with_status "studying" l + with_status "paused" l
   <= List.length l)%nat.
Proof.
  unfold with_status. induction l as [|s l IH]; simpl; [lia|].
  destruct (String.eqb (StudyTechniques.status s) "completed") eqn:E1,
           (String.eqb (StudyTechniques.status s) "preparing") eqn:E2,
           (String.eqb (StudyTechniques.status s) "studying") eqn:E3,
           (String.eqb (StudyTechniques.status s) "paused") eqn:E4;
    rewrite ?String.eqb_eq in *; try congruence; simpl; lia.
Qed.

(** A cycle has one type. *)
Lemma cycle_types_disjoint (l : list Cycle) :
  (List.length (filter (of_type "work") l)
   + List.length (filter (of_type "short_break") l)
   + List.length (filter (of_type "long_break") l)
   <= List.length l)%nat.
Proof.
  unfold of_type. induction l as [|c l IH]; simpl; [lia|].
  destruct (String.eqb (cycle_type c) "work") eqn:E1,
           (String.eqb (cycle_type c) "short_break") eqn:E2,
           (String.eqb (cycle_type c) "long_break") eqn:E3;
    rewrite ?String.eqb_eq in *; try congruence; simpl; lia.
Qed.

Lemma positive_length (A : Type) (l : list A) :
  (0 <? List.length l)%nat = true -> (1 <= List.length l)%nat.
Proof. intros H. apply Nat.ltb_lt in H. lia. Qed.

End SummaryFacts.

(** X14.  In the Active Recall summary the completed sessions and the
    distinct users are at most the sessions, and the four status counts
    add up to at most the sessions.  The average accuracy is an integer
    between 0 and 100, the rounded percentage of correct attempts as
    the runtime computes it; it and the average duration are 0 without
    attempts;
    [flashcardsGenerated] and [improvementRate] are always 0.  The
    attempts are those of all sessions created since the start of the
    range: they do not depend on the students of the instructor. *)
Theorem X14_active_recall_summary
        (cal : Js.Calendar) (db : StudyTechniques.Store)
        (studentIds : list string) (start : Z) :
  let r := StudyTechniques.activeRecall_summary cal db studentIds start in
  let attempts := attempts_since cal db start in
  let breakdown := StudyTechniques.ar_sessionStatusBreakdown r in
  (StudyTechniques.ar_completedSessions r
   <= StudyTechniques.ar_totalSessions r)%nat /\
  (StudyTechniques.ar_userEngagement r
   <= StudyTechniques.ar_totalSessions r)%nat /\
  (StudyTechniques.ar_userEngagement r <= List.length studentIds)%nat /\
  (StudyTechniques.rb_completed breakdown
   + StudyTechniques.rb_preparing breakdown
   + StudyTechniques.rb_studying breakdown
   + StudyTechniques.rb_paused breakdown
   <= StudyTechniques.ar_totalSessions r)%nat /\
  StudyTechniques.ar_flashcardsGenerated r = 0%nat /\
  StudyTechniques.ar_improvementRate r = 0%nat /\
  StudyTechniques.ar_totalAttempts r = List.length attempts /\
  (exists accuracy,
      StudyTechniques.ar_averageAccuracy r = Js.RInt accuracy /\
      (0 <= accuracy <= 100)%Z /\
      (attempts <> [] ->
       StudyTechniques.ar_averageAccuracy r =
         Js.round (percentage
                     (List.length
                        (filter StudyTechniques.is_correct attempts))
                     (List.length attempts))) /\
      (attempts = [] ->
       accuracy = 0%Z /\
       StudyTechniques.ar_averageSessionDuration r = Js.RInt 0)).
Proof.
  intros r attempts breakdown.
  unfold breakdown, r, StudyTechniques.activeRecall_summary,
    StudyTechniques.activeRecallAnalytics.
  cbn [StudyTechniques.ar_completedSessions StudyTechniques.ar_totalSessions
       StudyTechniques.ar_userEngagement
       StudyTechniques.ar_sessionStatusBreakdown
       StudyTechniques.rb_completed StudyTechniques.rb_preparing
       StudyTechniques.rb_studying StudyTechniques.rb_paused
       StudyTechniques.ar_flashcardsGenerated
       StudyTechniques.ar_improvementRate
       StudyTechniques.ar_totalAttempts
       StudyTechniques.ar_averageAccuracy
       StudyTechniques.ar_averageSessionDuration].
  assert (Hattempts :
            match StudyTechniques.fetch_attempts cal db start with
            | Some l => l
            | None => []
            end = attempts).
  { unfold attempts, attempts_since, StudyTechniques.fetch_attempts.
    destruct (StudyTechniques.active_recall_attempts db); reflexivity. }
  rewrite Hattempts.
  split; [apply with_status_le|].
  split; [apply userEngagement_le|].
  split; [apply fetched_users_enrolled|].
  split; [apply recall_statuses_disjoint|].
  split; [reflexivity|]. split; [reflexivity|]. split; [reflexivity|].
  destruct (0 <? List.length attempts)%nat eqn:E.
  - apply positive_length in E.
    destruct (rounded_percentage
                (List.length (filter StudyTechniques.is_correct attempts))
                (List.length attempts) E (filter_length_le _ _ _))
      as (z & Hz & Hb).
    exists z. split; [exact Hz|]. split; [exact Hb|].
    split; [intros _; reflexivity|].
    intros Hnil. rewrite Hnil in E. simpl in E. lia.
  - exists 0%Z. split; [reflexivity|]. split; [lia|].
    split; [|intros _; split; reflexivity].
    intros Hne. apply Nat.ltb_ge in E.
    destruct attempts; [congruence | simpl in E; lia].
Qed.

(** X15.  In the Pomodoro summary the completed cycles are at most the
    cycles, and so is the sum of the work, short break and long break
    counts.  The break adherence is an integer between 0 and 100, the
    rounded percentage, as the runtime computes it, of completed breaks
    among the cycles that are not work, and 0 without such cycles; the
    cycles per session are 0 without sessions and, for a number of
    cycles that an array can hold, a non-negative integer.  The cycles are those of
    all sessions created since the start of the range: they do not
    depend on the students of the instructor. *)
Theorem X15_pomodoro_summary
        (cal : Js.Calendar) (db : StudyTechniques.Store)
        (studentIds : list string) (start : Z) :
  let p := StudyTechniques.pomodoro_summary cal db studentIds start in
  let cycles := cycles_since cal db start in
  let breakdown := StudyTechniques.pm_cycleTypeBreakdown p in
  StudyTechniques.pm_totalCycles p = List.length cycles /\
  (StudyTechniques.pm_completedCycles p
   <= StudyTechniques.pm_totalCycles p)%nat /\
  (StudyTechniques.work breakdown + StudyTechniques.short_break breakdown
   + StudyTechniques.long_break breakdown
   <= StudyTechniques.pm_totalCycles p)%nat /\
  (StudyTechniques.pm_completedSessions p
   <= StudyTechniques.pm_totalSessions p)%nat /\
  (StudyTechniques.pm_userEngagement p <= List.length studentIds)%nat /\
  (exists adherence,
      StudyTechniques.pm_breakAdherence p = Js.RInt adherence /\
      (0 <= adherence <= 100)%Z /\
      (breaks_of cycles <> [] ->
       StudyTechniques.pm_breakAdherence p =
         Js.round
           (percentage
              (List.length (filter StudyTechniques.is_completed
                                   (breaks_of cycles)))
              (List.length (breaks_of cycles)))) /\
      (breaks_of cycles = [] -> adherence = 0%Z)) /\
  (StudyTechniques.pm_totalSessions p = 0%nat ->
   StudyTechniques.pm_averageCyclesPerSession p = Js.RInt 0) /\
  (array_length (List.length cycles) ->
   exists perSession,
     StudyTechniques.pm_averageCyclesPerSession p = Js.RInt perSession /\
     (0 <= perSession)%Z).
Proof.
  intros p cycles breakdown.
  unfold breakdown, p, StudyTechniques.pomodoro_summary,
    StudyTechniques.pomodoroAnalytics.
  cbn [StudyTechniques.pm_totalCycles StudyTechniques.pm_completedCycles
       StudyTechniques.pm_cycleTypeBreakdown StudyTechniques.work
       StudyTechniques.short_break StudyTechniques.long_break
       StudyTechniques.pm_completedSessions
       StudyTechniques.pm_totalSessions
       StudyTechniques.pm_userEngagement
       StudyTechniques.pm_breakAdherence
       StudyTechniques.pm_averageCyclesPerSession].
  assert (Hcycles :
            match StudyTechniques.fetch_cycles cal db start with
            | Some l => l
            | None => []
            end = cycles).
  { unfold cycles, cycles_since, StudyTechniques.fetch_cycles.
    destruct (StudyTechniques.pomodoro_cycles db); reflexivity. }
  rewrite Hcycles. fold (breaks_of cycles).
  split; [reflexivity|].
  split; [apply filter_length_le|].
  split; [apply cycle_types_disjoint|].
  split; [apply with_status_le|].
  split; [apply fetched_users_enrolled|].
  split.
  - destruct (0 <? List.length cycles)%nat eqn:Ec; cbn [andb].
    + destruct (0 <? List.length (breaks_of cycles))%nat eqn:E.
      * apply positive_length in E.
        destruct (rounded_percentage
                    (List.length (filter StudyTechniques.is_completed
                                         (breaks_of cycles)))
                    (List.length (breaks_of cycles)) E (filter_length_le _ _ _))
          as (z & Hz & Hb).
        exists z. split; [exact Hz|]. split; [exact Hb|].
        split; [intros _; reflexivity|].
        intros Hnil. rewrite Hnil in E. simpl in E. lia.
      * exists 0%Z. split; [reflexivity|]. split; [lia|].
        split; [|reflexivity].
        intros Hne. apply Nat.ltb_ge in E.
        destruct (breaks_of cycles); [congruence | simpl in E; lia].
    + exists 0%Z. split; [reflexivity|]. split; [lia|].
      split; [|reflexivity].
      intros Hne. apply Nat.ltb_ge in Ec.
      destruct cycles; [exfalso; apply Hne; reflexivity | simpl in Ec; lia].
  - split.
    + intros ->. rewrite andb_false_r. reflexivity.
    + intros Hlen.
      destruct (0 <? List.length cycles)%nat; cbn [andb];
        [|exists 0%Z; split; [reflexivity | lia]].
      match goal with
      | |- context [(0 <? ?n)%nat] => destruct (0 <? n)%nat eqn:E
      end.
      * apply Nat.ltb_lt in E.
        destruct (count_ratio_finite _ _ E Hlen) as (q & Hq & Hq0 & _).
        rewrite Hq. exists (Js.round_Q q).
        split; [reflexivity | apply round_Q_nonneg, Hq0].
      * exists 0%Z. split; [reflexivity | lia].
Qed.

(* ================================================================== *)
(** * The effectiveness metrics *)
(* ================================================================== *)

Section EffectivenessFacts.

Import StudyTechniques.

Variables B C : Type.
Variable f : B -> C.

(** Assigning [f v] under every key of a list without duplicate keys. *)
Lemma get_fold_set (l : list (string * B)) (acc : JsObject.t C) (k : string) :
  NoDup (map fst l) ->
  JsObject.get
    (fold_left (fun m e => JsObject.set m (fst e) (f (snd e))) l acc) k
  = match JsObject.get l k with
    | Some v => Some (f v)
    | None => JsObject.get acc k
    end.
Proof.
  revert acc. induction l as [|[k0 v0] l IH]; intros acc Hnd; simpl.
  - reflexivity.
  - inversion Hnd as [|? ? Hfresh Hrest]; subst.
    rewrite (IH _ Hrest), get_set.
    destruct (String.eqb k k0) eqn:E; [|reflexivity].
    apply String.eqb_eq in E. subst k0.
    destruct (JsObject.get l k) as [v|] eqn:Hg; [|reflexivity].
    exfalso. apply Hfresh. apply get_In in Hg.
    apply (in_map fst) in Hg. exact Hg.
Qed.

Lemma get_entries (o : JsObject.t B) (k : string) :
  NoDup (keys o) -> JsObject.get (JsObject.entries o) k = JsObject.get o k.
Proof.
  intros Hnd.
  destruct (JsObject.get o k) as [v|] eqn:Hg.
  - apply In_get; [apply entries_keys_NoDup, Hnd|].
    apply entries_In, get_In, Hg.
  - destruct (JsObject.get (JsObject.entries o) k) as [v|] eqn:Hg';
      [|reflexivity].
    apply get_In in Hg'. apply (proj1 (entries_In _ _ _)) in Hg'.
    apply (In_get _ _ _ _ Hnd) in Hg'. congruence.
Qed.

End EffectivenessFacts.

Section EffectivenessMoreFacts.

Import StudyTechniques.

Lemma push_all_items (l group : list AnalyticsItem) :
  fold_left (fun group item => group ++ [item]) l group = group ++ l.
Proof.
  revert group. induction l as [|x l IH]; intros group; simpl.
  - rewrite app_nil_r. reflexivity.
  - rewrite IH, <- app_assoc. reflexivity.
Qed.

Lemma analyticsByTechnique_get (items : list AnalyticsItem) (type : string) :
  JsObject.get (analyticsByTechnique items) type =
  match items_of_type type items with
  | [] => None
  | group => Some group
  end.
Proof.
  change (analyticsByTechnique items)
    with (accumulate session_type (fun _ : AnalyticsItem => [])
                     (fun group item => group ++ [item]) items).
  rewrite get_accumulate.
  unfold items_of_type.
  destruct (with_key session_type type items) as [|first rest];
    [reflexivity|].
  rewrite push_all_items. reflexivity.
Qed.

End EffectivenessMoreFacts.

(** X16.  When no analytics item has a session type named like a
    member of [Object.prototype], the effectiveness metrics hold one
    entry for every session type of the items, with the number of items
    of the type.  The rating is read off the unrounded mean of the
    positive performance values of the type, the first non-zero of
    improvement percentage, post-study accuracy and overall accuracy:
    high from 70, medium from 50, low below 50 or without a positive
    value; the average improvement is this mean rounded, which is never
    negative and never [NaN].  The mean is the double that the runtime
    computes. *)
Theorem X16_effectiveness_metrics
        (items : list StudyTechniques.AnalyticsItem)
        (metrics : JsObject.t StudyTechniques.Effectiveness) :
  StudyTechniques.effectivenessMetrics (Some items) = Some metrics ->
  forall type,
    let group := items_of_type type items in
    let values := StudyTechniques.performances group in
    match JsObject.get metrics type with
    | None => group = []
    | Some e =>
        group <> [] /\
        StudyTechniques.sessionCount e = List.length group /\
        StudyTechniques.ef_averageImprovement e = Js.round (mean values) /\
        rounded_nonnegative (StudyTechniques.ef_averageImprovement e) /\
        (StudyTechniques.effectivenessRating e = StudyTechniques.High <->
         values <> [] /\ Js.geb (mean values) 70 = true) /\
        (StudyTechniques.effectivenessRating e = StudyTechniques.Medium <->
         values <> [] /\ Js.geb (mean values) 70 = false /\
         Js.geb (mean values) 50 = true) /\
        (StudyTechniques.effectivenessRating e = StudyTechniques.Low <->
         values = [] \/ Js.geb (mean values) 50 = false)
    end.
Proof.
  unfold StudyTechniques.effectivenessMetrics.
  destruct (existsb _ items); [discriminate|].
  intros [= <-] type.
  rewrite (get_fold_set _ _ StudyTechniques.effectiveness_of);
    [|apply entries_keys_NoDup;
      apply (accumulate_keys_NoDup _ _ StudyTechniques.session_type
               (fun _ => []) (fun group item => group ++ [item]))].
  rewrite get_entries;
    [|apply (accumulate_keys_NoDup _ _ StudyTechniques.session_type
               (fun _ => []) (fun group item => group ++ [item]))].
  rewrite analyticsByTechnique_get.
  destruct (items_of_type type items) as [|first rest] eqn:Eg;
    [reflexivity|].
  set (group := first :: rest).
  set (values := StudyTechniques.performances group).
  unfold StudyTechniques.effectiveness_of. fold values.
  cbn [StudyTechniques.sessionCount StudyTechniques.ef_averageImprovement
       StudyTechniques.effectivenessRating].
  split; [discriminate|]. split; [reflexivity|].
  assert (Hpos : forall x, In x values -> 0 <= x).
  { intros x Hx. unfold values, StudyTechniques.performances in Hx.
    apply filter_In in Hx. apply Qlt_le_weak, Qltb_true, Hx. }
  pose proof (mean_nonnegative values Hpos) as Hmean.
  unfold mean in *.
  destruct (0 <? List.length values)%nat eqn:E.
  - apply Nat.ltb_lt in E.
    assert (Hne : values <> [])
      by (destruct values; [simpl in E; lia | discriminate]).
    set (average := Js.div (Js.sum values) (Js.count (List.length values))) in *.
    cbn [andb].
    split; [reflexivity|].
    split; [apply round_nonnegative, Hmean|].
    destruct (Js.geb average 70) eqn:E70.
    + rewrite (geb_weaken average 50 70) by (try discriminate; exact E70).
      split; [split; [intros _; auto | reflexivity]|].
      split; (split; [discriminate|]).
      * intros (_ & H & _). discriminate.
      * intros [H|H]; [congruence | discriminate].
    + split; [split; [destruct (Js.geb average 50); discriminate
                     | intros [_ H]; discriminate]|].
      destruct (Js.geb average 50) eqn:E50.
      * split; [split; [intros _; auto | reflexivity]|].
        split; [discriminate|].
        intros [H|H]; [congruence | discriminate].
      * split; [split; [discriminate | intros (_ & _ & H); discriminate]|].
        split; [intros _; right; reflexivity | reflexivity].
  - apply Nat.ltb_ge in E.
    assert (Hnil : values = [])
      by (destruct values; [reflexivity | simpl in E; lia]).
    cbn [andb]. rewrite Hnil.
    split; [reflexivity|]. split; [cbn; lia|].
    split; [split; [discriminate | intros [H _]; congruence]|].
    split; [split; [discriminate | intros [H _]; congruence]|].
    split; [intros _; left; reflexivity | reflexivity].
Qed.

(* ================================================================== *)
(** * Totals of the course report *)
(* ================================================================== *)

(** Rows that refer to one of several items with distinct ids are
    divided among the items. *)
Section PartitionFacts.

Variables A M : Type.
Variable key : A -> string.
Variable id : M -> string.

Lemma count_key (ms : list M) (k : string) :
  NoDup (map id ms) ->
  list_sum (map (fun m => if String.eqb k (id m) then 1 else 0)%nat ms)
  = (if existsb (fun m => String.eqb (id m) k) ms then 1 else 0)%nat.
Proof.
  induction ms as [|m ms IH]; intros Hnd; simpl; [reflexivity|].
  inversion Hnd as [|? ? Hfresh Hrest]; subst.
  rewrite (IH Hrest), (String.eqb_sym (id m) k).
  destruct (String.eqb k (id m)) eqn:E; simpl; [|reflexivity].
  apply String.eqb_eq in E. subst k.
  destruct (existsb (fun m0 => String.eqb (id m0) (id m)) ms) eqn:Ex;
    [|reflexivity].
  exfalso. apply Hfresh. apply existsb_exists in Ex.
  destruct Ex as (m' & Hm' & Heq). apply String.eqb_eq in Heq.
  rewrite <- Heq. apply in_map, Hm'.
Qed.

Lemma list_sum_plus (B : Type) (f g : B -> nat) (l : list B) :
  list_sum (map (fun b => f b + g b)%nat l)
  = (list_sum (map f l) + list_sum (map g l))%nat.
Proof. induction l as [|b l IH]; simpl; [reflexivity|]. rewrite IH. lia. Qed.

Lemma partition_count (ms : list M) (l : list A) :
  NoDup (map id ms) ->
  list_sum (map (fun m => List.length
                            (filter (fun x => String.eqb (key x) (id m)) l))
                ms)
  = List.length
      (filter (fun x => existsb (fun m => String.eqb (id m) (key x)) ms) l).
Proof.
  intros Hnd. induction l as [|x l IH]; simpl.
  - clear Hnd. induction ms as [|m ms IHm]; simpl; [reflexivity | exact IHm].
  - rewrite (map_ext _ (fun m =>
               (if String.eqb (key x) (id m) then 1 else 0)
               + List.length (filter (fun x => String.eqb (key x) (id m)) l))%nat)
      by (intros m; destruct (String.eqb (key x) (id m)); reflexivity).
    rewrite list_sum_plus, IH, (count_key ms (key x) Hnd).
    destruct (existsb (fun m => String.eqb (id m) (key x)) ms); reflexivity.
Qed.

End PartitionFacts.

Section CourseTotalsFacts.

Import ExportReport.

Lemma filter_idem (A : Type) (p : A -> bool) (l : list A) :
  filter p (filter p l) = filter p l.
Proof.
  rewrite filter_twice. apply filter_ext. intros x. destruct (p x); reflexivity.
Qed.

(** A session has one type. *)
Lemma session_types_disjoint (l : list Session) :
  (count_type l "active_recall" + count_type l "pomodoro"
   + count_type l "feynman" + count_type l "retrieval_practice"
   <= List.length l)%nat.
Proof.
  unfold count_type. induction l as [|s l IH]; simpl; [lia|].
  destruct (String.eqb (session_type s) "active_recall") eqn:E1,
           (String.eqb (session_type s) "pomodoro") eqn:E2,
           (String.eqb (session_type s) "feynman") eqn:E3,
           (String.eqb (session_type s) "retrieval_practice") eqn:E4;
    rewrite ?String.eqb_eq in *; try congruence; simpl; lia.
Qed.

Lemma filter_or_empty_idem (A : Type) (p : A -> bool) (rows : option (list A)) :
  filter p (filter_or_empty p rows) = filter_or_empty p rows.
Proof. destruct rows; simpl; [apply filter_idem | reflexivity]. Qed.

End CourseTotalsFacts.

(** X17.  When the modules of a course have distinct ids, the totals of
    a detailed course report are the sums over its modules: the
    sessions, the materials and the progress rows of the course are
    divided among the modules.  The students of the course, counted
    once each, are at most the sum of the students of the modules.  In
    every module the completed students and those needing remedial
    work are at most its students, [materials] has [totalMaterials]
    elements, and the four counts by type add up to at most its
    sessions. *)
Theorem X17_course_totals_add_up
        (includeDetails : Js.json)
        (modules_rows : option (list ExportReport.Module_))
        (courseMaterials : option (list ExportReport.Material))
        (userProgress : option (list ExportReport.Progress))
        (allSessions : list ExportReport.Session)
        (course : Course) (details : list ExportReport.ModuleAnalysis) :
  let report :=
    ExportReport.analyse_course includeDetails modules_rows courseMaterials
                                userProgress allSessions course in
  ExportReport.modules report = ExportReport.ModuleList details ->
  NoDup (map ExportReport.m_id (course_modules modules_rows course)) ->
  list_sum (map ExportReport.ma_totalSessions details)
    = ExportReport.totalSessions report /\
  list_sum (map ExportReport.ma_totalMaterials details)
    = ExportReport.totalMaterials report /\
  list_sum (map ExportReport.ma_totalStudents details)
    = List.length (course_progress modules_rows userProgress course) /\
  (ExportReport.totalStudents report
   <= list_sum (map ExportReport.ma_totalStudents details))%nat /\
  forall m, In m details ->
    (ExportReport.ma_completedStudents m <= ExportReport.ma_totalStudents m)%nat /\
    (ExportReport.ma_needRemedial m <= ExportReport.ma_totalStudents m)%nat /\
    List.length (ExportReport.ma_materials m) = ExportReport.ma_totalMaterials m /\
    (ExportReport.active_recall (ExportReport.ma_sessionsByType m)
     + ExportReport.pomodoro (ExportReport.ma_sessionsByType m)
     + ExportReport.feynman (ExportReport.ma_sessionsByType m)
     + ExportReport.retrieval_practice (ExportReport.ma_sessionsByType m)
     <= ExportReport.ma_totalSessions m)%nat.
Proof.
  intros report. unfold report, ExportReport.analyse_course.
  cbn [ExportReport.modules ExportReport.totalSessions
       ExportReport.totalMaterials ExportReport.totalStudents].
  fold (course_modules modules_rows course).
  fold (course_progress modules_rows userProgress course).
  set (ms := course_modules modules_rows course).
  set (progress := course_progress modules_rows userProgress course).
  set (in_course := fun module_id : string =>
         existsb (fun m => String.eqb (ExportReport.m_id m) module_id) ms).
  set (mats := ExportReport.filter_or_empty
                 (fun m => in_course (ExportReport.mat_module_id m))
                 courseMaterials).
  set (sessions := filter (fun s => in_course (ExportReport.s_module_id s))
                          allSessions).
  destruct (Js.truthy includeDetails); [|discriminate].
  intros [= <-] Hnd.
  rewrite !map_map.
  cbn [ExportReport.analyse_module ExportReport.ma_totalSessions
       ExportReport.ma_totalMaterials ExportReport.ma_totalStudents].
  assert (Hsessions :
            list_sum (map (fun m => List.length
                                      (filter (fun s => String.eqb
                                                          (ExportReport.s_module_id s)
                                                          (ExportReport.m_id m))
                                              sessions)) ms)
            = List.length sessions).
  { rewrite (partition_count _ _ ExportReport.s_module_id ExportReport.m_id
                             ms sessions Hnd).
    unfold sessions. fold in_course.
    rewrite (filter_idem _ (fun s => in_course (ExportReport.s_module_id s))).
    reflexivity. }
  assert (Hmats :
            list_sum (map (fun m => List.length
                                      (filter (fun x => String.eqb
                                                          (ExportReport.mat_module_id x)
                                                          (ExportReport.m_id m))
                                              mats)) ms)
            = List.length mats).
  { rewrite (partition_count _ _ ExportReport.mat_module_id ExportReport.m_id
                             ms mats Hnd).
    unfold mats. fold in_course.
    rewrite (filter_or_empty_idem
               _ (fun m => in_course (ExportReport.mat_module_id m))).
    reflexivity. }
  assert (Hprogress :
            list_sum (map (fun m => List.length
                                      (filter (fun p => String.eqb
                                                          (ExportReport.p_module_id p)
                                                          (ExportReport.m_id m))
                                              progress)) ms)
            = List.length progress).
  { rewrite (partition_count _ _ ExportReport.p_module_id ExportReport.m_id
                             ms progress Hnd).
    unfold progress, course_progress. fold ms. fold in_course.
    rewrite (filter_or_empty_idem
               _ (fun p => in_course (ExportReport.p_module_id p))).
    reflexivity. }
  split; [exact Hsessions|]. split; [exact Hmats|]. split; [exact Hprogress|].
  split.
  - rewrite Hprogress.
    pose proof (set_size_le (map ExportReport.p_user_id progress)
                            (map ExportReport.p_user_id progress)
                            (incl_refl _)) as H.
    rewrite length_map in H. exact H.
  - intros m Hm. apply in_map_iff in Hm. destruct Hm as (module & <- & _).
    cbn [ExportReport.analyse_module ExportReport.ma_completedStudents
         ExportReport.ma_totalStudents ExportReport.ma_needRemedial
         ExportReport.ma_materials ExportReport.ma_totalMaterials
         ExportReport.ma_sessionsByType ExportReport.ma_totalSessions
         ExportReport.active_recall ExportReport.pomodoro ExportReport.feynman
         ExportReport.retrieval_practice].
    split; [apply filter_length_le|]. split; [apply filter_length_le|].
    split; [apply length_map|]. apply session_types_disjoint.
Qed.

(* ================================================================== *)
(** * The summary of the export *)
(* ================================================================== *)

Section ExportSummaryFacts.

Import ExportHandler.

Lemma count_type_app (l l' : list ExportReport.Session) (type : string) :
  ExportReport.count_type (l ++ l') type
  = (ExportReport.count_type l type + ExportReport.count_type l' type)%nat.
Proof. unfold ExportReport.count_type. rewrite filter_app, length_app. reflexivity. Qed.

Lemma count_type_tag (type type' : string) (l : list StudyTechniques.Session) :
  ExportReport.count_type (map (tag type) l) type'
  = if String.eqb type type' then List.length l else 0%nat.
Proof.
  unfold ExportReport.count_type.
  induction l as [|s l IH]; simpl; [destruct (String.eqb type type'); reflexivity|].
  destruct (String.eqb type type'); simpl; rewrite IH; reflexivity.
Qed.

Lemma passed_rate_bounds (rows : list ExportReport.Progress) :
  exists z, ExportReport.passed_rate rows = Js.RInt z /\ (0 <= z <= 100)%Z.
Proof.
  destruct (passed_rate_integer rows) as (z & Hz & Hb & _).
  exists z. split; assumption.
Qed.

Lemma fold_left_ext_in (A B : Type) (f g : B -> A -> B) (l : list A) (b : B) :
  (forall b a, In a l -> f b a = g b a) -> fold_left f l b = fold_left g l b.
Proof.
  revert b. induction l as [|a l IH]; intros b H; simpl; [reflexivity|].
  rewrite H by (left; reflexivity). apply IH.
  intros b' a' Ha'. apply H. right. exact Ha'.
Qed.

(** The integer that a value of [Math.round] holds. *)
Lemma fold_add_rounded (field : ExportReport.CourseAnalysis -> Js.rounded)
      (l : list ExportReport.CourseAnalysis) (a : Js.num) :
  (forall c, In c l -> exists z, field c = Js.RInt z) ->
  fold_left (fun sum c => add_rounded sum (field c)) l a
  = fold_left (fun sum c =>
                 Js.add sum (Js.Fin (match field c with
                                     | Js.RInt z => inject_Z z
                                     | _ => 0
                                     end)))
              l a.
Proof.
  intros H. apply fold_left_ext_in. intros b c Hc.
  destruct (H c Hc) as (z & ->). reflexivity.
Qed.

(** The average of integers between 0 and [B] is a non-negative
    integer, provided sums that have reached [M] no longer grow. *)
Lemma average_across_integer (field : ExportReport.CourseAnalysis -> Js.rounded)
      (l : list ExportReport.CourseAnalysis) (M : Q) (B : Z) :
  Js.nearest (M + inject_Z B) == M -> 0 < M -> M < Js.pow2 1024 ->
  (forall c, In c l -> exists z, field c = Js.RInt z /\ (0 <= z <= B)%Z) ->
  exists z,
    average_across field l = Js.RInt z /\ (0 <= z)%Z /\ (l = [] -> z = 0%Z).
Proof.
  intros Hfix HM0 Hmax Hint. unfold average_across.
  destruct (0 <? List.length l)%nat eqn:E.
  - apply Nat.ltb_lt in E.
    rewrite fold_add_rounded
      by (intros c Hc; destruct (Hint c Hc) as (z & Hz & _); exists z; exact Hz).
    destruct (fold_add_saturated
                _ (fun c => match field c with
                            | Js.RInt z => inject_Z z
                            | _ => 0
                            end) M (inject_Z B) l 0 Hfix Hmax)
      as (y & Hy & Hy0 & HyM).
    + intros c Hc. destruct (Hint c Hc) as (z & -> & Hz).
      rewrite <- !Zle_Qle. change 0 with (inject_Z 0).
      rewrite <- Zle_Qle. lia.
    + apply Qle_refl.
    + apply Qlt_le_weak, HM0.
    + rewrite Hy. unfold div_count.
      assert (Hdiv : exists q, Js.div (Js.Fin y) (Js.count (List.length l))
                               = Js.Fin q /\ 0 <= q).
      { unfold Js.count. cbn [Js.div]. rewrite (of_nat_nonzero _ E).
        destruct (double_below (y / Js.of_nat (List.length l)) (M + inject_Z B))
          as (q & Hq & Hq0 & _).
        - apply Qle_shift_div_l; [apply of_nat_pos, E|]. lra.
        - apply Qle_shift_div_r; [apply of_nat_pos, E|].
          assert (Hn1 : 1 <= Js.of_nat (List.length l)).
          { unfold Js.of_nat. change 1 with (inject_Z 1).
            rewrite <- Zle_Qle. lia. }
          assert (HB : 0 <= inject_Z B).
          { destruct l as [|c l']; [simpl in E; lia|].
            destruct (Hint c) as (z & _ & Hz); [left; reflexivity|].
            change 0 with (inject_Z 0). rewrite <- Zle_Qle. lia. }
          apply Qle_trans with ((M + inject_Z B) * 1); [lra|].
          apply Qmult_le_l; [lra | exact Hn1].
        - rewrite Hfix. exact Hmax.
        - exists q. auto. }
      destruct Hdiv as (q & Hq & Hq0). rewrite Hq.
      exists (Js.round_Q q). split; [reflexivity|].
      split; [apply round_Q_nonneg, Hq0|].
      intros ->. simpl in E. lia.
  - exists 0%Z. split; [reflexivity|]. split; [lia | reflexivity].
Qed.

(** The average of percentages is at most 100, for as many of them as
    an array can hold. *)
Lemma average_across_percentage
      (field : ExportReport.CourseAnalysis -> Js.rounded)
      (l : list ExportReport.CourseAnalysis) (z : Z) :
  (forall c, In c l -> exists r, field c = Js.RInt r /\ (0 <= r <= 100)%Z) ->
  array_length (List.length l) ->
  average_across field l = Js.RInt z -> (z <= 100)%Z.
Proof.
  intros Hint Hlen. unfold average_across.
  destruct (0 <? List.length l)%nat eqn:E; [|intros [= <-]; lia].
  apply Nat.ltb_lt in E.
  rewrite fold_add_rounded
    by (intros c Hc; destruct (Hint c Hc) as (r & Hr & _); exists r; exact Hr).
  destruct (fold_add_linear
              _ (fun c => match field c with
                          | Js.RInt z => inject_Z z
                          | _ => 0
                          end) l 0 0)
    as (y & Hy & Hy0 & Hyc).
  - intros c Hc. destruct (Hint c Hc) as (r & -> & Hr).
    change 0 with (inject_Z 0). change 100 with (inject_Z 100).
    rewrite <- !Zle_Qle. lia.
  - apply Qle_refl.
  - apply Qle_refl.
  - exact Hlen.
  - rewrite Hy. unfold div_count. cbn [Nat.add] in Hyc.
    destruct (div_count_between y 100 (List.length l))
      as (q & Hq & _ & Hqc);
      [exact Hy0 | exact Hyc | exact E | reflexivity
       | apply pow2_1024_large; discriminate |].
    rewrite Hq. intros [= <-]. apply round_Q_le_100, Hqc.
Qed.

End ExportSummaryFacts.

(** X18.  In the summary of an export the four session counts by type
    are the numbers of rows fetched from the four session tables, and
    they add up to [totalSessions]; the completed sessions are at most
    the sessions and the active courses at most the courses.  The
    average completion rate is a non-negative integer, at most 100 for
    as many courses as an array can hold; the average score across
    courses is a non-negative integer when the scores lie between 0
    and 100, at most 100 for as many courses and progress rows as an
    array can hold; without courses both are 0. *)
Theorem X18_export_summary
        (includeDetails : Js.json) (instructorCourses : list Course)
        (modules_rows : option (list ExportReport.Module_))
        (courseMaterials : option (list ExportReport.Material))
        (userProgress : option (list ExportReport.Progress))
        (studentIds : list string)
        (activeRecallSessions pomodoroSessions feynmanSessions
         retrievalSessions : list StudyTechniques.Session) :
  let all := ExportHandler.allSessions activeRecallSessions pomodoroSessions
                                       feynmanSessions retrievalSessions in
  let courses := ExportReport.courseAnalysis includeDetails instructorCourses
                   modules_rows courseMaterials userProgress all in
  let s := ExportHandler.summary instructorCourses modules_rows courseMaterials
                                 studentIds all courses in
  let progress := match userProgress with Some rows => rows | None => [] end in
  ExportHandler.sessionsByType s
    = {| ExportReport.active_recall := List.length activeRecallSessions;
         ExportReport.pomodoro := List.length pomodoroSessions;
         ExportReport.feynman := List.length feynmanSessions;
         ExportReport.retrieval_practice := List.length retrievalSessions |} /\
  ExportHandler.totalSessions s
    = (List.length activeRecallSessions + List.length pomodoroSessions
       + List.length feynmanSessions + List.length retrievalSessions)%nat /\
  (ExportHandler.completedSessions s <= ExportHandler.totalSessions s)%nat /\
  (ExportHandler.activeCourses s <= ExportHandler.totalCourses s)%nat /\
  ExportHandler.totalStudents s = List.length studentIds /\
  (exists rate,
      ExportHandler.averageCompletionRate s = Js.RInt rate /\
      (0 <= rate)%Z /\
      (array_length (List.length instructorCourses) -> (rate <= 100)%Z)) /\
  (instructorCourses = [] ->
   ExportHandler.averageScoreAcrossCourses s = Js.RInt 0 /\
   ExportHandler.averageCompletionRate s = Js.RInt 0) /\
  ((forall p, In p progress ->
              0 <= ExportReport.best_score_of p /\
              ExportReport.best_score_of p <= 100) ->
   exists score,
     ExportHandler.averageScoreAcrossCourses s = Js.RInt score /\
     (0 <= score)%Z /\
     (array_length (List.length instructorCourses) ->
      array_length (List.length progress) -> (score <= 100)%Z)).
Proof.
  intros all courses s progress. unfold s, ExportHandler.summary.
  cbn [ExportHandler.sessionsByType ExportHandler.totalSessions
       ExportHandler.completedSessions ExportHandler.activeCourses
       ExportHandler.totalCourses ExportHandler.totalStudents
       ExportHandler.averageScoreAcrossCourses
       ExportHandler.averageCompletionRate].
  split.
  { unfold all, ExportHandler.allSessions.
    rewrite !count_type_app, !count_type_tag. simpl.
    f_equal; lia. }
  split.
  { unfold all, ExportHandler.allSessions.
    rewrite !length_app, !length_map. lia. }
  split; [apply filter_length_le|]. split; [apply filter_length_le|].
  split; [reflexivity|].
  assert (Hcourses : List.length courses = List.length instructorCourses).
  { unfold courses, ExportReport.courseAnalysis. apply length_map. }
  assert (Hrate : forall c, In c courses ->
                            exists z, ExportReport.completionRate c = Js.RInt z /\
                                      (0 <= z <= 100)%Z).
  { intros c Hc. unfold courses, ExportReport.courseAnalysis in Hc.
    apply in_map_iff in Hc. destruct Hc as (course & <- & _).
    unfold ExportReport.analyse_course. cbn [ExportReport.completionRate].
    apply passed_rate_bounds. }
  split.
  { destruct (average_across_integer ExportReport.completionRate courses
                                     (Js.pow2 60) 100)
      as (rate & Hr & Hr0 & _);
      [vm_compute; reflexivity | apply pow2_pos | apply pow2_lt; lia
       | exact Hrate |].
    exists rate. split; [exact Hr|]. split; [exact Hr0|].
    intros Hlen. apply (average_across_percentage _ courses rate Hrate);
      [rewrite Hcourses; exact Hlen | exact Hr]. }
  split.
  { intros Hnil.
    assert (Hc : courses = []) by (unfold courses; rewrite Hnil; reflexivity).
    rewrite Hc. split; reflexivity. }
  intros Hscores.
  assert (Hcourse : forall c, In c courses ->
             exists z, ExportReport.averageScore c = Js.RInt z /\
                       (0 <= z <= 2 ^ 60)%Z /\
                       (array_length (List.length progress) -> (z <= 100)%Z)).
  { intros c Hc. unfold courses, ExportReport.courseAnalysis in Hc.
    apply in_map_iff in Hc. destruct Hc as (course & <- & _).
    unfold ExportReport.analyse_course. cbn [ExportReport.averageScore].
    match goal with
    | |- context [ExportReport.average_best_score ?rows] =>
        assert (Hsub : forall p, In p rows -> In p progress);
        [|assert (Hlen : (List.length rows <= List.length progress)%nat);
          [|destruct (average_best_score_integer rows) as (z & Hz & Hb & H100);
            [intros p Hp; apply Hscores, Hsub, Hp|]]]
    end.
    - intros p Hp. unfold ExportReport.filter_or_empty in Hp.
      unfold progress. destruct userProgress as [rows|]; [|destruct Hp].
      apply filter_In in Hp. apply Hp.
    - unfold ExportReport.filter_or_empty, progress.
      destruct userProgress as [rows|]; [apply filter_length_le | simpl; lia].
    - exists z. split; [exact Hz|]. split; [exact Hb|].
      intros Hp. apply H100. unfold array_length in *. lia. }
  destruct (average_across_integer ExportReport.averageScore courses
                                   (Js.pow2 114) (2 ^ 60))
    as (score & Hs & Hs0 & _);
    [vm_compute; reflexivity | apply pow2_pos | apply pow2_lt; lia | |].
  { intros c Hc. destruct (Hcourse c Hc) as (z & Hz & Hb & _).
    exists z. split; assumption. }
  exists score. split; [exact Hs|]. split; [exact Hs0|].
  intros Hlen Hplen.
  apply (average_across_percentage ExportReport.averageScore courses score);
    [|rewrite Hcourses; exact Hlen | exact Hs].
  intros c Hc. destruct (Hcourse c Hc) as (z & Hz & Hb & H100).
  exists z. split; [exact Hz|]. split; [lia | apply H100, Hplen].
Qed.

(* ================================================================== *)
(** * The student progress report *)
(* ================================================================== *)

Section StudentReportFacts.

Import ExportHandler.

Lemma filter_comm (A : Type) (p q : A -> bool) (l : list A) :
  filter p (filter q l) = filter q (filter p l).
Proof.
  rewrite !filter_twice. apply filter_ext. intros x. apply andb_comm.
Qed.

Lemma filter_all (A : Type) (p : A -> bool) (l : list A) :
  (forall x, In x l -> p x = true) -> filter p l = l.
Proof.
  induction l as [|x l IH]; intros H; simpl; [reflexivity|].
  rewrite (H x) by (left; reflexivity).
  rewrite IH by (intros y Hy; apply H; right; exact Hy). reflexivity.
Qed.

(** The rows of a student in the courses of the instructor are divided
    among these courses. *)
Lemma course_rows_partition (courses : list Course) (rows : list ProgressRow) :
  NoDup (map c_id courses) ->
  (forall p, In p rows -> in_ids (map c_id courses) (course_id p) = true) ->
  list_sum (map (fun c => List.length
                            (filter (fun p => String.eqb (course_id p) (c_id c))
                                    rows))
                courses)
  = List.length rows.
Proof.
  intros Hnd Hin.
  rewrite (partition_count _ _ course_id c_id courses rows Hnd).
  rewrite filter_all; [reflexivity|].
  intros p Hp. specialize (Hin p Hp). unfold in_ids in Hin.
  apply existsb_exists in Hin. destruct Hin as (k & Hk & Heq).
  apply in_map_iff in Hk. destruct Hk as (c & <- & Hc).
  apply existsb_exists. exists c. split; [exact Hc|].
  rewrite String.eqb_sym. exact Heq.
Qed.

End StudentReportFacts.

(** X19.  The student progress report has one entry for every fetched
    row of [users], each an enrolled student, with one course entry
    for every course of the instructor.  When the courses have
    distinct ids, the modules, the completed modules and the modules
    needing remedial work of a student add up over the courses to the
    overall numbers.  The module details of a course are listed when
    [includeDetails] is truthy and empty otherwise. *)
Theorem X19_student_progress_report
        (db : ExportHandler.Store) (includeDetails : Js.json)
        (instructorCourses : list Course) (studentIds : list string)
        (r : ExportHandler.StudentReport) :
  let courseIds := map c_id instructorCourses in
  let report :=
    ExportHandler.studentProgressReport
      includeDetails instructorCourses
      (ExportHandler.fetch_students db studentIds)
      (ExportHandler.fetch_progress db studentIds courseIds) in
  NoDup courseIds ->
  In r report ->
  let overall := ExportHandler.sr_overallProgress r in
  let courses := ExportHandler.sr_courseProgress r in
  In (ExportHandler.sr_studentId r) studentIds /\
  map ExportHandler.cp_courseId courses = courseIds /\
  list_sum (map ExportHandler.cp_totalModules courses)
    = ExportHandler.op_totalModules overall /\
  list_sum (map ExportHandler.cp_completedModules courses)
    = ExportHandler.op_completedModules overall /\
  list_sum (map ExportHandler.cp_needRemedial courses)
    = ExportHandler.op_needRemedial overall /\
  (ExportHandler.op_completedModules overall
   <= ExportHandler.op_totalModules overall)%nat /\
  forall c, In c courses ->
    List.length (ExportHandler.cp_moduleDetails c)
    = if Js.truthy includeDetails then ExportHandler.cp_totalModules c
      else 0%nat.
Proof.
  intros courseIds report Hnd Hin overall courses.
  unfold report, ExportHandler.studentProgressReport in Hin.
  apply in_map_iff in Hin. destruct Hin as (row & Hr & Hrow).
  assert (Hstudent : In (u_id (ExportHandler.student row)) studentIds).
  { unfold ExportHandler.fetch_students in Hrow.
    destruct (ExportHandler.users db) as [rows|]; [|destruct Hrow].
    apply filter_In in Hrow. apply in_ids_In, Hrow. }
  unfold overall, courses. rewrite <- Hr.
  unfold ExportHandler.student_report.
  cbn [ExportHandler.sr_studentId ExportHandler.sr_overallProgress
       ExportHandler.sr_courseProgress ExportHandler.op_totalModules
       ExportHandler.op_completedModules ExportHandler.op_needRemedial].
  set (mine := match ExportHandler.fetch_progress db studentIds courseIds with
               | Some rows =>
                   filter (fun p => String.eqb
                                      (ExportReport.p_user_id
                                         (ExportHandler.progress p))
                                      (u_id (ExportHandler.student row)))
                          rows
               | None => []
               end).
  assert (Hmine : forall p, In p mine ->
                            in_ids courseIds (ExportHandler.course_id p) = true).
  { intros p Hp. unfold mine, ExportHandler.fetch_progress in Hp.
    destruct (ExportHandler.user_module_progress db) as [rows|]; [|destruct Hp].
    apply filter_In in Hp. destruct Hp as [Hp _].
    apply filter_In in Hp. destruct Hp as [_ Hp].
    apply andb_true_iff in Hp. apply Hp. }
  split; [exact Hstudent|].
  rewrite !map_map.
  cbn [ExportHandler.course_progress ExportHandler.cp_courseId
       ExportHandler.cp_totalModules ExportHandler.cp_completedModules
       ExportHandler.cp_needRemedial].
  split; [reflexivity|].
  split; [apply (course_rows_partition instructorCourses mine Hnd Hmine)|].
  split.
  { rewrite (map_ext _ (fun c => List.length
                                   (filter (fun p => String.eqb
                                                       (ExportHandler.course_id p)
                                                       (c_id c))
                                           (filter ExportHandler.is_completed mine))))
      by (intros c; rewrite filter_comm; reflexivity).
    apply (course_rows_partition instructorCourses _ Hnd).
    intros p Hp. apply filter_In in Hp. apply Hmine, Hp. }
  split.
  { rewrite (map_ext _ (fun c => List.length
                                   (filter (fun p => String.eqb
                                                       (ExportHandler.course_id p)
                                                       (c_id c))
                                           (filter (fun p =>
                                                      ExportReport.p_needs_remedial
                                                        (ExportHandler.progress p))
                                                   mine))))
      by (intros c; rewrite filter_comm; reflexivity).
    apply (course_rows_partition instructorCourses _ Hnd).
    intros p Hp. apply filter_In in Hp. apply Hmine, Hp. }
  split; [apply filter_length_le|].
  intros c Hc. apply in_map_iff in Hc. destruct Hc as (course & <- & _).
  cbn [ExportHandler.course_progress ExportHandler.cp_moduleDetails
       ExportHandler.cp_totalModules].
  destruct (Js.truthy includeDetails); [apply length_map | reflexivity].
Qed.

(* ================================================================== *)
(** * The export handler *)
(* ================================================================== *)

(** X20.  The export handler answers 401 exactly when the header
    [X-User-ID] is missing or empty and 403 exactly when it names no
    single row of [users] with the role instructor; every other request
    succeeds, whatever the enrolment procedure reports.  For an
    instructor without courses the data hold the fixed summary text.
    Otherwise [exportType] selects the data: the overview for
    ['overview'], the overview with the student progress for
    ['comprehensive'], the student export for ['student-progress'],
    and the empty object for anything else.  The overview carries the
    id of the instructor as [instructorEmail] and counts the enrolled
    students; the student export counts its own entries, which are
    enrolled students. *)
Theorem X20_export_handler
        (cal : Js.Calendar) (toISOString : Z -> string)
        (db : ExportHandler.Store) (now : Z) (request : ExportHandler.Request) :
  let acc := ExportHandler.accounts db in
  match ExportHandler.POST cal toISOString db now request with
  | Failure status error =>
      (status = 401%nat /\ error = "Authentication required"%string /\
       Js.truthy_string (ExportHandler.x_user_id request) = None)
      \/ (status = 403%nat /\
          error = "Access denied. Instructor role required."%string /\
          exists userId,
            Js.truthy_string (ExportHandler.x_user_id request) = Some userId /\
            ~ authorized_instructor acc (export_header request) userId)
  | Success data =>
      exists userId,
        authorized_instructor acc (export_header request) userId /\
        ExportHandler.generatedAt data = toISOString now /\
        export_shape acc request userId data
  end.
Proof.
  intros acc. unfold ExportHandler.POST. fold acc.
  destruct (Js.truthy_string (ExportHandler.x_user_id request))
    as [userId|] eqn:Hu; [|left; auto].
  assert (Hu' : Js.truthy_string (x_user_id (export_header request))
                = Some userId) by exact Hu.
  destruct (single_user (users_table acc) userId) as [profile|] eqn:Hp.
  2:{ right. repeat split. exists userId. split; [reflexivity|].
      apply not_authorized_without_profile, Hp. }
  pose proof (authorized_dec_role _ _ _ _ Hu' Hp) as Hauth.
  assert (Hid : u_id profile = userId).
  { apply single_user_filter in Hp. destruct Hp as (rows & _ & Hf).
    assert (Hin : In profile (filter (fun u => String.eqb (u_id u) userId) rows))
      by (rewrite Hf; left; reflexivity).
    apply filter_In in Hin. apply String.eqb_eq, Hin. }
  destruct (String.eqb_spec (u_role profile) "instructor") as [Hrole|Hrole];
    simpl negb; cbv iota.
  2:{ right. repeat split. exists userId. split; [reflexivity|].
      intros H. apply Hrole, Hauth, H. }
  apply Hauth in Hrole.
  fold (courses_of acc userId). fold (enrolled acc userId).
  destruct (courses_of acc userId) as [|c cs] eqn:Hc.
  { exists userId. split; [exact Hrole|]. split; [reflexivity|].
    unfold export_shape. simpl. rewrite Hc. auto. }
  exists userId. split; [exact Hrole|]. split; [reflexivity|].
  unfold export_shape. cbn [ExportHandler.exportData]. rewrite Hc.
  assert (Hne : c :: cs <> []) by discriminate.
  destruct (ExportHandler.exportType request) as [type|] eqn:Ht.
  2:{ simpl. repeat split; try assumption; discriminate. }
  unfold ExportHandler.is_one_of, ExportHandler.equals.
  destruct (String.eqb_spec type "student-progress") as [->|Hsp].
  { simpl. split; [exact Hne|]. split; [reflexivity|]. split; [reflexivity|].
    intros r Hr. unfold ExportHandler.studentProgressReport in Hr.
    apply in_map_iff in Hr. destruct Hr as (row & <- & Hrow). simpl.
    unfold ExportHandler.fetch_students in Hrow.
    destruct (ExportHandler.users db) as [rows|]; [|destruct Hrow].
    apply filter_In in Hrow. apply in_ids_In, Hrow. }
  destruct (String.eqb_spec type "comprehensive") as [->|Hco].
  { simpl. split; [exact Hne|]. split; [reflexivity|]. split; [exact Hid|].
    split; [reflexivity|]. split; [reflexivity|].
    unfold ExportReport.courseAnalysis. rewrite length_map. reflexivity. }
  destruct (String.eqb_spec type "overview") as [->|Hov].
  { simpl. split; [exact Hne|]. split; [reflexivity|]. split; [exact Hid|].
    split; [reflexivity|]. split; [reflexivity|].
    unfold ExportReport.courseAnalysis. rewrite length_map. reflexivity. }
  simpl. repeat split; try assumption; congruence.
Qed.

(* ================================================================== *)
(** * The range token *)
(* ================================================================== *)

(** X21.  A missing or empty [timeRange] is read as a month.  The
    token week gives 7 buckets and a period of 7 days, month 30 buckets
    and one month, quarter 90 buckets and three months; any other token
    gives 90 buckets although only the last month is fetched.  A
    successful response of [study-techniques-detailed] has no bucket or
    this number of buckets. *)
Theorem X21_range_tokens
        (cal : Js.Calendar) (other : StudyTechniques.OtherAnalytics)
        (db : StudyTechniques.Store) (now : Z) (request : Request) :
  let token := timeRange_param request in
  StudyTechniques.days (timeRange_of request) = token_days token /\
  startDate cal now (timeRange_of request) = token_start cal now token /\
  (forall t, Js.truthy_string token = Some t ->
             t <> "week"%string -> t <> "month"%string ->
             t <> "quarter"%string ->
             token_days token = 90%nat /\
             token_start cal now token = Js.add_months cal now (-1)) /\
  forall data,
    StudyTechniques.GET cal other db now request = Success data ->
    StudyTechniques.data_timeBasedAnalysis data = [] \/
    List.length (StudyTechniques.data_timeBasedAnalysis data) = token_days token.
Proof.
  intros token.
  assert (Hdays : StudyTechniques.days (timeRange_of request) = token_days token).
  { unfold StudyTechniques.days, timeRange_of, token_days. fold token.
    destruct (Js.truthy_string token) as [t|]; reflexivity. }
  split; [exact Hdays|].
  split.
  { unfold startDate, timeRange_of, token_start. fold token.
    destruct (Js.truthy_string token) as [t|]; [|reflexivity].
    destruct (String.eqb t "week"); [reflexivity|].
    destruct (String.eqb_spec t "month") as [->|_]; [reflexivity|].
    destruct (String.eqb t "quarter"); reflexivity. }
  split.
  { intros t Ht Hw Hm Hq. unfold token_days, token_start. rewrite Ht.
    apply String.eqb_neq in Hw, Hm, Hq. rewrite Hw, Hm, Hq. auto. }
  intros data. unfold StudyTechniques.GET.
  destruct (Js.truthy_string (x_user_id request)); [|discriminate].
  destruct (single_user _ _); [|discriminate].
  destruct (negb _); [discriminate|].
  destruct (match courses_table _ with Some _ => _ | None => _ end);
    [intros [= <-]; left; reflexivity|].
  destruct (rpc_error _); [discriminate|].
  destruct (match rpc_data _ with Some _ => _ | None => _ end);
    [intros [= <-]; left; reflexivity|].
  destruct (StudyTechniques.effectivenessMetrics _); [|discriminate].
  intros [= <-]. right.
  cbn [StudyTechniques.data_timeBasedAnalysis].
  unfold StudyTechniques.timeBasedAnalysis.
  rewrite buckets_down_length. exact Hdays.
Qed.

(* ================================================================== *)
(** * The order of the analytics rows *)
(* ================================================================== *)

Section OrderFacts.

Import AiInsights.

Lemma sort_sorted_id (A : Type) (cmp : A -> A -> Z) (l : list A) :
  StronglySorted (keeps_order cmp) l -> Js.sort cmp l = l.
Proof.
  induction 1 as [|x l Hl IH Hx]; simpl; [reflexivity|].
  rewrite IH. destruct l as [|y l']; [reflexivity|]. simpl.
  apply Forall_inv in Hx. unfold keeps_order in Hx.
  destruct (0 <? cmp x y)%Z eqn:E; [apply Z.ltb_lt in E; lia | reflexivity].
Qed.

Lemma StronglySorted_filter (A : Type) (R : A -> A -> Prop) (p : A -> bool)
      (l : list A) :
  StronglySorted R l -> StronglySorted R (filter p l).
Proof.
  induction 1 as [|x l Hl IH Hx]; simpl; [constructor|].
  destruct (p x); [|exact IH].
  constructor; [exact IH|].
  apply Forall_forall. intros y Hy. apply filter_In in Hy.
  rewrite Forall_forall in Hx. apply Hx, Hy.
Qed.

Lemma latest_first_by_time (cal : Js.Calendar) (l : list AnalyticsRow) :
  (forall s, In s l -> analysed_time cal s <> None) ->
  Js.sort (latest_first cal) l = Js.sort (by_time cal) l.
Proof.
  intros Hparse. apply sort_ext_in. intros x y Hx Hy.
  unfold latest_first, by_time.
  pose proof (Hparse x Hx) as Px. pose proof (Hparse y Hy) as Py.
  unfold analysed_time in *.
  destruct (Js.get_time cal (analyzed_at x)), (Js.get_time cal (analyzed_at y));
    congruence.
Qed.

(** The query lists the rows latest first. *)
Lemma fetch_analytics_sorted (cal : Js.Calendar) (db : Store)
      (studentIds : list string) (start : Z) (fetched : list AnalyticsRow) :
  fetch_analytics cal db studentIds start = Some fetched ->
  (forall s, In s fetched -> analysed_time cal s <> None) ->
  StronglySorted (keeps_order (by_time cal)) fetched.
Proof.
  unfold fetch_analytics.
  destruct (study_session_analytics db) as [rows|]; [|discriminate].
  intros [= <-] Hparse.
  rewrite latest_first_by_time.
  - apply sort_sorted, by_time_consistent.
  - intros s Hs. apply Hparse. apply sort_In. exact Hs.
Qed.

End OrderFacts.

(** X22.  The rows of a student reach the intervention loop in the
    order of the query, latest first.  An intervention therefore takes
    its date and its actions from the first row of the student, and
    its improvement trend is the earliest non-zero improvement
    percentage of the student minus the latest one, the difference
    being rounded to a double and then to an integer: the trend is
    negative when the percentages rise over time.  The actions are the
    advice of the first three recommendations of the first row whose
    priority is at most 2 or [null]. *)
Theorem X22_trend_compares_earliest_with_latest
        (cal : Js.Calendar) (db : AiInsights.Store)
        (studentIds : list string) (start : Z)
        (fetched : list AiInsights.AnalyticsRow) (students : JsObject.t User)
        (i : AiInsights.StudentIntervention) :
  AiInsights.fetch_analytics cal db studentIds start = Some fetched ->
  (forall s, In s fetched -> analysed_time cal s <> None) ->
  In i (AiInsights.studentInterventions cal fetched students) ->
  let mine := sessions_of (AiInsights.si_studentId i) fetched in
  StronglySorted (not_before cal) mine /\
  (exists latest rest,
      mine = latest :: rest /\
      AiInsights.si_lastAnalyzed i = AiInsights.analyzed_at latest /\
      AiInsights.si_recommendedActions i =
        map advice_of
            (firstn 3 (filter AiInsights.is_high_priority
                              (recommendations_of latest)))) /\
  AiInsights.si_improvementTrend i = Js.round (trend_between mine) /\
  (forall newest middle oldest,
      improvements mine = newest :: middle ++ [oldest] ->
      AiInsights.si_improvementTrend i
      = Js.round (Js.sub (Js.Fin oldest) (Js.Fin newest))).
Proof.
  intros Hfetch Hparse Hin mine.
  pose proof (fetch_analytics_sorted _ _ _ _ _ Hfetch Hparse) as Hsorted.
  assert (Hmine : StronglySorted (keeps_order (by_time cal)) mine)
    by (apply StronglySorted_filter, Hsorted).
  assert (Hparse' : forall s, In s mine -> analysed_time cal s <> None).
  { intros s Hs. apply Hparse. apply filter_In in Hs. apply Hs. }
  apply studentInterventions_In in Hin. destruct Hin as (d & Hentry & Hi).
  destruct (student_entry _ _ _ Hentry) as (Hs & Hne & _ & _ & Ht).
  fold mine in Hs.
  destruct (intervention_for_details _ _ _ _ _ Hi)
    as (_ & Htrend & _ & latest & others & Hsort & Hlast & Hact).
  rewrite Hs in Hsort.
  rewrite (latest_first_by_time cal mine Hparse') in Hsort.
  rewrite (sort_sorted_id _ _ _ Hmine) in Hsort.
  assert (Htb : AiInsights.si_improvementTrend i
                = Js.round (trend_between mine)).
  { rewrite Htrend, (trend_of_entry d Ht), Hs. reflexivity. }
  split.
  { eapply StronglySorted_weaken; [|exact Hmine].
    intros a b Hab ta tb Ha Hb. unfold keeps_order, by_time in Hab.
    rewrite Ha, Hb in Hab. lia. }
  split; [exists latest, others; auto|].
  split; [exact Htb|].
  intros newest middle oldest Himp. rewrite Htb.
  unfold trend_between. rewrite Himp.
  assert (Hlen : (2 <=? List.length (newest :: middle ++ [oldest]))%nat = true).
  { apply Nat.leb_le. simpl. rewrite length_app. simpl. lia. }
  rewrite Hlen.
  change (newest :: middle ++ [oldest]) with ((newest :: middle) ++ [oldest]).
  rewrite last_last. reflexivity.
Qed.

(* ================================================================== *)
(** * The ids of the teaching recommendations *)
(* ================================================================== *)

Section IdFacts.

Import AiInsights.

Lemma digits_value_dash (a b : string) (acc : N) :
  JsObject.digits_value (a ++ "-" ++ b) acc = None.
Proof.
  revert acc. induction a as [|c a IH]; intros acc; simpl.
  - reflexivity.
  - destruct (JsObject.is_digit c); [apply IH | reflexivity].
Qed.

(** A key [type-title] is never an array index. *)
Lemma rec_key_not_index (r : Recommendation) :
  JsObject.is_index (rec_key r) = false.
Proof.
  unfold JsObject.is_index.
  assert (H : JsObject.array_index (rec_key r) = None);
    [|rewrite H; reflexivity].
  unfold rec_key. generalize (rec_type r) (rec_title r). intros a b.
  destruct a as [|c a]; [reflexivity|].
  pose proof (digits_value_dash (String c a) b 0) as Hd.
  change (String c a ++ "-" ++ b)%string
    with (String c (a ++ "-" ++ b))%string in Hd |- *.
  unfold JsObject.array_index. rewrite Hd.
  destruct (Ascii.eqb c "0"); [|reflexivity].
  destruct a; reflexivity.
Qed.

Lemma entries_without_index (B : Type) (o : JsObject.t B) :
  (forall e, In e o -> JsObject.is_index (fst e) = false) ->
  JsObject.entries o = o.
Proof.
  intros H. unfold JsObject.entries.
  assert (H1 : filter (fun e => JsObject.is_index (fst e)) o = []).
  { induction o as [|e o IH]; simpl; [reflexivity|].
    rewrite (H e) by (left; reflexivity).
    apply IH. intros e' He'. apply H. right. exact He'. }
  assert (H2 : filter (fun e => negb (JsObject.is_index (fst e))) o = o).
  { apply filter_all. intros e He. rewrite (H e He). reflexivity. }
  rewrite H1, H2. reflexivity.
Qed.

Lemma keys_set_add (B : Type) (o : JsObject.t B) (k : string) (v : B) :
  keys (JsObject.set o k v) = Js.set_add (keys o) k.
Proof.
  unfold keys, Js.set_add. induction o as [|[k0 v0] o IH]; simpl.
  - reflexivity.
  - destruct (String.eqb k k0) eqn:E; simpl.
    + apply String.eqb_eq in E. subst k0. reflexivity.
    + rewrite IH. destruct (Js.set_mem k (map fst o)); reflexivity.
Qed.

(** The keys of an accumulated object are the distinct keys of the
    elements in the order of their first occurrence. *)
Lemma accumulate_keys (A B : Type) (key : A -> string) (init : A -> B)
      (upd : B -> A -> B) (l : list A) :
  keys (accumulate key init upd l) = Js.set_of_list (map key l).
Proof.
  unfold accumulate. induction l as [|a l IH] using rev_ind.
  - reflexivity.
  - rewrite fold_left_app, map_app. simpl.
    rewrite set_of_list_snoc, <- IH.
    unfold JsObject.upsert. apply keys_set_add.
Qed.

Lemma push_all_nth (students : JsObject.t User) (position : nat)
      (groups : list RecGroup) (t : TeachingRecommendation) :
  In t (push_all students position groups) ->
  exists k g, nth_error groups k = Some g /\
              t = teachingRecommendation students (position + k) g.
Proof.
  revert position. induction groups as [|g groups IH]; intros position; simpl.
  - contradiction.
  - intros [<-|H].
    + exists 0%nat, g. rewrite Nat.add_0_r. auto.
    + destruct (IH _ H) as (k & g' & Hk & ->).
      exists (S k), g'. split; [exact Hk|]. f_equal. lia.
Qed.

End IdFacts.

(** X23.  The ids of the teaching recommendations are given before the
    sort: [rec_k] is the recommendation whose key is the k-th of the
    distinct keys in the order of their first occurrence in the input,
    whatever its rank in the sorted list. *)
Theorem X23_recommendation_ids_follow_first_occurrence
        (analyticsData : list AiInsights.AnalyticsRow)
        (students : JsObject.t User) (t : AiInsights.TeachingRecommendation) :
  In t (AiInsights.teachingRecommendations analyticsData students) ->
  exists k,
    AiInsights.tr_id t = ("rec_" ++ Js.nat_to_string (k + 1))%string /\
    nth_error (keys_in_order analyticsData) k
      = Some (AiInsights.tr_type t ++ "-" ++ AiInsights.tr_title t)%string.
Proof.
  intros Hin. unfold AiInsights.teachingRecommendations in Hin.
  apply sort_In in Hin. apply push_all_nth in Hin.
  destruct Hin as (k & g & Hk & ->).
  exists k. split; [reflexivity|].
  unfold JsObject.values in Hk.
  assert (Hentries : JsObject.entries (AiInsights.recommendationCounts analyticsData)
                     = AiInsights.recommendationCounts analyticsData).
  { apply entries_without_index. intros [key g'] He. simpl.
    apply In_get in He; [|apply recommendationCounts_keys_NoDup].
    destruct (group_entry _ _ _ He) as (first & rest & _ & -> & _).
    apply rec_key_not_index. }
  rewrite Hentries in Hk.
  rewrite nth_error_map in Hk.
  destruct (nth_error (AiInsights.recommendationCounts analyticsData) k)
    as [[key g']|] eqn:En; [|discriminate].
  simpl in Hk. injection Hk as ->.
  assert (Hin : In (key, g) (JsObject.entries
                               (AiInsights.recommendationCounts analyticsData))).
  { rewrite Hentries. eapply nth_error_In, En. }
  apply group_key in Hin.
  cbn [AiInsights.teachingRecommendation AiInsights.tr_type AiInsights.tr_title].
  rewrite <- Hin.
  unfold keys_in_order.
  rewrite <- (accumulate_keys _ _ AiInsights.occ_key AiInsights.new_group
                              AiInsights.count_occurrence).
  rewrite <- recommendationCounts_accumulate.
  unfold keys. rewrite nth_error_map, En. reflexivity.
Qed.

(* ================================================================== *)
(** * The client side of the authentication *)
(* ================================================================== *)

(** X24.  The headers that [getAuthenticatedHeaders] returns carry the
    non-empty id of the session user, so a request sent with them is
    never answered 401 by the [GET] handlers.  The client check
    [checkAuthAndRole] with the role instructor agrees with the
    handlers: it reports the required role exactly for the user ids
    that the handlers accept as instructors. *)
Theorem X24_client_headers_and_role_check
        (cal : Js.Calendar)
        (analytics : StudyTechniques.OtherAnalytics)
        (db1 : AiInsights.Store) (db2 : StudyTechniques.Store) (now : Z)
        (session : AuthUtils.Session) (headers : JsObject.t string)
        (timeRange : option string) :
  AuthUtils.getAuthenticatedHeaders false (Some session)
    = AuthUtils.Returned headers ->
  let request := request_with headers timeRange in
  (exists id, AuthUtils.user_id session = Some id /\ id <> ""%string /\
              x_user_id request = Some id /\
              forall acc : Accounts,
                AuthUtils.hasRequiredRole
                  (AuthUtils.checkAuthAndRole (Some "instructor"%string) false
                                              (Some id) (users_table acc)) = true <->
                authorized_instructor acc request id) /\
  (forall error, AiInsights.GET cal db1 now request
                 <> Failure 401 error) /\
  (forall error, StudyTechniques.GET cal analytics db2 now request
                 <> Failure 401 error).
Proof.
  intros H request. unfold AuthUtils.getAuthenticatedHeaders in H.
  cbv beta iota in H.
  destruct (Js.truthy_string (AuthUtils.access_token session)) as [token|];
    [|discriminate H].
  destruct (Js.truthy_string (AuthUtils.user_id session)) as [id|] eqn:Hid;
    [|discriminate H].
  injection H as H. subst headers.
  assert (Hsome : AuthUtils.user_id session = Some id /\ id <> ""%string).
  { unfold Js.truthy_string in Hid.
    destruct (AuthUtils.user_id session) as [[|c s]|]; try discriminate.
    injection Hid as <-. split; [reflexivity | discriminate]. }
  destruct Hsome as [Hsession Hne].
  assert (Hheader : x_user_id request = Some id) by reflexivity.
  assert (Htruthy : Js.truthy_string (x_user_id request) = Some id).
  { rewrite Hheader. destruct id; [congruence | reflexivity]. }
  split.
  - exists id. split; [exact Hsession|]. split; [exact Hne|].
    split; [exact Hheader|].
    intros acc. unfold AuthUtils.checkAuthAndRole.
    destruct (single_user (users_table acc) id) as [profile|] eqn:Hp.
    + cbn [AuthUtils.hasRequiredRole Js.truthy_string].
      rewrite String.eqb_eq. symmetry.
      apply (authorized_dec_role acc request id profile Htruthy Hp).
    + cbn [AuthUtils.hasRequiredRole]. split; [discriminate|].
      intros H. exfalso.
      apply (not_authorized_without_profile acc request id Hp H).
  - split; intros error.
    + unfold AiInsights.GET. rewrite Htruthy.
      destruct (single_user _ id); [|discriminate].
      destruct (negb _); [discriminate|].
      destruct (match courses_table _ with Some _ => _ | None => _ end);
        [discriminate|].
      destruct (rpc_error _); [discriminate|].
      destruct (match rpc_data _ with Some _ => _ | None => _ end);
        [discriminate|].
      destruct (AiInsights.fetch_analytics _ _ _ _) as [[|? ?]|];
        try discriminate.
      destruct (AiInsights.learningPatternInsights _); [|discriminate].
      destruct (AiInsights.contentOptimizationSuggestions _); discriminate.
    + unfold StudyTechniques.GET. rewrite Htruthy.
      destruct (single_user _ id); [|discriminate].
      destruct (negb _); [discriminate|].
      destruct (match courses_table _ with Some _ => _ | None => _ end);
        [discriminate|].
      destruct (rpc_error _); [discriminate|].
      destruct (match rpc_data _ with Some _ => _ | None => _ end);
        [discriminate|].
      destruct (StudyTechniques.effectivenessMetrics _); discriminate.
Qed.

(** X25.  [handleAuthError] never returns an empty text.  The two
    errors that [getAuthenticatedHeaders] throws are worded as requests
    to log in, an error without a message, or with an empty one, as
    'Authentication error occurred', and a message that mentions none
    of the three known phrases is returned unchanged. *)
Theorem X25_auth_errors_are_worded
        (sessionError : bool) (session : option AuthUtils.Session) :
  (forall message, AuthUtils.handleAuthError message <> ""%string) /\
  (forall message,
      AuthUtils.getAuthenticatedHeaders sessionError session
        = AuthUtils.Thrown message ->
      (sessionError = true /\
       AuthUtils.handleAuthError (Some message)
         = "Authentication session expired. Please log in again"%string)
      \/ (sessionError = false /\
          AuthUtils.handleAuthError (Some message)
            = "Please log in to access this feature"%string)) /\
  AuthUtils.handleAuthError None = "Authentication error occurred"%string /\
  AuthUtils.handleAuthError (Some ""%string)
    = "Authentication error occurred"%string /\
  (forall message,
      AuthUtils.includes "No active authentication session" message = false ->
      AuthUtils.includes "Failed to get authentication session" message = false ->
      AuthUtils.includes "timeout" message = false ->
      message <> ""%string ->
      AuthUtils.handleAuthError (Some message) = message).
Proof.
  split; [|split; [|split; [|split]]].
  - intros message. unfold AuthUtils.handleAuthError.
    destruct message as [m|]; [|discriminate].
    destruct (AuthUtils.includes "No active authentication session" m);
      [discriminate|].
    destruct (AuthUtils.includes "Failed to get authentication session" m);
      [discriminate|].
    destruct (AuthUtils.includes "timeout" m); [discriminate|].
    destruct m; simpl; discriminate.
  - intros message. unfold AuthUtils.getAuthenticatedHeaders.
    destruct sessionError.
    + intros [= <-]. left. split; reflexivity.
    + intros H. right. split; [reflexivity|].
      assert (Hm : message = "No active authentication session"%string).
      { destruct session as [s|]; [|congruence].
        destruct (Js.truthy_string (AuthUtils.access_token s)),
          (Js.truthy_string (AuthUtils.user_id s)); congruence. }
      rewrite Hm. reflexivity.
  - reflexivity.
  - reflexivity.
  - intros message H1 H2 H3 Hne. unfold AuthUtils.handleAuthError.
    rewrite H1, H2, H3. destruct message; [congruence | reflexivity].
Qed.

(* ================================================================== *)
(** * The further statements at work *)
(* ================================================================== *)

Lemma X2_response_bounds_witness :
  AiInsights.GET Utc.calendar AlertExample.store
                 Example.now Example.request = Success AlertExample.data /\
  (List.length (AiInsights.data_teachingRecommendations AlertExample.data)
   <= 10)%nat /\
  AiInsights.data_studyPlanRecommendations AlertExample.data = [].
Proof.
  assert (HGET : AiInsights.GET Utc.calendar
                   AlertExample.store Example.now Example.request
                 = Success AlertExample.data)
    by (vm_compute; reflexivity).
  split; [exact HGET|].
  destruct (X2_response_bounds _ _ _ _ _ HGET) as (H1 & _ & _ & _ & _ & H6).
  split; assumption.
Defined.

Lemma X3_response_without_duplicates_witness :
  AiInsights.GET Utc.calendar AlertExample.store
                 Example.now Example.request = Success AlertExample.data /\
  map AiInsights.si_studentId
      (AiInsights.data_studentInterventions AlertExample.data)
    = ["ben"; "ana"; "cleo"]%string /\
  NoDup (map AiInsights.si_studentId
             (AiInsights.data_studentInterventions AlertExample.data)) /\
  NoDup (map AiInsights.pa_moduleId
             (AiInsights.data_performanceAlerts AlertExample.data)).
Proof.
  assert (HGET : AiInsights.GET Utc.calendar
                   AlertExample.store Example.now Example.request
                 = Success AlertExample.data)
    by (vm_compute; reflexivity).
  split; [exact HGET|]. split; [vm_compute; reflexivity|].
  destruct (X3_response_without_duplicates _ _ _ _ _ HGET) as (H1 & H2 & _).
  split; assumption.
Defined.

(** [cleo] alone, between 60 and 70 and flagged, counts twice: the
    remedial rate of her module is 200. *)
Lemma X5_module_counters_witness :
  In ("module-2"%string, AlertExample.second_module)
     (JsObject.entries
        (AiInsights.modulePerformanceMap (Some AlertExample.fetched_progress))) /\
  AiInsights.totalStudents AlertExample.second_module = 1%nat /\
  AiInsights.needsRemedial AlertExample.second_module = 2%nat /\
  AiInsights.remedialRate AlertExample.second_module = Js.Fin 200 /\
  exists failure, AiInsights.failureRate AlertExample.second_module
                  = Js.Fin failure /\ failure <= 100.
Proof.
  assert (Hin : In ("module-2"%string, AlertExample.second_module)
                   (JsObject.entries
                      (AiInsights.modulePerformanceMap
                         (Some AlertExample.fetched_progress))))
    by (vm_compute; auto).
  split; [exact Hin|].
  destruct (X5_module_counters _ _ _ Hin)
    as (Ht & _ & Hr & _ & _ & failure & remedial & Hf & _ & _ & Hle & _).
  split; [rewrite Ht; vm_compute; reflexivity|].
  split; [rewrite Hr; vm_compute; reflexivity|].
  split; [vm_compute; reflexivity|].
  exists failure. split; assumption.
Defined.

Lemma X6_intervention_details_witness :
  In (AlertExample.intervention_of "ana")
     (AiInsights.studentInterventions Utc.calendar AlertExample.fetched
                                      Example.students) /\
  AiInsights.si_sessionsAnalyzed (AlertExample.intervention_of "ana") = 1%nat /\
  List.length (AiInsights.si_reasons (AlertExample.intervention_of "ana"))
    = 1%nat /\
  (List.length (AiInsights.si_recommendedActions
                  (AlertExample.intervention_of "ana")) <= 3)%nat.
Proof.
  assert (Hin : In (AlertExample.intervention_of "ana")
                   (AiInsights.studentInterventions
                      Utc.calendar AlertExample.fetched Example.students))
    by (vm_compute; auto).
  split; [exact Hin|].
  destruct (X6_intervention_details _ _ _ _ Hin)
    as (Hn & _ & Hr & _ & latest & _ & _ & _ & Hlen & _).
  split; [rewrite Hn; vm_compute; reflexivity|].
  split; assumption.
Defined.

Lemma X7_recommendation_details_witness :
  In (AlertExample.recommendation_of Example.analytics 0)
     (AiInsights.teachingRecommendations Example.analytics Example.students) /\
  AiInsights.tr_affectedStudents
    (AlertExample.recommendation_of Example.analytics 0)
    = ["ana"; "ben"]%string /\
  (1 <= AiInsights.tr_affectedStudentsCount
          (AlertExample.recommendation_of Example.analytics 0))%nat /\
  (AiInsights.tr_affectedStudentsCount
     (AlertExample.recommendation_of Example.analytics 0)
   <= AiInsights.tr_frequency
        (AlertExample.recommendation_of Example.analytics 0))%nat.
Proof.
  assert (Hin : In (AlertExample.recommendation_of Example.analytics 0)
                   (AiInsights.teachingRecommendations Example.analytics
                                                       Example.students))
    by (vm_compute; auto).
  split; [exact Hin|]. split; [vm_compute; reflexivity|].
  destruct (X7_recommendation_details _ _ _ Hin)
    as (first & rest & _ & _ & _ & _ & _ & _ & H1 & H2 & _).
  split; assumption.
Defined.

Lemma X8_response_from_enrolled_students_only_witness :
  AiInsights.GET Utc.calendar AlertExample.store
                 Example.now Example.request = Success AlertExample.data /\
  map AiInsights.pa_moduleId (AiInsights.data_performanceAlerts AlertExample.data)
    = ["module-1"; "module-2"]%string /\
  map AiInsights.pa_totalStudents
      (AiInsights.data_performanceAlerts AlertExample.data) = [2; 1]%nat /\
  forall i, In i (AiInsights.data_studentInterventions AlertExample.data) ->
            In (AiInsights.si_studentId i) AlertExample.enrolled_ids.
Proof.
  assert (HGET : AiInsights.GET Utc.calendar
                   AlertExample.store Example.now Example.request
                 = Success AlertExample.data)
    by (vm_compute; reflexivity).
  split; [exact HGET|].
  split; [vm_compute; reflexivity|]. split; [vm_compute; reflexivity|].
  apply (proj1 (X8_response_from_enrolled_students_only
                  _ _ _ _ _ "prof"%string AlertExample.enrolled_ids
                  HGET eq_refl eq_refl)).
Defined.

Lemma X10_buckets_count_each_session_once_witness :
  StudyTechniques.data_timeBasedAnalysis TechniquesExample.data
    = WeekExample.series /\
  map StudyTechniques.total WeekExample.series = [0; 0; 1; 0; 0; 1; 2]%nat /\
  list_sum (map StudyTechniques.activeRecall WeekExample.series) = 3%nat /\
  (list_sum (map StudyTechniques.total WeekExample.series)
   <= List.length WeekExample.recall + List.length WeekExample.pomodoro + 0 + 0)%nat.
Proof.
  split; [vm_compute; reflexivity|]. split; [vm_compute; reflexivity|].
  destruct (proj2 (X10_buckets_count_each_session_once
                     Utc.calendar Example.now "week"
                     WeekExample.recall WeekExample.pomodoro [] []))
    as (H & _ & _ & _ & Hle).
  - vm_compute. repeat constructor; simpl; intuition discriminate.
  - intros d d' Hd Hd'. vm_compute in Hd, Hd'.
    repeat (destruct Hd as [<-|Hd];
            [repeat (destruct Hd' as [<-|Hd']; [reflexivity|]); destruct Hd'|]).
    destruct Hd.
  - split; [|exact Hle].
    change WeekExample.series
      with (StudyTechniques.timeBasedAnalysis
              Utc.calendar Example.now "week"
              WeekExample.recall WeekExample.pomodoro [] []).
    rewrite H. vm_compute. reflexivity.
Defined.

Lemma X12_learning_pattern_insights_witness :
  AiInsights.learningPatternInsights ListsExample.pattern_rows
    = Some ListsExample.insights /\
  map AiInsights.lp_pattern ListsExample.insights
    = ["strugglingConcepts"; "rapidLearning"]%string /\
  map AiInsights.lp_frequency ListsExample.insights = [3; 1]%nat /\
  map AiInsights.lp_studentsAffected ListsExample.insights = [2; 1]%nat /\
  NoDup (map AiInsights.lp_pattern ListsExample.insights) /\
  AiInsights.learningPatternInsights ListsExample.inherited_pattern_rows
    = None.
Proof.
  assert (Hsome : AiInsights.learningPatternInsights ListsExample.pattern_rows
                  = Some ListsExample.insights)
    by (vm_compute; reflexivity).
  split; [exact Hsome|].
  split; [vm_compute; reflexivity|]. split; [vm_compute; reflexivity|].
  split; [vm_compute; reflexivity|].
  split; [|vm_compute; reflexivity].
  apply (proj1 (X12_learning_pattern_insights ListsExample.pattern_rows
                                              _ Hsome)).
Defined.

Lemma X13_content_suggestions_witness :
  AiInsights.contentOptimizationSuggestions (Some ListsExample.feedback_rows)
    = Some ListsExample.suggestions /\
  ListsExample.suggestions = [ListsExample.clarity] /\
  AiInsights.cs_frequency ListsExample.clarity = 3%nat /\
  AiInsights.cs_priority ListsExample.clarity
    = AiInsights.PriorityHigh /\
  AiInsights.cs_severityBreakdown ListsExample.clarity
    = breakdown_of 1 1 1 0.
Proof.
  assert (Hsome : AiInsights.contentOptimizationSuggestions
                    (Some ListsExample.feedback_rows)
                  = Some ListsExample.suggestions)
    by (vm_compute; reflexivity).
  split; [exact Hsome|]. split; [vm_compute; reflexivity|].
  destruct (proj2 (X13_content_suggestions (Some ListsExample.feedback_rows))
                  _ Hsome) as (_ & _ & H).
  destruct (H ListsExample.clarity) as (Hf & Hp & _ & _ & _ & Hb);
    [vm_compute; auto|].
  split; [rewrite Hf; vm_compute; reflexivity|].
  split; [apply Hp; vm_compute; lia|].
  rewrite Hb; [vm_compute; reflexivity | vm_compute; reflexivity].
Defined.

Lemma X16_effectiveness_metrics_witness :
  StudyTechniques.effectivenessMetrics (Some SummaryExample.items)
    = Some SummaryExample.metrics /\
  map fst SummaryExample.metrics = ["active_recall"; "pomodoro"; "feynman"]%string /\
  (exists e, JsObject.get SummaryExample.metrics "feynman" = Some e /\
             StudyTechniques.sessionCount e = 1%nat /\
             StudyTechniques.effectivenessRating e = StudyTechniques.Low) /\
  JsObject.get SummaryExample.metrics "retrieval_practice" = None.
Proof.
  assert (Hsome : StudyTechniques.effectivenessMetrics
                    (Some SummaryExample.items)
                  = Some SummaryExample.metrics)
    by (vm_compute; reflexivity).
  split; [exact Hsome|]. split; [vm_compute; reflexivity|].
  pose proof (X16_effectiveness_metrics SummaryExample.items
                                        _ Hsome "feynman"%string) as H.
  cbv zeta in H.
  destruct (JsObject.get SummaryExample.metrics "feynman") as [e|] eqn:He;
    [|vm_compute in He; discriminate He].
  destruct H as (_ & Hc & _ & _ & _ & _ & Hlow).
  split; [|vm_compute; reflexivity].
  exists e. split; [reflexivity|].
  split; [rewrite Hc; vm_compute; reflexivity|].
  apply Hlow. left. vm_compute. reflexivity.
Defined.

Lemma X17_course_totals_add_up_witness :
  ExportReport.modules ExportExample.course_report
    = ExportReport.ModuleList ExportExample.course_details /\
  map ExportReport.ma_totalSessions ExportExample.course_details = [3; 0]%nat /\
  ExportReport.totalSessions ExportExample.course_report = 3%nat /\
  list_sum (map ExportReport.ma_totalStudents ExportExample.course_details)
    = 3%nat /\
  ExportReport.totalStudents ExportExample.course_report = 2%nat.
Proof.
  assert (Hm : ExportReport.modules ExportExample.course_report
               = ExportReport.ModuleList ExportExample.course_details)
    by (vm_compute; reflexivity).
  split; [exact Hm|]. split; [vm_compute; reflexivity|].
  destruct (X17_course_totals_add_up
              (Js.JBool true) ExportExample.fetched_modules
              ExportExample.fetched_materials ExportExample.fetched_progress
              ExportExample.week_sessions Example.course
              ExportExample.course_details Hm)
    as (Hs & _ & Hp & _).
  - vm_compute. repeat constructor; simpl; intuition discriminate.
  - split; [unfold ExportExample.course_report; rewrite <- Hs;
            vm_compute; reflexivity|].
    split; [rewrite Hp; vm_compute; reflexivity|].
    vm_compute. reflexivity.
Defined.

Lemma X19_student_progress_report_witness :
  In ExportExample.report_of_ana ExportExample.student_reports /\
  ExportHandler.sr_studentId ExportExample.report_of_ana = "ana"%string /\
  In (ExportHandler.sr_studentId ExportExample.report_of_ana)
     AlertExample.enrolled_ids /\
  list_sum (map ExportHandler.cp_totalModules
                (ExportHandler.sr_courseProgress ExportExample.report_of_ana))
    = 2%nat /\
  map ExportHandler.sr_studentId ExportExample.student_reports
    = ["ana"; "ben"]%string.
Proof.
  assert (Hin : In ExportExample.report_of_ana ExportExample.student_reports)
    by (vm_compute; auto).
  split; [exact Hin|]. split; [vm_compute; reflexivity|].
  destruct (X19_student_progress_report
              ExportExample.store (Js.JBool true) [Example.course]
              AlertExample.enrolled_ids ExportExample.report_of_ana)
    as (Hid & _ & Ht & _).
  - vm_compute. repeat constructor. intros [].
  - exact Hin.
  - split; [exact Hid|].
    split; [rewrite Ht; vm_compute; reflexivity | vm_compute; reflexivity].
Defined.

(** [cleo] improved from 10 to 40 and is reported with a trend of -30
    and a declining performance. *)
Lemma X22_trend_compares_earliest_with_latest_witness :
  AiInsights.fetch_analytics Utc.calendar AlertExample.store
                             AlertExample.enrolled_ids
                             (startDate Utc.calendar Example.now "month")
    = Some AlertExample.fetched /\
  map (fun s => (AiInsights.analyzed_at s, AiInsights.improvement_percentage s))
      (sessions_of "cleo" AlertExample.fetched)
    = [("2025-03-10T09:00:00+00:00"%string, Some 40);
       ("2025-03-08T09:00:00+00:00"%string, Some 10)] /\
  In (AlertExample.intervention_of "cleo")
     (AiInsights.studentInterventions Utc.calendar AlertExample.fetched
                                      Example.students) /\
  AiInsights.si_improvementTrend (AlertExample.intervention_of "cleo")
    = Js.RInt (-30) /\
  AiInsights.si_reasons (AlertExample.intervention_of "cleo")
    = ["declining performance trend"%string].
Proof.
  assert (Hf : AiInsights.fetch_analytics
                 Utc.calendar AlertExample.store AlertExample.enrolled_ids
                 (startDate Utc.calendar Example.now "month")
               = Some AlertExample.fetched)
    by (vm_compute; reflexivity).
  assert (Hin : In (AlertExample.intervention_of "cleo")
                   (AiInsights.studentInterventions
                      Utc.calendar AlertExample.fetched Example.students))
    by (vm_compute; auto).
  split; [exact Hf|]. split; [vm_compute; reflexivity|].
  split; [exact Hin|].
  destruct (X22_trend_compares_earliest_with_latest
              Utc.calendar AlertExample.store AlertExample.enrolled_ids
              (startDate Utc.calendar Example.now "month")
              AlertExample.fetched Example.students
              (AlertExample.intervention_of "cleo") Hf)
    as (_ & _ & _ & Htrend).
  - intros s Hs. vm_compute in Hs.
    repeat (destruct Hs as [<-|Hs]; [vm_compute; discriminate|]).
    destruct Hs.
  - exact Hin.
  - split; [|vm_compute; reflexivity].
    rewrite (Htrend 40 [] 10); [vm_compute; reflexivity | vm_compute; reflexivity].
Defined.

(** The recommendation without priority comes second in the input and
    first in the sorted list: it keeps the id [rec_2]. *)
Lemma X23_recommendation_ids_follow_first_occurrence_witness :
  In (AlertExample.recommendation_of Example.unranked_and_ranked 0)
     (AiInsights.teachingRecommendations Example.unranked_and_ranked
                                         Example.students) /\
  AiInsights.tr_id (AlertExample.recommendation_of Example.unranked_and_ranked 0)
    = "rec_2"%string /\
  keys_in_order Example.unranked_and_ranked
    = ["pacing-Slow down"; "habits-Sleep earlier"]%string /\
  exists k,
    nth_error (keys_in_order Example.unranked_and_ranked) k
    = Some "habits-Sleep earlier"%string.
Proof.
  assert (Hin : In (AlertExample.recommendation_of Example.unranked_and_ranked 0)
                   (AiInsights.teachingRecommendations
                      Example.unranked_and_ranked Example.students))
    by (vm_compute; auto).
  split; [exact Hin|]. split; [vm_compute; reflexivity|].
  split; [vm_compute; reflexivity|].
  destruct (X23_recommendation_ids_follow_first_occurrence _ _ _ Hin)
    as (k & _ & Hk).
  exists k. exact Hk.
Defined.

Lemma X24_client_headers_and_role_check_witness :
  AuthUtils.getAuthenticatedHeaders false (Some AuthExample.session)
    = AuthUtils.Returned AuthExample.headers /\
  x_user_id (request_with AuthExample.headers (Some "month"%string))
    = Some "prof"%string /\
  (forall error,
      AiInsights.GET Utc.calendar Example.store
                     Example.now
                     (request_with AuthExample.headers (Some "month"%string))
      <> Failure 401 error) /\
  AuthUtils.hasRequiredRole
    (AuthUtils.checkAuthAndRole (Some "instructor"%string) false
                                (Some "prof"%string)
                                (users_table Example.accounts)) = true.
Proof.
  assert (Hh : AuthUtils.getAuthenticatedHeaders false (Some AuthExample.session)
               = AuthUtils.Returned AuthExample.headers)
    by (vm_compute; reflexivity).
  split; [exact Hh|]. split; [reflexivity|].
  destruct (X24_client_headers_and_role_check
              Utc.calendar
              TechniquesExample.no_other_analytics Example.store
              TechniquesExample.store Example.now AuthExample.session
              AuthExample.headers (Some "month"%string) Hh)
    as (_ & H401 & _).
  split; [exact H401|]. vm_compute. reflexivity.
Defined.

Lemma X1_status_codes_witness :
  AiInsights.GET Utc.calendar Example.store
                 Example.now Example.request = Success Example.data /\
  authorized_instructor Example.accounts Example.request "prof" /\
  StudyTechniques.GET Utc.calendar TechniquesExample.no_other_analytics
                      TechniquesExample.store Example.now
                      {| x_user_id := Some ""%string; timeRange_param := None |}
    = Failure 401 "Authentication required".
Proof.
  assert (HGET : AiInsights.GET Utc.calendar
                   Example.store Example.now Example.request
                 = Success Example.data)
    by (vm_compute; reflexivity).
  split; [exact HGET|].
  split; [|vm_compute; reflexivity].
  pose proof (proj1 (X1_status_codes
                       Utc.calendar
                       TechniquesExample.no_other_analytics Example.store
                       TechniquesExample.store Example.now Example.request))
    as H.
  rewrite HGET in H. destruct H as (userId & Hauth & _).
  assert (Hid : userId = "prof"%string).
  { destruct Hauth as (Hu & _). vm_compute in Hu. congruence. }
  rewrite <- Hid. exact Hauth.
Defined.

Lemma X4_groupings_count_every_input_once_witness :
  list_sum (map AiInsights.tr_frequency
                (AiInsights.teachingRecommendations Example.analytics
                                                    Example.students))
    = 6%nat /\
  List.length (occurrences Example.analytics) = 6%nat /\
  total_of AiInsights.totalStudents
           (JsObject.entries
              (AiInsights.modulePerformanceMap
                 (Some AlertExample.fetched_progress)))
    = 3%nat.
Proof.
  destruct (X4_groupings_count_every_input_once
              Example.analytics Example.students AlertExample.fetched_progress)
    as (H1 & H2 & _).
  split; [rewrite H1; vm_compute; reflexivity|].
  split; [vm_compute; reflexivity|].
  rewrite H2. vm_compute. reflexivity.
Defined.

(** Feynman and Retrieval Practice have no session and keep their
    order. *)
Lemma X9_technique_comparison_order_witness :
  map StudyTechniques.tc_technique
      (StudyTechniques.data_techniqueComparison TechniquesExample.data)
    = ["Active Recall"; "Pomodoro"; "Feynman"; "Retrieval Practice"]%string /\
  map StudyTechniques.tc_sessions
      (StudyTechniques.data_techniqueComparison TechniquesExample.data)
    = [3; 1; 0; 0]%nat /\
  StronglySorted (fun a b => (StudyTechniques.tc_sessions b
                              <= StudyTechniques.tc_sessions a)%nat)
                 (StudyTechniques.data_techniqueComparison TechniquesExample.data).
Proof.
  split; [vm_compute; reflexivity|]. split; [vm_compute; reflexivity|].
  assert (Hdata : StudyTechniques.data_techniqueComparison TechniquesExample.data
                  = StudyTechniques.techniqueComparison
                      5 (StudyTechniques.techniques
                           WeekExample.recall WeekExample.pomodoro [] []))
    by (vm_compute; reflexivity).
  rewrite Hdata.
  apply (X9_technique_comparison_order
           5 WeekExample.recall WeekExample.pomodoro [] []).
Defined.

Lemma X11_class_performance_insight_witness :
  AiInsights.classPerformanceInsights Example.analytics
    = [MoreExample.class_insight] /\
  AiInsights.cm_studentsAnalyzed
    (AiInsights.ci_metrics MoreExample.class_insight) = 5%nat /\
  AiInsights.improvementRate
    (AiInsights.ci_metrics MoreExample.class_insight) = Js.RInt 100 /\
  AiInsights.ci_trend MoreExample.class_insight = AiInsights.Positive.
Proof.
  assert (Heq : AiInsights.classPerformanceInsights Example.analytics
                = [MoreExample.class_insight])
    by (vm_compute; reflexivity).
  split; [exact Heq|].
  pose proof (X11_class_performance_insight Example.analytics) as H.
  cbv zeta in H. rewrite Heq in H.
  destruct H as (_ & Hs & _ & Hr & _ & Hpos & _).
  split; [rewrite Hs; vm_compute; reflexivity|].
  split; [rewrite Hr; vm_compute; reflexivity|].
  apply Hpos. vm_compute. reflexivity.
Defined.

(** The three attempts belong to sessions that the summary does not
    restrict to the students of the instructor. *)
Lemma X14_active_recall_summary_witness :
  StudyTechniques.ar_totalSessions
    (StudyTechniques.activeRecall_summary
       Utc.calendar SummaryExample.store AlertExample.enrolled_ids
       MoreExample.week_start) = 3%nat /\
  StudyTechniques.ar_totalAttempts
    (StudyTechniques.activeRecall_summary
       Utc.calendar SummaryExample.store AlertExample.enrolled_ids
       MoreExample.week_start) = 3%nat /\
  StudyTechniques.ar_totalAttempts
    (StudyTechniques.activeRecall_summary
       Utc.calendar SummaryExample.store ["nobody"%string]
       MoreExample.week_start) = 3%nat /\
  StudyTechniques.ar_averageAccuracy
    (StudyTechniques.activeRecall_summary
       Utc.calendar SummaryExample.store AlertExample.enrolled_ids
       MoreExample.week_start) = Js.RInt 67.
Proof.
  split; [vm_compute; reflexivity|].
  destruct (X14_active_recall_summary
              Utc.calendar SummaryExample.store AlertExample.enrolled_ids
              MoreExample.week_start)
    as (_ & _ & _ & _ & _ & _ & Ha & accuracy & Hacc & _ & Hv & _).
  destruct (X14_active_recall_summary
              Utc.calendar SummaryExample.store ["nobody"%string]
              MoreExample.week_start)
    as (_ & _ & _ & _ & _ & _ & Ha' & _).
  split; [rewrite Ha; vm_compute; reflexivity|].
  split; [rewrite Ha'; vm_compute; reflexivity|].
  rewrite Hv; [vm_compute; reflexivity | vm_compute; discriminate].
Defined.

Lemma X15_pomodoro_summary_witness :
  StudyTechniques.pm_totalCycles
    (StudyTechniques.pomodoro_summary
       Utc.calendar SummaryExample.store AlertExample.enrolled_ids
       MoreExample.week_start) = 4%nat /\
  StudyTechniques.pm_breakAdherence
    (StudyTechniques.pomodoro_summary
       Utc.calendar SummaryExample.store AlertExample.enrolled_ids
       MoreExample.week_start) = Js.RInt 50 /\
  StudyTechniques.pm_totalStudyTime
    (StudyTechniques.pomodoro_summary
       Utc.calendar SummaryExample.store AlertExample.enrolled_ids
       MoreExample.week_start) = Js.Fin 50.
Proof.
  destruct (X15_pomodoro_summary
              Utc.calendar SummaryExample.store AlertExample.enrolled_ids
              MoreExample.week_start)
    as (Hc & _ & _ & _ & _ & (adherence & Had & _ & Hv & _) & _).
  split; [rewrite Hc; vm_compute; reflexivity|].
  split; [|vm_compute; reflexivity].
  rewrite Hv; [vm_compute; reflexivity | vm_compute; discriminate].
Defined.

Lemma X18_export_summary_witness :
  ExportHandler.totalSessions
    (ExportHandler.summary
       [Example.course] ExportExample.fetched_modules
       ExportExample.fetched_materials AlertExample.enrolled_ids
       (ExportHandler.allSessions WeekExample.recall WeekExample.pomodoro [] [])
       (ExportReport.courseAnalysis
          (Js.JBool true) [Example.course] ExportExample.fetched_modules
          ExportExample.fetched_materials ExportExample.fetched_progress
          (ExportHandler.allSessions WeekExample.recall WeekExample.pomodoro
                                     [] [])))
    = 4%nat /\
  ExportHandler.averageCompletionRate
    (ExportHandler.summary
       [Example.course] ExportExample.fetched_modules
       ExportExample.fetched_materials AlertExample.enrolled_ids
       (ExportHandler.allSessions WeekExample.recall WeekExample.pomodoro [] [])
       (ExportReport.courseAnalysis
          (Js.JBool true) [Example.course] ExportExample.fetched_modules
          ExportExample.fetched_materials ExportExample.fetched_progress
          (ExportHandler.allSessions WeekExample.recall WeekExample.pomodoro
                                     [] [])))
    = Js.RInt 67.
Proof.
  destruct (X18_export_summary
              (Js.JBool true) [Example.course] ExportExample.fetched_modules
              ExportExample.fetched_materials ExportExample.fetched_progress
              AlertExample.enrolled_ids WeekExample.recall WeekExample.pomodoro
              [] [])
    as (_ & Ht & _).
  split; [rewrite Ht; vm_compute; reflexivity | vm_compute; reflexivity].
Defined.

(** The export succeeds although the enrolment procedure reports an
    error; an unknown export type gives the empty object. *)
Lemma X20_export_handler_witness :
  (exists data,
      ExportHandler.POST Utc.calendar ExportExample.toISOString
                         MoreExample.export_store_with_error Example.now
                         (ExportExample.request (Some "overview"%string))
      = Success data /\
      authorized_instructor MoreExample.accounts_with_error
                            (export_header
                               (ExportExample.request (Some "overview"%string)))
                            "prof") /\
  (exists data,
      ExportExample.response (Some "charts"%string) = Success data /\
      ExportHandler.exportData data = ExportHandler.Nothing).
Proof.
  split.
  - pose proof (X20_export_handler
                  Utc.calendar ExportExample.toISOString
                  MoreExample.export_store_with_error Example.now
                  (ExportExample.request (Some "overview"%string))) as H.
    cbv zeta in H.
    destruct (ExportHandler.POST _ _ _ _ _) as [status error|data] eqn:E;
      [vm_compute in E; discriminate E|].
    exists data. split; [reflexivity|].
    destruct H as (userId & Hauth & _).
    assert (Hid : userId = "prof"%string).
    { destruct Hauth as (Hu & _). vm_compute in Hu. congruence. }
    rewrite <- Hid. exact Hauth.
  - eexists. split; vm_compute; reflexivity.
Defined.

(** The token [year] is fetched as a month and charted over 90 days. *)
Lemma X21_range_tokens_witness :
  StudyTechniques.days (timeRange_of MoreExample.year_request) = 90%nat /\
  startDate Utc.calendar Example.now (timeRange_of MoreExample.year_request)
    = Js.add_months Utc.calendar Example.now (-1).
Proof.
  pose proof (X21_range_tokens
                Utc.calendar TechniquesExample.no_other_analytics
                TechniquesExample.store Example.now MoreExample.year_request)
    as H.
  cbv zeta in H. destruct H as (Hd & Hs & Hother & _).
  assert (Ht : Js.truthy_string (timeRange_param MoreExample.year_request)
               = Some "year"%string) by reflexivity.
  assert (Hw : "year"%string <> "week"%string) by discriminate.
  assert (Hm : "year"%string <> "month"%string) by discriminate.
  assert (Hq : "year"%string <> "quarter"%string) by discriminate.
  destruct (Hother "year"%string Ht Hw Hm Hq) as [H90 Hmonth].
  split; [rewrite Hd; exact H90 | rewrite Hs; exact Hmonth].
Defined.

Lemma X25_auth_errors_are_worded_witness :
  AuthUtils.handleAuthError (Some "Network unreachable"%string)
    = "Network unreachable"%string /\
  AuthUtils.getAuthenticatedHeaders false None
    = AuthUtils.Thrown "No active authentication session" /\
  AuthUtils.handleAuthError (Some "No active authentication session"%string)
    = "Please log in to access this feature"%string.
Proof.
  destruct (X25_auth_errors_are_worded false None)
    as (_ & Hthrown & _ & _ & Hother).
  split; [apply Hother; [reflexivity | reflexivity | reflexivity | discriminate]|].
  split; [reflexivity|].
  destruct (Hthrown "No active authentication session"%string eq_refl)
    as [[H _]|[_ H]]; [discriminate H | exact H].
Defined.

(** The numbers are doubles.  The velocity 0.145 is shown as 0.14; the
    improvements 1.85 and then 4.35 give the trend 2, their difference
    being 2.4999999999999996; the mean of 9.4, 18.8 and 1.8 is
    10.000000000000002, above 10; the mean of 61.3, 74.6 and 74.1 is
    69.99999999999999, below 70; and 23 of 40 are 57.49999999999999
    percent, shown as 57. *)
Example doubles_at_work :
  AiInsights.hundredths (Js.Fin (Example.decimal 145 1000))
    = Js.Fin (Example.decimal 14 100) /\
  Js.round (Js.sub (Js.Fin (Example.decimal 435 100))
                   (Js.Fin (Example.decimal 185 100))) = Js.RInt 2 /\
  Js.gtb (mean [Example.decimal 94 10; Example.decimal 188 10;
                Example.decimal 18 10]) 10 = true /\
  Js.geb (mean [Example.decimal 613 10; Example.decimal 746 10;
                Example.decimal 741 10]) 70 = false /\
  Js.round (percentage 23 40) = Js.RInt 57.
Proof. vm_compute. repeat split. Qed.
